(** * NN-XOR: the simulation / timeline engine, embedded from [src/src]

    The development follows the Python sources:
    - [constants.py]  : numeric constants, the evaluation batch, choice lists;
    - [core.py]       : the function library and forward / backward propagation;
    - [models.py]     : [XOR_Slice] (a Turning Point), [XOR_array_model]
                        (the dense per-step arrays), [XOR_model] (the timeline);
    - [main.py]       : [saveModel].

    Numbers.  NumPy's float64 values are idealised as exact rationals ([Qc],
    canonical fractions, so that equality is Leibniz equality); the
    transcendental functions [np.exp], [np.log], [np.tanh] have no rational
    values and are parameters of the development.  int32 hit counters keep
    their wrap-around.  NumPy's random generator is an interface: a state type
    with one operation per method the sources call. *)

From stdpp Require Import base numbers list gmap strings pretty sorting.
From Stdlib Require Import QArith Qcanon Qround Lqa.

Local Open Scope Z_scope.
Local Open Scope Qc_scope.

(** ** Numbers

    A float64 is read as the rational it stands for and arithmetic is exact:
    rounding, infinities and NaN are not modelled.  Division by zero, which
    gives 0 here, is NaN or an infinity in NumPy; statements about a mean
    over a batch therefore ask for a batch that is not empty, and bounds at
    the edges of a clip are stated with a margin. *)

Abbreviation float := Qc.
Abbreviation matrix := (list (list float)).
Abbreviation int_matrix := (list (list Z)).

(** [float(z)] of a Python / NumPy integer. *)
Definition of_int (z : Z) : float := Q2Qc (inject_Z z).

(** A comparison used as a number: [(x > 0)] multiplied or added. *)
Definition of_bool (b : bool) : float := if b then 1 else 0.

(** [ndarray.astype(int)]: truncation toward zero. *)
Definition astype_int (x : float) : Z := Z.quot (Qnum (this x)) (Zpos (Qden (this x))).

(** Nearest integer, ties to even, as Python's [round] does. *)
Definition round_half_even (x : float) : Z :=
  let f := Qfloor (this x) in
  let r := x - of_int f in
  if bool_decide (r < of_int 1 / of_int 2) then f
  else if bool_decide (of_int 1 / of_int 2 < r) then (f + 1)%Z
  else if Z.even f then f else (f + 1)%Z.

(** [round(x, 2)]. *)
Definition round2 (x : float) : float := of_int (round_half_even (x * of_int 100)) / of_int 100.

(** int32 wrap-around of the hit counters ([dtype=np.int32]). *)
Definition wrap32 (z : Z) : Z := ((z + 2 ^ 31) mod 2 ^ 32 - 2 ^ 31)%Z.

(** constants.py *)
Definition EPSILON : float := of_int 1 / of_int 10000000.
Definition LEAKY_eps : float := of_int 1 / of_int 10.
Definition MAX_LEN_FILENAME_JSON : nat := 50.

Definition X_BATCH_4 : int_matrix := [[0; 0]; [0; 1]; [1; 0]; [1; 1]]%Z.
Definition Y_XOR_TRUE_4 : int_matrix := [[0]; [1]; [1]; [0]]%Z.

Module CHOICES_LISTS.
Definition BATCH_SIZE : list Z := [1; 2; 4; 10]%Z.
Definition EPOCH_SIZE : list Z := [100; 200; 500; 1000; 2000; 5000]%Z.
Definition CYCLES_PER_EPOCH : list Z := [1; 2; 5; 10]%Z.
End CHOICES_LISTS.

(** ** NumPy and Python primitives *)

(** [np.maximum], [np.minimum], [ndarray.clip] on one entry. *)
Definition np_maximum (x y : float) : float := if bool_decide (x < y) then y else x.
Definition np_minimum (x y : float) : float := if bool_decide (y < x) then y else x.
Definition np_clip (a lo hi : float) : float := np_minimum (np_maximum a lo) hi.
Definition np_abs (x : float) : float := if bool_decide (x < 0) then - x else x.

(** Python's builtin [max(a, b)] and [min(a, b, c)]: the first argument is
    kept until a later one is strictly greater (smaller). *)
Definition py_max2 (a b : float) : float := if bool_decide (a < b) then b else a.
Definition py_min3 (a b c : float) : float :=
  let m := a in
  let m := if bool_decide (b < m) then b else m in
  if bool_decide (c < m) then c else m.

(** Python indexing [l[i]] with negative indices counted from the end;
    [None] stands for IndexError. *)
Definition py_index {A} (l : list A) (i : Z) : option A :=
  if bool_decide (0 <= i)%Z then l !! Z.to_nat i
  else if bool_decide (- Z.of_nat (length l) <= i)%Z then l !! Z.to_nat (Z.of_nat (length l) + i)
  else None.

(** Python slices [l[i:]] and [l[:n]], negative bounds counted from the end. *)
Definition py_slice_from {A} (l : list A) (i : Z) : list A :=
  if bool_decide (0 <= i)%Z then drop (Z.to_nat i) l
  else drop (Z.to_nat (Z.of_nat (length l) + i)) l.
Definition py_slice_to {A} (l : list A) (n : Z) : list A :=
  if bool_decide (0 <= n)%Z then take (Z.to_nat n) l
  else take (Z.to_nat (Z.of_nat (length l) + n)) l.

(** [dict] with insertion order: lookup and membership on the first key. *)
Fixpoint dict_get {V} (d : list (string * V)) (k : string) : option V :=
  match d with
  | [] => None
  | (k', v) :: d' => if bool_decide (k' = k) then Some v else dict_get d' k
  end.
Definition dict_in {V} (d : list (string * V)) (k : string) : bool :=
  bool_decide (is_Some (dict_get d k)).
Definition dict_keys {V} (d : list (string * V)) : list string := d.*1.

(** Matrices are lists of rows. *)
Definition mat_map {A B} (f : A -> B) (m : list (list A)) : list (list B) := map (map f) m.
Definition mat_zip {A B C} (f : A -> B -> C) (a : list (list A)) (b : list (list B))
  : list (list C) := zip_with (zip_with f) a b.
Definition mat_of_int (m : int_matrix) : matrix := mat_map of_int m.
(** [np.hstack((m, np.ones((rows, 1))))] *)
Definition hstack_ones (m : matrix) : matrix := map (fun row => row ++ [1]) m.
Definition col (j : nat) (m : matrix) : list float := map (fun row => nth j row 0) m.
(** [m.T] for a matrix of [ncols] columns. *)
Definition transpose (ncols : nat) (m : matrix) : matrix := map (fun j => col j m) (seq 0 ncols).
Definition fsum (l : list float) : float := foldl Qcplus 0 l.
Definition dot (u v : list float) : float := fsum (zip_with Qcmult u v).
(** [a @ b], [np.dot(a, b)] where [b] has [ncols] columns. *)
Definition matmul (ncols : nat) (a b : matrix) : matrix :=
  map (fun row => map (fun j => dot row (col j b)) (seq 0 ncols)) a.
(** [np.mean(v, axis=-1)] of one row. *)
Definition np_mean (l : list float) : float := fsum l / of_int (Z.of_nat (length l)).
(** [m[rows]]: fancy indexing by a list of row numbers below [length m]. *)
Definition take_rows {A} (m : list (list A)) (rows : list nat) : list (list A) :=
  map (fun i => nth i m []) rows.

(** ** The function library ([core.py]) *)

Module FunctionType.
Inductive t := HiddenLayer | OutputLayer | Loss.
#[global] Instance eq_dec : EqDecision t.
Proof. solve_decision. Defined.
End FunctionType.

Inductive Activation := sigmoid | ReLU | LeakyReLU | tanh | linear | BinaryStop.
Inductive LossFunction :=
  LCE_Loss | Hinge_Loss | Squared_Hinge_Loss | Hinge_Loss_0_1 | Squared_Hinge_Loss_0_1.
(** The classes nested in [Functions]: [Function_d1] or [Function_d1_cost]. *)
Inductive Function_d1 := Act (f : Activation) | Cost (f : LossFunction).

#[global] Instance Activation_eq_dec : EqDecision Activation.
Proof. solve_decision. Defined.
#[global] Instance LossFunction_eq_dec : EqDecision LossFunction.
Proof. solve_decision. Defined.

(** [Functions.__dict__.items()], in the order the classes are declared. *)
Definition Functions_dict : list (string * Function_d1) :=
  [ ("sigmoid", Act sigmoid); ("ReLU", Act ReLU); ("LeakyReLU", Act LeakyReLU);
    ("tanh", Act tanh); ("linear", Act linear); ("BinaryStop", Act BinaryStop);
    ("LCE_Loss", Cost LCE_Loss); ("Hinge_Loss", Cost Hinge_Loss);
    ("Squared_Hinge_Loss", Cost Squared_Hinge_Loss);
    ("Hinge_Loss_0_1", Cost Hinge_Loss_0_1);
    ("Squared_Hinge_Loss_0_1", Cost Squared_Hinge_Loss_0_1) ]%string.

Definition fType (f : Function_d1) : list FunctionType.t :=
  match f with
  | Act sigmoid | Act ReLU | Act tanh | Act linear =>
      [FunctionType.HiddenLayer; FunctionType.OutputLayer]
  | Act LeakyReLU => [FunctionType.HiddenLayer]
  | Act BinaryStop => [FunctionType.OutputLayer]
  | Cost _ => [FunctionType.Loss]
  end.

(** The role tables: dict comprehensions over [Functions.__dict__], which keep
    its order.  No loss class carries an activation role and no activation
    class is a [Function_d1_cost], so each table is typed by its kind. *)
Module FunctionsListsByType.
Definition HiddenLayer : list (string * Activation) :=
  omap (fun '(k, v) => match v with
                       | Act f => if bool_decide (FunctionType.HiddenLayer ∈ fType v)
                                  then Some (k, f) else None
                       | Cost _ => None
                       end) Functions_dict.
Definition OutputLayer : list (string * Activation) :=
  omap (fun '(k, v) => match v with
                       | Act f => if bool_decide (FunctionType.OutputLayer ∈ fType v)
                                  then Some (k, f) else None
                       | Cost _ => None
                       end) Functions_dict.
Definition LossFunction : list (string * LossFunction) :=
  omap (fun '(k, v) => match v with
                       | Cost f => if bool_decide (FunctionType.Loss ∈ fType v)
                                   then Some (k, f) else None
                       | Act _ => None
                       end) Functions_dict.
End FunctionsListsByType.

(** An argument that is either a plain Python number (no [.clip] attribute:
    the [except AttributeError] branch) or a NumPy array. *)
Inductive pyarg := PyScalar (a : float) | NdArray (a : matrix).

Definition pyarg_map (f : float -> float) (a : pyarg) : pyarg :=
  match a with
  | PyScalar v => PyScalar (f v)
  | NdArray m => NdArray (mat_map f m)
  end.

(** The [try: a.clip(0 + EPSILON, 1 - EPSILON) except AttributeError:
    min(a, max(a, 0 + EPSILON), 1 - EPSILON)] of [sigmoid.derivative] and of
    [LCE_Loss.__init__]. *)
Definition eps_clip (a : pyarg) : pyarg :=
  match a with
  | NdArray m => NdArray (mat_map (fun v => np_clip v (0 + EPSILON) (1 - EPSILON)) m)
  | PyScalar v => PyScalar (py_min3 v (py_max2 v (0 + EPSILON)) (1 - EPSILON))
  end.

Section FunctionLibrary.
(** [np.exp], [np.log], [np.tanh] *)
Variables np_exp np_log np_tanh : float -> float.

(** [f(x).value()] on one entry. *)
Definition value (f : Activation) (x : float) : float :=
  match f with
  | sigmoid => np_exp (np_minimum x 0) / (1 + np_exp (- np_abs x))
  | ReLU => x * of_bool (bool_decide (0 < x))
  | LeakyReLU => x * of_bool (bool_decide (0 < x)) + LEAKY_eps * x * of_bool (bool_decide (x < 0))
  | tanh => np_tanh x
  | linear => x
  | BinaryStop => of_int (Z.b2z (bool_decide (0 < x)) * 1)
  end.

(** [sigmoid(x).derivative(a)], with [a] given. *)
Definition sigmoid_derivative (a : pyarg) : pyarg :=
  pyarg_map (fun c => c * (1 - c)) (eps_clip a).

(** [f(x).derivative(a)] on one entry of an array [a]; [x] is [self._x]. *)
Definition derivative (f : Activation) (x a : float) : float :=
  match f with
  | sigmoid => let c := np_clip a (0 + EPSILON) (1 - EPSILON) in c * (1 - c)
  | ReLU => 0 + of_bool (bool_decide (0 < a))
  | LeakyReLU => (0 + of_bool (bool_decide (0 < a))) + LEAKY_eps * of_bool (bool_decide (a < 0))
  | tanh => 1 - a * a
  | linear => 1
  | BinaryStop => 0
  end.

(** [self._y_true[where(self._y_true == 0)] = -1] *)
Definition hinge_label (y : Z) : Z := if bool_decide (y = 0%Z) then (-1)%Z else y.

(** [__init__] of a loss on one entry of arrays [a], [y_true]:
    the stored [(self._a, self._y_true)]. *)
Definition loss_init (f : LossFunction) (a : float) (y : Z) : float * Z :=
  match f with
  | LCE_Loss => (np_clip a (0 + EPSILON) (1 - EPSILON), y)
  | Hinge_Loss | Squared_Hinge_Loss => (a, hinge_label y)
  | Hinge_Loss_0_1 | Squared_Hinge_Loss_0_1 => (a * of_int 2 - 1, hinge_label y)
  end.

(** [LCE_Loss.__init__] on either kind of argument: the stored [self._a]. *)
Definition LCE_Loss_init (a : pyarg) : pyarg := eps_clip a.

(** [LCE_Loss.value()] from the stored [self._a]. *)
Definition LCE_value (a : float) (y : Z) : float :=
  - (of_int y * np_log a + of_int (1 - y) * np_log (1 - a)).

(** [f(a, y_true).value()] on one entry. *)
Definition loss_value (f : LossFunction) (a0 : float) (y0 : Z) : float :=
  let '(a, y) := loss_init f a0 y0 in
  match f with
  | LCE_Loss => LCE_value a y
  | Hinge_Loss | Hinge_Loss_0_1 => np_maximum 0 (1 - of_int y * a)
  | Squared_Hinge_Loss | Squared_Hinge_Loss_0_1 =>
      let h := np_maximum 0 (1 - of_int y * a) in h * h
  end.

(** [f(a, y_true).derivative()] on one entry. *)
Definition loss_derivative (f : LossFunction) (a0 : float) (y0 : Z) : float :=
  let '(a, y) := loss_init f a0 y0 in
  match f with
  | LCE_Loss => - (of_int y / a + of_int (y - 1) / (1 - a))
  | Hinge_Loss | Hinge_Loss_0_1 => of_int (- y) * of_bool (bool_decide (of_int y * a < 1))
  | Squared_Hinge_Loss | Squared_Hinge_Loss_0_1 =>
      of_int (-2 * y) * np_maximum 0 (1 - of_int y * a)
  end.

(** [f(a, y_true).cost()]: the mean over the last axis, one row. *)
Definition loss_cost (f : LossFunction) (a : list float) (y : list Z) : float :=
  np_mean (zip_with (loss_value f) a y).

(** ** Forward and backward propagation ([core.py]) *)

Definition XOR_forward_prop (x : int_matrix) (w1 : matrix) (activation1 : Activation)
    (w2 : matrix) (activation2 : Activation) : matrix * matrix :=
  let x_b := hstack_ones (mat_of_int x) in
  let z1 := matmul 2 x_b w1 in
  let a1 := mat_map (value activation1) z1 in
  let a1_b := hstack_ones a1 in
  let z2 := matmul 1 a1_b w2 in
  let a2 := mat_map (value activation2) z2 in
  (a1, a2).

Definition XOR_back_prop (x : int_matrix) (activation1 : Activation) (a1 : matrix)
    (w2 : matrix) (activation2 : Activation) (a2 : matrix)
    (y_true : int_matrix) (fctLoss : LossFunction) : matrix * matrix :=
  let m := of_int (Z.of_nat (length a1)) in
  let dLoss_da2 := mat_zip (loss_derivative fctLoss) a2 y_true in
  let da2_dz2 := mat_map (fun a => derivative activation2 a a) a2 in
  let a1_b := hstack_ones a1 in
  let dz2_dw2 := a1_b in
  let delta2 := mat_zip Qcmult dLoss_da2 da2_dz2 in
  let dLoss_dw2 := mat_map (fun v => v / m) (matmul 1 (transpose 3 dz2_dw2) delta2) in
  let dz2_da1 := take (length w2 - 1) w2 in
  let dLoss_da1 := matmul 2 delta2 (transpose 1 dz2_da1) in
  let da1_dz1 := mat_map (fun a => derivative activation1 a a) a1 in
  let x_b := hstack_ones (mat_of_int x) in
  let dz1_dw1 := x_b in
  let dLoss_dw1 :=
    mat_map (fun v => v / m) (matmul 2 (transpose 3 dz1_dw1) (mat_zip Qcmult dLoss_da1 da1_dz1)) in
  (dLoss_dw1, dLoss_dw2).

End FunctionLibrary.

(** ** NumPy's random generator

    [np.random.default_rng(seed)] and the methods the sources call.  Every
    method returns its value together with the generator's next state.  The
    methods are total here: the ValueError of [default_rng] on a negative
    seed and of [choice] on a negative size or on probabilities that are
    negative or do not add up to 1 is not modelled, so a returned value
    stands for the value of a call that returns. *)
Record Generator := {
  rng : Type;
  (** [default_rng(seed)] *)
  default_rng : Z -> rng;
  (** the position [choice(a)] draws in a list of the given length *)
  rng_choice_index : nat -> rng -> nat * rng;
  (** [random()] *)
  rng_random : rng -> float * rng;
  (** [integers(low, high, endpoint)] *)
  rng_integers : Z -> Z -> bool -> rng -> Z * rng;
  (** [dirichlet(alpha)] *)
  rng_dirichlet : list Z -> rng -> list float * rng;
  (** [uniform(low, high, (rows, cols))] *)
  rng_uniform : float -> float -> nat -> nat -> rng -> matrix * rng;
  (** [choice(a, size, p=p)] over class numbers *)
  rng_choice_p : list nat -> Z -> list float -> rng -> list nat * rng
}.

(** [rng.choice(a)] for a list [a]; [d] is only the value of an index out
    of range, which no generator returns. *)
Definition rng_choice {A} (G : Generator) (d : A) (a : list A) (r : rng G) : A * rng G :=
  let '(i, r') := rng_choice_index G (length a) r in (nth i a d, r').

(** ** Turning points ([XOR_Slice]) *)

(** [XOR_Slice.ColumnsMap], an [IntEnum]: its members are integers, and the
    lock set of [feedFromSeed] is a Python set of them. *)
Module ColumnsMap.
Definition index : Z := 0.
Definition xPercents : Z := 10.
Definition yParam : Z := 20.
Definition xHits : Z := 25.
Definition epoch_size : Z := 30.
Definition batch_size : Z := 40.
Definition learning_rate : Z := 50.
Definition w1 : Z := 60.
Definition w1_lock : Z := 62.
Definition z1 : Z := 65.
Definition activation1 : Z := 70.
Definition a1 : Z := 80.
Definition w2 : Z := 90.
Definition w2_lock : Z := 92.
Definition z2 : Z := 95.
Definition activation2 : Z := 100.
Definition y_aka_a2 : Z := 105.
Definition lossAvg : Z := 110.
Definition lossPerX : Z := 115.
Definition minRange : Z := 120.
Definition maxRange : Z := 125.
Definition cyclesPerOneStepFwdOfEpoch : Z := 130.
Definition seedTP : Z := 140.
Definition loss : Z := 150.
End ColumnsMap.

Module XOR_Slice.
Record t := mk {
  seedTP : Z;
  index : Z;
  batch_size : Z;
  epoch_size : Z;
  cyclesPerOneStepFwdOfEpoch : Z;
  learning_rate : float;
  activation1 : string;
  activation2 : string;
  loss : string;
  xPercents : list Z;
  yParam : int_matrix;
  xHits : list Z;
  minRange : Z;
  maxRange : Z;
  w1 : matrix;
  w1_lock : int_matrix;
  z1 : matrix;
  a1 : matrix;
  w2 : matrix;
  w2_lock : int_matrix;
  z2 : matrix;
  y_aka_a2 : matrix;
  lossAvg : matrix;
  lossPerX : matrix
}.

(** Attribute assignment [self.f = v]: every other attribute is kept. *)
Definition set_seedTP (v : Z) (s : t) : t :=
  {| seedTP := v; index := index s; batch_size := batch_size s; epoch_size := epoch_size s;
     cyclesPerOneStepFwdOfEpoch := cyclesPerOneStepFwdOfEpoch s;
     learning_rate := learning_rate s; activation1 := activation1 s;
     activation2 := activation2 s; loss := loss s; xPercents := xPercents s; yParam := yParam s;
     xHits := xHits s; minRange := minRange s; maxRange := maxRange s; w1 := w1 s;
     w1_lock := w1_lock s; z1 := z1 s; a1 := a1 s; w2 := w2 s; w2_lock := w2_lock s; z2 := z2 s;
     y_aka_a2 := y_aka_a2 s; lossAvg := lossAvg s; lossPerX := lossPerX s |}.
Definition set_index (v : Z) (s : t) : t :=
  {| seedTP := seedTP s; index := v; batch_size := batch_size s; epoch_size := epoch_size s;
     cyclesPerOneStepFwdOfEpoch := cyclesPerOneStepFwdOfEpoch s;
     learning_rate := learning_rate s; activation1 := activation1 s;
     activation2 := activation2 s; loss := loss s; xPercents := xPercents s; yParam := yParam s;
     xHits := xHits s; minRange := minRange s; maxRange := maxRange s; w1 := w1 s;
     w1_lock := w1_lock s; z1 := z1 s; a1 := a1 s; w2 := w2 s; w2_lock := w2_lock s; z2 := z2 s;
     y_aka_a2 := y_aka_a2 s; lossAvg := lossAvg s; lossPerX := lossPerX s |}.
Definition set_batch_size (v : Z) (s : t) : t :=
  {| seedTP := seedTP s; index := index s; batch_size := v; epoch_size := epoch_size s;
     cyclesPerOneStepFwdOfEpoch := cyclesPerOneStepFwdOfEpoch s;
     learning_rate := learning_rate s; activation1 := activation1 s;
     activation2 := activation2 s; loss := loss s; xPercents := xPercents s; yParam := yParam s;
     xHits := xHits s; minRange := minRange s; maxRange := maxRange s; w1 := w1 s;
     w1_lock := w1_lock s; z1 := z1 s; a1 := a1 s; w2 := w2 s; w2_lock := w2_lock s; z2 := z2 s;
     y_aka_a2 := y_aka_a2 s; lossAvg := lossAvg s; lossPerX := lossPerX s |}.
Definition set_epoch_size (v : Z) (s : t) : t :=
  {| seedTP := seedTP s; index := index s; batch_size := batch_size s; epoch_size := v;
     cyclesPerOneStepFwdOfEpoch := cyclesPerOneStepFwdOfEpoch s;
     learning_rate := learning_rate s; activation1 := activation1 s;
     activation2 := activation2 s; loss := loss s; xPercents := xPercents s; yParam := yParam s;
     xHits := xHits s; minRange := minRange s; maxRange := maxRange s; w1 := w1 s;
     w1_lock := w1_lock s; z1 := z1 s; a1 := a1 s; w2 := w2 s; w2_lock := w2_lock s; z2 := z2 s;
     y_aka_a2 := y_aka_a2 s; lossAvg := lossAvg s; lossPerX := lossPerX s |}.
Definition set_cyclesPerOneStepFwdOfEpoch (v : Z) (s : t) : t :=
  {| seedTP := seedTP s; index := index s; batch_size := batch_size s;
     epoch_size := epoch_size s; cyclesPerOneStepFwdOfEpoch := v;
     learning_rate := learning_rate s; activation1 := activation1 s;
     activation2 := activation2 s; loss := loss s; xPercents := xPercents s; yParam := yParam s;
     xHits := xHits s; minRange := minRange s; maxRange := maxRange s; w1 := w1 s;
     w1_lock := w1_lock s; z1 := z1 s; a1 := a1 s; w2 := w2 s; w2_lock := w2_lock s; z2 := z2 s;
     y_aka_a2 := y_aka_a2 s; lossAvg := lossAvg s; lossPerX := lossPerX s |}.
Definition set_learning_rate (v : float) (s : t) : t :=
  {| seedTP := seedTP s; index := index s; batch_size := batch_size s;
     epoch_size := epoch_size s; cyclesPerOneStepFwdOfEpoch := cyclesPerOneStepFwdOfEpoch s;
     learning_rate := v; activation1 := activation1 s; activation2 := activation2 s;
     loss := loss s; xPercents := xPercents s; yParam := yParam s; xHits := xHits s;
     minRange := minRange s; maxRange := maxRange s; w1 := w1 s; w1_lock := w1_lock s;
     z1 := z1 s; a1 := a1 s; w2 := w2 s; w2_lock := w2_lock s; z2 := z2 s;
     y_aka_a2 := y_aka_a2 s; lossAvg := lossAvg s; lossPerX := lossPerX s |}.
Definition set_activation1 (v : string) (s : t) : t :=
  {| seedTP := seedTP s; index := index s; batch_size := batch_size s;
     epoch_size := epoch_size s; cyclesPerOneStepFwdOfEpoch := cyclesPerOneStepFwdOfEpoch s;
     learning_rate := learning_rate s; activation1 := v; activation2 := activation2 s;
     loss := loss s; xPercents := xPercents s; yParam := yParam s; xHits := xHits s;
     minRange := minRange s; maxRange := maxRange s; w1 := w1 s; w1_lock := w1_lock s;
     z1 := z1 s; a1 := a1 s; w2 := w2 s; w2_lock := w2_lock s; z2 := z2 s;
     y_aka_a2 := y_aka_a2 s; lossAvg := lossAvg s; lossPerX := lossPerX s |}.
Definition set_activation2 (v : string) (s : t) : t :=
  {| seedTP := seedTP s; index := index s; batch_size := batch_size s;
     epoch_size := epoch_size s; cyclesPerOneStepFwdOfEpoch := cyclesPerOneStepFwdOfEpoch s;
     learning_rate := learning_rate s; activation1 := activation1 s; activation2 := v;
     loss := loss s; xPercents := xPercents s; yParam := yParam s; xHits := xHits s;
     minRange := minRange s; maxRange := maxRange s; w1 := w1 s; w1_lock := w1_lock s;
     z1 := z1 s; a1 := a1 s; w2 := w2 s; w2_lock := w2_lock s; z2 := z2 s;
     y_aka_a2 := y_aka_a2 s; lossAvg := lossAvg s; lossPerX := lossPerX s |}.
Definition set_loss (v : string) (s : t) : t :=
  {| seedTP := seedTP s; index := index s; batch_size := batch_size s;
     epoch_size := epoch_size s; cyclesPerOneStepFwdOfEpoch := cyclesPerOneStepFwdOfEpoch s;
     learning_rate := learning_rate s; activation1 := activation1 s;
     activation2 := activation2 s; loss := v; xPercents := xPercents s; yParam := yParam s;
     xHits := xHits s; minRange := minRange s; maxRange := maxRange s; w1 := w1 s;
     w1_lock := w1_lock s; z1 := z1 s; a1 := a1 s; w2 := w2 s; w2_lock := w2_lock s; z2 := z2 s;
     y_aka_a2 := y_aka_a2 s; lossAvg := lossAvg s; lossPerX := lossPerX s |}.
Definition set_xPercents (v : list Z) (s : t) : t :=
  {| seedTP := seedTP s; index := index s; batch_size := batch_size s;
     epoch_size := epoch_size s; cyclesPerOneStepFwdOfEpoch := cyclesPerOneStepFwdOfEpoch s;
     learning_rate := learning_rate s; activation1 := activation1 s;
     activation2 := activation2 s; loss := loss s; xPercents := v; yParam := yParam s;
     xHits := xHits s; minRange := minRange s; maxRange := maxRange s; w1 := w1 s;
     w1_lock := w1_lock s; z1 := z1 s; a1 := a1 s; w2 := w2 s; w2_lock := w2_lock s; z2 := z2 s;
     y_aka_a2 := y_aka_a2 s; lossAvg := lossAvg s; lossPerX := lossPerX s |}.
Definition set_yParam (v : int_matrix) (s : t) : t :=
  {| seedTP := seedTP s; index := index s; batch_size := batch_size s;
     epoch_size := epoch_size s; cyclesPerOneStepFwdOfEpoch := cyclesPerOneStepFwdOfEpoch s;
     learning_rate := learning_rate s; activation1 := activation1 s;
     activation2 := activation2 s; loss := loss s; xPercents := xPercents s; yParam := v;
     xHits := xHits s; minRange := minRange s; maxRange := maxRange s; w1 := w1 s;
     w1_lock := w1_lock s; z1 := z1 s; a1 := a1 s; w2 := w2 s; w2_lock := w2_lock s; z2 := z2 s;
     y_aka_a2 := y_aka_a2 s; lossAvg := lossAvg s; lossPerX := lossPerX s |}.
Definition set_xHits (v : list Z) (s : t) : t :=
  {| seedTP := seedTP s; index := index s; batch_size := batch_size s;
     epoch_size := epoch_size s; cyclesPerOneStepFwdOfEpoch := cyclesPerOneStepFwdOfEpoch s;
     learning_rate := learning_rate s; activation1 := activation1 s;
     activation2 := activation2 s; loss := loss s; xPercents := xPercents s; yParam := yParam s;
     xHits := v; minRange := minRange s; maxRange := maxRange s; w1 := w1 s;
     w1_lock := w1_lock s; z1 := z1 s; a1 := a1 s; w2 := w2 s; w2_lock := w2_lock s; z2 := z2 s;
     y_aka_a2 := y_aka_a2 s; lossAvg := lossAvg s; lossPerX := lossPerX s |}.
Definition set_minRange (v : Z) (s : t) : t :=
  {| seedTP := seedTP s; index := index s; batch_size := batch_size s;
     epoch_size := epoch_size s; cyclesPerOneStepFwdOfEpoch := cyclesPerOneStepFwdOfEpoch s;
     learning_rate := learning_rate s; activation1 := activation1 s;
     activation2 := activation2 s; loss := loss s; xPercents := xPercents s; yParam := yParam s;
     xHits := xHits s; minRange := v; maxRange := maxRange s; w1 := w1 s; w1_lock := w1_lock s;
     z1 := z1 s; a1 := a1 s; w2 := w2 s; w2_lock := w2_lock s; z2 := z2 s;
     y_aka_a2 := y_aka_a2 s; lossAvg := lossAvg s; lossPerX := lossPerX s |}.
Definition set_maxRange (v : Z) (s : t) : t :=
  {| seedTP := seedTP s; index := index s; batch_size := batch_size s;
     epoch_size := epoch_size s; cyclesPerOneStepFwdOfEpoch := cyclesPerOneStepFwdOfEpoch s;
     learning_rate := learning_rate s; activation1 := activation1 s;
     activation2 := activation2 s; loss := loss s; xPercents := xPercents s; yParam := yParam s;
     xHits := xHits s; minRange := minRange s; maxRange := v; w1 := w1 s; w1_lock := w1_lock s;
     z1 := z1 s; a1 := a1 s; w2 := w2 s; w2_lock := w2_lock s; z2 := z2 s;
     y_aka_a2 := y_aka_a2 s; lossAvg := lossAvg s; lossPerX := lossPerX s |}.
Definition set_w1 (v : matrix) (s : t) : t :=
  {| seedTP := seedTP s; index := index s; batch_size := batch_size s;
     epoch_size := epoch_size s; cyclesPerOneStepFwdOfEpoch := cyclesPerOneStepFwdOfEpoch s;
     learning_rate := learning_rate s; activation1 := activation1 s;
     activation2 := activation2 s; loss := loss s; xPercents := xPercents s; yParam := yParam s;
     xHits := xHits s; minRange := minRange s; maxRange := maxRange s; w1 := v;
     w1_lock := w1_lock s; z1 := z1 s; a1 := a1 s; w2 := w2 s; w2_lock := w2_lock s; z2 := z2 s;
     y_aka_a2 := y_aka_a2 s; lossAvg := lossAvg s; lossPerX := lossPerX s |}.
Definition set_w2 (v : matrix) (s : t) : t :=
  {| seedTP := seedTP s; index := index s; batch_size := batch_size s;
     epoch_size := epoch_size s; cyclesPerOneStepFwdOfEpoch := cyclesPerOneStepFwdOfEpoch s;
     learning_rate := learning_rate s; activation1 := activation1 s;
     activation2 := activation2 s; loss := loss s; xPercents := xPercents s; yParam := yParam s;
     xHits := xHits s; minRange := minRange s; maxRange := maxRange s; w1 := w1 s;
     w1_lock := w1_lock s; z1 := z1 s; a1 := a1 s; w2 := v; w2_lock := w2_lock s; z2 := z2 s;
     y_aka_a2 := y_aka_a2 s; lossAvg := lossAvg s; lossPerX := lossPerX s |}.
(** The six evaluation arrays, assigned together. *)
Definition set_evaluation (vz1 va1 vz2 va2 vlossPerX vlossAvg : matrix) (s : t) : t :=
  {| seedTP := seedTP s; index := index s; batch_size := batch_size s;
     epoch_size := epoch_size s; cyclesPerOneStepFwdOfEpoch := cyclesPerOneStepFwdOfEpoch s;
     learning_rate := learning_rate s; activation1 := activation1 s;
     activation2 := activation2 s; loss := loss s; xPercents := xPercents s; yParam := yParam s;
     xHits := xHits s; minRange := minRange s; maxRange := maxRange s; w1 := w1 s;
     w1_lock := w1_lock s; z1 := vz1; a1 := va1; w2 := w2 s; w2_lock := w2_lock s; z2 := vz2;
     y_aka_a2 := va2; lossAvg := vlossAvg; lossPerX := vlossPerX |}.
End XOR_Slice.

(** ** The dense per-step arrays ([XOR_array_model])

    Every array is indexed by the step first; all have the same length. *)
Module XOR_array_model.
Record t := mk {
  xHits : list (list Z);
  w1 : list matrix;
  z1 : list matrix;
  a1 : list matrix;
  w2 : list matrix;
  z2 : list matrix;
  y_aka_a2 : list matrix;
  lossPerX : list matrix;
  lossAvg : list matrix
}.

(** [count()]: [len(self.w1)] *)
Definition count (self : t) : Z := Z.of_nat (length (w1 self)).

(** [deleteBefore(ix)]: keep position [ix], delete what precedes it.
    [None] is the IndexError of [self.xHits[ix]] on an empty store. *)
Definition deleteBefore (self : t) (ix : Z) : option t :=
  let ix := Z.min (Z.max 0 ix) (count self - 1) in
  xHitsOnPos ← py_index (xHits self) ix;
  Some {| xHits := map (fun row => zip_with (fun h h0 => wrap32 (h - h0)) row xHitsOnPos)
                       (py_slice_from (xHits self) ix);
          w1 := py_slice_from (w1 self) ix; z1 := py_slice_from (z1 self) ix;
          a1 := py_slice_from (a1 self) ix; w2 := py_slice_from (w2 self) ix;
          z2 := py_slice_from (z2 self) ix; y_aka_a2 := py_slice_from (y_aka_a2 self) ix;
          lossPerX := py_slice_from (lossPerX self) ix;
          lossAvg := py_slice_from (lossAvg self) ix |}.

(** [deleteAfter(ix)]: keep position [ix], delete what follows; [ix] may be
    [-1].  Returns the new store and the number of deleted steps; [None] is
    the failed assertion. *)
Definition deleteAfter (self : t) (ix : Z) : option (t * Z) :=
  if bool_decide (-1 <= ix <= count self - 1)%Z then
    let iret := (count self - ix - 1)%Z in
    let new_len := (ix + 1)%Z in
    Some ({| xHits := py_slice_to (xHits self) new_len;
             w1 := py_slice_to (w1 self) new_len; z1 := py_slice_to (z1 self) new_len;
             a1 := py_slice_to (a1 self) new_len; w2 := py_slice_to (w2 self) new_len;
             z2 := py_slice_to (z2 self) new_len;
             y_aka_a2 := py_slice_to (y_aka_a2 self) new_len;
             lossPerX := py_slice_to (lossPerX self) new_len;
             lossAvg := py_slice_to (lossAvg self) new_len |}, iret)
  else None.

(** [append(newArray)]: the new hits continue from the last stored ones. *)
Definition append (self newArray : t) : t :=
  {| xHits := match last (xHits self) with
              | Some h => xHits self ++
                          map (fun row => zip_with (fun a b => wrap32 (a + b)) row h) (xHits newArray)
              | None => xHits newArray
              end;
     w1 := w1 self ++ w1 newArray; z1 := z1 self ++ z1 newArray;
     a1 := a1 self ++ a1 newArray; w2 := w2 self ++ w2 newArray;
     z2 := z2 self ++ z2 newArray; y_aka_a2 := y_aka_a2 self ++ y_aka_a2 newArray;
     lossPerX := lossPerX self ++ lossPerX newArray;
     lossAvg := lossAvg self ++ lossAvg newArray |}.
End XOR_array_model.

(** ** The timeline ([XOR_model]) *)

(** The Qt signals of [XOR_model]. *)
Inductive Signal :=
  | sigModelChanged (pos : Z)
  | sigModelNameChanged (name : string).

Module XOR_model.
Record t := mk {
  modelName : string;
  lstTurningPoints : list XOR_Slice.t;
  lstTurningPointsDiff : list string;
  lst_TP_Final_Loss : list string;
  (** the slice held by [__crtTPModel], which [getCrtSlice] returns *)
  crtSlice : XOR_Slice.t;
  indexOfCrtBaseTP_in_lstTurningPoints : Z;
  maskParamLocks : Z;
  (** the path of [lastSavedFileInfo], if any *)
  lastSavedFileInfo : option string;
  xor_array : XOR_array_model.t
}.

Definition count (self : t) : Z := XOR_array_model.count (xor_array self).
Definition getPos (self : t) : Z := XOR_Slice.index (crtSlice self).
End XOR_model.

(** ** JSON values, as [json.load] returns them *)
#[warnings="-register-all"]
Inductive json :=
  | JNull
  | JBool (b : bool)
  | JInt (z : Z)
  | JFloat (q : float)
  | JStr (s : string)
  | JList (l : list json)
  | JDict (d : list (string * json)).

(** ** Regeneration and training *)

(** [arr[-1] = v] on a list. *)
Definition set_last {A} (v : A) (l : list A) : list A := <[(length l - 1)%nat := v]> l.
(** Python's [sum] of integers. *)
Definition py_sum (l : list Z) : Z := foldl Z.add 0%Z l.

(** [w.clip(minRange, maxRange)] *)
Definition clip_matrix (w : matrix) (lo hi : Z) : matrix :=
  mat_map (fun v => np_clip v (of_int lo) (of_int hi)) w.

(** [w * lock + u * (1 - lock)]: regenerated weights, entry by entry. *)
Definition blend (w : matrix) (lock : int_matrix) (u : matrix) : matrix :=
  mat_zip Qcplus (mat_zip (fun a l => a * of_int l) w lock)
                 (mat_zip (fun b l => b * of_int (1 - l)) u lock).

(** [(w - (dw * learning_rate)).clip(minRange, maxRange) * (1 - lock) + w * lock] *)
Definition update_weights (w dw : matrix) (learning_rate : float) (lo hi : Z)
    (lock : int_matrix) : matrix :=
  mat_zip Qcplus
    (mat_zip (fun c l => c * of_int (1 - l))
             (clip_matrix (mat_zip (fun a d => a - d * learning_rate) w dw) lo hi) lock)
    (mat_zip (fun a l => a * of_int l) w lock).

(** [(ix, nbHits) = np.unique(hits, return_counts=True); xHits[ix] += nbHits]
    on an int32 array: only the drawn classes are touched. *)
Definition count_hits (hits : list nat) (k : nat) : Z :=
  Z.of_nat (length (filter (fun h => h = k) hits)).
Definition add_hits (xHits : list Z) (hits : list nat) : list Z :=
  imap (fun k h => if bool_decide (k ∈ hits) then wrap32 (h + count_hits hits k) else h) xHits.

(** [p_distribution = xPercents / 100; p_distribution[-1] = 1 - sum(p_distribution[0:-1])];
    [None] is the IndexError on an empty array. *)
Definition p_distribution_of (xPercents : list Z) : option (list float) :=
  let p := map (fun v => of_int v / of_int 100) xPercents in
  if bool_decide (p = []) then None
  else Some (set_last (1 - fsum (take (length p - 1) p)) p).

Section Engine.
Context (np_exp np_log np_tanh : float -> float) (G : Generator).

(** [feedFromSeed], the nine draws of the parameters in their fixed order. *)
Definition feed_params (self : XOR_Slice.t) (setColumnsLocked : gset Z) (_rng : rng G)
  : XOR_Slice.t * rng G :=
  let '(_rng_Consumed, _rng) := rng_choice G 0%Z CHOICES_LISTS.BATCH_SIZE _rng in
  let self := if bool_decide (ColumnsMap.batch_size ∉ setColumnsLocked)
              then XOR_Slice.set_batch_size _rng_Consumed self else self in
  let '(_rng_Consumed, _rng) := rng_choice G 0%Z CHOICES_LISTS.EPOCH_SIZE _rng in
  let self := if bool_decide (ColumnsMap.epoch_size ∉ setColumnsLocked)
              then XOR_Slice.set_epoch_size _rng_Consumed self else self in
  let '(_rng_Consumed, _rng) := rng_choice G 0%Z CHOICES_LISTS.CYCLES_PER_EPOCH _rng in
  let self := if bool_decide (ColumnsMap.cyclesPerOneStepFwdOfEpoch ∉ setColumnsLocked)
              then XOR_Slice.set_cyclesPerOneStepFwdOfEpoch _rng_Consumed self else self in
  let '(u, _rng) := rng_random G _rng in
  let _rng_Consumed := round2 (u * (of_int 98 / of_int 100) + of_int 1 / of_int 100) in
  let self := if bool_decide (ColumnsMap.learning_rate ∉ setColumnsLocked)
              then XOR_Slice.set_learning_rate _rng_Consumed self else self in
  let '(_rng_Consumed, _rng) := rng_integers G (-20) 20 false _rng in
  let '(_rng_Consumed2, _rng) := rng_integers G (_rng_Consumed + 1) 20 true _rng in
  let self := if bool_decide (ColumnsMap.minRange ∉ setColumnsLocked)
              then XOR_Slice.set_maxRange _rng_Consumed2 (XOR_Slice.set_minRange _rng_Consumed self)
              else self in
  let '(_rng_Consumed, _rng) :=
    rng_choice G ""%string (dict_keys FunctionsListsByType.HiddenLayer) _rng in
  let self := if bool_decide (ColumnsMap.activation1 ∉ setColumnsLocked)
              then XOR_Slice.set_activation1 _rng_Consumed self else self in
  let '(_rng_Consumed, _rng) :=
    rng_choice G ""%string (dict_keys FunctionsListsByType.OutputLayer) _rng in
  let self := if bool_decide (ColumnsMap.activation2 ∉ setColumnsLocked)
              then XOR_Slice.set_activation2 _rng_Consumed self else self in
  let '(_rng_Consumed, _rng) :=
    rng_choice G ""%string (dict_keys FunctionsListsByType.LossFunction) _rng in
  let self := if bool_decide (ColumnsMap.loss ∉ setColumnsLocked)
              then XOR_Slice.set_loss _rng_Consumed self else self in
  (self, _rng).

(** [feedFromSeed], the branch on [self.index == 0]: percentages, labels,
    hits and weights of a first slice, or the re-clipped weights of a later
    one. *)
Definition feed_weights (self : XOR_Slice.t) (_rng : rng G) : XOR_Slice.t * rng G :=
  if bool_decide (XOR_Slice.index self = 0%Z) then
    let '(d, _rng) := rng_dirichlet G [1; 1; 1; 1]%Z _rng in
    let arrPc := map (fun v => astype_int (v * of_int 100)) d in
    let arrPc := set_last (100 - py_sum (take (length arrPc - 1) arrPc))%Z arrPc in
    let self := XOR_Slice.set_xPercents arrPc self in
    let self := XOR_Slice.set_yParam Y_XOR_TRUE_4 self in
    let self := XOR_Slice.set_xHits [0; 0; 0; 0]%Z self in
    let '(u1, _rng) := rng_uniform G (of_int (XOR_Slice.minRange self))
                                     (of_int (XOR_Slice.maxRange self)) 3 2 _rng in
    let self := XOR_Slice.set_w1 (blend (XOR_Slice.w1 self) (XOR_Slice.w1_lock self) u1) self in
    let '(u2, _rng) := rng_uniform G (of_int (XOR_Slice.minRange self))
                                     (of_int (XOR_Slice.maxRange self)) 3 1 _rng in
    let self := XOR_Slice.set_w2 (blend (XOR_Slice.w2 self) (XOR_Slice.w2_lock self) u2) self in
    (self, _rng)
  else
    let self := XOR_Slice.set_w1 (clip_matrix (XOR_Slice.w1 self) (XOR_Slice.minRange self)
                                              (XOR_Slice.maxRange self)) self in
    let self := XOR_Slice.set_w2 (clip_matrix (XOR_Slice.w2 self) (XOR_Slice.minRange self)
                                              (XOR_Slice.maxRange self)) self in
    (self, _rng).

(** [feedFromSeed] up to [compute_z_a_loss]: the resolved fields. *)
Definition feed_fields (self : XOR_Slice.t) (seed : Z) (setColumnsLocked : gset Z)
  : XOR_Slice.t :=
  let self := XOR_Slice.set_seedTP seed self in
  let _rng := default_rng G (XOR_Slice.seedTP self) in
  let '(self, _rng) := feed_params self setColumnsLocked _rng in
  (feed_weights self _rng).1.

(** [compute_z_a_loss]: z1, a1, z2, y, the losses at the four inputs.
    [None] is the KeyError of a name missing from its table. *)
Definition compute_z_a_loss (self : XOR_Slice.t) : option XOR_Slice.t :=
  let x := hstack_ones (mat_of_int X_BATCH_4) in
  let vz1 := matmul 2 x (XOR_Slice.w1 self) in
  act1 ← dict_get FunctionsListsByType.HiddenLayer (XOR_Slice.activation1 self);
  let va1 := mat_map (value np_exp np_tanh act1) vz1 in
  let a1_b := hstack_ones va1 in
  let vz2 := matmul 1 a1_b (XOR_Slice.w2 self) in
  act2 ← dict_get FunctionsListsByType.OutputLayer (XOR_Slice.activation2 self);
  let va2 := mat_map (value np_exp np_tanh act2) vz2 in
  fl ← dict_get FunctionsListsByType.LossFunction (XOR_Slice.loss self);
  let a2_row := concat va2 in
  let y_row := concat (XOR_Slice.yParam self) in
  let vlossPerX := map (fun v => [v]) (zip_with (loss_value np_log fl) a2_row y_row) in
  let vlossAvg := [[loss_cost np_log fl a2_row y_row]] in
  Some (XOR_Slice.set_evaluation vz1 va1 vz2 va2 vlossPerX vlossAvg self).

(** [XOR_Slice.feedFromSeed(seed, setColumnsLocked)] *)
Definition feedFromSeed (self : XOR_Slice.t) (seed : Z) (setColumnsLocked : gset Z)
  : option XOR_Slice.t :=
  compute_z_a_loss (feed_fields self seed setColumnsLocked).

(** One cycle of [fillModel]'s inner loop: a mini-batch, its hits, forward
    and backward propagation, the update of [w2] then [w1]. *)
Definition cycle (fromTP : XOR_Slice.t) (act1 act2 : Activation) (fl : LossFunction)
    (p_distribution : list float) (st : list Z * matrix * matrix * rng G)
  : list Z * matrix * matrix * rng G :=
  let '(xHitsPerCycle, w1, w2, rng) := st in
  let '(hits, rng) :=
    rng_choice_p G [0; 1; 2; 3]%nat (XOR_Slice.batch_size fromTP) p_distribution rng in
  let xHitsPerCycle := add_hits xHitsPerCycle hits in
  let x := take_rows X_BATCH_4 hits in
  let y_true := take_rows (XOR_Slice.yParam fromTP) hits in
  let '(computed_a1, computed_a2) := XOR_forward_prop np_exp np_tanh x w1 act1 w2 act2 in
  let '(dw1, dw2) := XOR_back_prop x act1 computed_a1 w2 act2 computed_a2 y_true fl in
  let w2' := update_weights w2 dw2 (XOR_Slice.learning_rate fromTP)
               (XOR_Slice.minRange fromTP) (XOR_Slice.maxRange fromTP)
               (XOR_Slice.w2_lock fromTP) in
  let w1' := update_weights w1 dw1 (XOR_Slice.learning_rate fromTP)
               (XOR_Slice.minRange fromTP) (XOR_Slice.maxRange fromTP)
               (XOR_Slice.w1_lock fromTP) in
  (xHitsPerCycle, w1', w2', rng).

(** The body of [for i in range(1, epoch_size)]: from the hits and weights
    stored at step [i - 1] to those stored at step [i].  [self.xHits[i]] is
    assigned inside the inner loop, so it stays zero when no cycle runs. *)
Definition train_step (fromTP : XOR_Slice.t) (act1 act2 : Activation) (fl : LossFunction)
    (p_distribution : list float) (prev : list Z * matrix * matrix) (rng0 : rng G)
  : (list Z * matrix * matrix) * rng G :=
  let '(xHits_prev, w1_prev, w2_prev) := prev in
  let cycles := Z.to_nat (XOR_Slice.cyclesPerOneStepFwdOfEpoch fromTP) in
  let '(xHitsPerCycle, w1, w2, rng1) :=
    Nat.iter cycles (cycle fromTP act1 act2 fl p_distribution)
             (xHits_prev, w1_prev, w2_prev, rng0) in
  let xHits_i := if bool_decide (cycles = 0%nat) then [0; 0; 0; 0]%Z else xHitsPerCycle in
  ((xHits_i, w1, w2), rng1).

(** The steps [1 .. n] that follow a step [prev]. *)
Fixpoint training (n : nat) (fromTP : XOR_Slice.t) (act1 act2 : Activation)
    (fl : LossFunction) (p_distribution : list float)
    (prev : list Z * matrix * matrix) (rng0 : rng G) : list (list Z * matrix * matrix) :=
  match n with
  | O => []
  | S n' =>
      let '(cur, rng1) := train_step fromTP act1 act2 fl p_distribution prev rng0 in
      cur :: training n' fromTP act1 act2 fl p_distribution cur rng1
  end.

(** The seed of [fillModel]'s generator. *)
Definition fill_seed (fromTP : XOR_Slice.t) : Z :=
  (XOR_Slice.index fromTP +
   (if bool_decide (0 <= XOR_Slice.seedTP fromTP)%Z then XOR_Slice.seedTP fromTP else 0))%Z.

(** [XOR_array_model.fillModel(fromTP)].  [None] stands for an exception:
    a non-positive [epoch_size] (no step 0 to assign), an empty percentage
    array, or a function name missing from its table.  The exceptions of the
    generator are not among them (see [Generator]): [Some] is the segment of
    a call that returns. *)
Definition fillModel (fromTP : XOR_Slice.t) : option XOR_array_model.t :=
  let rng0 := default_rng G (fill_seed fromTP) in
  let epoch_size := XOR_Slice.epoch_size fromTP in
  if bool_decide (epoch_size <= 0)%Z then None else
  let w1_0 := clip_matrix (XOR_Slice.w1 fromTP) (XOR_Slice.minRange fromTP)
                          (XOR_Slice.maxRange fromTP) in
  let w2_0 := clip_matrix (XOR_Slice.w2 fromTP) (XOR_Slice.minRange fromTP)
                          (XOR_Slice.maxRange fromTP) in
  p_distribution ← p_distribution_of (XOR_Slice.xPercents fromTP);
  act1 ← dict_get FunctionsListsByType.HiddenLayer (XOR_Slice.activation1 fromTP);
  act2 ← dict_get FunctionsListsByType.OutputLayer (XOR_Slice.activation2 fromTP);
  fl ← dict_get FunctionsListsByType.LossFunction (XOR_Slice.loss fromTP);
  let step0 := ([0; 0; 0; 0]%Z, w1_0, w2_0) in
  let steps := step0 :: training (Z.to_nat (epoch_size - 1)) fromTP act1 act2 fl
                                 p_distribution step0 rng0 in
  let vxHits := map (fun s => s.1.1) steps in
  let vw1 := map (fun s => s.1.2) steps in
  let vw2 := map (fun s => s.2) steps in
  let x := hstack_ones (mat_of_int X_BATCH_4) in
  let vz1 := map (fun w => matmul 2 x w) vw1 in
  let va1 := map (mat_map (value np_exp np_tanh act1)) vz1 in
  let vz2 := zip_with (fun a w => matmul 1 (hstack_ones a) w) va1 vw2 in
  let vy := map (mat_map (value np_exp np_tanh act2)) vz2 in
  let vlossPerX :=
    map (fun a2 => mat_zip (loss_value np_log fl) a2 (XOR_Slice.yParam fromTP)) vy in
  let vlossAvg :=
    map (fun a2 => [[loss_cost np_log fl (concat a2) (concat (XOR_Slice.yParam fromTP))]]) vy in
  Some {| XOR_array_model.xHits := vxHits;
          XOR_array_model.w1 := vw1; XOR_array_model.z1 := vz1;
          XOR_array_model.a1 := va1; XOR_array_model.w2 := vw2;
          XOR_array_model.z2 := vz2; XOR_array_model.y_aka_a2 := vy;
          XOR_array_model.lossPerX := vlossPerX;
          XOR_array_model.lossAvg := vlossAvg |}.

End Engine.

(** ** Timeline operations ([XOR_model]) *)

(** [new.join(s.split(old))]: every occurrence of [old], left to right. *)
Fixpoint split_join_go (old new : string) (skip : nat) (s : string) : string :=
  match s with
  | EmptyString => EmptyString
  | String c s' =>
      match skip with
      | S k => split_join_go old new k s'
      | O => if String.prefix old s
             then new +:+ split_join_go old new (String.length old - 1) s'
             else String c (split_join_go old new 0 s')
      end
  end.
Definition split_join (old new s : string) : string := split_join_go old new 0 s.

(** [XOR_Slice.getHTML_TP_equal_mark(val)] *)
Definition getHTML_TP_equal_mark (val : Z) : string := "TP = " +:+ pretty val.

(** [XOR_Slice.diff(slice1, None)]: the header alone. *)
Definition diff_None (slice1 : XOR_Slice.t) : string :=
  "<span style='color: #0000DD; text-decoration: underline;'> <b>"
  +:+ getHTML_TP_equal_mark (XOR_Slice.index slice1) +:+ "</b> </span> <br>".

(** [XOR_Slice.__eq__] *)
Definition slice_eqb (a b : XOR_Slice.t) : bool :=
  bool_decide (XOR_Slice.index a = XOR_Slice.index b)
  && bool_decide (XOR_Slice.xPercents a = XOR_Slice.xPercents b)
  && bool_decide (XOR_Slice.yParam a = XOR_Slice.yParam b)
  && bool_decide (XOR_Slice.epoch_size a = XOR_Slice.epoch_size b)
  && bool_decide (XOR_Slice.batch_size a = XOR_Slice.batch_size b)
  && bool_decide (XOR_Slice.learning_rate a = XOR_Slice.learning_rate b)
  && bool_decide (XOR_Slice.w1 a = XOR_Slice.w1 b)
  && bool_decide (XOR_Slice.w1_lock a = XOR_Slice.w1_lock b)
  && bool_decide (XOR_Slice.activation1 a = XOR_Slice.activation1 b)
  && bool_decide (XOR_Slice.w2 a = XOR_Slice.w2 b)
  && bool_decide (XOR_Slice.w2_lock a = XOR_Slice.w2_lock b)
  && bool_decide (XOR_Slice.activation2 a = XOR_Slice.activation2 b)
  && bool_decide (XOR_Slice.loss a = XOR_Slice.loss b)
  && bool_decide (XOR_Slice.minRange a = XOR_Slice.minRange b)
  && bool_decide (XOR_Slice.maxRange a = XOR_Slice.maxRange b)
  && bool_decide (XOR_Slice.cyclesPerOneStepFwdOfEpoch a
                  = XOR_Slice.cyclesPerOneStepFwdOfEpoch b).

(** [for item in reversed(lst): if item.index <= ix: ... break]: the last
    turning point with [index <= ix] and its position, if there is one. *)
Fixpoint find_base (lst : list XOR_Slice.t) (ix : Z) (pos : nat)
  : option (nat * XOR_Slice.t) :=
  match lst with
  | [] => None
  | item :: lst' =>
      match find_base lst' ix (S pos) with
      | Some r => Some r
      | None => if bool_decide (XOR_Slice.index item <= ix)%Z then Some (pos, item) else None
      end
  end.

(** [lst.index(item)] for the [item] stored at position [pos]: the first
    position that holds [item] itself or a slice equal to it. *)
Fixpoint list_index (lst : list XOR_Slice.t) (item : XOR_Slice.t) (pos j : nat) : nat :=
  match lst with
  | [] => pos
  | x :: lst' => if bool_decide (j = pos) || slice_eqb x item then j
                 else list_index lst' item pos (S j)
  end.

(** [float(a)] of an array with the single entry [v]. *)
Definition float_of_array (a : matrix) : option float :=
  match a with
  | [[v]] => Some v
  | _ => None
  end.

Definition with_crtSlice (self : XOR_model.t) (tp : XOR_Slice.t) (base : Z) : XOR_model.t :=
  {| XOR_model.modelName := XOR_model.modelName self;
     XOR_model.lstTurningPoints := XOR_model.lstTurningPoints self;
     XOR_model.lstTurningPointsDiff := XOR_model.lstTurningPointsDiff self;
     XOR_model.lst_TP_Final_Loss := XOR_model.lst_TP_Final_Loss self;
     XOR_model.crtSlice := tp;
     XOR_model.indexOfCrtBaseTP_in_lstTurningPoints := base;
     XOR_model.maskParamLocks := XOR_model.maskParamLocks self;
     XOR_model.lastSavedFileInfo := XOR_model.lastSavedFileInfo self;
     XOR_model.xor_array := XOR_model.xor_array self |}.

Definition with_history (self : XOR_model.t) (tps : list XOR_Slice.t)
    (diffs losses : list string) (arr : XOR_array_model.t) : XOR_model.t :=
  {| XOR_model.modelName := XOR_model.modelName self;
     XOR_model.lstTurningPoints := tps;
     XOR_model.lstTurningPointsDiff := diffs;
     XOR_model.lst_TP_Final_Loss := losses;
     XOR_model.crtSlice := XOR_model.crtSlice self;
     XOR_model.indexOfCrtBaseTP_in_lstTurningPoints :=
       XOR_model.indexOfCrtBaseTP_in_lstTurningPoints self;
     XOR_model.maskParamLocks := XOR_model.maskParamLocks self;
     XOR_model.lastSavedFileInfo := XOR_model.lastSavedFileInfo self;
     XOR_model.xor_array := arr |}.

(** [setPos(ix)]: the base turning point of [ix], cloned and completed
    with the arrays at [ix], becomes the current slice.  [None] is an
    IndexError of the array reads. *)
Definition setPos (self : XOR_model.t) (ix : Z) : option XOR_model.t :=
  let ix := if bool_decide (XOR_model.count self <= ix)%Z
            then (XOR_model.count self - 1)%Z else ix in
  match find_base (XOR_model.lstTurningPoints self) ix 0 with
  | None => Some self
  | Some (pos, item) =>
      let base := list_index (XOR_model.lstTurningPoints self) item pos 0 in
      let arr := XOR_model.xor_array self in
      vxHits ← py_index (XOR_array_model.xHits arr) ix;
      vw1 ← py_index (XOR_array_model.w1 arr) ix;
      vz1 ← py_index (XOR_array_model.z1 arr) ix;
      va1 ← py_index (XOR_array_model.a1 arr) ix;
      vw2 ← py_index (XOR_array_model.w2 arr) ix;
      vz2 ← py_index (XOR_array_model.z2 arr) ix;
      vy ← py_index (XOR_array_model.y_aka_a2 arr) ix;
      vlossAvg ← py_index (XOR_array_model.lossAvg arr) ix;
      vlossPerX ← py_index (XOR_array_model.lossPerX arr) ix;
      let baseTP :=
        XOR_Slice.set_evaluation vz1 va1 vz2 vy vlossPerX vlossAvg
          (XOR_Slice.set_w2 vw2 (XOR_Slice.set_w1 vw1
             (XOR_Slice.set_xHits vxHits (XOR_Slice.set_index ix item)))) in
      Some (with_crtSlice self baseTP (Z.of_nat base))
  end.

(** The scan of [deleteBefore]: the position of the last turning point of
    the leading run with [index <= ix] (0 when the first one is beyond). *)
Fixpoint scan_tp_ix (lst : list XOR_Slice.t) (ix : Z) (i tp_ix : nat) : nat :=
  match lst with
  | [] => tp_ix
  | tp :: lst' => if bool_decide (XOR_Slice.index tp <= ix)%Z
                  then scan_tp_ix lst' ix (S i) i else tp_ix
  end.

(** [while lstTurningPoints[-1].index > ix: pop()] on the three lists,
    walked from their ends (the arguments are reversed lists).  [None] is
    the IndexError of reading or popping an empty list. *)
Fixpoint pop_after (ix : Z) (rtps : list XOR_Slice.t) (rdiffs rlosses : list string)
  : option (list XOR_Slice.t * list string * list string) :=
  match rtps with
  | [] => None
  | tp :: rtps' =>
      if bool_decide (ix < XOR_Slice.index tp)%Z then
        match rdiffs, rlosses with
        | _ :: rdiffs', _ :: rlosses' => pop_after ix rtps' rdiffs' rlosses'
        | _, _ => None
        end
      else Some (rtps, rdiffs, rlosses)
  end.

(** [lst[0] = f(lst[0])] and [lst[-1] = f(lst[-1])]; [None] on an empty list. *)
Definition update_head {A} (f : A -> A) (l : list A) : option (list A) :=
  match l with
  | [] => None
  | x :: l' => Some (f x :: l')
  end.
Definition update_last {A} (f : A -> A) (l : list A) : option (list A) :=
  match reverse l with
  | [] => None
  | x :: r => Some (reverse (f x :: r))
  end.

Section Timeline.
(** [XOR_model.getHTML_loss] (colours) and the format [f"{v:0.3f}"]. *)
Context (getHTML_loss : float -> string) (format_0_3f : float -> string).

(** [XOR_model.deleteBefore(ix)] *)
Definition deleteBefore (self : XOR_model.t) (ix : Z)
  : option (XOR_model.t * list Signal) :=
  let ix := Z.min (Z.max 0 ix) (XOR_model.count self - 1) in
  arr ← XOR_array_model.deleteBefore (XOR_model.xor_array self) ix;
  let tp_ix := scan_tp_ix (XOR_model.lstTurningPoints self) ix 0 0 in
  let tps := drop tp_ix (XOR_model.lstTurningPoints self) in
  let diffs := drop tp_ix (XOR_model.lstTurningPointsDiff self) in
  let losses := drop tp_ix (XOR_model.lst_TP_Final_Loss self) in
  (* every [lstTurningPointsDiff[i]] is read *)
  guard (length tps <= length diffs)%nat;;
  let new_diffs :=
    zip_with (fun tp d =>
                split_join (getHTML_TP_equal_mark (XOR_Slice.index tp))
                           (getHTML_TP_equal_mark (XOR_Slice.index tp - ix)) d)
             tps diffs ++ drop (length tps) diffs in
  let tps := map (fun tp => XOR_Slice.set_index (XOR_Slice.index tp - ix)%Z tp) tps in
  tps ← update_head (XOR_Slice.set_index 0) tps;
  let first_epoch :=
    match tps with
    | [_] => XOR_array_model.count arr
    | _ :: tp1 :: _ => XOR_Slice.index tp1
    | [] => 0%Z
    end in
  tps ← update_head (XOR_Slice.set_epoch_size first_epoch) tps;
  tp0 ← head tps;
  lossAvg_last ← py_index (XOR_array_model.lossAvg arr) (XOR_Slice.epoch_size tp0 - 1);
  v ← float_of_array lossAvg_last;
  new_diffs ← update_head (fun _ => diff_None tp0 +:+ getHTML_loss v) new_diffs;
  self' ← setPos (with_history self tps new_diffs losses arr) 0;
  Some (self', [sigModelChanged 0]).

(** [XOR_model.deleteAfterPos(ix)]: the new model, the signals, the number
    of deleted steps. *)
Definition deleteAfterPos (self : XOR_model.t) (ix : Z)
  : option (XOR_model.t * list Signal * Z) :=
  let ix := if bool_decide (0 < ix)%Z then (ix - 1)%Z else ix in
  '(arr, iret) ← XOR_array_model.deleteAfter (XOR_model.xor_array self) ix;
  '(rtps, rdiffs, rlosses) ←
     pop_after ix (reverse (XOR_model.lstTurningPoints self))
                  (reverse (XOR_model.lstTurningPointsDiff self))
                  (reverse (XOR_model.lst_TP_Final_Loss self));
  let tps := reverse rtps in
  let diffs := reverse rdiffs in
  let losses := reverse rlosses in
  tps ← (if bool_decide (0 < ix)%Z
         then update_last (fun tp => XOR_Slice.set_epoch_size
                                       (XOR_array_model.count arr - XOR_Slice.index tp)%Z tp) tps
         else Some tps);
  lossAvg_last ← py_index (XOR_array_model.lossAvg arr) (-1);
  v ← float_of_array lossAvg_last;
  losses ← update_last (fun _ => format_0_3f v) losses;
  self' ← setPos (with_history self tps diffs losses arr) ix;
  Some (self', [sigModelChanged ix], iret).

End Timeline.

(** ** Persistence: [XOR_Slice.fromJson] *)

(** [XOR_Slice(-1)]: the invalid slice that [LoadFromJson] fills. *)
Definition XOR_Slice_invalid : XOR_Slice.t :=
  {| XOR_Slice.seedTP := -1; XOR_Slice.index := -1; XOR_Slice.batch_size := 1;
     XOR_Slice.epoch_size := 1; XOR_Slice.cyclesPerOneStepFwdOfEpoch := 1;
     XOR_Slice.learning_rate := of_int 1 / of_int 10;
     XOR_Slice.activation1 := "ReLU"; XOR_Slice.activation2 := "sigmoid";
     XOR_Slice.loss := "LCE_Loss";
     XOR_Slice.xPercents := [10; 20; 30; 40]%Z; XOR_Slice.yParam := Y_XOR_TRUE_4;
     XOR_Slice.xHits := [-1; -1; -1; -1]%Z;
     XOR_Slice.minRange := 0; XOR_Slice.maxRange := 0;
     XOR_Slice.w1 := [[0; 0]; [0; 0]; [0; 0]]; XOR_Slice.w1_lock := [[0; 0]; [0; 0]; [0; 0]]%Z;
     XOR_Slice.z1 := [[0; 0]; [0; 0]; [0; 0]; [0; 0]];
     XOR_Slice.a1 := [[0; 0]; [0; 0]; [0; 0]; [0; 0]];
     XOR_Slice.w2 := [[0]; [0]; [0]]; XOR_Slice.w2_lock := [[0]; [0]; [0]]%Z;
     XOR_Slice.z2 := [[0]; [0]; [0]; [0]]; XOR_Slice.y_aka_a2 := [[0]; [0]; [0]; [0]];
     XOR_Slice.lossAvg := [[1]]; XOR_Slice.lossPerX := [[1]; [1]; [1]; [1]] |}.

(** One line printed by [fromJson]: the role, the name found, the name
    it is reset to. *)
Inductive Warning := Warning_not_defined (role : FunctionType.t) (found : json) (reset_to : string).

(** [a.reshape(rows, cols)] of the flattened entries; [None] is the
    ValueError of a wrong size. *)
Fixpoint chunks {A} (rows cols : nat) (l : list A) : list (list A) :=
  match rows with
  | O => []
  | S r => take cols l :: chunks r cols (drop cols l)
  end.
Definition reshape {A} (rows cols : nat) (l : list A) : option (list (list A)) :=
  if bool_decide (length l = (rows * cols)%nat) then Some (chunks rows cols l) else None.

(** [name in table] for a JSON value: a string is looked up, any other
    hashable value is absent, a list or a dict is unhashable (TypeError). *)
Definition json_in {V} (table : list (string * V)) (v : json) : option bool :=
  match v with
  | JStr s => Some (dict_in table s)
  | JList _ | JDict _ => None
  | _ => Some false
  end.

(** The name kept and the warning printed for one role: the value of the
    key (or [""]) when it is in [table], else [list(fallback)[0]]. *)
Definition resolve_name {V W} (role : FunctionType.t) (table : list (string * V))
    (fallback : list (string * W)) (found : option json)
  : option (string * list Warning) :=
  let _tmp_str := default (JStr "") found in
  known ← json_in table _tmp_str;
  if known : bool then
    match _tmp_str with
    | JStr s => Some (s, [])
    | _ => None
    end
  else
    (reset_to ← head (dict_keys fallback);
     Some (reset_to, [Warning_not_defined role _tmp_str reset_to])).

Section Json.
(** Python's [int(str)] and [float(str)], NumPy's [asarray(v, dtype)] as
    its flattened entries ([None] when they raise). *)
Context (int_of_str : string -> option Z) (float_of_str : string -> option float)
        (np_asarray_int : json -> option (list Z))
        (np_asarray_float : json -> option (list float)).

Definition py_int (v : json) : option Z :=
  match v with
  | JInt z => Some z
  | JBool b => Some (Z.b2z b)
  | JFloat q => Some (astype_int q)
  | JStr s => int_of_str s
  | _ => None
  end.

Definition py_float (v : json) : option float :=
  match v with
  | JInt z => Some (of_int z)
  | JBool b => Some (of_int (Z.b2z b))
  | JFloat q => Some q
  | JStr s => float_of_str s
  | _ => None
  end.

(** [int(json_object[k])], [float(json_object[k])],
    [np.asarray(json_object[k], dtype).reshape(...)]; a missing key is a
    KeyError. *)
Definition get_int (json_object : gmap string json) (k : string) : option Z :=
  v ← json_object !! k; py_int v.
Definition get_float (json_object : gmap string json) (k : string) : option float :=
  v ← json_object !! k; py_float v.
Definition get_int_array (json_object : gmap string json) (k : string) (rows cols : nat)
  : option int_matrix :=
  v ← json_object !! k; l ← np_asarray_int v; reshape rows cols l.
Definition get_int_vector (json_object : gmap string json) (k : string) (n : nat)
  : option (list Z) :=
  v ← json_object !! k; l ← np_asarray_int v;
  if bool_decide (length l = n) then Some l else None.
Definition get_float_array (json_object : gmap string json) (k : string) (rows cols : nat)
  : option matrix :=
  v ← json_object !! k; l ← np_asarray_float v; reshape rows cols l.

(** [XOR_Slice.fromJson(json_object)] on a fresh [XOR_Slice(-1)]: the slice
    and the warnings printed; [None] is a raised exception. *)
Definition fromJson (self : XOR_Slice.t) (json_object : gmap string json)
  : option (XOR_Slice.t * list Warning) :=
  vindex ← get_int json_object "index";
  vseedTP ← get_int json_object "seedTP";
  vbatch_size ← get_int json_object "batch_size";
  vepoch_size ← get_int json_object "epoch_size";
  vcycles ← get_int json_object "cyclesPerOneStepFwdOfEpoch";
  vlearning_rate ← get_float json_object "learning_rate";
  vminRange ← get_int json_object "minRange";
  vmaxRange ← get_int json_object "maxRange";
  vyParam ← get_int_array json_object "yParam" 4 1;
  vxPercents ← get_int_vector json_object "xPercents" 4;
  vw1 ← get_float_array json_object "w1" 3 2;
  vw1_lock ← get_int_array json_object "w1_lock" 3 2;
  '(vactivation1, warn1) ←
     resolve_name FunctionType.HiddenLayer FunctionsListsByType.HiddenLayer
                  FunctionsListsByType.HiddenLayer (json_object !! "activation1"%string);
  vw2 ← get_float_array json_object "w2" 3 1;
  vw2_lock ← get_int_array json_object "w2_lock" 3 1;
  '(vactivation2, warn2) ←
     resolve_name FunctionType.OutputLayer FunctionsListsByType.OutputLayer
                  FunctionsListsByType.HiddenLayer (json_object !! "activation2"%string);
  '(vloss, warn3) ←
     resolve_name FunctionType.Loss FunctionsListsByType.LossFunction
                  FunctionsListsByType.LossFunction (json_object !! "loss"%string);
  Some ({| XOR_Slice.seedTP := vseedTP; XOR_Slice.index := vindex;
           XOR_Slice.batch_size := vbatch_size; XOR_Slice.epoch_size := vepoch_size;
           XOR_Slice.cyclesPerOneStepFwdOfEpoch := vcycles;
           XOR_Slice.learning_rate := vlearning_rate;
           XOR_Slice.activation1 := vactivation1; XOR_Slice.activation2 := vactivation2;
           XOR_Slice.loss := vloss;
           XOR_Slice.xPercents := vxPercents; XOR_Slice.yParam := vyParam;
           XOR_Slice.xHits := XOR_Slice.xHits self;
           XOR_Slice.minRange := vminRange; XOR_Slice.maxRange := vmaxRange;
           XOR_Slice.w1 := vw1; XOR_Slice.w1_lock := vw1_lock;
           XOR_Slice.z1 := XOR_Slice.z1 self; XOR_Slice.a1 := XOR_Slice.a1 self;
           XOR_Slice.w2 := vw2; XOR_Slice.w2_lock := vw2_lock;
           XOR_Slice.z2 := XOR_Slice.z2 self; XOR_Slice.y_aka_a2 := XOR_Slice.y_aka_a2 self;
           XOR_Slice.lossAvg := XOR_Slice.lossAvg self;
           XOR_Slice.lossPerX := XOR_Slice.lossPerX self |},
        warn1 ++ warn2 ++ warn3).

End Json.

(** ** Saving ([MainWindow.saveModel], [XOR_model.SaveToJson]) *)

(** What [saveModel] does to its surroundings, in order. *)
Inductive Effect :=
  | MessageBox (title : string)
  | FadingMessageBox (title : string)
  | WriteFile (path : string) (lstTP : list XOR_Slice.t)
  | Emit (s : Signal).

Record MainWindow := {
  mXORmodel : XOR_model.t;
  _lastUsedDirectory : string
}.

(** [name[:n]] *)
Fixpoint str_take (n : nat) (s : string) : string :=
  match n, s with
  | S n', String c s' => String c (str_take n' s')
  | _, _ => EmptyString
  end.

Definition with_name (self : XOR_model.t) (name : string) (saved : option string)
  : XOR_model.t :=
  {| XOR_model.modelName := name;
     XOR_model.lstTurningPoints := XOR_model.lstTurningPoints self;
     XOR_model.lstTurningPointsDiff := XOR_model.lstTurningPointsDiff self;
     XOR_model.lst_TP_Final_Loss := XOR_model.lst_TP_Final_Loss self;
     XOR_model.crtSlice := XOR_model.crtSlice self;
     XOR_model.indexOfCrtBaseTP_in_lstTurningPoints :=
       XOR_model.indexOfCrtBaseTP_in_lstTurningPoints self;
     XOR_model.maskParamLocks := XOR_model.maskParamLocks self;
     XOR_model.lastSavedFileInfo := saved;
     XOR_model.xor_array := XOR_model.xor_array self |}.

Section Saving.
(** Qt's [QFileInfo] is its path; [completeBaseName], [absolutePath],
    [absoluteFilePath] are Qt's.  [getSaveFileName] is the user's answer to
    the dialog opened on a proposed name ([""] when cancelled).  [write_json]
    is [json.dumps] and the write of the file: [""] or the text of the
    exception. *)
Context (completeBaseName absolutePath absoluteFilePath : string -> string)
        (getSaveFileName : string -> string)
        (write_json : string -> list XOR_Slice.t -> string).

(** [XOR_model.SaveToJson(fileInfo)] *)
Definition SaveToJson (self : XOR_model.t) (fileInfo : string)
  : string * XOR_model.t * list Effect :=
  let path := absoluteFilePath fileInfo in
  let sRet := write_json path (XOR_model.lstTurningPoints self) in
  if bool_decide (sRet = ""%string) then
    let name := completeBaseName fileInfo in
    (sRet, with_name self name (Some fileInfo),
     [WriteFile path (XOR_model.lstTurningPoints self); Emit (sigModelNameChanged name)])
  else (sRet, self, [WriteFile path (XOR_model.lstTurningPoints self)]).

(** The name [saveModel] proposes: the model name in the directory of the
    last save, or in the last used directory. *)
Definition proposed_name (self : MainWindow) : string :=
  let crtXorModel := mXORmodel self in
  match XOR_model.lastSavedFileInfo crtXorModel with
  | None => _lastUsedDirectory self +:+ "/" +:+ XOR_model.modelName crtXorModel +:+ ".json"
  | Some fi => absolutePath fi +:+ "/" +:+ XOR_model.modelName crtXorModel +:+ ".json"
  end.

(** The condition under which the file dialog is opened. *)
Definition asks_for_name (self : MainWindow) (bSaveAs : bool) : bool :=
  match XOR_model.lastSavedFileInfo (mXORmodel self) with
  | None => true
  | Some fi => bool_decide (absoluteFilePath fi ≠ proposed_name self)
  end || bSaveAs.

(** [MainWindow.saveModel(bSaveAs)] *)
Definition saveModel (self : MainWindow) (bSaveAs : bool) : bool * MainWindow * list Effect :=
  let newFileName := proposed_name self in
  let save (newFileName : string) :=
    let fileInfo := newFileName in
    let '(sRet, m, eff) := SaveToJson (mXORmodel self) fileInfo in
    let self' := {| mXORmodel := m; _lastUsedDirectory := _lastUsedDirectory self |} in
    if bool_decide (sRet = ""%string) then (true, self', eff ++ [FadingMessageBox "Saved"])
    else (false, self', eff ++ [FadingMessageBox "Saving Error"]) in
  if asks_for_name self bSaveAs
  then
    let newFileName := getSaveFileName newFileName in
    if bool_decide (newFileName = ""%string) then (false, self, [])
    else
      let fileInfo := newFileName in
      if bool_decide (MAX_LEN_FILENAME_JSON < String.length (completeBaseName fileInfo))%nat
      then
        let name := str_take MAX_LEN_FILENAME_JSON (completeBaseName fileInfo) in
        (false,
         {| mXORmodel := with_name (mXORmodel self) name
                                   (XOR_model.lastSavedFileInfo (mXORmodel self));
            _lastUsedDirectory := _lastUsedDirectory self |},
         [MessageBox "File name length exceeded"; Emit (sigModelNameChanged name)])
      else save newFileName
  else save newFileName.

End Saving.

(** ** A concrete instance

    A small congruential generator that implements the [Generator]
    interface, rational stand-ins for the transcendental functions and plain
    renderings of the texts.  The statements below hold for every instance;
    this one runs them on concrete turning points. *)
Module Demo.

Definition next (s : Z) : Z := ((s * 1103515245 + 12345) mod 2147483648)%Z.
(** a number in [0, 1) read off the state *)
Definition unit (s : Z) : float := of_int (s mod 1000) / of_int 1000.

Fixpoint units (n : nat) (s : Z) : list float * Z :=
  match n with
  | O => ([], s)
  | S n' => let '(l, s') := units n' (next s) in (unit s :: l, s')
  end.

Definition choice_index (n : nat) (s : Z) : nat * Z :=
  (Z.to_nat (s mod Z.of_nat n), next s).
Definition random (s : Z) : float * Z := (unit s, next s).
Definition integers (low high : Z) (endpoint : bool) (s : Z) : Z * Z :=
  ((low + s mod (high - low + (if endpoint then 1 else 0)))%Z, next s).

(** positive weights normalised by their sum *)
Fixpoint gammas (n : nat) (s : Z) : list float * Z :=
  match n with
  | O => ([], s)
  | S n' => let '(l, s') := gammas n' (next s) in (of_int (1 + s mod 9) :: l, s')
  end.
Definition dirichlet (alpha : list Z) (s : Z) : list float * Z :=
  let '(g, s') := gammas (length alpha) s in
  (map (fun v => v / fsum g) g, s').

Definition uniform (low high : float) (rows cols : nat) (s : Z) : matrix * Z :=
  let '(l, s') := units (rows * cols) s in
  (chunks rows cols (map (fun u => low + (high - low) * u) l), s').

(** the class whose cumulated probability first exceeds [u] *)
Fixpoint pick (a : list nat) (p : list float) (u : float) (d : nat) : nat :=
  match a, p with
  | k :: a', pk :: p' => if bool_decide (u < pk) then k else pick a' p' (u - pk) k
  | _, _ => d
  end.
Definition choice_p (a : list nat) (size : Z) (p : list float) (s : Z) : list nat * Z :=
  let '(l, s') := units (Z.to_nat size) s in
  (map (fun u => pick a p u 0%nat) l, s').

Definition G : Generator :=
  {| rng := Z; default_rng := fun seed => next seed;
     rng_choice_index := choice_index; rng_random := random;
     rng_integers := integers; rng_dirichlet := dirichlet;
     rng_uniform := uniform; rng_choice_p := choice_p |}.

Definition exp (x : float) : float := 1 + x + x * x / of_int 2.
Definition log (x : float) : float := x - 1.
Definition tanh (x : float) : float := x / (1 + np_abs x).

Definition format_0_3f (v : float) : string :=
  let n := round_half_even (np_abs v * of_int 1000) in
  let frac := pretty (n mod 1000)%Z in
  (if bool_decide (v < 0) then "-" else "")
  +:+ pretty (n / 1000)%Z +:+ "."
  +:+ str_take (3 - String.length frac) "000" +:+ frac.
Definition getHTML_loss (v : float) : string := "epoch Loss: " +:+ format_0_3f v.

(** A first turning point: seed 3, three steps of two cycles on batches
    of two. *)
Definition tp0 : XOR_Slice.t :=
  {| XOR_Slice.seedTP := 3; XOR_Slice.index := 0; XOR_Slice.batch_size := 2;
     XOR_Slice.epoch_size := 3; XOR_Slice.cyclesPerOneStepFwdOfEpoch := 2;
     XOR_Slice.learning_rate := of_int 1 / of_int 10;
     XOR_Slice.activation1 := "LeakyReLU"; XOR_Slice.activation2 := "linear";
     XOR_Slice.loss := "Hinge_Loss";
     XOR_Slice.xPercents := [25; 25; 25; 25]%Z; XOR_Slice.yParam := Y_XOR_TRUE_4;
     XOR_Slice.xHits := [0; 0; 0; 0]%Z;
     XOR_Slice.minRange := -1; XOR_Slice.maxRange := 2;
     XOR_Slice.w1 := [[of_int 1; of_int (-3)]; [of_int 5; of_int 1]; [0; of_int 1]];
     XOR_Slice.w1_lock := [[1; 0]; [0; 0]; [0; 1]]%Z;
     XOR_Slice.z1 := [[0; 0]; [0; 0]; [0; 0]; [0; 0]];
     XOR_Slice.a1 := [[0; 0]; [0; 0]; [0; 0]; [0; 0]];
     XOR_Slice.w2 := [[of_int 1]; [of_int (-1)]; [0]]; XOR_Slice.w2_lock := [[0]; [1]; [0]]%Z;
     XOR_Slice.z2 := [[0]; [0]; [0]; [0]]; XOR_Slice.y_aka_a2 := [[0]; [0]; [0]; [0]];
     XOR_Slice.lossAvg := [[1]]; XOR_Slice.lossPerX := [[1]; [1]; [1]; [1]] |}.

(** Another first turning point: it shares with [tp0] the lock masks, the
    locked weights, the epoch size, the cycles and the three functions, and
    differs in the rest. *)
Definition tp0' : XOR_Slice.t :=
  {| XOR_Slice.seedTP := 11; XOR_Slice.index := 0; XOR_Slice.batch_size := 10;
     XOR_Slice.epoch_size := 3; XOR_Slice.cyclesPerOneStepFwdOfEpoch := 2;
     XOR_Slice.learning_rate := of_int 1 / of_int 2;
     XOR_Slice.activation1 := "LeakyReLU"; XOR_Slice.activation2 := "linear";
     XOR_Slice.loss := "Hinge_Loss";
     XOR_Slice.xPercents := [10; 20; 30; 40]%Z; XOR_Slice.yParam := [[1]; [1]; [0]; [0]]%Z;
     XOR_Slice.xHits := [5; 6; 7; 8]%Z;
     XOR_Slice.minRange := 0; XOR_Slice.maxRange := 7;
     XOR_Slice.w1 := [[of_int 1; of_int 4]; [of_int 2; of_int 2]; [of_int 3; of_int 1]];
     XOR_Slice.w1_lock := [[1; 0]; [0; 0]; [0; 1]]%Z;
     XOR_Slice.z1 := []; XOR_Slice.a1 := [];
     XOR_Slice.w2 := [[of_int 6]; [of_int (-1)]; [of_int 6]];
     XOR_Slice.w2_lock := [[0]; [1]; [0]]%Z;
     XOR_Slice.z2 := []; XOR_Slice.y_aka_a2 := [];
     XOR_Slice.lossAvg := []; XOR_Slice.lossPerX := [] |}.

(** The locks under which the two are regenerated alike. *)
Definition locks : gset Z :=
  {[ColumnsMap.epoch_size; ColumnsMap.cyclesPerOneStepFwdOfEpoch;
    ColumnsMap.activation1; ColumnsMap.activation2; ColumnsMap.loss]}.

End Demo.

(** ** Specification-level descriptions

    The definitions of this part follow the words of the specification;
    the properties compare them with the embedded code above. *)

(** "draw, in a FIXED order, batch_size, epoch_size, cycles_per_step,
    learning_rate, clip min then clip max, hidden-activation,
    output-activation, loss": the nine values, with no lock in sight. *)
Record Params := {
  p_batch_size : Z;
  p_epoch_size : Z;
  p_cycles : Z;
  p_learning_rate : float;
  p_min : Z;
  p_max : Z;
  p_activation1 : string;
  p_activation2 : string;
  p_loss : string
}.

Definition draw_params (G : Generator) (r0 : rng G) : Params * rng G :=
  let '(v1, r1) := rng_choice G 0%Z CHOICES_LISTS.BATCH_SIZE r0 in
  let '(v2, r2) := rng_choice G 0%Z CHOICES_LISTS.EPOCH_SIZE r1 in
  let '(v3, r3) := rng_choice G 0%Z CHOICES_LISTS.CYCLES_PER_EPOCH r2 in
  let '(u, r4) := rng_random G r3 in
  let '(v5, r5) := rng_integers G (-20) 20 false r4 in
  let '(v6, r6) := rng_integers G (v5 + 1) 20 true r5 in
  let '(v7, r7) := rng_choice G ""%string (dict_keys FunctionsListsByType.HiddenLayer) r6 in
  let '(v8, r8) := rng_choice G ""%string (dict_keys FunctionsListsByType.OutputLayer) r7 in
  let '(v9, r9) := rng_choice G ""%string (dict_keys FunctionsListsByType.LossFunction) r8 in
  ({| p_batch_size := v1; p_epoch_size := v2; p_cycles := v3;
      p_learning_rate := round2 (u * (of_int 98 / of_int 100) + of_int 1 / of_int 100);
      p_min := v5; p_max := v6;
      p_activation1 := v7; p_activation2 := v8; p_loss := v9 |}, r9).

(** "a draw's result is applied to its field only if that field is not
    locked".  The clip range has one lock, keyed by [minRange]. *)
Definition apply_draws (locked : gset Z) (d : Params) (self : XOR_Slice.t) : XOR_Slice.t :=
  {| XOR_Slice.seedTP := XOR_Slice.seedTP self;
     XOR_Slice.index := XOR_Slice.index self;
     XOR_Slice.batch_size :=
       if bool_decide (ColumnsMap.batch_size ∈ locked)
       then XOR_Slice.batch_size self else p_batch_size d;
     XOR_Slice.epoch_size :=
       if bool_decide (ColumnsMap.epoch_size ∈ locked)
       then XOR_Slice.epoch_size self else p_epoch_size d;
     XOR_Slice.cyclesPerOneStepFwdOfEpoch :=
       if bool_decide (ColumnsMap.cyclesPerOneStepFwdOfEpoch ∈ locked)
       then XOR_Slice.cyclesPerOneStepFwdOfEpoch self else p_cycles d;
     XOR_Slice.learning_rate :=
       if bool_decide (ColumnsMap.learning_rate ∈ locked)
       then XOR_Slice.learning_rate self else p_learning_rate d;
     XOR_Slice.activation1 :=
       if bool_decide (ColumnsMap.activation1 ∈ locked)
       then XOR_Slice.activation1 self else p_activation1 d;
     XOR_Slice.activation2 :=
       if bool_decide (ColumnsMap.activation2 ∈ locked)
       then XOR_Slice.activation2 self else p_activation2 d;
     XOR_Slice.loss :=
       if bool_decide (ColumnsMap.loss ∈ locked) then XOR_Slice.loss self else p_loss d;
     XOR_Slice.xPercents := XOR_Slice.xPercents self;
     XOR_Slice.yParam := XOR_Slice.yParam self;
     XOR_Slice.xHits := XOR_Slice.xHits self;
     XOR_Slice.minRange :=
       if bool_decide (ColumnsMap.minRange ∈ locked)
       then XOR_Slice.minRange self else p_min d;
     XOR_Slice.maxRange :=
       if bool_decide (ColumnsMap.minRange ∈ locked)
       then XOR_Slice.maxRange self else p_max d;
     XOR_Slice.w1 := XOR_Slice.w1 self; XOR_Slice.w1_lock := XOR_Slice.w1_lock self;
     XOR_Slice.z1 := XOR_Slice.z1 self; XOR_Slice.a1 := XOR_Slice.a1 self;
     XOR_Slice.w2 := XOR_Slice.w2 self; XOR_Slice.w2_lock := XOR_Slice.w2_lock self;
     XOR_Slice.z2 := XOR_Slice.z2 self; XOR_Slice.y_aka_a2 := XOR_Slice.y_aka_a2 self;
     XOR_Slice.lossAvg := XOR_Slice.lossAvg self;
     XOR_Slice.lossPerX := XOR_Slice.lossPerX self |}.

(** The nine configuration values of a slice. *)
Definition params_of (s : XOR_Slice.t) : Params :=
  {| p_batch_size := XOR_Slice.batch_size s; p_epoch_size := XOR_Slice.epoch_size s;
     p_cycles := XOR_Slice.cyclesPerOneStepFwdOfEpoch s;
     p_learning_rate := XOR_Slice.learning_rate s;
     p_min := XOR_Slice.minRange s; p_max := XOR_Slice.maxRange s;
     p_activation1 := XOR_Slice.activation1 s; p_activation2 := XOR_Slice.activation2 s;
     p_loss := XOR_Slice.loss s |}.

(** What NumPy promises of [dirichlet((1, 1, 1, 1))]: four non-negative
    shares of one. *)
Definition simplex4 (d : list float) : Prop :=
  length d = 4%nat /\ Forall (fun v => 0 <= v) d /\ fsum d = 1.

(** A regeneration: the turning point is re-seeded under a lock set, then
    its segment is filled. *)
Definition regenerate (np_exp np_log np_tanh : float -> float) (G : Generator)
    (tp : XOR_Slice.t) (seed : Z) (locked : gset Z) : option XOR_array_model.t :=
  tp' ← feedFromSeed np_exp np_log np_tanh G tp seed locked;
  fillModel np_exp np_log np_tanh G tp'.

(** Two weight matrices of the shape of the mask [lock] that agree on every
    locked entry. *)
Definition weights_agree (lock : int_matrix) (w w' : matrix) : Prop :=
  Forall3 (fun lrow row row' => Forall3 (fun l a a' => l ≠ 0%Z -> a = a') lrow row row')
          lock w w'.

(** Two turning points that agree on what a regeneration under [locked]
    keeps of them: the index, the lock masks, the value of every locked
    parameter, the locked weights of a first slice, and for a later slice
    (which draws none of them) the weights, percentages and labels. *)
Record same_locked_inputs (locked : gset Z) (s s' : XOR_Slice.t) : Prop := {
  sl_index : XOR_Slice.index s = XOR_Slice.index s';
  sl_w1_lock : XOR_Slice.w1_lock s = XOR_Slice.w1_lock s';
  sl_w2_lock : XOR_Slice.w2_lock s = XOR_Slice.w2_lock s';
  sl_batch_size :
    ColumnsMap.batch_size ∈ locked -> XOR_Slice.batch_size s = XOR_Slice.batch_size s';
  sl_epoch_size :
    ColumnsMap.epoch_size ∈ locked -> XOR_Slice.epoch_size s = XOR_Slice.epoch_size s';
  sl_cycles :
    ColumnsMap.cyclesPerOneStepFwdOfEpoch ∈ locked ->
    XOR_Slice.cyclesPerOneStepFwdOfEpoch s = XOR_Slice.cyclesPerOneStepFwdOfEpoch s';
  sl_learning_rate :
    ColumnsMap.learning_rate ∈ locked ->
    XOR_Slice.learning_rate s = XOR_Slice.learning_rate s';
  sl_range :
    ColumnsMap.minRange ∈ locked ->
    XOR_Slice.minRange s = XOR_Slice.minRange s'
    /\ XOR_Slice.maxRange s = XOR_Slice.maxRange s';
  sl_activation1 :
    ColumnsMap.activation1 ∈ locked -> XOR_Slice.activation1 s = XOR_Slice.activation1 s';
  sl_activation2 :
    ColumnsMap.activation2 ∈ locked -> XOR_Slice.activation2 s = XOR_Slice.activation2 s';
  sl_loss : ColumnsMap.loss ∈ locked -> XOR_Slice.loss s = XOR_Slice.loss s';
  sl_first :
    XOR_Slice.index s = 0%Z ->
    weights_agree (XOR_Slice.w1_lock s) (XOR_Slice.w1 s) (XOR_Slice.w1 s')
    /\ weights_agree (XOR_Slice.w2_lock s) (XOR_Slice.w2 s) (XOR_Slice.w2 s');
  sl_later :
    XOR_Slice.index s ≠ 0%Z ->
    XOR_Slice.w1 s = XOR_Slice.w1 s' /\ XOR_Slice.w2 s = XOR_Slice.w2 s'
    /\ XOR_Slice.xPercents s = XOR_Slice.xPercents s'
    /\ XOR_Slice.yParam s = XOR_Slice.yParam s'
}.

(** The per-step loop in the words of the specification. *)

(** "the 4-class distribution (last class probability forced to
    1 - sum of the others)" *)
Definition spec_distribution (xPercents : list Z) : list float :=
  let p := map (fun v => of_int v / of_int 100) xPercents in
  let others := take (length p - 1) p in
  others ++ [1 - fsum others].

(** "accumulate hit counts", in the int32 counters of the store *)
Definition spec_add_hits (xHits : list Z) (batch : list nat) : list Z :=
  imap (fun k h => wrap32 (h + count_hits batch k)) xHits.

(** "update W <- clip(W - lr dW, min, max) but restore locked entries to
    their pre-update value" *)
Definition spec_update (w dw : matrix) (lr : float) (lo hi : Z) (lock : int_matrix)
  : matrix :=
  mat_zip (fun (wd : float * float) (l : Z) =>
             if bool_decide (l = 1%Z) then wd.1
             else np_clip (wd.1 - wd.2 * lr) (of_int lo) (of_int hi))
          (mat_zip pair w dw) lock.

Section SpecLoop.
Context (np_exp np_tanh : float -> float) (G : Generator).

(** One cycle: "sample a mini-batch of batch_size class indices ...;
    accumulate hit counts; run forward + backward; update". *)
Definition spec_cycle (tp : XOR_Slice.t) (act1 act2 : Activation) (fl : LossFunction)
    (st : list Z * matrix * matrix * rng G) : list Z * matrix * matrix * rng G :=
  let '(hits, W1, W2, r) := st in
  let '(batch, r') :=
    rng_choice_p G [0; 1; 2; 3]%nat (XOR_Slice.batch_size tp)
                 (spec_distribution (XOR_Slice.xPercents tp)) r in
  let X := take_rows X_BATCH_4 batch in
  let Y := take_rows (XOR_Slice.yParam tp) batch in
  let '(A1, A2) := XOR_forward_prop np_exp np_tanh X W1 act1 W2 act2 in
  let '(dW1, dW2) := XOR_back_prop X act1 A1 W2 act2 A2 Y fl in
  (spec_add_hits hits batch,
   spec_update W1 dW1 (XOR_Slice.learning_rate tp) (XOR_Slice.minRange tp)
               (XOR_Slice.maxRange tp) (XOR_Slice.w1_lock tp),
   spec_update W2 dW2 (XOR_Slice.learning_rate tp) (XOR_Slice.minRange tp)
               (XOR_Slice.maxRange tp) (XOR_Slice.w2_lock tp),
   r').

(** "For step i >= 1: from step i-1's weights, repeat cycles_per_step
    times ...  Store resulting weights at step i": the steps that follow
    [prev]. *)
Fixpoint spec_steps (n : nat) (tp : XOR_Slice.t) (act1 act2 : Activation)
    (fl : LossFunction) (prev : list Z * matrix * matrix) (r : rng G)
  : list (list Z * matrix * matrix) :=
  match n with
  | O => []
  | S n' =>
      let '(hits, W1, W2, r') :=
        Nat.iter (Z.to_nat (XOR_Slice.cyclesPerOneStepFwdOfEpoch tp))
                 (spec_cycle tp act1 act2 fl) (prev, r) in
      (hits, W1, W2) :: spec_steps n' tp act1 act2 fl (hits, W1, W2) r'
  end.

(** "step 0 = the Turning Point's clipped W1/W2, zero hits", then the
    steps 1 .. epoch_size - 1. *)
Definition spec_segment (tp : XOR_Slice.t) (act1 act2 : Activation) (fl : LossFunction)
  : list (list Z * matrix * matrix) :=
  let step0 := ([0; 0; 0; 0]%Z,
                clip_matrix (XOR_Slice.w1 tp) (XOR_Slice.minRange tp) (XOR_Slice.maxRange tp),
                clip_matrix (XOR_Slice.w2 tp) (XOR_Slice.minRange tp) (XOR_Slice.maxRange tp)) in
  step0 :: spec_steps (Z.to_nat (XOR_Slice.epoch_size tp - 1)) tp act1 act2 fl step0
                      (default_rng G (fill_seed tp)).

End SpecLoop.

(** A lock mask holds zeros and ones. *)
Definition binary_mask (lock : int_matrix) : Prop :=
  Forall (Forall (fun l => l = 0%Z \/ l = 1%Z)) lock.

(** The range of an int32 counter. *)
Definition in_int32 (z : Z) : Prop := (- 2 ^ 31 <= z < 2 ^ 31)%Z.

(** The fields of a turning point that [fillModel] reads. *)
Definition fill_inputs (tp : XOR_Slice.t) :=
  (XOR_Slice.index tp, XOR_Slice.seedTP tp, params_of tp,
   XOR_Slice.xPercents tp, XOR_Slice.yParam tp,
   XOR_Slice.w1 tp, XOR_Slice.w1_lock tp, XOR_Slice.w2 tp, XOR_Slice.w2_lock tp).

(** ** Valid timelines

    The invariants of the data model: one length for all the arrays, a
    single average loss per step, turning points at strictly increasing
    positions inside the store, the first at 0, and one diff text and one
    final-loss text per turning point. *)
(** All arrays of a store have the length of [w1]. *)
Definition arrays_aligned (arr : XOR_array_model.t) : Prop :=
  length (XOR_array_model.xHits arr) = length (XOR_array_model.w1 arr)
  /\ length (XOR_array_model.z1 arr) = length (XOR_array_model.w1 arr)
  /\ length (XOR_array_model.a1 arr) = length (XOR_array_model.w1 arr)
  /\ length (XOR_array_model.w2 arr) = length (XOR_array_model.w1 arr)
  /\ length (XOR_array_model.z2 arr) = length (XOR_array_model.w1 arr)
  /\ length (XOR_array_model.y_aka_a2 arr) = length (XOR_array_model.w1 arr)
  /\ length (XOR_array_model.lossPerX arr) = length (XOR_array_model.w1 arr)
  /\ length (XOR_array_model.lossAvg arr) = length (XOR_array_model.w1 arr).

Record timeline_wf (m : XOR_model.t) : Prop := {
  wf_arrays : arrays_aligned (XOR_model.xor_array m);
  wf_lossAvg_shape :
    Forall (fun a => exists v, a = [[v]]) (XOR_array_model.lossAvg (XOR_model.xor_array m));
  wf_first : head (XOR_Slice.index <$> XOR_model.lstTurningPoints m) = Some 0%Z;
  wf_sorted : StronglySorted Z.lt (XOR_Slice.index <$> XOR_model.lstTurningPoints m);
  wf_bound : Forall (fun tp => (XOR_Slice.index tp < XOR_model.count m)%Z)
                    (XOR_model.lstTurningPoints m);
  wf_diffs : length (XOR_model.lstTurningPointsDiff m)
             = length (XOR_model.lstTurningPoints m);
  wf_losses : length (XOR_model.lst_TP_Final_Loss m)
              = length (XOR_model.lstTurningPoints m)
}.

(** "drop everything with position > ix": the first [n] steps of a store. *)
Definition store_take (n : nat) (arr : XOR_array_model.t) : XOR_array_model.t :=
  {| XOR_array_model.xHits := take n (XOR_array_model.xHits arr);
     XOR_array_model.w1 := take n (XOR_array_model.w1 arr);
     XOR_array_model.z1 := take n (XOR_array_model.z1 arr);
     XOR_array_model.a1 := take n (XOR_array_model.a1 arr);
     XOR_array_model.w2 := take n (XOR_array_model.w2 arr);
     XOR_array_model.z2 := take n (XOR_array_model.z2 arr);
     XOR_array_model.y_aka_a2 := take n (XOR_array_model.y_aka_a2 arr);
     XOR_array_model.lossPerX := take n (XOR_array_model.lossPerX arr);
     XOR_array_model.lossAvg := take n (XOR_array_model.lossAvg arr) |}.

(** "drop steps before ix; rebase hit counters by subtracting counts
    present at the new position 0": the steps from [n] on, each hit counter
    less the one of [h0] (as int32). *)
Definition store_drop (n : nat) (h0 : list Z) (arr : XOR_array_model.t)
  : XOR_array_model.t :=
  {| XOR_array_model.xHits :=
       map (fun row => zip_with (fun h c => wrap32 (h - c)) row h0)
           (drop n (XOR_array_model.xHits arr));
     XOR_array_model.w1 := drop n (XOR_array_model.w1 arr);
     XOR_array_model.z1 := drop n (XOR_array_model.z1 arr);
     XOR_array_model.a1 := drop n (XOR_array_model.a1 arr);
     XOR_array_model.w2 := drop n (XOR_array_model.w2 arr);
     XOR_array_model.z2 := drop n (XOR_array_model.z2 arr);
     XOR_array_model.y_aka_a2 := drop n (XOR_array_model.y_aka_a2 arr);
     XOR_array_model.lossPerX := drop n (XOR_array_model.lossPerX arr);
     XOR_array_model.lossAvg := drop n (XOR_array_model.lossAvg arr) |}.

(** "renumber retained indices by subtracting ix (new first forced to 0)":
    the retained turning points, [base] being the one in force at [ix] and
    [later] those beyond; the new first owns the steps up to the next
    turning point, or all [steps] of the store when it is alone. *)
Definition renumber (ix steps : Z) (base : XOR_Slice.t) (later : list XOR_Slice.t)
  : list XOR_Slice.t :=
  let later' := map (fun tp => XOR_Slice.set_index (XOR_Slice.index tp - ix)%Z tp) later in
  let epoch := match later' with
               | [] => steps
               | tp1 :: _ => XOR_Slice.index tp1
               end in
  XOR_Slice.set_epoch_size epoch (XOR_Slice.set_index 0 base) :: later'.

(** A timeline of 20 steps with turning points at 0, 5 and 12. *)
Module DemoTimeline.

Definition steps : list Z := Z.of_nat <$> seq 0 20.

Definition tp_at (ix epoch : Z) : XOR_Slice.t :=
  XOR_Slice.set_index ix (XOR_Slice.set_epoch_size epoch Demo.tp0).

Definition arrays : XOR_array_model.t :=
  {| XOR_array_model.xHits := (fun i => [i; 2 * i; 0; 3 * i]%Z) <$> steps;
     XOR_array_model.w1 :=
       (fun i => [[of_int i; of_int 1]; [of_int 2; of_int (- i)]; [0; of_int 1]]) <$> steps;
     XOR_array_model.z1 := (fun i => [[of_int i; 0]; [0; 0]; [0; 0]; [0; 0]]) <$> steps;
     XOR_array_model.a1 := (fun i => [[of_int i; 0]; [0; 0]; [0; 0]; [0; 0]]) <$> steps;
     XOR_array_model.w2 := (fun i => [[of_int (10 + i)]; [of_int 1]; [0]]) <$> steps;
     XOR_array_model.z2 := (fun i => [[of_int i]; [0]; [0]; [0]]) <$> steps;
     XOR_array_model.y_aka_a2 := (fun i => [[of_int i]; [0]; [0]; [0]]) <$> steps;
     XOR_array_model.lossPerX := (fun i => [[of_int i]; [0]; [0]; [0]]) <$> steps;
     XOR_array_model.lossAvg := (fun i => [[of_int (20 - i) / of_int 20]]) <$> steps |}.

Definition model : XOR_model.t :=
  {| XOR_model.modelName := "Model 1";
     XOR_model.lstTurningPoints := [tp_at 0 5; tp_at 5 7; tp_at 12 8];
     XOR_model.lstTurningPointsDiff :=
       [diff_None (tp_at 0 5); diff_None (tp_at 5 7); diff_None (tp_at 12 8)];
     XOR_model.lst_TP_Final_Loss := ["0.800"; "0.450"; "0.050"];
     XOR_model.crtSlice := tp_at 0 5;
     XOR_model.indexOfCrtBaseTP_in_lstTurningPoints := 0;
     XOR_model.maskParamLocks := 0;
     XOR_model.lastSavedFileInfo := None;
     XOR_model.xor_array := arrays |}.

End DemoTimeline.

(** ** Loading and saving: the statements' vocabulary *)

(** A JSON value that can be looked up in a dict: anything but a list or
    an object. *)
Definition hashable (v : json) : bool :=
  match v with
  | JList _ | JDict _ => false
  | _ => true
  end.

(** The value [json_object.get(key, "")] reads. *)
Definition name_read (found : option json) : json := default (JStr "") found.

(** "registered for that role": a string that is a key of the role table. *)
Definition registered {V} (table : list (string * V)) (found : option json) : bool :=
  match name_read found with
  | JStr s => dict_in table s
  | _ => false
  end.

(** "the first registered entry of the relevant role table" *)
Definition first_registered {V} (table : list (string * V)) : string :=
  default ""%string (head (dict_keys table)).

(** "the field falls back to the first registered entry": the name a role
    ends with. *)
Definition spec_name {V} (table : list (string * V)) (found : option json) : string :=
  if registered table found then
    match name_read found with
    | JStr s => s
    | _ => ""%string
    end
  else first_registered table.

(** "and a warning is logged" *)
Definition spec_warning {V} (role : FunctionType.t) (table : list (string * V))
    (found : option json) : list Warning :=
  if registered table found then []
  else [Warning_not_defined role (name_read found) (first_registered table)].

(** No file is written by a list of effects. *)
Definition writes_no_file (effects : list Effect) : bool :=
  forallb (fun e => match e with
                    | WriteFile _ _ => false
                    | _ => true
                    end) effects.

(** A saved turning point with unregistered names, stand-ins for the
    parsers, and a window whose user answers the dialog with a long name. *)
Module DemoFiles.

Definition int_of_str (s : string) : option Z := None.
Definition float_of_str (s : string) : option float := None.

(** The scalars of a list of numbers or of a list of such lists. *)
Definition scalars (v : json) : list json :=
  match v with
  | JList l => concat (map (fun x => match x with
                                     | JList r => r
                                     | _ => [x]
                                     end) l)
  | _ => [v]
  end.

Definition np_asarray_int (v : json) : option (list Z) :=
  mapM (fun x => match x with
                 | JInt z => Some z
                 | JBool b => Some (Z.b2z b)
                 | JFloat q => Some (astype_int q)
                 | _ => None
                 end) (scalars v).

Definition np_asarray_float (v : json) : option (list float) :=
  mapM (fun x => match x with
                 | JInt z => Some (of_int z)
                 | JBool b => Some (of_int (Z.b2z b))
                 | JFloat q => Some q
                 | _ => None
                 end) (scalars v).

Definition json_object : gmap string json :=
  list_to_map
    [ ("index", JInt 0); ("seedTP", JInt 3); ("batch_size", JInt 2);
      ("epoch_size", JInt 5); ("cyclesPerOneStepFwdOfEpoch", JInt 1);
      ("learning_rate", JFloat (of_int 1 / of_int 2));
      ("minRange", JInt (-1)); ("maxRange", JInt 2);
      ("yParam", JList [JList [JInt 0]; JList [JInt 1]; JList [JInt 1]; JList [JInt 0]]);
      ("xPercents", JList [JInt 25; JInt 25; JInt 25; JInt 25]);
      ("w1", JList [JList [JInt 1; JFloat (of_int 1 / of_int 2)];
                    JList [JInt 0; JInt 1]; JList [JInt (-1); JInt 0]]);
      ("w1_lock", JList [JList [JInt 1; JInt 0]; JList [JInt 0; JInt 0];
                         JList [JInt 0; JInt 1]]);
      ("activation1", JStr "swish");
      ("w2", JList [JList [JInt 1]; JList [JInt 0]; JList [JInt 1]]);
      ("w2_lock", JList [JList [JInt 0]; JList [JInt 1]; JList [JInt 0]]);
      ("activation2", JStr "LeakyReLU");
      ("loss", JNull) ]%string.

Definition completeBaseName (path : string) : string := path.
Definition absolutePath (path : string) : string := "/models".
Definition absoluteFilePath (path : string) : string := path.
Definition long_name : string :=
  "a-model-name-that-is-considerably-longer-than-fifty-characters".
Definition getSaveFileName (proposed : string) : string := long_name.
Definition write_json (path : string) (lstTP : list XOR_Slice.t) : string := "".

Definition window : MainWindow :=
  {| mXORmodel := DemoTimeline.model; _lastUsedDirectory := "/home" |}.

End DemoFiles.

(** ** The statements' vocabulary, continued *)

(** A matrix of [rows] rows of [cols] entries. *)
Definition has_shape {A} (rows cols : nat) (m : list (list A)) : Prop :=
  length m = rows /\ Forall (fun row => length row = cols) m.

(** The entry [m[r, c]], if there is one. *)
Definition entry {A} (m : list (list A)) (r c : nat) : option A := m !! r ≫= (.!! c).

(** A label of the truth table. *)
Definition label01 (y : Z) : Prop := y = 0%Z \/ y = 1%Z.

(** Hit counters as a filled segment holds them: one row of four int32
    counts per step, all zero at the first step. *)
Definition segment_hits (b : XOR_array_model.t) : Prop :=
  head (XOR_array_model.xHits b) = Some [0; 0; 0; 0]%Z
  /\ Forall (fun row => length row = 4%nat /\ Forall in_int32 row) (XOR_array_model.xHits b).

(** What NumPy promises of [choice([0, 1, 2, 3], size, p=p)]: [size]
    samples, each one of the four classes. *)
Definition choice_p_ok (G : Generator) : Prop :=
  forall (size : Z) (p : list float) (r : rng G),
    length (rng_choice_p G [0; 1; 2; 3]%nat size p r).1 = Z.to_nat size
    /\ Forall (fun h => (h < 4)%nat) (rng_choice_p G [0; 1; 2; 3]%nat size p r).1.

(** ** Persistence: [XOR_Slice.toJson] *)

(** [ndarray.tolist()] of a vector and of a matrix. *)
Definition tolist_int (v : list Z) : json := JList (map JInt v).
Definition tolist_int_matrix (m : int_matrix) : json := JList (map tolist_int m).
Definition tolist_float (v : list float) : json := JList (map JFloat v).
Definition tolist_float_matrix (m : matrix) : json := JList (map tolist_float m).

(** [XOR_Slice.toJson()]: the dict, filled key by key. *)
Definition toJson (self : XOR_Slice.t) : gmap string json :=
  let json_object : gmap string json := ∅ in
  let json_object := <["index"%string := JInt (XOR_Slice.index self)]> json_object in
  let json_object := <["seedTP"%string := JInt (XOR_Slice.seedTP self)]> json_object in
  let json_object := <["batch_size"%string := JInt (XOR_Slice.batch_size self)]> json_object in
  let json_object := <["epoch_size"%string := JInt (XOR_Slice.epoch_size self)]> json_object in
  let json_object :=
    <["cyclesPerOneStepFwdOfEpoch"%string :=
        JInt (XOR_Slice.cyclesPerOneStepFwdOfEpoch self)]> json_object in
  let json_object :=
    <["learning_rate"%string := JFloat (XOR_Slice.learning_rate self)]> json_object in
  let json_object := <["minRange"%string := JInt (XOR_Slice.minRange self)]> json_object in
  let json_object := <["maxRange"%string := JInt (XOR_Slice.maxRange self)]> json_object in
  let json_object :=
    <["yParam"%string := tolist_int_matrix (XOR_Slice.yParam self)]> json_object in
  let json_object :=
    <["xPercents"%string := tolist_int (XOR_Slice.xPercents self)]> json_object in
  let json_object := <["w1"%string := tolist_float_matrix (XOR_Slice.w1 self)]> json_object in
  let json_object :=
    <["w1_lock"%string := tolist_int_matrix (XOR_Slice.w1_lock self)]> json_object in
  let json_object :=
    <["activation1"%string := JStr (XOR_Slice.activation1 self)]> json_object in
  let json_object := <["w2"%string := tolist_float_matrix (XOR_Slice.w2 self)]> json_object in
  let json_object :=
    <["w2_lock"%string := tolist_int_matrix (XOR_Slice.w2_lock self)]> json_object in
  let json_object :=
    <["activation2"%string := JStr (XOR_Slice.activation2 self)]> json_object in
  let json_object := <["loss"%string := JStr (XOR_Slice.loss self)]> json_object in
  json_object.

(** The slice [fromJson] leaves when every key is read as [tp] holds it:
    the saved attributes of [tp], the others of [self]. *)
Definition restored (self tp : XOR_Slice.t) : XOR_Slice.t :=
  {| XOR_Slice.seedTP := XOR_Slice.seedTP tp; XOR_Slice.index := XOR_Slice.index tp;
     XOR_Slice.batch_size := XOR_Slice.batch_size tp;
     XOR_Slice.epoch_size := XOR_Slice.epoch_size tp;
     XOR_Slice.cyclesPerOneStepFwdOfEpoch := XOR_Slice.cyclesPerOneStepFwdOfEpoch tp;
     XOR_Slice.learning_rate := XOR_Slice.learning_rate tp;
     XOR_Slice.activation1 := XOR_Slice.activation1 tp;
     XOR_Slice.activation2 := XOR_Slice.activation2 tp;
     XOR_Slice.loss := XOR_Slice.loss tp;
     XOR_Slice.xPercents := XOR_Slice.xPercents tp; XOR_Slice.yParam := XOR_Slice.yParam tp;
     XOR_Slice.xHits := XOR_Slice.xHits self;
     XOR_Slice.minRange := XOR_Slice.minRange tp; XOR_Slice.maxRange := XOR_Slice.maxRange tp;
     XOR_Slice.w1 := XOR_Slice.w1 tp; XOR_Slice.w1_lock := XOR_Slice.w1_lock tp;
     XOR_Slice.z1 := XOR_Slice.z1 self; XOR_Slice.a1 := XOR_Slice.a1 self;
     XOR_Slice.w2 := XOR_Slice.w2 tp; XOR_Slice.w2_lock := XOR_Slice.w2_lock tp;
     XOR_Slice.z2 := XOR_Slice.z2 self; XOR_Slice.y_aka_a2 := XOR_Slice.y_aka_a2 self;
     XOR_Slice.lossAvg := XOR_Slice.lossAvg self;
     XOR_Slice.lossPerX := XOR_Slice.lossPerX self |}.

(** The keys [fromJson] reads with [json_object[key]]. *)
Definition required_keys : list string :=
  ["index"; "seedTP"; "batch_size"; "epoch_size"; "cyclesPerOneStepFwdOfEpoch";
   "learning_rate"; "minRange"; "maxRange"; "yParam"; "xPercents"; "w1"; "w1_lock";
   "w2"; "w2_lock"]%string.

(** The shapes the class gives the arrays of a turning point. *)
Definition class_shapes (tp : XOR_Slice.t) : Prop :=
  has_shape 4 1 (XOR_Slice.yParam tp)
  /\ length (XOR_Slice.xPercents tp) = 4%nat
  /\ has_shape 3 2 (XOR_Slice.w1 tp) /\ has_shape 3 2 (XOR_Slice.w1_lock tp)
  /\ has_shape 3 1 (XOR_Slice.w2 tp) /\ has_shape 3 1 (XOR_Slice.w2_lock tp).

(** The three function names of a turning point are keys of their tables. *)
Definition names_registered (tp : XOR_Slice.t) : Prop :=
  dict_in FunctionsListsByType.HiddenLayer (XOR_Slice.activation1 tp) = true
  /\ dict_in FunctionsListsByType.OutputLayer (XOR_Slice.activation2 tp) = true
  /\ dict_in FunctionsListsByType.LossFunction (XOR_Slice.loss tp) = true.

(** [np.asarray] reads the nested lists [tolist] wrote for [tp] back as
    their entries, row after row. *)
Definition asarray_reads (np_asarray_int : json -> option (list Z))
    (np_asarray_float : json -> option (list float)) (tp : XOR_Slice.t) : Prop :=
  np_asarray_int (tolist_int_matrix (XOR_Slice.yParam tp)) = Some (concat (XOR_Slice.yParam tp))
  /\ np_asarray_int (tolist_int (XOR_Slice.xPercents tp)) = Some (XOR_Slice.xPercents tp)
  /\ np_asarray_float (tolist_float_matrix (XOR_Slice.w1 tp)) = Some (concat (XOR_Slice.w1 tp))
  /\ np_asarray_int (tolist_int_matrix (XOR_Slice.w1_lock tp))
     = Some (concat (XOR_Slice.w1_lock tp))
  /\ np_asarray_float (tolist_float_matrix (XOR_Slice.w2 tp)) = Some (concat (XOR_Slice.w2 tp))
  /\ np_asarray_int (tolist_int_matrix (XOR_Slice.w2_lock tp))
     = Some (concat (XOR_Slice.w2_lock tp)).

(** ** The texts of a turning point ([XOR_Slice.diff]) *)

(** [round(x, 3)], and [ndarray.round(3)] on one entry, as the rounding of
    the exact value: what float64 makes of a value at a rounding boundary is
    not modelled. *)
Definition round3 (x : float) : float :=
  of_int (round_half_even (x * of_int 1000)) / of_int 1000.

(** [(a.round(3) != b.round(3)).any()] for two arrays of one shape: integer
    arrays are their own rounding. *)
Definition differ_int {A} `{EqDecision A} (a b : A) : bool := bool_decide (a <> b).
Definition differ_rows (a b : matrix) : bool :=
  bool_decide (mat_map round3 a <> mat_map round3 b).
Definition differ_row (a b : list float) : bool :=
  bool_decide (map round3 a <> map round3 b).

(** [sep.join(l)] *)
Fixpoint str_join (sep : string) (l : list string) : string :=
  match l with
  | [] => ""
  | [s] => s
  | s :: l' => s +:+ sep +:+ str_join sep l'
  end.

(** [XOR_Slice.diff(slice1, slice2)]: the header naming [slice1] and,
    against a [slice2], the list of what changed.  [None] is the IndexError
    of reading the bias row [w[2, :]] of a matrix of fewer than three
    rows. *)
Definition diff (slice1 : XOR_Slice.t) (slice2 : option XOR_Slice.t) : option string :=
  let strDiff := "<span style='color: #0000DD; text-decoration: underline;'> <b>"
                 +:+ getHTML_TP_equal_mark (XOR_Slice.index slice1)
                 +:+ "</b> </span> <br>" in
  lstDiff ←
    match slice2 with
    | None => Some []
    | Some slice2 =>
        b1 ← XOR_Slice.w1 slice1 !! 2%nat; b1' ← XOR_Slice.w1 slice2 !! 2%nat;
        l1 ← XOR_Slice.w1_lock slice1 !! 2%nat; l1' ← XOR_Slice.w1_lock slice2 !! 2%nat;
        b2 ← XOR_Slice.w2 slice1 !! 2%nat; b2' ← XOR_Slice.w2 slice2 !! 2%nat;
        l2 ← XOR_Slice.w2_lock slice1 !! 2%nat; l2' ← XOR_Slice.w2_lock slice2 !! 2%nat;
        Some
          ((if differ_int (XOR_Slice.xPercents slice1) (XOR_Slice.xPercents slice2)
            then ["· % distribution"] else [])
           ++ (if differ_int (XOR_Slice.yParam slice1) (XOR_Slice.yParam slice2)
               then ["· '=' yTrue"] else [])
           ++ (if differ_rows (take 2 (XOR_Slice.w1 slice1)) (take 2 (XOR_Slice.w1 slice2))
               then ["· W1 weights"] else [])
           ++ (if differ_int (take 2 (XOR_Slice.w1_lock slice1))
                             (take 2 (XOR_Slice.w1_lock slice2))
               then ["· W1 lock"] else [])
           ++ (if differ_row b1 b1' then ["· bias 1"] else [])
           ++ (if differ_int l1 l1' then ["· bias 1 lock"] else [])
           ++ (if differ_int (XOR_Slice.activation1 slice1) (XOR_Slice.activation1 slice2)
               then ["· Activation 1(hidden)"] else [])
           ++ (if differ_rows (take 2 (XOR_Slice.w2 slice1)) (take 2 (XOR_Slice.w2 slice2))
               then ["· W2 weights"] else [])
           ++ (if differ_int (take 2 (XOR_Slice.w2_lock slice1))
                             (take 2 (XOR_Slice.w2_lock slice2))
               then ["· W2 lock"] else [])
           ++ (if differ_row b2 b2' then ["· bias 2"] else [])
           ++ (if differ_int l2 l2' then ["· bias 2 lock"] else [])
           ++ (if differ_int (XOR_Slice.activation2 slice1) (XOR_Slice.activation2 slice2)
               then ["· Activation 2(output)"] else [])
           ++ (if differ_int (XOR_Slice.loss slice1) (XOR_Slice.loss slice2)
               then ["· Loss"] else [])
           ++ (if differ_int (XOR_Slice.batch_size slice1) (XOR_Slice.batch_size slice2)
               then ["· Batch size"] else [])
           ++ (if differ_int (XOR_Slice.epoch_size slice1) (XOR_Slice.epoch_size slice2)
               then ["· Epoch size"] else [])
           ++ (if differ_int (XOR_Slice.cyclesPerOneStepFwdOfEpoch slice1)
                             (XOR_Slice.cyclesPerOneStepFwdOfEpoch slice2)
               then ["· Cycles / Epoch"] else [])
           ++ (if differ_int (round3 (XOR_Slice.learning_rate slice1))
                             (round3 (XOR_Slice.learning_rate slice2))
               then ["· Learning Rate"] else [])
           ++ (if differ_int (XOR_Slice.minRange slice1) (XOR_Slice.minRange slice2)
                  || differ_int (XOR_Slice.maxRange slice1) (XOR_Slice.maxRange slice2)
               then ["· Clip values"] else []))
    end;
  Some (if bool_decide (0 < length lstDiff)%nat
        then strDiff +:+ "<span style='color: #800199; font-size: 10pt'> Changes: <br>"
             +:+ str_join "<br>" lstDiff +:+ "</span>" +:+ "<br> "
        else strDiff +:+ (match slice2 with
                          | Some _ => "· No changes <br>"
                          | None => ""
                          end)).

(** ** Filling the timeline ([XOR_model.fillModelFromTP]) *)

Section Filling.
(** [globalParameters.StayOnPosOnFillModel] is a setting of the
    application; the progress bar is not part of the model. *)
Context (np_exp np_log np_tanh : float -> float) (G : Generator)
        (getHTML_loss : float -> string) (format_0_3f : float -> string)
        (StayOnPosOnFillModel : bool).

(** [fillModelFromTP(newTP)]: what lies beyond [newTP.index] is deleted
    and the segment generated from [newTP] is appended.  [None] is the
    failed assertion, an IndexError on an empty list or array, or an
    exception of [deleteAfter], [fillModel] or [diff]. *)
Definition fillModelFromTP (self : XOR_model.t) (newTP : XOR_Slice.t)
  : option (XOR_model.t * list Signal) :=
  guard (XOR_Slice.index newTP <= XOR_array_model.count (XOR_model.xor_array self))%Z;;
  '(rtps, rdiffs, rlosses) ←
     pop_after (XOR_Slice.index newTP) (reverse (XOR_model.lstTurningPoints self))
               (reverse (XOR_model.lstTurningPointsDiff self))
               (reverse (XOR_model.lst_TP_Final_Loss self));
  let tps := reverse rtps in
  let diffs := reverse rdiffs in
  let losses := reverse rlosses in
  last_tp ← last tps;
  let bNewTP_is_In_list := bool_decide (XOR_Slice.index newTP = XOR_Slice.index last_tp) in
  '(arr, newTP, tps) ←
     (if negb bNewTP_is_In_list then
        '(arr, _) ← XOR_array_model.deleteAfter (XOR_model.xor_array self)
                                                (XOR_Slice.index newTP);
        let newTP := XOR_Slice.set_index (XOR_Slice.index newTP + 1)%Z newTP in
        tps ← update_last (fun tp => XOR_Slice.set_epoch_size
                                       (XOR_array_model.count arr - XOR_Slice.index tp)%Z tp)
                          tps;
        Some (arr, newTP, tps)
      else
        '(arr, _) ← XOR_array_model.deleteAfter (XOR_model.xor_array self)
                                                (XOR_Slice.index newTP - 1);
        Some (arr, newTP, removelast tps));
  newArray ← fillModel np_exp np_log np_tanh G newTP;
  let diffs := take (length tps) diffs in
  let losses := take (length tps) losses in
  strDiff ←
    match last tps with
    | Some lastTP =>
        vw1 ← py_index (XOR_array_model.w1 arr) (-1);
        vw2 ← py_index (XOR_array_model.w2 arr) (-1);
        diff newTP (Some (XOR_Slice.set_w2 vw2 (XOR_Slice.set_w1 vw1 lastTP)))
    | None => diff newTP None
    end;
  lossAvg_last ← py_index (XOR_array_model.lossAvg newArray) (-1);
  val_NewArrayLastLoss ← float_of_array lossAvg_last;
  let strDiff := strDiff +:+ getHTML_loss val_NewArrayLastLoss in
  let arr := XOR_array_model.append arr newArray in
  let diffs := diffs ++ [strDiff] in
  let tps := tps ++ [newTP] in
  let losses := losses ++ [format_0_3f val_NewArrayLastLoss] in
  let ix := if StayOnPosOnFillModel then XOR_Slice.index newTP
            else (XOR_array_model.count arr - 1)%Z in
  self' ← setPos (with_history self tps diffs losses arr) ix;
  Some (self', [sigModelChanged ix]).

End Filling.

(** ** Invariants of a filled segment *)

(** Stored weights [W] of a segment that started from [W0]: the shape of
    the layer, every entry inside the clip range, every locked entry as in
    [W0]. *)
Definition weights_kept (rows cols : nat) (lo hi : Z) (lock : int_matrix) (W0 W : matrix)
  : Prop :=
  has_shape rows cols W
  /\ (forall r c v, entry W r c = Some v -> of_int lo <= v /\ v <= of_int hi)
  /\ (forall r c, entry lock r c = Some 1%Z -> entry W r c = entry W0 r c).

(** Four hit counters that are not negative and add up to [n]. *)
Definition hits_total (h : list Z) (n : Z) : Prop :=
  length h = 4%nat /\ Forall (fun v => (0 <= v)%Z) h /\ py_sum h = n.

(** ** Timelines whose arrays have the shapes of the class *)

(** Every turning point has the class's shapes and every stored weight
    matrix the shape of its layer. *)
Definition timeline_shapes (m : XOR_model.t) : Prop :=
  Forall class_shapes (XOR_model.lstTurningPoints m)
  /\ Forall (has_shape 3 2) (XOR_array_model.w1 (XOR_model.xor_array m))
  /\ Forall (has_shape 3 1) (XOR_array_model.w2 (XOR_model.xor_array m)).

(** A turning point a segment can be generated from. *)
Definition fillable (tp : XOR_Slice.t) : Prop :=
  (0 < XOR_Slice.epoch_size tp)%Z /\ names_registered tp /\ class_shapes tp.

(** The parameters [XOR_Slice.diff] compares are equal: every one but the
    seed, the index, the hits and the evaluation. *)
Definition compared_equal (a b : XOR_Slice.t) : Prop :=
  XOR_Slice.xPercents a = XOR_Slice.xPercents b
  /\ XOR_Slice.yParam a = XOR_Slice.yParam b
  /\ XOR_Slice.w1 a = XOR_Slice.w1 b
  /\ XOR_Slice.w1_lock a = XOR_Slice.w1_lock b
  /\ XOR_Slice.w2 a = XOR_Slice.w2 b
  /\ XOR_Slice.w2_lock a = XOR_Slice.w2_lock b
  /\ XOR_Slice.activation1 a = XOR_Slice.activation1 b
  /\ XOR_Slice.activation2 a = XOR_Slice.activation2 b
  /\ XOR_Slice.loss a = XOR_Slice.loss b
  /\ XOR_Slice.batch_size a = XOR_Slice.batch_size b
  /\ XOR_Slice.epoch_size a = XOR_Slice.epoch_size b
  /\ XOR_Slice.cyclesPerOneStepFwdOfEpoch a = XOR_Slice.cyclesPerOneStepFwdOfEpoch b
  /\ XOR_Slice.learning_rate a = XOR_Slice.learning_rate b
  /\ XOR_Slice.minRange a = XOR_Slice.minRange b
  /\ XOR_Slice.maxRange a = XOR_Slice.maxRange b.

(** Those of them that are integers or names are equal. *)
Definition discrete_equal (a b : XOR_Slice.t) : Prop :=
  XOR_Slice.xPercents a = XOR_Slice.xPercents b
  /\ XOR_Slice.yParam a = XOR_Slice.yParam b
  /\ XOR_Slice.w1_lock a = XOR_Slice.w1_lock b
  /\ XOR_Slice.w2_lock a = XOR_Slice.w2_lock b
  /\ XOR_Slice.activation1 a = XOR_Slice.activation1 b
  /\ XOR_Slice.activation2 a = XOR_Slice.activation2 b
  /\ XOR_Slice.loss a = XOR_Slice.loss b
  /\ XOR_Slice.batch_size a = XOR_Slice.batch_size b
  /\ XOR_Slice.epoch_size a = XOR_Slice.epoch_size b
  /\ XOR_Slice.cyclesPerOneStepFwdOfEpoch a = XOR_Slice.cyclesPerOneStepFwdOfEpoch b
  /\ XOR_Slice.minRange a = XOR_Slice.minRange b
  /\ XOR_Slice.maxRange a = XOR_Slice.maxRange b.

(** ** A new model ([XOR_model.__init__]) *)

(** [XOR_array_model()]: one step of zeros. *)
Definition XOR_array_model_init : XOR_array_model.t :=
  {| XOR_array_model.xHits := [[0; 0; 0; 0]%Z];
     XOR_array_model.w1 := [[[0; 0]; [0; 0]; [0; 0]]];
     XOR_array_model.z1 := [[[0; 0]; [0; 0]; [0; 0]; [0; 0]]];
     XOR_array_model.a1 := [[[0; 0]; [0; 0]; [0; 0]; [0; 0]]];
     XOR_array_model.w2 := [[[0]; [0]; [0]]];
     XOR_array_model.z2 := [[[0]; [0]; [0]; [0]]];
     XOR_array_model.y_aka_a2 := [[[0]; [0]; [0]; [0]]];
     XOR_array_model.lossPerX := [[[0]; [0]; [0]; [0]]];
     XOR_array_model.lossAvg := [[[0]]] |}.

Section NewModel.
Context (np_exp np_log np_tanh : float -> float) (G : Generator)
        (getHTML_loss : float -> string) (format_0_3f : float -> string)
        (StayOnPosOnFillModel : bool).

(** [XOR_model(arg)] for a slice [arg] (an integer [arg] is first made a
    slice by [XOR_Slice(arg)]): the slice, with index 0, is the only turning
    point of a model that holds the one step of zeros of [XOR_array_model()],
    one empty text and no loss; [fillModelFromTP] then generates the
    timeline.  The current slice is the [XOR_Slice(-1)] of [TPModel()] until
    [setPos] fills it. *)
Definition XOR_model_init (arg : XOR_Slice.t) : option (XOR_model.t * list Signal) :=
  let seedTP := XOR_Slice.set_index 0 arg in
  let self :=
    {| XOR_model.modelName := "Model 1";
       XOR_model.lstTurningPoints := [seedTP];
       XOR_model.lstTurningPointsDiff := [""%string];
       XOR_model.lst_TP_Final_Loss := [];
       XOR_model.crtSlice := XOR_Slice_invalid;
       XOR_model.indexOfCrtBaseTP_in_lstTurningPoints := 0;
       XOR_model.maskParamLocks := 0;
       XOR_model.lastSavedFileInfo := None;
       XOR_model.xor_array := XOR_array_model_init |} in
  fillModelFromTP np_exp np_log np_tanh G getHTML_loss format_0_3f StayOnPosOnFillModel
                  self seedTP.

End NewModel.

(** ** Loading ([XOR_model.LoadFromJson]) *)

Definition XOR_JSON_MODEL : string := "1.0".
Definition XOR_JSON_SUPPORTED_MODELS : list string := [XOR_JSON_MODEL].

(** [json_xor_version in XOR_JSON_SUPPORTED_MODELS] for the value of
    [jsonObject.get("version", None)]: only a string equals a string. *)
Definition version_supported (json_xor_version : option json) : bool :=
  match json_xor_version with
  | Some (JStr s) => bool_decide (s ∈ XOR_JSON_SUPPORTED_MODELS)
  | _ => false
  end.

(** [for item in v]: the items of a list, the keys of a dict, the
    characters of a string; [None] is the TypeError of a value that is not
    iterable. *)
Definition py_iter (v : json) : option (list json) :=
  match v with
  | JList l => Some l
  | JDict d => Some (JStr <$> d.*1)
  | JStr s => Some ((fun c => JStr (String c EmptyString)) <$> String.list_ascii_of_string s)
  | _ => None
  end.

(** The dict of a JSON object, whose keys are distinct; [None] is the
    TypeError of [json_object["index"]] on anything else. *)
Definition dict_of (v : json) : option (gmap string json) :=
  match v with
  | JDict d => Some (list_to_map d)
  | _ => None
  end.

Section Loading.
Context (int_of_str : string -> option Z) (float_of_str : string -> option float)
        (np_asarray_int : json -> option (list Z))
        (np_asarray_float : json -> option (list float)).
Context (np_exp np_log np_tanh : float -> float) (G : Generator)
        (getHTML_loss : float -> string) (format_0_3f : float -> string)
        (StayOnPosOnFillModel : bool).

(** [tp = XOR_Slice(-1); tp.fromJson(TP_Json_item)]: the turning point read
    from one item of the list; the warnings are only printed. *)
Definition read_TP (TP_Json_item : json) : option XOR_Slice.t :=
  json_object ← dict_of TP_Json_item;
  '(tp, _) ← fromJson int_of_str float_of_str np_asarray_int np_asarray_float
                      XOR_Slice_invalid json_object;
  Some tp.

(** The loop over the turning points read: each one but a first at index 0
    is handed to [fillModelFromTP] with its index less one, which
    [fillModelFromTP] adds again. *)
Fixpoint load_TPs (newXORmodel : XOR_model.t) (lstTP : list XOR_Slice.t)
  : option XOR_model.t :=
  match lstTP with
  | [] => Some newXORmodel
  | tp :: lstTP' =>
      let tp := if bool_decide (0 < XOR_Slice.index tp)%Z
                then XOR_Slice.set_index (XOR_Slice.index tp - 1)%Z tp else tp in
      '(newXORmodel, _) ←
         fillModelFromTP np_exp np_log np_tanh G getHTML_loss format_0_3f
                         StayOnPosOnFillModel newXORmodel tp;
      load_TPs newXORmodel lstTP'
  end.

(** [XOR_model.LoadFromJson(jsonFile)] on [jsonObject], what [json.load]
    read from the file: [None] is the exception raised for an error of any
    kind.  The signals of the new model, which nothing listens to yet, and
    the progress bars are left out. *)
Definition LoadFromJson (jsonObject : json) : option XOR_model.t :=
  match jsonObject with
  | JDict d =>
      let json_xor_version := dict_get d "version" in
      if negb (version_supported json_xor_version) then None
      else
        lst_TP_json ← dict_get d "TP list";
        items ← py_iter lst_TP_json;
        lstTP ← mapM read_TP items;
        '(newXORmodel, _) ← XOR_model_init np_exp np_log np_tanh G getHTML_loss format_0_3f
                                           StayOnPosOnFillModel XOR_Slice_invalid;
        load_TPs newXORmodel lstTP
  | _ => None
  end.

End Loading.

(** Turning points as a saved timeline has them: the first at index 0,
    each next one at least two steps after the one before and no later than
    the step after its last one. *)
Fixpoint follow_on (prev : XOR_Slice.t) (lstTP : list XOR_Slice.t) : Prop :=
  match lstTP with
  | [] => True
  | tp :: lstTP' =>
      (XOR_Slice.index prev + 2 <= XOR_Slice.index tp
       <= XOR_Slice.index prev + XOR_Slice.epoch_size prev)%Z
      /\ follow_on tp lstTP'
  end.

(** A saved model of two turning points, at 0 and at 3, and the turning
    points read from it. *)
Module DemoLoad.

Definition TP_Json_item (index epoch_size : Z) : json :=
  JDict
    [ ("index", JInt index); ("seedTP", JInt 3); ("batch_size", JInt 2);
      ("epoch_size", JInt epoch_size); ("cyclesPerOneStepFwdOfEpoch", JInt 2);
      ("learning_rate", JFloat (of_int 1 / of_int 10));
      ("minRange", JInt (-1)); ("maxRange", JInt 2);
      ("yParam", JList [JList [JInt 0]; JList [JInt 1]; JList [JInt 1]; JList [JInt 0]]);
      ("xPercents", JList [JInt 25; JInt 25; JInt 25; JInt 25]);
      ("w1", JList [JList [JInt 1; JInt (-3)]; JList [JInt 5; JInt 1]; JList [JInt 0; JInt 1]]);
      ("w1_lock", JList [JList [JInt 1; JInt 0]; JList [JInt 0; JInt 0];
                         JList [JInt 0; JInt 1]]);
      ("activation1", JStr "LeakyReLU");
      ("w2", JList [JList [JInt 1]; JList [JInt (-1)]; JList [JInt 0]]);
      ("w2_lock", JList [JList [JInt 0]; JList [JInt 1]; JList [JInt 0]]);
      ("activation2", JStr "linear");
      ("loss", JStr "Hinge_Loss") ]%string.

Definition jsonObject : json :=
  JDict [ ("version", JStr "1.0");
          ("TP list", JList [TP_Json_item 0 3; TP_Json_item 3 2]) ]%string.

Definition tp (index epoch_size : Z) : XOR_Slice.t :=
  restored XOR_Slice_invalid (DemoTimeline.tp_at index epoch_size).

End DemoLoad.

(** ** A copy of a model ([XOR_model.clone]) *)

Section Cloning.
Context (np_exp np_log np_tanh : float -> float) (G : Generator)
        (getHTML_loss : float -> string) (format_0_3f : float -> string)
        (StayOnPosOnFillModel : bool).

(** [XOR_model.clone()]: a new model is made from the first turning point
    with an epoch of one step, then takes the arrays, the lists, the lock
    mask and the file of [self], and is shown at position 0.  [None] is the
    IndexError of an empty list of turning points or an exception of the
    construction or of [setPos]. *)
Definition XOR_model_clone (self : XOR_model.t) : option XOR_model.t :=
  tp0 ← head (XOR_model.lstTurningPoints self);
  let baseTP := XOR_Slice.set_epoch_size 1 tp0 in
  '(new_model, _) ← XOR_model_init np_exp np_log np_tanh G getHTML_loss format_0_3f
                                   StayOnPosOnFillModel baseTP;
  let new_model :=
    {| XOR_model.modelName := XOR_model.modelName new_model;
       XOR_model.lstTurningPoints := XOR_model.lstTurningPoints self;
       XOR_model.lstTurningPointsDiff := XOR_model.lstTurningPointsDiff self;
       XOR_model.lst_TP_Final_Loss := XOR_model.lst_TP_Final_Loss self;
       XOR_model.crtSlice := XOR_model.crtSlice new_model;
       XOR_model.indexOfCrtBaseTP_in_lstTurningPoints :=
         XOR_model.indexOfCrtBaseTP_in_lstTurningPoints new_model;
       XOR_model.maskParamLocks := XOR_model.maskParamLocks self;
       XOR_model.lastSavedFileInfo :=
         match XOR_model.lastSavedFileInfo self with
         | Some fileInfo => Some fileInfo
         | None => XOR_model.lastSavedFileInfo new_model
         end;
       XOR_model.xor_array := XOR_model.xor_array self |} in
  setPos new_model 0.

End Cloning.

(** * Properties *)

(** Projections of explicit slices, with nothing else unfolded. *)
Ltac slice_proj :=
  cbn [XOR_Slice.seedTP XOR_Slice.index XOR_Slice.batch_size XOR_Slice.epoch_size
       XOR_Slice.cyclesPerOneStepFwdOfEpoch XOR_Slice.learning_rate
       XOR_Slice.activation1 XOR_Slice.activation2 XOR_Slice.loss
       XOR_Slice.xPercents XOR_Slice.yParam XOR_Slice.xHits
       XOR_Slice.minRange XOR_Slice.maxRange XOR_Slice.w1 XOR_Slice.w1_lock
       XOR_Slice.z1 XOR_Slice.a1 XOR_Slice.w2 XOR_Slice.w2_lock XOR_Slice.z2
       XOR_Slice.y_aka_a2 XOR_Slice.lossAvg XOR_Slice.lossPerX
       XOR_Slice.set_seedTP XOR_Slice.set_index XOR_Slice.set_batch_size
       XOR_Slice.set_epoch_size XOR_Slice.set_cyclesPerOneStepFwdOfEpoch
       XOR_Slice.set_learning_rate XOR_Slice.set_activation1 XOR_Slice.set_activation2
       XOR_Slice.set_loss XOR_Slice.set_xPercents XOR_Slice.set_yParam
       XOR_Slice.set_xHits XOR_Slice.set_minRange XOR_Slice.set_maxRange
       XOR_Slice.set_w1 XOR_Slice.set_w2 XOR_Slice.set_evaluation
       apply_draws params_of fst snd] in *.

(** ** Function library *)

Lemma Qclt_bool_decide_true (x y : Qc) : x < y -> bool_decide (x < y) = true.
Proof. intros H. by apply bool_decide_eq_true. Qed.

Lemma Qclt_bool_decide_false (x y : Qc) : y <= x -> bool_decide (x < y) = false.
Proof. intros H. apply bool_decide_eq_false. by apply Qcle_not_lt. Qed.

Lemma EPSILON_pos : 0 < EPSILON.
Proof. reflexivity. Qed.

Lemma EPSILON_lt_half : 0 + EPSILON < 1 - EPSILON.
Proof. reflexivity. Qed.

(** The array branch clips into [[EPSILON, 1 - EPSILON]]. *)
Lemma np_clip_bounds (v lo hi : Qc) :
  lo <= hi -> lo <= np_clip v lo hi /\ np_clip v lo hi <= hi.
Proof.
  intros Hlh. unfold np_clip, np_minimum, np_maximum.
  repeat case_bool_decide; split; try done;
    repeat match goal with
           | H : ¬ (_ < _) |- _ => apply Qcnot_lt_le in H
           end; eauto using Qclt_le_weak, Qcle_refl.
Qed.

(** The scalar branch, [min(a, max(a, 0 + EPSILON), 1 - EPSILON)], only
    bounds its argument from above: [a] itself is the first candidate of
    [min], so a value below [EPSILON] is returned as it is. *)
Lemma scalar_branch_is_upper_bound_only (a : Qc) :
  py_min3 a (py_max2 a (0 + EPSILON)) (1 - EPSILON) = np_minimum a (1 - EPSILON).
Proof.
  unfold py_min3, py_max2, np_minimum.
  destruct (bool_decide (a < 0 + EPSILON)) eqn:E1.
  - apply bool_decide_eq_true in E1.
    assert (E2 : bool_decide (0 + EPSILON < a) = false).
    { apply Qclt_bool_decide_false. by apply Qclt_le_weak. }
    rewrite E2. done.
  - assert (E2 : bool_decide (a < a) = false).
    { apply Qclt_bool_decide_false. apply Qcle_refl. }
    rewrite E2. done.
Qed.

(** C6 (defect): on a plain Python scalar the sigmoid derivative and the
    log cross-entropy loss do not clip from below.  At [a = 0] the scalar
    branch keeps 0, the derivative is [0 * (1 - 0) = 0] and the loss takes
    the logarithm of 0, while the array branch on the same value clips to
    [EPSILON] as the specification says. *)
Theorem C6_scalar_zero_is_not_clipped (np_log : float -> float) :
  eps_clip (PyScalar 0) = PyScalar 0
  /\ sigmoid_derivative (PyScalar 0) = PyScalar 0
  /\ LCE_Loss_init (PyScalar 0) = PyScalar 0
  /\ pyarg_map (fun a => LCE_value np_log a 1) (LCE_Loss_init (PyScalar 0))
     = PyScalar (- (of_int 1 * np_log 0 + of_int 0 * np_log (1 - 0)))
  /\ eps_clip (NdArray [[0]]) = NdArray [[EPSILON]]
  /\ sigmoid_derivative (NdArray [[0]]) = NdArray [[EPSILON * (1 - EPSILON)]].
Proof.
  repeat split; try reflexivity.
Qed.

(** ** Regeneration: the draws and the locks *)

Lemma feed_params_spec (G : Generator) (self : XOR_Slice.t) (locked : gset Z) (r : rng G) :
  feed_params G self locked r
  = (apply_draws locked (draw_params G r).1 self, (draw_params G r).2).
Proof.
  unfold feed_params, draw_params.
  repeat match goal with
         | |- context [rng_choice ?G ?d ?a ?r] => destruct (rng_choice G d a r)
         | |- context [rng_random ?G ?r] => destruct (rng_random G r)
         | |- context [rng_integers ?G ?a ?b ?e ?r] => destruct (rng_integers G a b e r)
         end.
  unfold apply_draws. rewrite !bool_decide_not. f_equal.
  destruct (bool_decide (ColumnsMap.batch_size ∈ locked)),
    (bool_decide (ColumnsMap.epoch_size ∈ locked)),
    (bool_decide (ColumnsMap.cyclesPerOneStepFwdOfEpoch ∈ locked)),
    (bool_decide (ColumnsMap.learning_rate ∈ locked)),
    (bool_decide (ColumnsMap.minRange ∈ locked)),
    (bool_decide (ColumnsMap.activation1 ∈ locked)),
    (bool_decide (ColumnsMap.activation2 ∈ locked)),
    (bool_decide (ColumnsMap.loss ∈ locked));
    destruct self; reflexivity.
Qed.

Lemma compute_z_a_loss_inv (np_exp np_log np_tanh : float -> float) (s s' : XOR_Slice.t) :
  compute_z_a_loss np_exp np_log np_tanh s = Some s' ->
  exists vz1 va1 vz2 va2 vlossPerX vlossAvg,
    s' = XOR_Slice.set_evaluation vz1 va1 vz2 va2 vlossPerX vlossAvg s.
Proof.
  unfold compute_z_a_loss. intros H.
  destruct (dict_get FunctionsListsByType.HiddenLayer _) as [act1|]; [|done].
  destruct (dict_get FunctionsListsByType.OutputLayer _) as [act2|]; [|done].
  destruct (dict_get FunctionsListsByType.LossFunction _) as [fl|]; [|done].
  cbn in H. injection H as <-. eauto 10.
Qed.

Lemma feed_weights_params (G : Generator) (s : XOR_Slice.t) (r : rng G) :
  params_of (feed_weights G s r).1 = params_of s
  /\ XOR_Slice.index (feed_weights G s r).1 = XOR_Slice.index s
  /\ XOR_Slice.seedTP (feed_weights G s r).1 = XOR_Slice.seedTP s
  /\ XOR_Slice.w1_lock (feed_weights G s r).1 = XOR_Slice.w1_lock s
  /\ XOR_Slice.w2_lock (feed_weights G s r).1 = XOR_Slice.w2_lock s.
Proof.
  unfold feed_weights. case_bool_decide.
  - destruct (rng_dirichlet G _ r) as [d r1]. cbn.
    destruct (rng_uniform G _ _ 3 2 r1) as [u1 r2]. cbn.
    destruct (rng_uniform G _ _ 3 1 r2) as [u2 r3]. done.
  - done.
Qed.

Lemma feedFromSeed_params (np_exp np_log np_tanh : float -> float) (G : Generator)
    (self tp' : XOR_Slice.t) (seed : Z) (locked : gset Z) :
  feedFromSeed np_exp np_log np_tanh G self seed locked = Some tp' ->
  params_of tp' = params_of (apply_draws locked (draw_params G (default_rng G seed)).1 self).
Proof.
  unfold feedFromSeed, feed_fields. intros H.
  apply compute_z_a_loss_inv in H as (? & ? & ? & ? & ? & ? & ->).
  rewrite feed_params_spec. cbn.
  pose proof (feed_weights_params G
                (apply_draws locked (draw_params G (default_rng G seed)).1
                             (XOR_Slice.set_seedTP seed self))
                (draw_params G (default_rng G seed)).2) as [Hp _].
  change (params_of (XOR_Slice.set_evaluation ?a ?b ?c ?d ?e ?f ?s)) with (params_of s).
  rewrite Hp. reflexivity.
Qed.

(** C2: in [feedFromSeed] the nine draws are consumed whatever is locked:
    the generator leaves the draws in the same state for every lock set and
    every prior slice.  Each drawn value is applied to its field exactly when
    that field is not locked, a locked field keeping its prior value (the
    clip minimum and maximum share the lock of the clip range). *)
Theorem C2_draws_consumed_applied_iff_unlocked
    (np_exp np_log np_tanh : float -> float) (G : Generator)
    (self other tp' : XOR_Slice.t) (seed : Z) (locked locked' : gset Z) :
  let r0 := default_rng G seed in
  let drawn := (draw_params G r0).1 in
  let pick (k : Z) {A} (prior new : A) := if bool_decide (k ∈ locked) then prior else new in
  (feed_params G self locked r0).2 = (feed_params G other locked' r0).2
  /\ (feed_params G self locked r0).2 = (draw_params G r0).2
  /\ (feedFromSeed np_exp np_log np_tanh G self seed locked = Some tp' ->
      XOR_Slice.batch_size tp'
        = pick ColumnsMap.batch_size (XOR_Slice.batch_size self) (p_batch_size drawn)
      /\ XOR_Slice.epoch_size tp'
        = pick ColumnsMap.epoch_size (XOR_Slice.epoch_size self) (p_epoch_size drawn)
      /\ XOR_Slice.cyclesPerOneStepFwdOfEpoch tp'
        = pick ColumnsMap.cyclesPerOneStepFwdOfEpoch
               (XOR_Slice.cyclesPerOneStepFwdOfEpoch self) (p_cycles drawn)
      /\ XOR_Slice.learning_rate tp'
        = pick ColumnsMap.learning_rate (XOR_Slice.learning_rate self) (p_learning_rate drawn)
      /\ XOR_Slice.minRange tp'
        = pick ColumnsMap.minRange (XOR_Slice.minRange self) (p_min drawn)
      /\ XOR_Slice.maxRange tp'
        = pick ColumnsMap.minRange (XOR_Slice.maxRange self) (p_max drawn)
      /\ XOR_Slice.activation1 tp'
        = pick ColumnsMap.activation1 (XOR_Slice.activation1 self) (p_activation1 drawn)
      /\ XOR_Slice.activation2 tp'
        = pick ColumnsMap.activation2 (XOR_Slice.activation2 self) (p_activation2 drawn)
      /\ XOR_Slice.loss tp'
        = pick ColumnsMap.loss (XOR_Slice.loss self) (p_loss drawn)).
Proof.
  intros r0 drawn pick. rewrite !feed_params_spec. cbn.
  split; [done|]. split; [done|].
  intros H. apply feedFromSeed_params in H.
  unfold params_of in H. cbn in H.
  injection H as -> -> -> -> -> -> -> -> ->. done.
Qed.

Lemma C2_witness :
  exists tp',
    feedFromSeed Demo.exp Demo.log Demo.tanh Demo.G Demo.tp0 7 {[ColumnsMap.batch_size]}
      = Some tp'
    /\ XOR_Slice.batch_size tp' = XOR_Slice.batch_size Demo.tp0
    /\ XOR_Slice.epoch_size tp'
       = p_epoch_size (draw_params Demo.G (default_rng Demo.G 7)).1.
Proof.
  destruct (feedFromSeed Demo.exp Demo.log Demo.tanh Demo.G Demo.tp0 7
              {[ColumnsMap.batch_size]}) as [tp'|] eqn:E;
    [|vm_compute in E; discriminate E].
  exists tp'. split; [reflexivity|].
  destruct (C2_draws_consumed_applied_iff_unlocked Demo.exp Demo.log Demo.tanh Demo.G
              Demo.tp0 Demo.tp0 tp' 7 {[ColumnsMap.batch_size]} ∅) as (_ & _ & H).
  destruct (H E) as (H1 & H2 & _).
  split; [exact H1 | exact H2].
Defined.

(** ** Percentages of a first slice *)

Lemma this_of_int (z : Z) : (this (of_int z) == inject_Z z)%Q.
Proof. unfold of_int. cbn. apply Qred_correct. Qed.

Lemma this_plus (x y : Qc) : (this (x + y) == this x + this y)%Q.
Proof. cbn. apply Qred_correct. Qed.

Lemma this_mult (x y : Qc) : (this (x * y) == this x * this y)%Q.
Proof. cbn. apply Qred_correct. Qed.

Lemma astype_int_floor (x : Qc) : 0 <= x -> astype_int x = Qfloor (this x).
Proof.
  intros H. unfold astype_int, Qfloor. destruct x as [[n d] c]. cbn in *.
  apply Z.quot_div_nonneg; [|lia].
  assert (H' : (0 <= n # d)%Q) by exact H.
  unfold Qle in H'. cbn in H'. lia.
Qed.

Lemma astype_int_nonneg (x : Qc) : 0 <= x -> (0 <= astype_int x)%Z.
Proof.
  intros H. rewrite astype_int_floor by done.
  change 0%Z with (Qfloor 0). apply Qfloor_resp_le. exact H.
Qed.

Lemma astype_int_le (x : Qc) : 0 <= x -> (inject_Z (astype_int x) <= this x)%Q.
Proof. intros H. rewrite astype_int_floor by done. apply Qfloor_le. Qed.

Lemma percent_bound (v : Qc) :
  0 <= v -> (inject_Z (astype_int (v * of_int 100)) <= 100 * this v)%Q.
Proof.
  intros H.
  assert (H100 : 0 <= v * of_int 100).
  { apply Qcmult_nonneg_nonneg; [done|]. done. }
  pose proof (astype_int_le _ H100) as Hle.
  rewrite this_mult, this_of_int in Hle. 
  change (inject_Z 100) with (100%Q) in Hle. lra.
Qed.

Lemma fsum4 (a b c d : Qc) : fsum [a; b; c; d] = a + b + c + d.
Proof. unfold fsum. cbn. by rewrite Qcplus_0_l. Qed.

Lemma percentages_of_simplex (d : list float) :
  simplex4 d ->
  exists d0 d1 d2 d3 p0 p1 p2 p3,
    d = [d0; d1; d2; d3]
    /\ set_last (100 - py_sum (take (length (map (fun v => astype_int (v * of_int 100)) d) - 1)
                                    (map (fun v => astype_int (v * of_int 100)) d)))%Z
                (map (fun v => astype_int (v * of_int 100)) d)
       = [p0; p1; p2; p3]
    /\ p0 = astype_int (d0 * of_int 100) /\ p1 = astype_int (d1 * of_int 100)
    /\ p2 = astype_int (d2 * of_int 100) /\ p3 = (100 - (p0 + p1 + p2))%Z
    /\ (0 <= p0)%Z /\ (0 <= p1)%Z /\ (0 <= p2)%Z /\ (0 <= p3)%Z
    /\ (astype_int (d3 * of_int 100) <= p3)%Z
    /\ (p0 + p1 + p2 + p3)%Z = 100%Z.
Proof.
  intros (Hlen & Hpos & Hsum).
  destruct d as [|d0 [|d1 [|d2 [|d3 [|]]]]]; try discriminate.
  apply Forall_cons in Hpos as [H0 Hpos]. apply Forall_cons in Hpos as [H1 Hpos].
  apply Forall_cons in Hpos as [H2 Hpos]. apply Forall_cons in Hpos as [H3 _].
  rewrite fsum4 in Hsum.
  exists d0, d1, d2, d3. eexists _, _, _, _.
  split; [done|]. split; [reflexivity|]. cbn [length map take Nat.sub].
  repeat (split; [reflexivity|]).
  unfold py_sum. cbn [foldl].
  pose proof (percent_bound d0 H0) as B0. pose proof (percent_bound d1 H1) as B1.
  pose proof (percent_bound d2 H2) as B2. pose proof (percent_bound d3 H3) as B3.
  assert (HsumQ : (this d0 + this d1 + this d2 + this d3 == 1)%Q).
  { rewrite <- !this_plus. rewrite Hsum. reflexivity. }
  assert (Q0 : (0 <= this d0)%Q) by exact H0. assert (Q1 : (0 <= this d1)%Q) by exact H1.
  assert (Q2 : (0 <= this d2)%Q) by exact H2. assert (Q3 : (0 <= this d3)%Q) by exact H3.
  set (p0 := astype_int (d0 * of_int 100)) in *.
  set (p1 := astype_int (d1 * of_int 100)) in *.
  set (p2 := astype_int (d2 * of_int 100)) in *.
  set (p3 := astype_int (d3 * of_int 100)) in *.
  assert (P0 : (0 <= p0)%Z) by (apply astype_int_nonneg, Qcmult_nonneg_nonneg; done).
  assert (P1 : (0 <= p1)%Z) by (apply astype_int_nonneg, Qcmult_nonneg_nonneg; done).
  assert (P2 : (0 <= p2)%Z) by (apply astype_int_nonneg, Qcmult_nonneg_nonneg; done).
  assert (Hle : (p0 + p1 + p2 + p3 <= 100)%Z).
  { rewrite Zle_Qle, !inject_Z_plus. change (inject_Z 100) with 100%Q. lra. }
  assert (P3 : (0 <= p3)%Z) by (apply astype_int_nonneg, Qcmult_nonneg_nonneg; done).
  repeat split; lia.
Qed.

(** C5: whatever the seed and the locks, the percentages regenerated for
    index 0 are four non-negative integers that sum to exactly 100; the
    first three are the truncated hundredths of the Dirichlet shares and the
    last one takes what remains, at least the truncation of its own share. *)
Theorem C5_index0_percentages_sum_to_100
    (np_exp np_log np_tanh : float -> float) (G : Generator)
    (self : XOR_Slice.t) (seed : Z) (locked : gset Z) :
  XOR_Slice.index self = 0%Z ->
  simplex4 (rng_dirichlet G [1; 1; 1; 1]%Z (draw_params G (default_rng G seed)).2).1 ->
  exists d0 d1 d2 d3 p0 p1 p2 p3,
    (rng_dirichlet G [1; 1; 1; 1]%Z (draw_params G (default_rng G seed)).2).1
      = [d0; d1; d2; d3]
    /\ XOR_Slice.xPercents (feed_fields G self seed locked) = [p0; p1; p2; p3]
    /\ (forall tp', feedFromSeed np_exp np_log np_tanh G self seed locked = Some tp' ->
                    XOR_Slice.xPercents tp' = [p0; p1; p2; p3])
    /\ p0 = astype_int (d0 * of_int 100) /\ p1 = astype_int (d1 * of_int 100)
    /\ p2 = astype_int (d2 * of_int 100) /\ p3 = (100 - (p0 + p1 + p2))%Z
    /\ (0 <= p0)%Z /\ (0 <= p1)%Z /\ (0 <= p2)%Z /\ (0 <= p3)%Z
    /\ (astype_int (d3 * of_int 100) <= p3)%Z
    /\ (p0 + p1 + p2 + p3)%Z = 100%Z.
Proof.
  intros Hix Hd.
  destruct (percentages_of_simplex _ Hd)
    as (d0 & d1 & d2 & d3 & p0 & p1 & p2 & p3 & Hdd & Hp & Hrest).
  exists d0, d1, d2, d3, p0, p1, p2, p3.
  split; [done|].
  assert (Hx : XOR_Slice.xPercents (feed_fields G self seed locked) = [p0; p1; p2; p3]).
  { unfold feed_fields. rewrite feed_params_spec. cbn.
    unfold feed_weights. cbn [XOR_Slice.index apply_draws XOR_Slice.set_seedTP].
    rewrite bool_decide_eq_true_2 by done.
    destruct (rng_dirichlet G _ _) as [d r1]. cbn in Hp, Hdd |- *. subst d.
    destruct (rng_uniform G _ _ 3 2 r1) as [u1 r2]. cbn.
    destruct (rng_uniform G _ _ 3 1 r2) as [u2 r3]. cbn. exact Hp. }
  split; [done|]. split; [|done].
  intros tp' H. unfold feedFromSeed in H.
  apply compute_z_a_loss_inv in H as (? & ? & ? & ? & ? & ? & ->). exact Hx.
Qed.

Lemma C5_witness :
  XOR_Slice.index Demo.tp0 = 0%Z
  /\ simplex4 (rng_dirichlet Demo.G [1; 1; 1; 1]%Z
                 (draw_params Demo.G (default_rng Demo.G 7)).2).1
  /\ exists p0 p1 p2 p3,
       XOR_Slice.xPercents (feed_fields Demo.G Demo.tp0 7 ∅) = [p0; p1; p2; p3]
       /\ (0 <= p0)%Z /\ (0 <= p1)%Z /\ (0 <= p2)%Z /\ (0 <= p3)%Z
       /\ (p0 + p1 + p2 + p3)%Z = 100%Z.
Proof.
  assert (H1 : XOR_Slice.index Demo.tp0 = 0%Z) by reflexivity.
  assert (H2 : simplex4 (rng_dirichlet Demo.G [1; 1; 1; 1]%Z
                           (draw_params Demo.G (default_rng Demo.G 7)).2).1).
  { unfold simplex4. apply (bool_decide_unpack _). vm_compute. exact I. }
  split; [exact H1|]. split; [exact H2|].
  destruct (C5_index0_percentages_sum_to_100 Demo.exp Demo.log Demo.tanh Demo.G
              Demo.tp0 7 ∅ H1 H2)
    as (d0 & d1 & d2 & d3 & p0 & p1 & p2 & p3 & _ & Hx & _ & _ & _ & _ & _ & P0 & P1 & P2 & P3 & _ & Hs).
  exists p0, p1, p2, p3. repeat split; assumption.
Defined.

(** ** Locking one field *)

(** What [feed_weights] produces depends on the slice only through its
    index, clip range, weights, lock masks, percentages, labels and hits. *)
Lemma feed_weights_ext (G : Generator) (s s' : XOR_Slice.t) (r : rng G) :
  XOR_Slice.index s = XOR_Slice.index s' ->
  XOR_Slice.minRange s = XOR_Slice.minRange s' ->
  XOR_Slice.maxRange s = XOR_Slice.maxRange s' ->
  XOR_Slice.w1 s = XOR_Slice.w1 s' -> XOR_Slice.w1_lock s = XOR_Slice.w1_lock s' ->
  XOR_Slice.w2 s = XOR_Slice.w2 s' -> XOR_Slice.w2_lock s = XOR_Slice.w2_lock s' ->
  XOR_Slice.w1 (feed_weights G s r).1 = XOR_Slice.w1 (feed_weights G s' r).1
  /\ XOR_Slice.w2 (feed_weights G s r).1 = XOR_Slice.w2 (feed_weights G s' r).1.
Proof.
  intros Hi Hmin Hmax Hw1 Hl1 Hw2 Hl2. unfold feed_weights. rewrite <- Hi.
  case_bool_decide.
  - destruct (rng_dirichlet G _ r) as [d r1]. cbn. rewrite <- Hmin, <- Hmax.
    destruct (rng_uniform G _ _ 3 2 r1) as [u1 r2]. cbn.
    destruct (rng_uniform G _ _ 3 1 r2) as [u2 r3]. cbn.
    by rewrite Hw1, Hl1, Hw2, Hl2.
  - cbn. by rewrite Hw1, Hw2, Hmin, Hmax.
Qed.

(** The percentages, labels and hits do not depend on the clip range. *)
Lemma feed_weights_percents (G : Generator) (s s' : XOR_Slice.t) (r : rng G) :
  XOR_Slice.index s = XOR_Slice.index s' ->
  XOR_Slice.xPercents s = XOR_Slice.xPercents s' ->
  XOR_Slice.yParam s = XOR_Slice.yParam s' ->
  XOR_Slice.xHits s = XOR_Slice.xHits s' ->
  XOR_Slice.xPercents (feed_weights G s r).1 = XOR_Slice.xPercents (feed_weights G s' r).1
  /\ XOR_Slice.yParam (feed_weights G s r).1 = XOR_Slice.yParam (feed_weights G s' r).1
  /\ XOR_Slice.xHits (feed_weights G s r).1 = XOR_Slice.xHits (feed_weights G s' r).1.
Proof.
  intros Hi Hp Hy Hh. unfold feed_weights. rewrite <- Hi.
  case_bool_decide.
  - destruct (rng_dirichlet G _ r) as [d r1]. cbn.
    destruct (rng_uniform G _ _ 3 2 r1) as [u1 r2]. cbn.
    destruct (rng_uniform G _ _ 3 2 r1) as [u1' r2']. cbn.
    destruct (rng_uniform G _ _ 3 1 r2) as [u2 r3].
    destruct (rng_uniform G _ _ 3 1 r2') as [u2' r3']. done.
  - done.
Qed.

Lemma feedFromSeed_fields (np_exp np_log np_tanh : float -> float) (G : Generator)
    (self tp' : XOR_Slice.t) (seed : Z) (locked : gset Z) :
  feedFromSeed np_exp np_log np_tanh G self seed locked = Some tp' ->
  let f := feed_fields G self seed locked in
  params_of tp' = params_of f
  /\ XOR_Slice.index tp' = XOR_Slice.index f /\ XOR_Slice.seedTP tp' = XOR_Slice.seedTP f
  /\ XOR_Slice.xPercents tp' = XOR_Slice.xPercents f
  /\ XOR_Slice.yParam tp' = XOR_Slice.yParam f /\ XOR_Slice.xHits tp' = XOR_Slice.xHits f
  /\ XOR_Slice.w1 tp' = XOR_Slice.w1 f /\ XOR_Slice.w1_lock tp' = XOR_Slice.w1_lock f
  /\ XOR_Slice.w2 tp' = XOR_Slice.w2 f /\ XOR_Slice.w2_lock tp' = XOR_Slice.w2_lock f.
Proof.
  unfold feedFromSeed. intros H.
  apply compute_z_a_loss_inv in H as (? & ? & ? & ? & ? & ? & ->). done.
Qed.

Lemma singleton_lock (k F : Z) : bool_decide (k ∈ ({[F]} : gset Z)) = bool_decide (k = F).
Proof. apply bool_decide_ext. set_solver. Qed.

Lemma empty_lock_of (k : Z) (L : gset Z) : L = ∅ -> bool_decide (k ∈ L) = false.
Proof. intros ->. apply bool_decide_eq_false. set_solver. Qed.

Ltac empty_lock := rewrite ?(empty_lock_of _ ∅ eq_refl) in *.

(** C3, as stated, fails when the locked field is the clip range: the
    weights of a first slice are drawn inside the range the slice then has,
    so keeping the prior range changes every unlocked weight.  Here the prior
    range of [Demo.tp0] is [[-1, 2]] and seed 7 draws [[-20, -18]]; the entry
    [w1[0, 1]] is unlocked and differs between the two runs. *)
Lemma C3_clip_lock_changes_unlocked_weights :
  exists a b,
    feedFromSeed Demo.exp Demo.log Demo.tanh Demo.G Demo.tp0 7 {[ColumnsMap.minRange]} = Some a
    /\ feedFromSeed Demo.exp Demo.log Demo.tanh Demo.G Demo.tp0 7 ∅ = Some b
    /\ XOR_Slice.w1_lock Demo.tp0 !! 0%nat ≫= (.!! 1%nat) = Some 0%Z
    /\ XOR_Slice.w1 a !! 0%nat ≫= (.!! 1%nat) ≠ XOR_Slice.w1 b !! 0%nat ≫= (.!! 1%nat).
Proof.
  eexists _, _.
  split; [vm_compute; reflexivity|]. split; [vm_compute; reflexivity|].
  split; [reflexivity|].
  vm_compute. intros H. discriminate H.
Qed.

(** C3 (amended): with one field [F] locked, every other parameter, the
    percentages, labels and hits are those of the unlocked run, and [F]
    keeps its prior value; the regenerated weights are those of the
    unlocked run as well unless [F] is the clip range. *)
Theorem C3_locking_one_field (np_exp np_log np_tanh : float -> float) (G : Generator)
    (self a b : XOR_Slice.t) (seed F : Z) :
  feedFromSeed np_exp np_log np_tanh G self seed {[F]} = Some a ->
  feedFromSeed np_exp np_log np_tanh G self seed ∅ = Some b ->
  let other {A} (k : Z) (f : XOR_Slice.t -> A) :=
    if bool_decide (k = F) then f a = f self else f a = f b in
  other ColumnsMap.batch_size XOR_Slice.batch_size
  /\ other ColumnsMap.epoch_size XOR_Slice.epoch_size
  /\ other ColumnsMap.cyclesPerOneStepFwdOfEpoch XOR_Slice.cyclesPerOneStepFwdOfEpoch
  /\ other ColumnsMap.learning_rate XOR_Slice.learning_rate
  /\ other ColumnsMap.minRange XOR_Slice.minRange
  /\ other ColumnsMap.minRange XOR_Slice.maxRange
  /\ other ColumnsMap.activation1 XOR_Slice.activation1
  /\ other ColumnsMap.activation2 XOR_Slice.activation2
  /\ other ColumnsMap.loss XOR_Slice.loss
  /\ XOR_Slice.xPercents a = XOR_Slice.xPercents b
  /\ XOR_Slice.yParam a = XOR_Slice.yParam b
  /\ XOR_Slice.xHits a = XOR_Slice.xHits b
  /\ (F ≠ ColumnsMap.minRange ->
      XOR_Slice.w1 a = XOR_Slice.w1 b /\ XOR_Slice.w2 a = XOR_Slice.w2 b).
Proof.
  intros Ha Hb other.
  apply feedFromSeed_fields in Ha as (Pa & _ & _ & Xa & Ya & Ha & W1a & _ & W2a & _).
  apply feedFromSeed_fields in Hb as (Pb & _ & _ & Xb & Yb & Hb & W1b & _ & W2b & _).
  rewrite Xa, Xb, Ya, Yb, Ha, Hb, W1a, W1b, W2a, W2b.
  unfold feed_fields in *. rewrite !feed_params_spec in *.
  set (d := (draw_params G (default_rng G (XOR_Slice.seedTP (XOR_Slice.set_seedTP seed self)))).1)
    in *.
  set (r := (draw_params G (default_rng G (XOR_Slice.seedTP (XOR_Slice.set_seedTP seed self)))).2)
    in *.
  cbn [fst snd] in *.
  destruct (feed_weights_params G (apply_draws {[F]} d (XOR_Slice.set_seedTP seed self)) r)
    as [Pa' _].
  destruct (feed_weights_params G (apply_draws ∅ d (XOR_Slice.set_seedTP seed self)) r)
    as [Pb' _].
  rewrite Pa' in Pa. rewrite Pb' in Pb.
  unfold params_of, apply_draws in Pa, Pb. slice_proj.
  rewrite !singleton_lock in Pa. empty_lock.
  injection Pa as A1 A2 A3 A4 A5 A6 A7 A8 A9.
  injection Pb as B1 B2 B3 B4 B5 B6 B7 B8 B9.
  unfold other.
  repeat split.
  1-9: match goal with
       | |- context [bool_decide (?k = ?x)] =>
           destruct (bool_decide (k = x)) eqn:E; rewrite ?E in *; congruence
       end.
  1-3: apply feed_weights_percents; done.
  all: apply feed_weights_ext; try done; unfold apply_draws; slice_proj;
    rewrite !singleton_lock; empty_lock; by rewrite bool_decide_eq_false_2 by done.
Qed.

Lemma C3_witness :
  exists a b,
    feedFromSeed Demo.exp Demo.log Demo.tanh Demo.G Demo.tp0 7 {[ColumnsMap.batch_size]}
      = Some a
    /\ feedFromSeed Demo.exp Demo.log Demo.tanh Demo.G Demo.tp0 7 ∅ = Some b
    /\ XOR_Slice.batch_size a = XOR_Slice.batch_size Demo.tp0
    /\ XOR_Slice.epoch_size a = XOR_Slice.epoch_size b
    /\ XOR_Slice.minRange a = XOR_Slice.minRange b
    /\ XOR_Slice.xPercents a = XOR_Slice.xPercents b
    /\ XOR_Slice.w1 a = XOR_Slice.w1 b /\ XOR_Slice.w2 a = XOR_Slice.w2 b.
Proof.
  destruct (feedFromSeed Demo.exp Demo.log Demo.tanh Demo.G Demo.tp0 7
              {[ColumnsMap.batch_size]}) as [a|] eqn:Ea;
    [|vm_compute in Ea; discriminate Ea].
  destruct (feedFromSeed Demo.exp Demo.log Demo.tanh Demo.G Demo.tp0 7 ∅) as [b|] eqn:Eb;
    [|vm_compute in Eb; discriminate Eb].
  exists a, b. split; [reflexivity|]. split; [reflexivity|].
  destruct (C3_locking_one_field Demo.exp Demo.log Demo.tanh Demo.G Demo.tp0 a b 7
              ColumnsMap.batch_size Ea Eb)
    as (H1 & H2 & _ & _ & H5 & _ & _ & _ & _ & H10 & _ & _ & H13).
  split; [exact H1|]. split; [exact H2|]. split; [exact H5|]. split; [exact H10|].
  apply H13. discriminate.
Defined.

(** ** The per-step training loop *)

Lemma of_int_0 : of_int 0 = 0.
Proof. reflexivity. Qed.

Lemma of_int_1 : of_int 1 = 1.
Proof. reflexivity. Qed.

(** The masked blend of the code on one entry. *)
Lemma blend_entry_locked (c a : Qc) : c * of_int (1 - 1) + a * of_int 1 = a.
Proof. change (of_int (1 - 1)) with (Q2Qc 0). rewrite of_int_1. ring. Qed.

Lemma blend_entry_unlocked (c a : Qc) : c * of_int (1 - 0) + a * of_int 0 = c.
Proof. change (of_int (1 - 0)) with (Q2Qc 1). rewrite of_int_0. ring. Qed.

Lemma update_row_spec (wr dr : list Qc) (lr : Qc) (lo hi : Z) (lock : list Z) :
  Forall (fun l => l = 0%Z \/ l = 1%Z) lock ->
  zip_with Qcplus
    (zip_with (fun c l => c * of_int (1 - l))
       (map (fun v => np_clip v (of_int lo) (of_int hi))
            (zip_with (fun a d => a - d * lr) wr dr)) lock)
    (zip_with (fun a l => a * of_int l) wr lock)
  = zip_with (fun (wd : float * float) (l : Z) =>
                if bool_decide (l = 1%Z) then wd.1
                else np_clip (wd.1 - wd.2 * lr) (of_int lo) (of_int hi))
             (zip_with pair wr dr) lock.
Proof.
  revert dr lock. induction wr as [|a wr IH]; intros [|d dr] [|l lock] Hb; try reflexivity.
  apply Forall_cons in Hb as [Hl Hb]. cbn [zip_with map]. f_equal; [|by apply IH].
  cbn [fst snd]. destruct Hl as [-> | ->].
  - rewrite bool_decide_eq_false_2 by done. apply blend_entry_unlocked.
  - rewrite bool_decide_eq_true_2 by done. apply blend_entry_locked.
Qed.

Lemma update_weights_spec (w dw : matrix) (lr : Qc) (lo hi : Z) (lock : int_matrix) :
  binary_mask lock -> update_weights w dw lr lo hi lock = spec_update w dw lr lo hi lock.
Proof.
  unfold update_weights, spec_update, clip_matrix, mat_zip, mat_map, binary_mask.
  revert dw lock. induction w as [|wr w IH]; intros [|dr dw] [|lrow lock] Hb; try reflexivity.
  apply Forall_cons in Hb as [Hl Hb]. cbn [zip_with map]. f_equal; [|by apply IH].
  by apply update_row_spec.
Qed.

Lemma set_last_snoc {A} (v : A) (l : list A) :
  l ≠ [] -> set_last v l = take (length l - 1) l ++ [v].
Proof.
  intros Hl. unfold set_last.
  assert (Hlen : (0 < length l)%nat) by (destruct l; [done | cbn; lia]).
  rewrite insert_take_drop by lia.
  replace (S (length l - 1)) with (length l) by lia.
  by rewrite drop_all.
Qed.

Lemma p_distribution_spec (xPercents : list Z) :
  xPercents ≠ [] -> p_distribution_of xPercents = Some (spec_distribution xPercents).
Proof.
  intros Hx. unfold p_distribution_of, spec_distribution.
  assert (Hp : map (fun v => of_int v / of_int 100) xPercents ≠ []) by (by destruct xPercents).
  rewrite bool_decide_eq_false_2 by done. by rewrite set_last_snoc.
Qed.

Lemma wrap32_range (z : Z) : in_int32 (wrap32 z).
Proof. unfold in_int32, wrap32. pose proof (Z.mod_pos_bound (z + 2 ^ 31) (2 ^ 32)). lia. Qed.

Lemma wrap32_id (z : Z) : in_int32 z -> wrap32 z = z.
Proof. unfold in_int32, wrap32. intros H. rewrite Z.mod_small; lia. Qed.

Lemma count_hits_absent (batch : list nat) (k : nat) : k ∉ batch -> count_hits batch k = 0%Z.
Proof.
  intros Hk. unfold count_hits.
  induction batch as [|b batch IH]; [done|].
  apply not_elem_of_cons in Hk as [Hne Hk].
  rewrite filter_cons_False by done. by apply IH.
Qed.

Lemma add_hits_spec (xHits : list Z) (batch : list nat) :
  Forall in_int32 xHits -> add_hits xHits batch = spec_add_hits xHits batch.
Proof.
  intros Hr. unfold add_hits, spec_add_hits.
  apply list_eq. intros k. rewrite !list_lookup_imap.
  destruct (xHits !! k) as [h|] eqn:Hk; [|done]. cbn.
  case_bool_decide; [done|].
  rewrite count_hits_absent by done. rewrite Z.add_0_r.
  symmetry. f_equal. apply wrap32_id. by eapply Forall_lookup_1.
Qed.

Lemma spec_add_hits_range (xHits : list Z) (batch : list nat) :
  Forall in_int32 (spec_add_hits xHits batch).
Proof.
  unfold spec_add_hits. apply Forall_lookup_2. intros k z.
  rewrite list_lookup_imap. destruct (xHits !! k); [|done].
  cbn. intros [= <-]. apply wrap32_range.
Qed.

Section LoopRefinement.
Context (np_exp np_log np_tanh : float -> float) (G : Generator).
Context (tp : XOR_Slice.t) (act1 act2 : Activation) (fl : LossFunction).
Hypothesis Hpercents : XOR_Slice.xPercents tp ≠ [].
Hypothesis Hlock1 : binary_mask (XOR_Slice.w1_lock tp).
Hypothesis Hlock2 : binary_mask (XOR_Slice.w2_lock tp).

Local Abbreviation p := (spec_distribution (XOR_Slice.xPercents tp)).

Lemma cycle_spec (h : list Z) (W1 W2 : matrix) (r : rng G) :
  Forall in_int32 h ->
  cycle np_exp np_tanh G tp act1 act2 fl p (h, W1, W2, r)
  = spec_cycle np_exp np_tanh G tp act1 act2 fl (h, W1, W2, r).
Proof.
  intros Hh. unfold cycle, spec_cycle.
  destruct (rng_choice_p G _ _ _ r) as [batch r'].
  destruct (XOR_forward_prop _ _ _ _ _ _ _) as [A1 A2].
  destruct (XOR_back_prop _ _ _ _ _ _ _ _) as [dW1 dW2].
  by rewrite add_hits_spec, !update_weights_spec.
Qed.

Lemma spec_cycle_range (st : list Z * matrix * matrix * rng G) :
  Forall in_int32 (spec_cycle np_exp np_tanh G tp act1 act2 fl st).1.1.1.
Proof.
  destruct st as [[[h W1] W2] r]. unfold spec_cycle.
  destruct (rng_choice_p G _ _ _ r) as [batch r'].
  destruct (XOR_forward_prop _ _ _ _ _ _ _) as [A1 A2].
  destruct (XOR_back_prop _ _ _ _ _ _ _ _) as [dW1 dW2].
  apply spec_add_hits_range.
Qed.

Lemma iter_spec_cycle_range (n : nat) (st : list Z * matrix * matrix * rng G) :
  Forall in_int32 st.1.1.1 ->
  Forall in_int32 (Nat.iter n (spec_cycle np_exp np_tanh G tp act1 act2 fl) st).1.1.1.
Proof.
  intros Hst. destruct n as [|n]; [done|]. cbn [Nat.iter nat_rect]. apply spec_cycle_range.
Qed.

Lemma iter_cycle_spec (n : nat) (st : list Z * matrix * matrix * rng G) :
  Forall in_int32 st.1.1.1 ->
  Nat.iter n (cycle np_exp np_tanh G tp act1 act2 fl p) st
  = Nat.iter n (spec_cycle np_exp np_tanh G tp act1 act2 fl) st.
Proof.
  intros Hst. induction n as [|n IH]; [done|].
  cbn [Nat.iter nat_rect]. fold (Nat.iter n (cycle np_exp np_tanh G tp act1 act2 fl p) st).
  fold (Nat.iter n (spec_cycle np_exp np_tanh G tp act1 act2 fl) st).
  rewrite IH. clear IH.
  pose proof (iter_spec_cycle_range n st Hst) as Hr.
  destruct (Nat.iter n (spec_cycle np_exp np_tanh G tp act1 act2 fl) st) as [[[h W1] W2] r].
  by apply cycle_spec.
Qed.

Lemma training_spec (n : nat) (prev : list Z * matrix * matrix) (r : rng G) :
  (1 <= XOR_Slice.cyclesPerOneStepFwdOfEpoch tp)%Z ->
  Forall in_int32 prev.1.1 ->
  training np_exp np_tanh G n tp act1 act2 fl p prev r
  = spec_steps np_exp np_tanh G n tp act1 act2 fl prev r.
Proof.
  intros Hc. revert prev r. induction n as [|n IH]; intros prev r Hprev; [done|].
  cbn [training spec_steps]. unfold train_step.
  destruct prev as [[h W1] W2].
  rewrite iter_cycle_spec by done.
  pose proof (iter_spec_cycle_range (Z.to_nat (XOR_Slice.cyclesPerOneStepFwdOfEpoch tp))
                (h, W1, W2, r) Hprev) as Hr.
  destruct (Nat.iter _ _ (h, W1, W2, r)) as [[[h' W1'] W2'] r'].
  rewrite bool_decide_eq_false_2 by lia.
  f_equal. by apply IH.
Qed.

(** Consecutive steps of the specification's loop are one round of cycles
    apart. *)
Lemma spec_steps_consecutive (n i : nat) (prev : list Z * matrix * matrix) (r : rng G) :
  (i < n)%nat ->
  exists before after r0 r1,
    (prev :: spec_steps np_exp np_tanh G n tp act1 act2 fl prev r) !! i = Some before
    /\ (prev :: spec_steps np_exp np_tanh G n tp act1 act2 fl prev r) !! S i = Some after
    /\ Nat.iter (Z.to_nat (XOR_Slice.cyclesPerOneStepFwdOfEpoch tp))
                (spec_cycle np_exp np_tanh G tp act1 act2 fl) (before, r0)
       = (after, r1).
Proof.
  revert i prev r. induction n as [|n IH]; intros i prev r Hi; [lia|].
  cbn [spec_steps].
  destruct (Nat.iter _ _ (prev, r)) as [[[h W1] W2] r'] eqn:E.
  destruct i as [|i].
  - exists prev, (h, W1, W2), r, r'. done.
  - destruct (IH i (h, W1, W2) r' ltac:(lia)) as (b & a & r0 & r1 & Hb & Ha & Hit).
    exists b, a, r0, r1. done.
Qed.

Lemma spec_steps_length (n : nat) (prev : list Z * matrix * matrix) (r : rng G) :
  length (spec_steps np_exp np_tanh G n tp act1 act2 fl prev r) = n.
Proof.
  revert prev r. induction n as [|n IH]; intros prev r; [done|].
  cbn [spec_steps]. destruct (Nat.iter _ _ (prev, r)) as [[[h W1] W2] r']. cbn. by rewrite IH.
Qed.

End LoopRefinement.

(** C4: a segment that [fillModel] returns is the loop of the
    specification.  Step 0 holds the turning point's weights clipped into the
    range and zero hits; every later step is reached from the one before by
    [cycles_per_step] cycles, each drawing a mini-batch from the distribution
    whose last probability is one minus the others, adding its hits, running
    forward and backward propagation and replacing every unlocked weight by
    the clipped [w - lr dw] while every locked weight keeps its value.  It
    is stated for a batch of at least one sample (the gradient is a mean over
    the batch), at least one cycle per step and lock masks of zeros and
    ones. *)
Theorem C4_segment_is_the_per_step_loop
    (np_exp np_log np_tanh : float -> float) (G : Generator)
    (tp : XOR_Slice.t) (act1 act2 : Activation) (fl : LossFunction)
    (arr : XOR_array_model.t) :
  fillModel np_exp np_log np_tanh G tp = Some arr ->
  (1 <= XOR_Slice.batch_size tp)%Z ->
  (1 <= XOR_Slice.cyclesPerOneStepFwdOfEpoch tp)%Z ->
  dict_get FunctionsListsByType.HiddenLayer (XOR_Slice.activation1 tp) = Some act1 ->
  dict_get FunctionsListsByType.OutputLayer (XOR_Slice.activation2 tp) = Some act2 ->
  dict_get FunctionsListsByType.LossFunction (XOR_Slice.loss tp) = Some fl ->
  binary_mask (XOR_Slice.w1_lock tp) ->
  binary_mask (XOR_Slice.w2_lock tp) ->
  let segment := spec_segment np_exp np_tanh G tp act1 act2 fl in
  let cycles := Z.to_nat (XOR_Slice.cyclesPerOneStepFwdOfEpoch tp) in
  XOR_array_model.count arr = XOR_Slice.epoch_size tp
  /\ XOR_array_model.xHits arr = (fun s => s.1.1) <$> segment
  /\ XOR_array_model.w1 arr = (fun s => s.1.2) <$> segment
  /\ XOR_array_model.w2 arr = (fun s => s.2) <$> segment
  /\ XOR_array_model.xHits arr !! 0%nat = Some [0; 0; 0; 0]%Z
  /\ XOR_array_model.w1 arr !! 0%nat
     = Some (clip_matrix (XOR_Slice.w1 tp) (XOR_Slice.minRange tp) (XOR_Slice.maxRange tp))
  /\ XOR_array_model.w2 arr !! 0%nat
     = Some (clip_matrix (XOR_Slice.w2 tp) (XOR_Slice.minRange tp) (XOR_Slice.maxRange tp))
  /\ forall i : nat,
       (1 <= i < Z.to_nat (XOR_Slice.epoch_size tp))%nat ->
       exists h W1 W2 h' W1' W2' r r',
         XOR_array_model.xHits arr !! (i - 1)%nat = Some h
         /\ XOR_array_model.w1 arr !! (i - 1)%nat = Some W1
         /\ XOR_array_model.w2 arr !! (i - 1)%nat = Some W2
         /\ XOR_array_model.xHits arr !! i = Some h'
         /\ XOR_array_model.w1 arr !! i = Some W1'
         /\ XOR_array_model.w2 arr !! i = Some W2'
         /\ Nat.iter cycles (spec_cycle np_exp np_tanh G tp act1 act2 fl) (h, W1, W2, r)
            = (h', W1', W2', r').
Proof.
  intros Hfill Hb Hc H1 H2 H3 Hl1 Hl2 segment cycles.
  unfold fillModel in Hfill.
  case_bool_decide as He; [done|].
  assert (Hp : XOR_Slice.xPercents tp ≠ []).
  { intros Hnil. rewrite Hnil in Hfill. done. }
  rewrite p_distribution_spec in Hfill by done. cbn [mbind option_bind] in Hfill.
  rewrite H1, H2, H3 in Hfill. cbn [mbind option_bind] in Hfill.
  rewrite training_spec in Hfill by (try done; repeat constructor; done).
  fold segment in Hfill. unfold spec_segment in segment.
  apply (inj Some) in Hfill. subst arr.
  cbn [XOR_array_model.xHits XOR_array_model.w1 XOR_array_model.w2].
  split.
  { unfold XOR_array_model.count. cbn [XOR_array_model.w1].
    rewrite length_map. subst segment. cbn [length]. rewrite spec_steps_length. lia. }
  do 3 (split; [reflexivity|]).
  do 3 (split; [reflexivity|]).
  intros i Hi.
  destruct (spec_steps_consecutive np_exp np_tanh G tp act1 act2 fl
              (Z.to_nat (XOR_Slice.epoch_size tp - 1)) (i - 1)
              ([0; 0; 0; 0]%Z,
               clip_matrix (XOR_Slice.w1 tp) (XOR_Slice.minRange tp) (XOR_Slice.maxRange tp),
               clip_matrix (XOR_Slice.w2 tp) (XOR_Slice.minRange tp) (XOR_Slice.maxRange tp))
              (default_rng G (fill_seed tp)) ltac:(lia))
    as ([[h W1] W2] & [[h' W1'] W2'] & r & r' & Hb' & Ha & Hit).
  replace (S (i - 1)) with i in Ha by lia.
  exists h, W1, W2, h', W1', W2', r, r'.
  subst segment. rewrite !list_lookup_fmap, Hb', Ha. done.
Qed.

Lemma C4_witness :
  exists arr,
    fillModel Demo.exp Demo.log Demo.tanh Demo.G Demo.tp0 = Some arr
    /\ XOR_array_model.count arr = 3%Z
    /\ XOR_array_model.w1 arr
       = (fun s => s.1.2) <$> spec_segment Demo.exp Demo.tanh Demo.G Demo.tp0
                                LeakyReLU linear Hinge_Loss.
Proof.
  destruct (fillModel Demo.exp Demo.log Demo.tanh Demo.G Demo.tp0) as [arr|] eqn:Hf;
    [|vm_compute in Hf; discriminate Hf].
  destruct (C4_segment_is_the_per_step_loop Demo.exp Demo.log Demo.tanh Demo.G Demo.tp0
              LeakyReLU linear Hinge_Loss arr Hf) as (Hc & _ & Hw & _).
  - vm_compute. discriminate.
  - vm_compute. discriminate.
  - reflexivity.
  - reflexivity.
  - reflexivity.
  - unfold binary_mask. apply (bool_decide_unpack _). vm_compute. exact I.
  - unfold binary_mask. apply (bool_decide_unpack _). vm_compute. exact I.
  - exists arr. split; [reflexivity|]. split; [exact Hc | exact Hw].
Defined.

(** ** Determinism of a regeneration *)

Lemma iter_ext {A} (f g : A -> A) (n : nat) (x : A) :
  (forall y, f y = g y) -> Nat.iter n f x = Nat.iter n g x.
Proof.
  intros Hfg. induction n as [|n IH]; [done|].
  cbn [Nat.iter nat_rect]. fold (Nat.iter n f x). fold (Nat.iter n g x).
  by rewrite IH, Hfg.
Qed.

Ltac use_fill_inputs H :=
  unfold fill_inputs, params_of in H;
  injection H as Hindex Hseed Hbatch Hepoch Hcycles Hlr Hmin Hmax Hact1 Hact2 Hloss
                 Hpercents HyParam Hw1 Hw1_lock Hw2 Hw2_lock.

Lemma cycle_ext (np_exp np_tanh : float -> float) (G : Generator) (tp tp' : XOR_Slice.t)
    (act1 act2 : Activation) (fl : LossFunction) (p : list float)
    (st : list Z * matrix * matrix * rng G) :
  fill_inputs tp = fill_inputs tp' ->
  cycle np_exp np_tanh G tp act1 act2 fl p st = cycle np_exp np_tanh G tp' act1 act2 fl p st.
Proof.
  intros H. use_fill_inputs H. unfold cycle. destruct st as [[[h W1] W2] r].
  by rewrite Hbatch, HyParam, Hlr, Hmin, Hmax, Hw1_lock, Hw2_lock.
Qed.

Lemma training_ext (np_exp np_tanh : float -> float) (G : Generator) (tp tp' : XOR_Slice.t)
    (act1 act2 : Activation) (fl : LossFunction) (p : list float) (n : nat)
    (prev : list Z * matrix * matrix) (r : rng G) :
  fill_inputs tp = fill_inputs tp' ->
  training np_exp np_tanh G n tp act1 act2 fl p prev r
  = training np_exp np_tanh G n tp' act1 act2 fl p prev r.
Proof.
  intros H. revert prev r. induction n as [|n IH]; intros prev r; [done|].
  cbn [training]. unfold train_step. destruct prev as [[h W1] W2].
  rewrite (iter_ext _ (cycle np_exp np_tanh G tp' act1 act2 fl p))
    by (intros; by apply cycle_ext).
  assert (Hc : XOR_Slice.cyclesPerOneStepFwdOfEpoch tp = XOR_Slice.cyclesPerOneStepFwdOfEpoch tp').
  { use_fill_inputs H. done. }
  rewrite Hc.
  destruct (Nat.iter _ _ (h, W1, W2, r)) as [[[h' W1'] W2'] r'].
  by rewrite IH.
Qed.

Lemma fillModel_ext (np_exp np_log np_tanh : float -> float) (G : Generator)
    (tp tp' : XOR_Slice.t) :
  fill_inputs tp = fill_inputs tp' ->
  fillModel np_exp np_log np_tanh G tp = fillModel np_exp np_log np_tanh G tp'.
Proof.
  intros H. unfold fillModel, fill_seed.
  pose proof H as H'. use_fill_inputs H'.
  rewrite Hindex, Hseed, Hepoch, Hmin, Hmax, Hw1, Hw2, Hpercents, Hact1, Hact2, Hloss,
    HyParam.
  case_bool_decide; [done|].
  destruct (p_distribution_of _) as [p|]; [|done]. cbn [mbind option_bind].
  destruct (dict_get FunctionsListsByType.HiddenLayer _) as [act1|]; [|done].
  destruct (dict_get FunctionsListsByType.OutputLayer _) as [act2|]; [|done].
  destruct (dict_get FunctionsListsByType.LossFunction _) as [fl|]; [|done].
  cbn [mbind option_bind].
  by rewrite (training_ext np_exp np_tanh G tp tp').
Qed.

Lemma compute_z_a_loss_ext (np_exp np_log np_tanh : float -> float) (s1 s2 : XOR_Slice.t) :
  fill_inputs s1 = fill_inputs s2 ->
  match compute_z_a_loss np_exp np_log np_tanh s1,
        compute_z_a_loss np_exp np_log np_tanh s2 with
  | Some a, Some b => fill_inputs a = fill_inputs b
  | None, None => True
  | _, _ => False
  end.
Proof.
  intros H. unfold compute_z_a_loss.
  pose proof H as H'. use_fill_inputs H'.
  rewrite Hact1, Hact2, Hloss.
  destruct (dict_get FunctionsListsByType.HiddenLayer _) as [act1|]; [|done].
  destruct (dict_get FunctionsListsByType.OutputLayer _) as [act2|]; [|done].
  destruct (dict_get FunctionsListsByType.LossFunction _) as [fl|]; [|done].
  cbn [mbind option_bind]. exact H.
Qed.

Lemma blend_row_agree (lrow : list Z) (row row' u : list Qc) :
  Forall3 (fun l a a' => l ≠ 0%Z -> a = a') lrow row row' ->
  zip_with Qcplus (zip_with (fun a l => a * of_int l) row lrow)
                  (zip_with (fun b l => b * of_int (1 - l)) u lrow)
  = zip_with Qcplus (zip_with (fun a l => a * of_int l) row' lrow)
                    (zip_with (fun b l => b * of_int (1 - l)) u lrow).
Proof.
  intros H. revert u. induction H as [|l a a' lrow row row' Hl _ IH]; intros u; [done|].
  destruct u as [|b u]; [done|]. cbn [zip_with]. f_equal; [|apply IH].
  destruct (decide (l = 0%Z)) as [->|Hne].
  - by rewrite of_int_0, !Qcmult_0_r.
  - by rewrite (Hl Hne).
Qed.

Lemma blend_agree (lock : int_matrix) (w w' u : matrix) :
  weights_agree lock w w' -> blend w lock u = blend w' lock u.
Proof.
  unfold weights_agree, blend, mat_zip. intros H. revert u.
  induction H as [|lrow row row' lock w w' Hrow _ IH]; intros u; [done|].
  destruct u as [|urow u]; [done|]. cbn [zip_with]. f_equal; [|apply IH].
  by apply blend_row_agree.
Qed.

Lemma apply_draws_agree (locked : gset Z) (d : Params) (s1 s2 : XOR_Slice.t) (seed : Z) :
  same_locked_inputs locked s1 s2 ->
  params_of (apply_draws locked d (XOR_Slice.set_seedTP seed s1))
  = params_of (apply_draws locked d (XOR_Slice.set_seedTP seed s2)).
Proof.
  intros H. unfold params_of, apply_draws. slice_proj.
  destruct H as [_ _ _ H1 H2 H3 H4 H5 H6 H7 H8 _ _].
  repeat match goal with
         | |- context [bool_decide (?k ∈ locked)] =>
             let E := fresh in
             destruct (decide (k ∈ locked)) as [E|E];
             [rewrite !(bool_decide_eq_true_2 (k ∈ locked)) by exact E
             |rewrite !(bool_decide_eq_false_2 (k ∈ locked)) by exact E]
         end;
    repeat match goal with
           | Hk : ?k ∈ locked, Hi : ?k ∈ locked -> _ |- _ => specialize (Hi Hk)
           end;
    repeat match goal with
           | Hc : _ /\ _ |- _ => destruct Hc
           end;
    congruence.
Qed.

Lemma feed_fields_agree (G : Generator) (s1 s2 : XOR_Slice.t) (seed : Z) (locked : gset Z) :
  same_locked_inputs locked s1 s2 ->
  fill_inputs (feed_fields G s1 seed locked) = fill_inputs (feed_fields G s2 seed locked).
Proof.
  intros H. unfold feed_fields. rewrite !feed_params_spec. slice_proj.
  set (d := (draw_params G (default_rng G seed)).1).
  set (r := (draw_params G (default_rng G seed)).2).
  pose proof (apply_draws_agree locked d s1 s2 seed H) as Hp.
  set (t1 := apply_draws locked d (XOR_Slice.set_seedTP seed s1)) in *.
  set (t2 := apply_draws locked d (XOR_Slice.set_seedTP seed s2)) in *.
  assert (Hi : XOR_Slice.index t1 = XOR_Slice.index t2) by (apply (sl_index _ _ _ H)).
  assert (Hl1 : XOR_Slice.w1_lock t1 = XOR_Slice.w1_lock t2) by (apply (sl_w1_lock _ _ _ H)).
  assert (Hl2 : XOR_Slice.w2_lock t1 = XOR_Slice.w2_lock t2) by (apply (sl_w2_lock _ _ _ H)).
  assert (Hs : XOR_Slice.seedTP t1 = XOR_Slice.seedTP t2) by done.
  assert (Hmin : XOR_Slice.minRange t1 = XOR_Slice.minRange t2).
  { apply (f_equal p_min) in Hp. exact Hp. }
  assert (Hmax : XOR_Slice.maxRange t1 = XOR_Slice.maxRange t2).
  { apply (f_equal p_max) in Hp. exact Hp. }
  assert (Hfirst : XOR_Slice.index t1 = 0%Z ->
                   weights_agree (XOR_Slice.w1_lock t1) (XOR_Slice.w1 t1) (XOR_Slice.w1 t2)
                   /\ weights_agree (XOR_Slice.w2_lock t1) (XOR_Slice.w2 t1) (XOR_Slice.w2 t2))
    by (apply (sl_first _ _ _ H)).
  assert (Hlater : XOR_Slice.index t1 ≠ 0%Z ->
                   XOR_Slice.w1 t1 = XOR_Slice.w1 t2 /\ XOR_Slice.w2 t1 = XOR_Slice.w2 t2
                   /\ XOR_Slice.xPercents t1 = XOR_Slice.xPercents t2
                   /\ XOR_Slice.yParam t1 = XOR_Slice.yParam t2)
    by (apply (sl_later _ _ _ H)).
  clearbody t1 t2. clear H.
  unfold fill_inputs.
  destruct (feed_weights_params G t1 r) as (-> & -> & -> & -> & ->).
  destruct (feed_weights_params G t2 r) as (-> & -> & -> & -> & ->).
  rewrite Hp, Hi, Hs, Hl1, Hl2.
  unfold feed_weights. rewrite <- Hi.
  case_bool_decide as Hz.
  - destruct (Hfirst Hz) as [Ha1 Ha2].
    destruct (rng_dirichlet G _ r) as [dd r1]. slice_proj. rewrite <- Hmin, <- Hmax.
    destruct (rng_uniform G _ _ 3 2 r1) as [u1 r2]. slice_proj.
    destruct (rng_uniform G _ _ 3 1 r2) as [u2 r3]. slice_proj.
    rewrite <- Hl1, <- Hl2.
    by rewrite (blend_agree _ _ _ _ Ha1), (blend_agree _ _ _ _ Ha2).
  - destruct (Hlater Hz) as (E1 & E2 & E3 & E4). slice_proj.
    by rewrite E1, E2, E3, E4, Hmin, Hmax.
Qed.

(** C1: the seed and the lock set determine the regenerated segment.  Two
    turning points that agree on what the locks keep (and on the data a
    regeneration never draws) are regenerated, from the same seed under the
    same locks, into the same per-step arrays: hits, weights, pre- and
    post-activations and losses alike. *)
Theorem C1_seed_and_locks_determine_segment
    (np_exp np_log np_tanh : float -> float) (G : Generator)
    (tp1 tp2 : XOR_Slice.t) (seed : Z) (locked : gset Z) :
  same_locked_inputs locked tp1 tp2 ->
  regenerate np_exp np_log np_tanh G tp1 seed locked
  = regenerate np_exp np_log np_tanh G tp2 seed locked.
Proof.
  intros H. unfold regenerate, feedFromSeed.
  pose proof (compute_z_a_loss_ext np_exp np_log np_tanh _ _
                (feed_fields_agree G tp1 tp2 seed locked H)) as Hc.
  destruct (compute_z_a_loss _ _ _ (feed_fields G tp1 seed locked)) as [a|],
           (compute_z_a_loss _ _ _ (feed_fields G tp2 seed locked)) as [b|];
    try done.
  cbn [mbind option_bind]. by apply fillModel_ext.
Qed.
Lemma C1_witness :
  same_locked_inputs Demo.locks Demo.tp0 Demo.tp0'
  /\ Demo.tp0 ≠ Demo.tp0'
  /\ exists arr,
       regenerate Demo.exp Demo.log Demo.tanh Demo.G Demo.tp0 7 Demo.locks = Some arr
       /\ regenerate Demo.exp Demo.log Demo.tanh Demo.G Demo.tp0' 7 Demo.locks = Some arr.
Proof.
  assert (H : same_locked_inputs Demo.locks Demo.tp0 Demo.tp0').
  { unfold Demo.locks.
    split; try reflexivity;
      try (intros Hk; repeat (apply elem_of_union in Hk as [Hk|Hk]);
           apply elem_of_singleton in Hk; first [discriminate Hk | reflexivity]).
    - intros _. split; repeat constructor; intros Hl; first [done | reflexivity].
    - intros Hi. by destruct Hi. }
  split; [exact H|]. split; [discriminate|].
  destruct (regenerate Demo.exp Demo.log Demo.tanh Demo.G Demo.tp0 7 Demo.locks)
    as [arr|] eqn:E; [|vm_compute in E; discriminate E].
  exists arr. split; [reflexivity|].
  rewrite <- (C1_seed_and_locks_determine_segment Demo.exp Demo.log Demo.tanh Demo.G
                Demo.tp0 Demo.tp0' 7 Demo.locks H).
  exact E.
Defined.

(** ** Timeline surgery *)

Lemma py_index_nonneg {A} (l : list A) (i : Z) :
  (0 <= i)%Z -> py_index l i = l !! Z.to_nat i.
Proof. intros H. unfold py_index. by rewrite bool_decide_eq_true_2. Qed.

Lemma py_index_last {A} (l : list A) : py_index l (-1) = last l.
Proof.
  unfold py_index. rewrite bool_decide_eq_false_2 by lia.
  destruct l as [|x l]; [done|].
  rewrite bool_decide_eq_true_2 by (cbn [length]; lia).
  rewrite last_lookup. f_equal. cbn [length]. lia.
Qed.

Lemma py_slice_to_nonneg {A} (l : list A) (n : Z) :
  (0 <= n)%Z -> py_slice_to l n = take (Z.to_nat n) l.
Proof. intros H. unfold py_slice_to. by rewrite bool_decide_eq_true_2. Qed.

Lemma py_slice_from_nonneg {A} (l : list A) (i : Z) :
  (0 <= i)%Z -> py_slice_from l i = drop (Z.to_nat i) l.
Proof. intros H. unfold py_slice_from. by rewrite bool_decide_eq_true_2. Qed.

Lemma update_last_snoc {A} (f : A -> A) (l : list A) (x : A) :
  update_last f (l ++ [x]) = Some (l ++ [f x]).
Proof.
  unfold update_last. rewrite reverse_snoc, reverse_cons, reverse_involutive. done.
Qed.

(** Strictly increasing indices split at any position into the turning
    points before it and those at or after it. *)
Lemma sorted_split (tps : list XOR_Slice.t) (ix : Z) :
  StronglySorted Z.lt (XOR_Slice.index <$> tps) ->
  exists keep gone,
    tps = keep ++ gone
    /\ keep = filter (fun tp => (XOR_Slice.index tp < ix)%Z) tps
    /\ Forall (fun tp => (XOR_Slice.index tp < ix)%Z) keep
    /\ Forall (fun tp => (ix <= XOR_Slice.index tp)%Z) gone.
Proof.
  induction tps as [|tp tps IH]; intros Hs.
  - exists [], []. done.
  - cbn [fmap list_fmap] in Hs. apply StronglySorted_inv in Hs as [Hs Hall].
    destruct (decide (XOR_Slice.index tp < ix)%Z) as [Hlt|Hge].
    + destruct (IH Hs) as (keep & gone & -> & Hk & Hfk & Hfg).
      exists (tp :: keep), gone. rewrite filter_cons_True by done.
      split; [done|]. split; [by rewrite <- Hk|]. split; [by constructor | done].
    + exists [], (tp :: tps).
      assert (Hrest : Forall (fun t => (ix <= XOR_Slice.index t)%Z) tps).
      { rewrite Forall_fmap in Hall. eapply Forall_impl; [exact Hall|].
        intros t Ht. cbn in Ht. lia. }
      split; [done|]. split; [|split; [done | constructor; [lia | done]]].
      rewrite filter_cons_False by done.
      symmetry. clear -Hrest. induction Hrest as [|t ts Ht _ IHr]; [done|].
      rewrite filter_cons_False by lia. exact IHr.
Qed.

Lemma pop_after_gone (ix : Z) (rg rkeep : list XOR_Slice.t) (rd rl : list string) :
  Forall (fun tp => (ix < XOR_Slice.index tp)%Z) rg ->
  (length rg <= length rd)%nat -> (length rg <= length rl)%nat ->
  pop_after ix (rg ++ rkeep) rd rl
  = pop_after ix rkeep (drop (length rg) rd) (drop (length rg) rl).
Proof.
  intros H. revert rd rl. induction H as [|tp rg Htp _ IH]; intros rd rl Hd Hl; [done|].
  cbn [app pop_after length]. rewrite bool_decide_eq_true_2 by done.
  destruct rd as [|d rd]; [cbn in Hd; lia|]. destruct rl as [|l rl]; [cbn in Hl; lia|].
  cbn [drop]. apply IH; cbn in Hd, Hl; lia.
Qed.

Lemma pop_after_stop (ix : Z) (tp : XOR_Slice.t) (rkeep : list XOR_Slice.t)
    (rd rl : list string) :
  (XOR_Slice.index tp <= ix)%Z ->
  pop_after ix (tp :: rkeep) rd rl = Some (tp :: rkeep, rd, rl).
Proof. intros H. cbn [pop_after]. by rewrite bool_decide_eq_false_2 by lia. Qed.

(** Popping the turning points beyond [ix] off the ends of the three lists. *)
Lemma pop_after_split (ix : Z) (keep gone : list XOR_Slice.t) (last_kept : XOR_Slice.t)
    (diffs losses : list string) :
  Forall (fun tp => (ix < XOR_Slice.index tp)%Z) gone ->
  (XOR_Slice.index last_kept <= ix)%Z ->
  length diffs = length ((keep ++ [last_kept]) ++ gone) ->
  length losses = length ((keep ++ [last_kept]) ++ gone) ->
  pop_after ix (reverse ((keep ++ [last_kept]) ++ gone)) (reverse diffs) (reverse losses)
  = Some (reverse (keep ++ [last_kept]),
          reverse (take (length (keep ++ [last_kept])) diffs),
          reverse (take (length (keep ++ [last_kept])) losses)).
Proof.
  intros Hg Hk Hd Hl. rewrite reverse_app.
  rewrite length_app in Hd, Hl.
  rewrite pop_after_gone.
  - rewrite reverse_snoc. rewrite pop_after_stop by done.
    rewrite length_reverse, !drop_reverse.
    replace (length diffs - length gone)%nat with (length (keep ++ [last_kept])) by lia.
    replace (length losses - length gone)%nat with (length (keep ++ [last_kept])) by lia.
    done.
  - by apply Forall_reverse.
  - rewrite !length_reverse. lia.
  - rewrite !length_reverse. lia.
Qed.

Lemma find_base_Some (lst : list XOR_Slice.t) (ix : Z) (pos : nat) :
  Exists (fun tp => (XOR_Slice.index tp <= ix)%Z) lst ->
  exists p item, find_base lst ix pos = Some (p, item).
Proof.
  intros H. revert pos. induction H as [tp lst Htp | tp lst _ IH]; intros pos.
  - cbn [find_base]. destruct (find_base lst ix (S pos)) as [[p item]|]; [eauto|].
    rewrite bool_decide_eq_true_2 by done. eauto.
  - cbn [find_base]. destruct (IH (S pos)) as (p & item & ->). eauto.
Qed.

Lemma find_base_none (lst : list XOR_Slice.t) (ix : Z) (pos : nat) :
  Forall (fun tp => (ix < XOR_Slice.index tp)%Z) lst -> find_base lst ix pos = None.
Proof.
  intros H. revert pos. induction H as [|tp lst Htp _ IH]; intros pos; [done|].
  cbn [find_base]. rewrite IH. by rewrite bool_decide_eq_false_2 by lia.
Qed.

Lemma find_base_head (tp : XOR_Slice.t) (rest : list XOR_Slice.t) (ix : Z) (pos : nat) :
  (XOR_Slice.index tp <= ix)%Z ->
  Forall (fun t => (ix < XOR_Slice.index t)%Z) rest ->
  find_base (tp :: rest) ix pos = Some (pos, tp).
Proof.
  intros Htp Hrest. cbn [find_base]. rewrite find_base_none by done.
  by rewrite bool_decide_eq_true_2.
Qed.

Lemma find_base_item (lst : list XOR_Slice.t) (ix : Z) (pos p : nat) (item : XOR_Slice.t) :
  find_base lst ix pos = Some (p, item) -> item ∈ lst /\ (XOR_Slice.index item <= ix)%Z.
Proof.
  revert pos. induction lst as [|tp lst IH]; intros pos; [done|].
  cbn [find_base]. destruct (find_base lst ix (S pos)) as [[p' item']|] eqn:E.
  - intros [= -> ->]. destruct (IH _ E). split; [by right | done].
  - case_bool_decide; [|done]. intros [= -> ->]. split; [by left | done].
Qed.

(** [setPos] on a position inside an aligned store. *)
Lemma setPos_spec (m : XOR_model.t) (ix : Z) :
  arrays_aligned (XOR_model.xor_array m) ->
  (0 <= ix < XOR_model.count m)%Z ->
  Exists (fun tp => (XOR_Slice.index tp <= ix)%Z) (XOR_model.lstTurningPoints m) ->
  exists m' W1 W2 pos item,
    setPos m ix = Some m'
    /\ find_base (XOR_model.lstTurningPoints m) ix 0 = Some (pos, item)
    /\ XOR_array_model.w1 (XOR_model.xor_array m) !! Z.to_nat ix = Some W1
    /\ XOR_array_model.w2 (XOR_model.xor_array m) !! Z.to_nat ix = Some W2
    /\ XOR_Slice.w1 (XOR_model.crtSlice m') = W1
    /\ XOR_Slice.w2 (XOR_model.crtSlice m') = W2
    /\ XOR_model.getPos m' = ix
    /\ params_of (XOR_model.crtSlice m') = params_of item
    /\ XOR_model.lstTurningPoints m' = XOR_model.lstTurningPoints m
    /\ XOR_model.lstTurningPointsDiff m' = XOR_model.lstTurningPointsDiff m
    /\ XOR_model.lst_TP_Final_Loss m' = XOR_model.lst_TP_Final_Loss m
    /\ XOR_model.xor_array m' = XOR_model.xor_array m.
Proof.
  intros Ha Hix Hex. unfold setPos.
  rewrite bool_decide_eq_false_2 by lia.
  destruct (find_base_Some _ ix 0 Hex) as (pos & item & Hfb). rewrite Hfb.
  unfold XOR_model.count, XOR_array_model.count in Hix.
  destruct Ha as (L1 & L2 & L3 & L4 & L5 & L6 & L7 & L8).
  rewrite !py_index_nonneg by lia.
  assert (Hlt : (Z.to_nat ix < length (XOR_array_model.w1 (XOR_model.xor_array m)))%nat)
    by lia.
  destruct (lookup_lt_is_Some_2 (XOR_array_model.xHits (XOR_model.xor_array m)) (Z.to_nat ix))
    as [vh ->]; [lia|].
  destruct (lookup_lt_is_Some_2 (XOR_array_model.w1 (XOR_model.xor_array m)) (Z.to_nat ix))
    as [vw1 Ew1]; [lia|]. rewrite Ew1.
  destruct (lookup_lt_is_Some_2 (XOR_array_model.z1 (XOR_model.xor_array m)) (Z.to_nat ix))
    as [vz1 ->]; [lia|].
  destruct (lookup_lt_is_Some_2 (XOR_array_model.a1 (XOR_model.xor_array m)) (Z.to_nat ix))
    as [va1 ->]; [lia|].
  destruct (lookup_lt_is_Some_2 (XOR_array_model.w2 (XOR_model.xor_array m)) (Z.to_nat ix))
    as [vw2 Ew2]; [lia|]. rewrite Ew2.
  destruct (lookup_lt_is_Some_2 (XOR_array_model.z2 (XOR_model.xor_array m)) (Z.to_nat ix))
    as [vz2 ->]; [lia|].
  destruct (lookup_lt_is_Some_2 (XOR_array_model.y_aka_a2 (XOR_model.xor_array m))
              (Z.to_nat ix)) as [vy ->]; [lia|].
  destruct (lookup_lt_is_Some_2 (XOR_array_model.lossAvg (XOR_model.xor_array m))
              (Z.to_nat ix)) as [vla ->]; [lia|].
  destruct (lookup_lt_is_Some_2 (XOR_array_model.lossPerX (XOR_model.xor_array m))
              (Z.to_nat ix)) as [vlp ->]; [lia|].
  cbn [mbind option_bind].
  eexists _, vw1, vw2, pos, item. split; [reflexivity|]. done.
Qed.

Lemma deleteAfter_spec (arr : XOR_array_model.t) (j : Z) :
  (-1 <= j <= XOR_array_model.count arr - 1)%Z ->
  XOR_array_model.deleteAfter arr j
  = Some (store_take (Z.to_nat (j + 1)) arr, (XOR_array_model.count arr - j - 1)%Z).
Proof.
  intros Hj. unfold XOR_array_model.deleteAfter.
  rewrite bool_decide_eq_true_2 by done.
  rewrite !py_slice_to_nonneg by lia. done.
Qed.

Lemma store_take_aligned (n : nat) (arr : XOR_array_model.t) :
  arrays_aligned arr -> arrays_aligned (store_take n arr).
Proof.
  unfold arrays_aligned, store_take. cbn. rewrite !length_take.
  intros (-> & -> & -> & -> & -> & -> & -> & ->). done.
Qed.

Lemma store_take_count (n : nat) (arr : XOR_array_model.t) :
  (Z.of_nat n <= XOR_array_model.count arr)%Z ->
  XOR_array_model.count (store_take n arr) = Z.of_nat n.
Proof.
  unfold XOR_array_model.count, store_take. cbn. rewrite length_take. lia.
Qed.

Lemma nonempty_snoc {A} (l : list A) : l ≠ [] -> exists l' x, l = l' ++ [x].
Proof.
  intros Hl. destruct (last l) as [x|] eqn:E.
  - apply last_Some in E as [l' ->]. eauto.
  - by apply last_None in E.
Qed.

Lemma deleteAfterPos_spec (format_0_3f : float -> string) (m : XOR_model.t) (ix : Z) :
  timeline_wf m ->
  (0 < ix <= XOR_model.count m)%Z ->
  exists m' keep last_kept gone,
    XOR_model.lstTurningPoints m = (keep ++ [last_kept]) ++ gone
    /\ keep ++ [last_kept]
       = filter (fun tp => (XOR_Slice.index tp < ix)%Z) (XOR_model.lstTurningPoints m)
    /\ Forall (fun tp => (ix <= XOR_Slice.index tp)%Z) gone
    /\ deleteAfterPos format_0_3f m ix
       = Some (m', [sigModelChanged (ix - 1)], (XOR_model.count m - ix)%Z)
    /\ XOR_model.xor_array m' = store_take (Z.to_nat ix) (XOR_model.xor_array m)
    /\ XOR_model.lstTurningPoints m'
       = keep ++ [if bool_decide (1 < ix)%Z
                  then XOR_Slice.set_epoch_size (ix - XOR_Slice.index last_kept)%Z last_kept
                  else last_kept]
    /\ XOR_model.getPos m' = (ix - 1)%Z.
Proof.
  intros [Harr Hshape Hfirst Hsorted Hbound Hdiffs Hlosses] Hix.
  destruct (sorted_split _ ix Hsorted) as (k & gone & Htps & Hk & Hfk & Hfg).
  assert (Hkne : k ≠ []).
  { destruct (XOR_model.lstTurningPoints m) as [|tp0 rest] eqn:E; [done|].
    cbn in Hfirst. injection Hfirst as H0.
    rewrite Hk. rewrite filter_cons_True by lia. done. }
  destruct (nonempty_snoc k Hkne) as (keep & x & ->).
  assert (Hx : (XOR_Slice.index x <= ix - 1)%Z).
  { pose proof Hfk as Hfk'. rewrite Forall_app, Forall_singleton in Hfk'.
    destruct Hfk' as [_ Hx']. lia. }
  assert (Hg' : Forall (fun tp => (ix - 1 < XOR_Slice.index tp)%Z) gone).
  { eapply Forall_impl; [exact Hfg|]. intros tp Ht. cbn in Ht. lia. }
  unfold XOR_model.count in Hix.
  set (arr' := store_take (Z.to_nat ix) (XOR_model.xor_array m)).
  set (x' := if bool_decide (1 < ix)%Z
             then XOR_Slice.set_epoch_size (ix - XOR_Slice.index x)%Z x else x).
  assert (Hix' : XOR_Slice.index x' = XOR_Slice.index x).
  { unfold x'. by case_bool_decide. }
  assert (Hcount' : XOR_array_model.count arr' = ix).
  { unfold arr'. rewrite store_take_count by lia. lia. }
  assert (Hla : exists v, last (XOR_array_model.lossAvg arr') = Some [[v]]).
  { unfold arr', store_take. cbn [XOR_array_model.lossAvg].
    destruct Harr as (_ & _ & _ & _ & _ & _ & _ & HL).
    unfold XOR_array_model.count in Hix.
    rewrite last_lookup, length_take, lookup_take_lt by lia.
    destruct (lookup_lt_is_Some_2 (XOR_array_model.lossAvg (XOR_model.xor_array m))
                (Init.Nat.pred (Z.to_nat ix `min`
                   length (XOR_array_model.lossAvg (XOR_model.xor_array m)))))
      as [a Ha]; [lia|].
    rewrite Ha. destruct (Forall_lookup_1 _ _ _ _ Hshape Ha) as [v ->]. eauto. }
  destruct Hla as [v Hla].
  assert (Hlo : exists l' y,
             take (length (keep ++ [x])) (XOR_model.lst_TP_Final_Loss m) = l' ++ [y]).
  { apply nonempty_snoc. intros Hnil. apply (f_equal length) in Hnil.
    rewrite length_take, Hlosses, Htps, !length_app in Hnil. cbn in Hnil. lia. }
  destruct Hlo as (l' & y & Hlo).
  destruct (setPos_spec
              (with_history m (keep ++ [x'])
                 (take (length (keep ++ [x])) (XOR_model.lstTurningPointsDiff m))
                 (l' ++ [format_0_3f v]) arr') (ix - 1))
    as (m' & W1 & W2 & pos & item & Hset & _ & _ & _ & _ & _ & Hpos & _ & Htp' & _ & _ & Harr').
  { cbn [with_history XOR_model.xor_array]. by apply store_take_aligned. }
  { unfold XOR_model.count. cbn [with_history XOR_model.xor_array]. lia. }
  { cbn [with_history XOR_model.lstTurningPoints]. apply Exists_app. right.
    apply Exists_cons_hd. lia. }
  exists m', keep, x, gone.
  split; [done|]. split; [done|]. split; [done|].
  split.
  - unfold deleteAfterPos. rewrite (bool_decide_eq_true_2 (0 < ix)%Z) by lia.
    rewrite deleteAfter_spec by lia. cbn [mbind option_bind].
    replace (Z.to_nat (ix - 1 + 1)) with (Z.to_nat ix) by lia. fold arr'.
    rewrite Htps.
    rewrite (pop_after_split (ix - 1) keep gone x)
      by (try done; rewrite <- Htps; done).
    cbn [mbind option_bind]. rewrite !reverse_involutive.
    rewrite Hcount'.
    assert (Hup : (if bool_decide (0 < ix - 1)%Z
                   then update_last
                          (fun tp => XOR_Slice.set_epoch_size (ix - XOR_Slice.index tp)%Z tp)
                          (keep ++ [x])
                   else Some (keep ++ [x])) = Some (keep ++ [x'])).
    { unfold x'. destruct (decide (1 < ix)%Z).
      - rewrite !bool_decide_eq_true_2 by lia. by rewrite update_last_snoc.
      - by rewrite !bool_decide_eq_false_2 by lia. }
    rewrite Hup. cbn [mbind option_bind].
    rewrite py_index_last, Hla. cbn [mbind option_bind float_of_array].
    rewrite Hlo, update_last_snoc. cbn [mbind option_bind].
    rewrite Hset. cbn [mbind option_bind].
    unfold XOR_model.count. do 2 f_equal. lia.
  - split; [exact Harr'|]. split; [exact Htp'|]. exact Hpos.
Qed.

Lemma filter_index_fmap (P : Z -> Prop) `{!forall z, Decision (P z)} (tps : list XOR_Slice.t) :
  filter P (XOR_Slice.index <$> tps)
  = XOR_Slice.index <$> filter (fun tp => P (XOR_Slice.index tp)) tps.
Proof.
  induction tps as [|tp tps IH]; [done|].
  cbn [fmap list_fmap]. destruct (decide (P (XOR_Slice.index tp))).
  - rewrite !filter_cons_True by done. cbn [fmap list_fmap]. by rewrite <- IH.
  - rewrite !filter_cons_False by done. exact IH.
Qed.

(** C7, as stated, fails on the code: [deleteAfterPos] steps back by one
    before it truncates whenever [ix > 0], so on the timeline with turning
    points at 0, 5 and 12 and 20 steps [deleteAfterPos(12)] leaves 12 steps,
    not 13, and the last turning point is the one at 5 with 7 steps, not one
    with a single step. *)
Lemma C7_deleteAfterPos_12_leaves_12_steps :
  XOR_Slice.index <$> XOR_model.lstTurningPoints DemoTimeline.model = [0; 5; 12]%Z
  /\ XOR_model.count DemoTimeline.model = 20%Z
  /\ exists m' sigs iret,
       deleteAfterPos Demo.format_0_3f DemoTimeline.model 12 = Some (m', sigs, iret)
       /\ XOR_model.count m' = 12%Z
       /\ XOR_model.count m' ≠ 13%Z
       /\ XOR_Slice.epoch_size <$> last (XOR_model.lstTurningPoints m') = Some 7%Z
       /\ XOR_Slice.epoch_size <$> last (XOR_model.lstTurningPoints m') ≠ Some 1%Z.
Proof.
  split; [reflexivity|]. split; [reflexivity|].
  eexists _, _, _. split; [vm_compute; reflexivity|].
  repeat split; try reflexivity; vm_compute; discriminate.
Qed.

(** C7 (amended): on a valid timeline [deleteAfterPos(ix)] with [ix > 0]
    keeps exactly the positions below [ix]: the store is cut to [ix] steps,
    every turning point with index [>= ix] is dropped (one whose boundary is
    [ix] goes with its position), and for [ix > 1] the last remaining
    turning point gets the epoch size [ix - index].  The store's own
    [deleteAfter(j)] keeps the positions up to [j] included.  With turning
    points at 0, 5, 12 and 20 steps, [deleteAfterPos(12)] leaves 12 steps,
    the turning points 0 and 5, and the epoch size 7 on the last. *)
Theorem C7_deleteAfterPos_keeps_positions_below_ix
    (format_0_3f : float -> string) (m : XOR_model.t) (ix : Z) :
  timeline_wf m ->
  (0 < ix <= XOR_model.count m)%Z ->
  exists m',
    deleteAfterPos format_0_3f m ix
    = Some (m', [sigModelChanged (ix - 1)], (XOR_model.count m - ix)%Z)
    /\ XOR_model.count m' = ix
    /\ XOR_model.xor_array m' = store_take (Z.to_nat ix) (XOR_model.xor_array m)
    /\ XOR_Slice.index <$> XOR_model.lstTurningPoints m'
       = filter (fun i => (i < ix)%Z) (XOR_Slice.index <$> XOR_model.lstTurningPoints m)
    /\ ((1 < ix)%Z ->
        exists tp, last (XOR_model.lstTurningPoints m') = Some tp
                   /\ XOR_Slice.epoch_size tp = (ix - XOR_Slice.index tp)%Z)
    /\ (forall j, (-1 <= j < XOR_model.count m)%Z ->
          XOR_array_model.deleteAfter (XOR_model.xor_array m) j
          = Some (store_take (Z.to_nat (j + 1)) (XOR_model.xor_array m),
                  (XOR_model.count m - j - 1)%Z))
    /\ (XOR_Slice.index <$> XOR_model.lstTurningPoints m = [0; 5; 12]%Z ->
        XOR_model.count m = 20%Z -> ix = 12%Z ->
        XOR_model.count m' = 12%Z
        /\ XOR_Slice.index <$> XOR_model.lstTurningPoints m' = [0; 5]%Z
        /\ XOR_Slice.epoch_size <$> last (XOR_model.lstTurningPoints m') = Some 7%Z).
Proof.
  intros Hwf Hix.
  destruct (deleteAfterPos_spec format_0_3f m ix Hwf Hix)
    as (m' & keep & x & gone & Htps & Hk & Hg & Hdel & Harr & Htps' & Hpos).
  exists m'.
  assert (Hcount : XOR_model.count m' = ix).
  { unfold XOR_model.count in *. rewrite Harr, store_take_count by lia. lia. }
  assert (Hidx : XOR_Slice.index <$> XOR_model.lstTurningPoints m'
                 = filter (fun i => (i < ix)%Z)
                          (XOR_Slice.index <$> XOR_model.lstTurningPoints m)).
  { rewrite filter_index_fmap, <- Hk, Htps', !fmap_app. f_equal.
    cbn [fmap list_fmap]. by case_bool_decide. }
  assert (Hlast : (1 < ix)%Z ->
                  exists tp, last (XOR_model.lstTurningPoints m') = Some tp
                             /\ XOR_Slice.epoch_size tp = (ix - XOR_Slice.index tp)%Z).
  { intros H1. rewrite Htps', last_snoc. rewrite bool_decide_eq_true_2 by done.
    eexists. split; [reflexivity|]. done. }
  split; [exact Hdel|]. split; [exact Hcount|]. split; [exact Harr|].
  split; [exact Hidx|]. split; [exact Hlast|].
  split.
  { intros j Hj. unfold XOR_model.count in *. by rewrite deleteAfter_spec by lia. }
  intros H0 H20 ->. split; [done|].
  rewrite Hidx, H0. split; [reflexivity|].
  destruct (Hlast ltac:(lia)) as (tp & Hl & He). rewrite Hl. cbn [fmap option_fmap option_map].
  f_equal. rewrite He.
  assert (Hi : XOR_Slice.index <$> last (XOR_model.lstTurningPoints m') = Some 5%Z).
  { rewrite <- fmap_last, Hidx, H0. reflexivity. }
  rewrite Hl in Hi. cbn in Hi. injection Hi as ->. done.
Qed.

Lemma C7_witness :
  timeline_wf DemoTimeline.model
  /\ (0 < 12 <= XOR_model.count DemoTimeline.model)%Z
  /\ exists m',
       deleteAfterPos Demo.format_0_3f DemoTimeline.model 12
       = Some (m', [sigModelChanged 11], 8%Z)
       /\ XOR_model.count m' = 12%Z
       /\ XOR_Slice.index <$> XOR_model.lstTurningPoints m' = [0; 5]%Z
       /\ XOR_Slice.epoch_size <$> last (XOR_model.lstTurningPoints m') = Some 7%Z.
Proof.
  assert (Hwf : timeline_wf DemoTimeline.model).
  { split.
    - repeat split.
    - repeat constructor; eexists; reflexivity.
    - reflexivity.
    - cbn. repeat constructor; lia.
    - repeat constructor; vm_compute; reflexivity.
    - reflexivity.
    - reflexivity. }
  assert (Hix : (0 < 12 <= XOR_model.count DemoTimeline.model)%Z) by (vm_compute; done).
  split; [exact Hwf|]. split; [exact Hix|].
  destruct (C7_deleteAfterPos_keeps_positions_below_ix Demo.format_0_3f
              DemoTimeline.model 12 Hwf Hix)
    as (m' & Hdel & _ & _ & _ & _ & _ & Hex).
  exists m'. split; [exact Hdel|]. apply Hex; reflexivity.
Defined.

Lemma scan_tp_ix_split (ix : Z) (keep gone : list XOR_Slice.t) (i t : nat) :
  Forall (fun tp => (XOR_Slice.index tp <= ix)%Z) keep ->
  Forall (fun tp => (ix < XOR_Slice.index tp)%Z) gone ->
  scan_tp_ix (keep ++ gone) ix i t
  = match keep with
    | [] => t
    | _ :: _ => (i + length keep - 1)%nat
    end.
Proof.
  intros Hk Hg. revert i t. induction Hk as [|tp keep Htp _ IH]; intros i t.
  - cbn [app]. destruct Hg as [|g gone Hgt _]; [done|].
    cbn [scan_tp_ix]. by rewrite bool_decide_eq_false_2 by lia.
  - cbn [app scan_tp_ix]. rewrite bool_decide_eq_true_2 by done. rewrite IH.
    destruct keep; cbn [length]; lia.
Qed.

Lemma store_deleteBefore_spec (arr : XOR_array_model.t) (ix : Z) :
  arrays_aligned arr ->
  (0 <= ix < XOR_array_model.count arr)%Z ->
  exists h0,
    XOR_array_model.xHits arr !! Z.to_nat ix = Some h0
    /\ XOR_array_model.deleteBefore arr ix = Some (store_drop (Z.to_nat ix) h0 arr).
Proof.
  intros (L1 & _) Hix. unfold XOR_array_model.count in Hix.
  destruct (lookup_lt_is_Some_2 (XOR_array_model.xHits arr) (Z.to_nat ix)) as [h0 Hh]; [lia|].
  exists h0. split; [done|].
  unfold XOR_array_model.deleteBefore, XOR_array_model.count.
  replace (Z.min (Z.max 0 ix) (Z.of_nat (length (XOR_array_model.w1 arr)) - 1)) with ix by lia.
  rewrite py_index_nonneg, Hh by lia. cbn [mbind option_bind].
  rewrite !py_slice_from_nonneg by lia. done.
Qed.

Lemma store_drop_aligned (n : nat) (h0 : list Z) (arr : XOR_array_model.t) :
  arrays_aligned arr -> arrays_aligned (store_drop n h0 arr).
Proof.
  unfold arrays_aligned, store_drop. cbn. rewrite length_map, !length_drop.
  intros (-> & -> & -> & -> & -> & -> & -> & ->). done.
Qed.

Lemma store_drop_count (n : nat) (h0 : list Z) (arr : XOR_array_model.t) :
  XOR_array_model.count (store_drop n h0 arr)
  = Z.of_nat (length (XOR_array_model.w1 arr) - n).
Proof. unfold XOR_array_model.count, store_drop. cbn. by rewrite length_drop. Qed.

Lemma deleteBefore_spec (getHTML_loss : float -> string) (m : XOR_model.t) (ix : Z) :
  timeline_wf m ->
  (0 <= ix < XOR_model.count m)%Z ->
  exists m' dropped base later h0 W1 W2,
    XOR_model.lstTurningPoints m = dropped ++ base :: later
    /\ Forall (fun tp => (XOR_Slice.index tp < XOR_Slice.index base)%Z) dropped
    /\ (XOR_Slice.index base <= ix)%Z
    /\ Forall (fun tp => (ix < XOR_Slice.index tp)%Z) later
    /\ XOR_array_model.xHits (XOR_model.xor_array m) !! Z.to_nat ix = Some h0
    /\ XOR_array_model.w1 (XOR_model.xor_array m) !! Z.to_nat ix = Some W1
    /\ XOR_array_model.w2 (XOR_model.xor_array m) !! Z.to_nat ix = Some W2
    /\ deleteBefore getHTML_loss m ix = Some (m', [sigModelChanged 0])
    /\ XOR_model.xor_array m' = store_drop (Z.to_nat ix) h0 (XOR_model.xor_array m)
    /\ XOR_model.lstTurningPoints m'
       = renumber ix (XOR_model.count m - ix) base later
    /\ XOR_model.getPos m' = 0%Z
    /\ XOR_Slice.w1 (XOR_model.crtSlice m') = W1
    /\ XOR_Slice.w2 (XOR_model.crtSlice m') = W2.
Proof.
  intros [Harr Hshape Hfirst Hsorted Hbound Hdiffs Hlosses] Hix.
  destruct (sorted_split _ (ix + 1) Hsorted) as (k & later & Htps & Hk & Hfk & Hfg).
  assert (Hkne : k ≠ []).
  { destruct (XOR_model.lstTurningPoints m) as [|tp0 rest] eqn:E; [done|].
    cbn in Hfirst. injection Hfirst as H0.
    rewrite Hk. rewrite filter_cons_True by lia. done. }
  destruct (nonempty_snoc k Hkne) as (dropped & base & ->).
  rewrite <- app_assoc in Htps. cbn [app] in Htps.
  assert (Hbase : (XOR_Slice.index base <= ix)%Z).
  { pose proof Hfk as Hfk'. rewrite Forall_app, Forall_singleton in Hfk'.
    destruct Hfk' as [_ Hx']. lia. }
  assert (Hlater : Forall (fun tp => (ix < XOR_Slice.index tp)%Z) later).
  { eapply Forall_impl; [exact Hfg|]. intros tp Ht. cbn in Ht. lia. }
  assert (Hdropped : Forall (fun tp => (XOR_Slice.index tp < XOR_Slice.index base)%Z) dropped).
  { rewrite Htps in Hsorted.
    clear -Hsorted. induction dropped as [|d dropped IH]; [done|].
    change ((d :: dropped) ++ base :: later) with (d :: (dropped ++ base :: later)) in Hsorted.
    rewrite fmap_cons in Hsorted. apply StronglySorted_inv in Hsorted as [Hs Hall].
    constructor; [|by apply IH].
    rewrite Forall_fmap in Hall. rewrite Forall_app in Hall. destruct Hall as [_ Hall].
    apply Forall_cons in Hall as [Hd _]. exact Hd. }
  unfold XOR_model.count in Hix.
  destruct (store_deleteBefore_spec _ ix Harr Hix) as (h0 & Hh0 & Hdel).
  set (n := Z.to_nat ix) in *.
  set (arr' := store_drop n h0 (XOR_model.xor_array m)) in *.
  pose proof Harr as (_ & _ & _ & L4 & _ & _ & _ & L8).
  unfold XOR_array_model.count in Hix.
  destruct (lookup_lt_is_Some_2 (XOR_array_model.w1 (XOR_model.xor_array m)) n)
    as [W1 HW1]; [lia|].
  destruct (lookup_lt_is_Some_2 (XOR_array_model.w2 (XOR_model.xor_array m)) n)
    as [W2 HW2]; [lia|].
  assert (Hcount' : XOR_array_model.count arr'
                    = (XOR_array_model.count (XOR_model.xor_array m) - ix)%Z).
  { unfold arr'. rewrite store_drop_count. unfold XOR_array_model.count. lia. }
  set (tps2 := renumber ix (XOR_array_model.count (XOR_model.xor_array m) - ix) base later).
  assert (Hlater' :
            Forall (fun t => (0 < XOR_Slice.index t)%Z)
                   (map (fun tp => XOR_Slice.set_index (XOR_Slice.index tp - ix)%Z tp) later)).
  { apply Forall_fmap. eapply Forall_impl; [exact Hlater|]. intros tp Ht. cbn in *. lia. }
  (* the epoch size of the new first turning point lies inside the store *)
  set (epoch := match map (fun tp => XOR_Slice.set_index (XOR_Slice.index tp - ix)%Z tp) later
                with
                | [] => (XOR_array_model.count (XOR_model.xor_array m) - ix)%Z
                | tp1 :: _ => XOR_Slice.index tp1
                end).
  assert (Hepoch : (0 < epoch <= XOR_array_model.count (XOR_model.xor_array m) - ix)%Z).
  { unfold epoch. destruct later as [|t1 later']; cbn [map].
    - unfold XOR_array_model.count. lia.
    - cbn [XOR_Slice.index XOR_Slice.set_index].
      apply Forall_cons in Hlater as [H1 _].
      rewrite Htps in Hbound. rewrite Forall_app in Hbound. destruct Hbound as [_ Hb].
      apply Forall_cons in Hb as [_ Hb]. apply Forall_cons in Hb as [Hb _].
      unfold XOR_model.count in Hb. lia. }
  assert (Hla : exists v, py_index (XOR_array_model.lossAvg arr') (epoch - 1) = Some [[v]]).
  { rewrite py_index_nonneg by lia. unfold arr', store_drop. cbn [XOR_array_model.lossAvg].
    rewrite lookup_drop.
    unfold XOR_array_model.count in Hepoch.
    destruct (lookup_lt_is_Some_2 (XOR_array_model.lossAvg (XOR_model.xor_array m))
                (n + Z.to_nat (epoch - 1))) as [a Ha]; [lia|].
    rewrite Ha. destruct (Forall_lookup_1 _ _ _ _ Hshape Ha) as [v ->]. eauto. }
  destruct Hla as [v Hla].
  (* the texts *)
  assert (Hld : length (drop (length dropped) (XOR_model.lstTurningPointsDiff m))
                = S (length later)).
  { rewrite length_drop, Hdiffs, Htps, length_app. cbn [length]. lia. }
  destruct (drop (length dropped) (XOR_model.lstTurningPointsDiff m)) as [|d0 ds] eqn:Ediffs;
    [cbn in Hld; lia|].
  cbn [length] in Hld.
  (* the final [setPos(0)] *)
  set (new_diffs := (diff_None (XOR_Slice.set_epoch_size epoch (XOR_Slice.set_index 0 base))
                     +:+ getHTML_loss v)
                    :: (zip_with
                          (fun tp d => split_join (getHTML_TP_equal_mark (XOR_Slice.index tp))
                                         (getHTML_TP_equal_mark (XOR_Slice.index tp - ix)) d)
                          later ds ++ drop (length later) ds)).
  destruct (setPos_spec
              (with_history m tps2 new_diffs
                 (drop (length dropped) (XOR_model.lst_TP_Final_Loss m)) arr') 0)
    as (m' & W1' & W2' & pos & item & Hset & _ & HW1' & HW2' & Hc1 & Hc2 & Hpos & _ & Htp' & _
        & _ & Harr').
  { cbn [with_history XOR_model.xor_array]. by apply store_drop_aligned. }
  { unfold XOR_model.count. cbn [with_history XOR_model.xor_array]. lia. }
  { cbn [with_history XOR_model.lstTurningPoints]. apply Exists_cons_hd. cbn. lia. }
  cbn [with_history XOR_model.xor_array] in HW1', HW2'.
  unfold arr', store_drop in HW1', HW2'. cbn [XOR_array_model.w1 XOR_array_model.w2] in HW1', HW2'.
  assert (Hn0 : (n + Z.to_nat 0)%nat = n) by (cbn; lia).
  rewrite lookup_drop, Hn0 in HW1', HW2'.
  exists m', dropped, base, later, h0, W1, W2.
  repeat (split; [done|]).
  split.
  - unfold deleteBefore. unfold XOR_model.count, XOR_array_model.count.
    replace (Z.min (Z.max 0 ix)
               (Z.of_nat (length (XOR_array_model.w1 (XOR_model.xor_array m))) - 1))
      with ix by lia.
    rewrite Hdel. cbn [mbind option_bind].
    rewrite Htps.
    assert (Hscan : scan_tp_ix (dropped ++ base :: later) ix 0 0 = length dropped).
    { replace (dropped ++ base :: later) with ((dropped ++ [base]) ++ later)
        by (by rewrite <- app_assoc).
      assert (Hkeep : Forall (fun tp => (XOR_Slice.index tp <= ix)%Z) (dropped ++ [base])).
      { apply Forall_app. split; [|by apply Forall_singleton].
        eapply Forall_impl; [exact Hdropped|]. intros ? ?. cbn in *. lia. }
      rewrite (scan_tp_ix_split ix (dropped ++ [base]) later 0 0 Hkeep Hlater).
      assert (Hlen : length (dropped ++ [base]) = S (length dropped))
        by (rewrite length_app; cbn; lia).
      destruct (dropped ++ [base]); cbn [length] in *; lia. }
    rewrite Hscan, drop_app_length.
    rewrite Ediffs.
    rewrite option_guard_True by (cbn [length]; lia).
    cbn [map zip_with app length drop update_head mbind option_bind head].
    fold epoch.
    assert (He : match map (fun tp => XOR_Slice.set_index (XOR_Slice.index tp - ix)%Z tp) later
                 with
                 | [] => XOR_array_model.count arr'
                 | tp1 :: _ => XOR_Slice.index tp1
                 end = epoch).
    { unfold epoch. destruct later; [|done]. cbn [map]. exact Hcount'. }
    change (Z.of_nat (length (XOR_array_model.w1 arr'))) with (XOR_array_model.count arr').
    rewrite !He. cbn [XOR_Slice.epoch_size XOR_Slice.set_epoch_size]. rewrite Hla. cbn [mbind option_bind float_of_array].
    change (setPos (with_history m tps2 new_diffs
                      (drop (length dropped) (XOR_model.lst_TP_Final_Loss m)) arr') 0
              ≫= (fun self' => Some (self', [sigModelChanged 0]))
            = Some (m', [sigModelChanged 0])).
    rewrite Hset. done.
  - split; [exact Harr'|]. split; [exact Htp'|]. split; [exact Hpos|].
    rewrite HW1 in HW1'. rewrite HW2 in HW2'. split; congruence.
Qed.

(** C8: on a valid timeline, for every position [0 <= ix < count],
    [deleteBefore(ix)] succeeds and leaves the steps from [ix] on, their hit
    counters less those of the step that becomes position 0.  The turning
    points strictly before the one in force at [ix] are dropped; that one
    becomes the first with index 0, the later ones have [ix] subtracted from
    their index.  Position 0 of the result (where [deleteBefore] leaves the
    model, and where a further [setPos(0)] puts it) carries the weights that
    position [ix] carried before. *)
Theorem C8_deleteBefore_rebases_on_ix
    (getHTML_loss : float -> string) (m : XOR_model.t) (ix : Z) :
  timeline_wf m ->
  (0 <= ix < XOR_model.count m)%Z ->
  exists m' dropped base later h0 m_ix m_0,
    deleteBefore getHTML_loss m ix = Some (m', [sigModelChanged 0])
    /\ XOR_array_model.xHits (XOR_model.xor_array m) !! Z.to_nat ix = Some h0
    /\ XOR_model.xor_array m' = store_drop (Z.to_nat ix) h0 (XOR_model.xor_array m)
    /\ XOR_model.count m' = (XOR_model.count m - ix)%Z
    /\ XOR_model.lstTurningPoints m = dropped ++ base :: later
    /\ Forall (fun tp => (XOR_Slice.index tp < XOR_Slice.index base)%Z) dropped
    /\ (XOR_Slice.index base <= ix)%Z
    /\ Forall (fun tp => (ix < XOR_Slice.index tp)%Z) later
    /\ XOR_model.lstTurningPoints m' = renumber ix (XOR_model.count m - ix) base later
    /\ XOR_Slice.index <$> XOR_model.lstTurningPoints m'
       = 0%Z :: ((fun tp => XOR_Slice.index tp - ix)%Z <$> later)
    /\ XOR_model.getPos m' = 0%Z
    /\ setPos m ix = Some m_ix
    /\ setPos m' 0 = Some m_0
    /\ XOR_Slice.w1 (XOR_model.crtSlice m') = XOR_Slice.w1 (XOR_model.crtSlice m_ix)
    /\ XOR_Slice.w2 (XOR_model.crtSlice m') = XOR_Slice.w2 (XOR_model.crtSlice m_ix)
    /\ XOR_Slice.w1 (XOR_model.crtSlice m_0) = XOR_Slice.w1 (XOR_model.crtSlice m_ix)
    /\ XOR_Slice.w2 (XOR_model.crtSlice m_0) = XOR_Slice.w2 (XOR_model.crtSlice m_ix).
Proof.
  intros Hwf Hix.
  destruct (deleteBefore_spec getHTML_loss m ix Hwf Hix)
    as (m' & dropped & base & later & h0 & W1 & W2 & Htps & Hd & Hb & Hl & Hh0 & HW1 & HW2
        & Hdel & Harr & Htps' & Hpos & Hc1 & Hc2).
  destruct Hwf as [Harrs _ _ _ _ _ _].
  destruct (setPos_spec m ix Harrs Hix) as (m_ix & V1 & V2 & ? & ? & Hs & _ & HV1 & HV2 & Hv1
                                            & Hv2 & _).
  { rewrite Htps. apply Exists_app. right. by apply Exists_cons_hd. }
  assert (Hcount : XOR_model.count m' = (XOR_model.count m - ix)%Z).
  { unfold XOR_model.count in *. rewrite Harr, store_drop_count.
    unfold XOR_array_model.count in *. lia. }
  destruct (setPos_spec m' 0) as (m_0 & U1 & U2 & ? & ? & Hs0 & _ & HU1 & HU2 & Hu1 & Hu2 & _).
  { rewrite Harr. by apply store_drop_aligned. }
  { lia. }
  { rewrite Htps'. apply Exists_cons_hd. cbn. lia. }
  rewrite Harr in HU1, HU2. unfold store_drop in HU1, HU2.
  cbn [XOR_array_model.w1 XOR_array_model.w2] in HU1, HU2.
  assert (Hn0 : (Z.to_nat ix + Z.to_nat 0)%nat = Z.to_nat ix) by (cbn; lia).
  rewrite lookup_drop, Hn0 in HU1, HU2.
  exists m', dropped, base, later, h0, m_ix, m_0.
  repeat (split; [done|]).
  split.
  { rewrite Htps'. unfold renumber. cbn [fmap list_fmap XOR_Slice.index XOR_Slice.set_epoch_size
                                           XOR_Slice.set_index].
    f_equal. clear. induction later as [|t later IH]; [done|].
    cbn [map fmap list_fmap XOR_Slice.index XOR_Slice.set_index]. f_equal. exact IH. }
  repeat (split; [done|]).
  repeat split; congruence.
Qed.

Lemma C8_witness :
  timeline_wf DemoTimeline.model
  /\ (0 <= 5 < XOR_model.count DemoTimeline.model)%Z
  /\ exists m' m_ix,
       deleteBefore Demo.getHTML_loss DemoTimeline.model 5 = Some (m', [sigModelChanged 0])
       /\ XOR_model.count m' = (XOR_model.count DemoTimeline.model - 5)%Z
       /\ setPos DemoTimeline.model 5 = Some m_ix
       /\ XOR_Slice.w1 (XOR_model.crtSlice m') = XOR_Slice.w1 (XOR_model.crtSlice m_ix).
Proof.
  assert (Hwf : timeline_wf DemoTimeline.model).
  { split.
    - repeat split.
    - repeat constructor; eexists; reflexivity.
    - reflexivity.
    - cbn. repeat constructor; lia.
    - repeat constructor; vm_compute; reflexivity.
    - reflexivity.
    - reflexivity. }
  assert (Hix : (0 <= 5 < XOR_model.count DemoTimeline.model)%Z) by (vm_compute; done).
  split; [exact Hwf|]. split; [exact Hix|].
  destruct (C8_deleteBefore_rebases_on_ix Demo.getHTML_loss DemoTimeline.model 5 Hwf Hix)
    as (m' & dropped & base & later & h0 & m_ix & m_0 & Hdel & _ & _ & Hcount & _ & _ & _ & _
        & _ & _ & _ & Hs & _ & Hw1 & _).
  exists m', m_ix. done.
Defined.

Lemma first_names :
  head (dict_keys FunctionsListsByType.HiddenLayer) = Some "sigmoid"%string
  /\ head (dict_keys FunctionsListsByType.OutputLayer) = Some "sigmoid"%string
  /\ head (dict_keys FunctionsListsByType.LossFunction) = Some "LCE_Loss"%string.
Proof. repeat split; vm_compute; reflexivity. Qed.

Lemma resolve_name_hashable {V W} (role : FunctionType.t) (table : list (string * V))
    (fallback : list (string * W)) (found : option json) (first : string) :
  hashable (name_read found) = true ->
  head (dict_keys fallback) = Some first ->
  head (dict_keys table) = Some first ->
  resolve_name role table fallback found
  = Some (spec_name table found, spec_warning role table found).
Proof.
  intros Hh Hf Ht. unfold resolve_name, spec_name, spec_warning, registered, first_registered.
  rewrite Hf, Ht. unfold name_read in *.
  destruct (default (JStr "") found) as [| | | |s| |]; cbn in Hh |- *; try done.
  by destruct (dict_in table s).
Qed.

(** C9: for name values that can be looked up in a table (strings,
    numbers, booleans, null, or the key missing) no name makes [fromJson]
    raise: it returns exactly what the fourteen reads of the other keys give,
    each of those fields as read, and each of [activation1], [activation2],
    [loss] the name read when it is registered for its role and otherwise
    the first entry of the role's table, with one warning per unregistered
    name, in this order.  The output-layer fallback is read from the
    hidden-layer table, whose first entry is the output-layer table's first
    entry as well.  A list or an object as a name value cannot be looked up:
    there [fromJson] raises. *)
Theorem C9_unregistered_names_fall_back
    (int_of_str : string -> option Z) (float_of_str : string -> option float)
    (np_asarray_int : json -> option (list Z))
    (np_asarray_float : json -> option (list float))
    (self : XOR_Slice.t) (json_object : gmap string json) :
  hashable (name_read (json_object !! "activation1"%string)) = true ->
  hashable (name_read (json_object !! "activation2"%string)) = true ->
  hashable (name_read (json_object !! "loss"%string)) = true ->
  let load := fromJson int_of_str float_of_str np_asarray_int np_asarray_float self in
  let a1 := json_object !! "activation1"%string in
  let a2 := json_object !! "activation2"%string in
  let l := json_object !! "loss"%string in
  load json_object
  = (vindex ← get_int int_of_str json_object "index";
     vseedTP ← get_int int_of_str json_object "seedTP";
     vbatch_size ← get_int int_of_str json_object "batch_size";
     vepoch_size ← get_int int_of_str json_object "epoch_size";
     vcycles ← get_int int_of_str json_object "cyclesPerOneStepFwdOfEpoch";
     vlearning_rate ← get_float float_of_str json_object "learning_rate";
     vminRange ← get_int int_of_str json_object "minRange";
     vmaxRange ← get_int int_of_str json_object "maxRange";
     vyParam ← get_int_array np_asarray_int json_object "yParam" 4 1;
     vxPercents ← get_int_vector np_asarray_int json_object "xPercents" 4;
     vw1 ← get_float_array np_asarray_float json_object "w1" 3 2;
     vw1_lock ← get_int_array np_asarray_int json_object "w1_lock" 3 2;
     vw2 ← get_float_array np_asarray_float json_object "w2" 3 1;
     vw2_lock ← get_int_array np_asarray_int json_object "w2_lock" 3 1;
     Some ({| XOR_Slice.seedTP := vseedTP; XOR_Slice.index := vindex;
              XOR_Slice.batch_size := vbatch_size; XOR_Slice.epoch_size := vepoch_size;
              XOR_Slice.cyclesPerOneStepFwdOfEpoch := vcycles;
              XOR_Slice.learning_rate := vlearning_rate;
              XOR_Slice.activation1 := spec_name FunctionsListsByType.HiddenLayer a1;
              XOR_Slice.activation2 := spec_name FunctionsListsByType.OutputLayer a2;
              XOR_Slice.loss := spec_name FunctionsListsByType.LossFunction l;
              XOR_Slice.xPercents := vxPercents; XOR_Slice.yParam := vyParam;
              XOR_Slice.xHits := XOR_Slice.xHits self;
              XOR_Slice.minRange := vminRange; XOR_Slice.maxRange := vmaxRange;
              XOR_Slice.w1 := vw1; XOR_Slice.w1_lock := vw1_lock;
              XOR_Slice.z1 := XOR_Slice.z1 self; XOR_Slice.a1 := XOR_Slice.a1 self;
              XOR_Slice.w2 := vw2; XOR_Slice.w2_lock := vw2_lock;
              XOR_Slice.z2 := XOR_Slice.z2 self;
              XOR_Slice.y_aka_a2 := XOR_Slice.y_aka_a2 self;
              XOR_Slice.lossAvg := XOR_Slice.lossAvg self;
              XOR_Slice.lossPerX := XOR_Slice.lossPerX self |},
           spec_warning FunctionType.HiddenLayer FunctionsListsByType.HiddenLayer a1
           ++ spec_warning FunctionType.OutputLayer FunctionsListsByType.OutputLayer a2
           ++ spec_warning FunctionType.Loss FunctionsListsByType.LossFunction l))
  /\ (forall s w, load json_object = Some (s, w) ->
        (registered FunctionsListsByType.HiddenLayer a1 = false ->
         XOR_Slice.activation1 s = first_registered FunctionsListsByType.HiddenLayer
         /\ Warning_not_defined FunctionType.HiddenLayer (name_read a1)
              (first_registered FunctionsListsByType.HiddenLayer) ∈ w)
        /\ (registered FunctionsListsByType.OutputLayer a2 = false ->
            XOR_Slice.activation2 s = first_registered FunctionsListsByType.OutputLayer
            /\ Warning_not_defined FunctionType.OutputLayer (name_read a2)
                 (first_registered FunctionsListsByType.OutputLayer) ∈ w)
        /\ (registered FunctionsListsByType.LossFunction l = false ->
            XOR_Slice.loss s = first_registered FunctionsListsByType.LossFunction
            /\ Warning_not_defined FunctionType.Loss (name_read l)
                 (first_registered FunctionsListsByType.LossFunction) ∈ w)).
Proof.
  intros H1 H2 H3 load a1 a2 l.
  destruct first_names as (Fh & Fo & Fl).
  match goal with |- ?L = ?R /\ _ => assert (Heq : L = R) end.
  { unfold load, fromJson.
    rewrite (resolve_name_hashable FunctionType.HiddenLayer _ _ _ _ H1 Fh Fh).
    rewrite (resolve_name_hashable FunctionType.OutputLayer _ _ _ _ H2 Fh Fo).
    rewrite (resolve_name_hashable FunctionType.Loss _ _ _ _ H3 Fl Fl).
    fold a1 a2 l.
    repeat match goal with
           | |- context [get_int ?f ?o ?k] =>
               destruct (get_int f o k); cbn [mbind option_bind]; [|reflexivity]
           | |- context [get_float ?f ?o ?k] =>
               destruct (get_float f o k); cbn [mbind option_bind]; [|reflexivity]
           | |- context [get_int_array ?f ?o ?k ?r ?c] =>
               destruct (get_int_array f o k r c); cbn [mbind option_bind]; [|reflexivity]
           | |- context [get_int_vector ?f ?o ?k ?n] =>
               destruct (get_int_vector f o k n); cbn [mbind option_bind]; [|reflexivity]
           | |- context [get_float_array ?f ?o ?k ?r ?c] =>
               destruct (get_float_array f o k r c); cbn [mbind option_bind]; [|reflexivity]
           end.
    reflexivity. }
  split; [exact Heq|].
  intros s w Hload. rewrite Heq in Hload.
  repeat match type of Hload with
         | context [get_int ?f ?o ?k] =>
             destruct (get_int f o k); cbn [mbind option_bind] in Hload; [|done]
         | context [get_float ?f ?o ?k] =>
             destruct (get_float f o k); cbn [mbind option_bind] in Hload; [|done]
         | context [get_int_array ?f ?o ?k ?r ?c] =>
             destruct (get_int_array f o k r c); cbn [mbind option_bind] in Hload; [|done]
         | context [get_int_vector ?f ?o ?k ?n] =>
             destruct (get_int_vector f o k n); cbn [mbind option_bind] in Hload; [|done]
         | context [get_float_array ?f ?o ?k ?r ?c] =>
             destruct (get_float_array f o k r c); cbn [mbind option_bind] in Hload; [|done]
         end.
  injection Hload as <- <-.
  cbn [XOR_Slice.activation1 XOR_Slice.activation2 XOR_Slice.loss].
  unfold spec_name, spec_warning.
  split; [|split]; intros Hr; rewrite Hr; (split; [reflexivity|]);
    rewrite ?elem_of_app, ?list_elem_of_singleton; auto.
Qed.

(** C9, the name values the fallback does not reach: with a list as the
    value of [activation1], which is not registered for the hidden layer,
    [fromJson] raises, on an object that is read without an exception when
    that value is an unregistered string. *)
Lemma C9_list_name_raises :
  registered FunctionsListsByType.HiddenLayer (Some (JList [JStr "ReLU"])) = false
  /\ fromJson DemoFiles.int_of_str DemoFiles.float_of_str DemoFiles.np_asarray_int
              DemoFiles.np_asarray_float XOR_Slice_invalid
              (<["activation1"%string := JList [JStr "ReLU"]]> DemoFiles.json_object)
     = None
  /\ DemoFiles.json_object !! "activation1"%string = Some (JStr "swish")
  /\ is_Some (fromJson DemoFiles.int_of_str DemoFiles.float_of_str DemoFiles.np_asarray_int
                       DemoFiles.np_asarray_float XOR_Slice_invalid DemoFiles.json_object).
Proof.
  split; [reflexivity|]. split; [vm_compute; reflexivity|]. split; [reflexivity|].
  destruct (fromJson DemoFiles.int_of_str DemoFiles.float_of_str DemoFiles.np_asarray_int
              DemoFiles.np_asarray_float XOR_Slice_invalid DemoFiles.json_object)
    as [r|] eqn:E; [eauto|vm_compute in E; discriminate E].
Qed.

Lemma C9_witness :
  hashable (name_read (DemoFiles.json_object !! "activation1"%string)) = true
  /\ hashable (name_read (DemoFiles.json_object !! "activation2"%string)) = true
  /\ hashable (name_read (DemoFiles.json_object !! "loss"%string)) = true
  /\ exists s,
       fromJson DemoFiles.int_of_str DemoFiles.float_of_str DemoFiles.np_asarray_int
                DemoFiles.np_asarray_float XOR_Slice_invalid DemoFiles.json_object
       = Some (s, [Warning_not_defined FunctionType.HiddenLayer (JStr "swish") "sigmoid";
                   Warning_not_defined FunctionType.OutputLayer (JStr "LeakyReLU") "sigmoid";
                   Warning_not_defined FunctionType.Loss JNull "LCE_Loss"])
       /\ XOR_Slice.activation1 s = "sigmoid"%string
       /\ XOR_Slice.activation2 s = "sigmoid"%string
       /\ XOR_Slice.loss s = "LCE_Loss"%string
       /\ XOR_Slice.index s = 0%Z
       /\ XOR_Slice.seedTP s = 3%Z
       /\ XOR_Slice.epoch_size s = 5%Z
       /\ XOR_Slice.xPercents s = [25; 25; 25; 25]%Z.
Proof.
  assert (H1 : hashable (name_read (DemoFiles.json_object !! "activation1"%string)) = true)
    by (vm_compute; reflexivity).
  assert (H2 : hashable (name_read (DemoFiles.json_object !! "activation2"%string)) = true)
    by (vm_compute; reflexivity).
  assert (H3 : hashable (name_read (DemoFiles.json_object !! "loss"%string)) = true)
    by (vm_compute; reflexivity).
  repeat (split; [assumption|]).
  destruct (C9_unregistered_names_fall_back DemoFiles.int_of_str DemoFiles.float_of_str
              DemoFiles.np_asarray_int DemoFiles.np_asarray_float XOR_Slice_invalid
              DemoFiles.json_object H1 H2 H3) as (Heq & _).
  cbv zeta in Heq. rewrite Heq. clear Heq.
  eexists. split; [vm_compute; reflexivity|].
  repeat split.
Defined.

Lemma str_take_length (n : nat) (s : string) :
  String.length (str_take n s) = Nat.min n (String.length s).
Proof.
  revert s. induction n as [|n IH]; intros [|c s]; cbn; try done. by rewrite IH.
Qed.

(** C10: when [saveModel] opens the file dialog and the name chosen there
    is not empty and has a base name longer than [MAX_LEN_FILENAME_JSON]
    (50), it returns [False] (no exception: the result is a value), shows
    the message box, writes no file, and emits [sigModelNameChanged] with
    the base name cut to its first 50 characters, which becomes the model
    name; nothing else of the model changes. *)
Theorem C10_long_file_name_is_declined
    (completeBaseName absolutePath absoluteFilePath : string -> string)
    (getSaveFileName : string -> string)
    (write_json : string -> list XOR_Slice.t -> string)
    (self : MainWindow) (bSaveAs : bool) (chosen : string) :
  asks_for_name absolutePath absoluteFilePath self bSaveAs = true ->
  getSaveFileName (proposed_name absolutePath self) = chosen ->
  chosen ≠ ""%string ->
  (MAX_LEN_FILENAME_JSON < String.length (completeBaseName chosen))%nat ->
  let truncated := str_take MAX_LEN_FILENAME_JSON (completeBaseName chosen) in
  exists self' effects,
    saveModel completeBaseName absolutePath absoluteFilePath getSaveFileName write_json
              self bSaveAs
    = (false, self', effects)
    /\ effects = [MessageBox "File name length exceeded"; Emit (sigModelNameChanged truncated)]
    /\ writes_no_file effects = true
    /\ String.length truncated = 50%nat
    /\ XOR_model.modelName (mXORmodel self') = truncated
    /\ XOR_model.lastSavedFileInfo (mXORmodel self')
       = XOR_model.lastSavedFileInfo (mXORmodel self)
    /\ XOR_model.lstTurningPoints (mXORmodel self')
       = XOR_model.lstTurningPoints (mXORmodel self)
    /\ XOR_model.xor_array (mXORmodel self') = XOR_model.xor_array (mXORmodel self)
    /\ _lastUsedDirectory self' = _lastUsedDirectory self.
Proof.
  intros Hask Hchosen Hne Hlong truncated.
  unfold saveModel. rewrite Hask, Hchosen.
  rewrite bool_decide_eq_false_2 by done.
  rewrite bool_decide_eq_true_2 by done.
  eexists _, _. split; [reflexivity|].
  split; [reflexivity|]. split; [reflexivity|].
  split.
  { unfold truncated. rewrite str_take_length. unfold MAX_LEN_FILENAME_JSON in *. lia. }
  repeat split.
Qed.

Lemma C10_witness :
  asks_for_name DemoFiles.absolutePath DemoFiles.absoluteFilePath DemoFiles.window false = true
  /\ DemoFiles.long_name ≠ ""%string
  /\ (MAX_LEN_FILENAME_JSON < String.length (DemoFiles.completeBaseName DemoFiles.long_name))%nat
  /\ exists self',
       saveModel DemoFiles.completeBaseName DemoFiles.absolutePath DemoFiles.absoluteFilePath
                 DemoFiles.getSaveFileName DemoFiles.write_json DemoFiles.window false
       = (false, self',
          [MessageBox "File name length exceeded";
           Emit (sigModelNameChanged "a-model-name-that-is-considerably-longer-than-fift")])
       /\ XOR_model.modelName (mXORmodel self')
          = "a-model-name-that-is-considerably-longer-than-fift"%string.
Proof.
  assert (Hask : asks_for_name DemoFiles.absolutePath DemoFiles.absoluteFilePath
                               DemoFiles.window false = true) by reflexivity.
  assert (Hne : DemoFiles.long_name ≠ ""%string) by (vm_compute; discriminate).
  assert (Hlong : (MAX_LEN_FILENAME_JSON
                   < String.length (DemoFiles.completeBaseName DemoFiles.long_name))%nat)
    by (vm_compute; lia).
  repeat (split; [assumption|]).
  destruct (C10_long_file_name_is_declined DemoFiles.completeBaseName DemoFiles.absolutePath
              DemoFiles.absoluteFilePath DemoFiles.getSaveFileName DemoFiles.write_json
              DemoFiles.window false DemoFiles.long_name Hask eq_refl Hne Hlong)
    as (self' & effects & Hsave & -> & _ & _ & Hname & _).
  exists self'. split; [exact Hsave|exact Hname].
Defined.

(** ** More on the timeline: positions *)

Lemma wf_count_pos (m : XOR_model.t) : timeline_wf m -> (0 < XOR_model.count m)%Z.
Proof.
  intros [_ _ Hfirst _ Hbound _ _].
  destruct (XOR_model.lstTurningPoints m) as [|tp rest]; [done|].
  cbn in Hfirst. injection Hfirst as H0.
  apply Forall_cons in Hbound as [Hb _]. lia.
Qed.

Lemma wf_base_exists (m : XOR_model.t) (ix : Z) :
  timeline_wf m -> (0 <= ix)%Z ->
  Exists (fun tp => (XOR_Slice.index tp <= ix)%Z) (XOR_model.lstTurningPoints m).
Proof.
  intros [_ _ Hfirst _ _ _ _] Hix.
  destruct (XOR_model.lstTurningPoints m) as [|tp rest]; [done|].
  cbn in Hfirst. injection Hfirst as H0. apply Exists_cons_hd. lia.
Qed.

(** What [setPos] never touches. *)
Lemma setPos_frame (m m' : XOR_model.t) (ix : Z) :
  setPos m ix = Some m' ->
  XOR_model.modelName m' = XOR_model.modelName m
  /\ XOR_model.lstTurningPoints m' = XOR_model.lstTurningPoints m
  /\ XOR_model.lstTurningPointsDiff m' = XOR_model.lstTurningPointsDiff m
  /\ XOR_model.lst_TP_Final_Loss m' = XOR_model.lst_TP_Final_Loss m
  /\ XOR_model.maskParamLocks m' = XOR_model.maskParamLocks m
  /\ XOR_model.lastSavedFileInfo m' = XOR_model.lastSavedFileInfo m
  /\ XOR_model.xor_array m' = XOR_model.xor_array m.
Proof.
  unfold setPos.
  destruct (find_base _ _ 0) as [[pos item]|]; [|by intros [= <-]].
  repeat match goal with
         | |- context [py_index ?l ?i] => destruct (py_index l i); [|done]
         end.
  cbn [mbind option_bind]. by intros [= <-].
Qed.

Lemma setPos_wf (m m' : XOR_model.t) (ix : Z) :
  setPos m ix = Some m' -> timeline_wf m -> timeline_wf m'.
Proof.
  intros H [H1 H2 H3 H4 H5 H6 H7].
  apply setPos_frame in H as (_ & Et & Ed & El & _ & _ & Ea).
  split; unfold XOR_model.count; rewrite ?Ea, ?Et, ?Ed, ?El; done.
Qed.

(** [setPos] reads the lists and the arrays only: the slice it finds does
    not depend on the slice that was current. *)
Lemma setPos_with_crtSlice (m : XOR_model.t) (tp : XOR_Slice.t) (b : Z) (ix : Z) :
  is_Some (find_base (XOR_model.lstTurningPoints m)
             (if bool_decide (XOR_model.count m <= ix)%Z
              then (XOR_model.count m - 1)%Z else ix) 0) ->
  setPos (with_crtSlice m tp b) ix = setPos m ix.
Proof.
  intros [[pos item] Hfb]. unfold setPos.
  change (XOR_model.count (with_crtSlice m tp b)) with (XOR_model.count m).
  cbn [with_crtSlice XOR_model.lstTurningPoints XOR_model.xor_array].
  rewrite Hfb. reflexivity.
Qed.

Lemma setPos_result (m m' : XOR_model.t) (ix : Z) :
  setPos m ix = Some m' ->
  m' = m \/ exists tp b, m' = with_crtSlice m tp b.
Proof.
  unfold setPos.
  destruct (find_base _ _ 0) as [[pos item]|]; [|intros [= <-]; by left].
  repeat match goal with
         | |- context [py_index ?l ?i] => destruct (py_index l i); [|done]
         end.
  cbn [mbind option_bind]. intros [= <-]. right. eauto.
Qed.

(** X1: on a well-formed timeline the position last asked for wins:
    after any [setPos(i)], [setPos(j)] with [j >= 0] gives the model that
    [setPos(j)] gives directly.  It succeeds, the position shown is [j], or
    the last position when [j] is beyond it, and the turning points, their
    texts and the arrays are untouched. *)
Theorem X1_setPos_last_position_wins (m m1 : XOR_model.t) (i j : Z) :
  timeline_wf m ->
  (0 <= j)%Z ->
  setPos m i = Some m1 ->
  setPos m1 j = setPos m j
  /\ exists m2,
       setPos m j = Some m2
       /\ XOR_model.getPos m2 = Z.min j (XOR_model.count m - 1)
       /\ XOR_model.lstTurningPoints m2 = XOR_model.lstTurningPoints m
       /\ XOR_model.lstTurningPointsDiff m2 = XOR_model.lstTurningPointsDiff m
       /\ XOR_model.lst_TP_Final_Loss m2 = XOR_model.lst_TP_Final_Loss m
       /\ XOR_model.xor_array m2 = XOR_model.xor_array m.
Proof.
  intros Hwf Hj H1.
  pose proof (wf_count_pos m Hwf) as Hc.
  set (c := if bool_decide (XOR_model.count m <= j)%Z then (XOR_model.count m - 1)%Z else j).
  assert (Hcr : (0 <= c < XOR_model.count m)%Z) by (unfold c; case_bool_decide; lia).
  assert (Hcmin : c = Z.min j (XOR_model.count m - 1)) by (unfold c; case_bool_decide; lia).
  pose proof (wf_base_exists m c Hwf (proj1 Hcr)) as Hex.
  split.
  - destruct (setPos_result _ _ _ H1) as [-> | (tp & b & ->)]; [done|].
    apply setPos_with_crtSlice. fold c.
    destruct (find_base_Some _ c 0 Hex) as (p & item & ->). eauto.
  - destruct (setPos_spec m c (wf_arrays m Hwf) Hcr Hex)
      as (m2 & W1 & W2 & pos & item & Hs & _ & _ & _ & _ & _ & Hp & _ & Ht & Hd & Hl & Ha).
    exists m2. rewrite <- Hcmin.
    assert (Hsame : setPos m j = setPos m c).
    { unfold setPos. fold c.
      rewrite (bool_decide_eq_false_2 (XOR_model.count m <= c)%Z) by lia. done. }
    rewrite Hsame. done.
Qed.

Lemma X1_witness :
  timeline_wf DemoTimeline.model
  /\ (0 <= 25)%Z
  /\ exists m1 m2,
       setPos DemoTimeline.model 3 = Some m1
       /\ setPos m1 25 = Some m2
       /\ XOR_model.getPos m2 = 19%Z.
Proof.
  assert (Hwf : timeline_wf DemoTimeline.model).
  { split.
    - repeat split.
    - repeat constructor; eexists; reflexivity.
    - reflexivity.
    - cbn. repeat constructor; lia.
    - repeat constructor; vm_compute; reflexivity.
    - reflexivity.
    - reflexivity. }
  assert (Hj : (0 <= 25)%Z) by lia.
  split; [exact Hwf|]. split; [exact Hj|].
  destruct (setPos DemoTimeline.model 3) as [m1|] eqn:E1; [|vm_compute in E1; discriminate E1].
  destruct (X1_setPos_last_position_wins DemoTimeline.model m1 3 25 Hwf Hj E1)
    as (Heq & m2 & Hs & Hp & _).
  exists m1, m2. split; [reflexivity|]. split; [by rewrite Heq|]. exact Hp.
Defined.

Lemma find_base_split (before after : list XOR_Slice.t) (base : XOR_Slice.t) (ix : Z)
    (pos : nat) :
  (XOR_Slice.index base <= ix)%Z ->
  Forall (fun t => (ix < XOR_Slice.index t)%Z) after ->
  find_base (before ++ base :: after) ix pos = Some ((pos + length before)%nat, base).
Proof.
  intros Hb Ha. revert pos. induction before as [|t before IH]; intros pos.
  - cbn [app length]. rewrite find_base_head by done. f_equal. f_equal. lia.
  - cbn [app find_base length]. rewrite IH. do 2 f_equal. lia.
Qed.

Lemma slice_eqb_index (a b : XOR_Slice.t) :
  XOR_Slice.index a ≠ XOR_Slice.index b -> slice_eqb a b = false.
Proof. intros H. unfold slice_eqb. by rewrite (bool_decide_eq_false_2 _ H). Qed.

Lemma list_index_split (before after : list XOR_Slice.t) (base : XOR_Slice.t) (j : nat) :
  Forall (fun t => XOR_Slice.index t ≠ XOR_Slice.index base) before ->
  list_index (before ++ base :: after) base (j + length before) j = (j + length before)%nat.
Proof.
  intros H. revert j. induction H as [|t before Ht _ IH]; intros j.
  - cbn [app length list_index]. rewrite bool_decide_eq_true_2 by lia. cbn. lia.
  - cbn [app length list_index]. rewrite bool_decide_eq_false_2 by lia.
    rewrite slice_eqb_index by done. cbn [orb].
    replace (j + S (length before))%nat with (S j + length before)%nat by lia.
    apply IH.
Qed.

(** The turning points of a well-formed timeline fall into those before
    the one in force at [ix], that one, and those beyond [ix]. *)
Lemma wf_in_force (m : XOR_model.t) (ix : Z) :
  timeline_wf m -> (0 <= ix)%Z ->
  exists before base after,
    XOR_model.lstTurningPoints m = before ++ base :: after
    /\ Forall (fun tp => (XOR_Slice.index tp < XOR_Slice.index base)%Z) before
    /\ (XOR_Slice.index base <= ix)%Z
    /\ Forall (fun tp => (ix < XOR_Slice.index tp)%Z) after.
Proof.
  intros [_ _ Hfirst Hsorted _ _ _] Hix.
  destruct (sorted_split _ (ix + 1) Hsorted) as (k & later & Htps & Hk & Hfk & Hfg).
  assert (Hkne : k ≠ []).
  { destruct (XOR_model.lstTurningPoints m) as [|tp0 rest] eqn:E; [done|].
    cbn in Hfirst. injection Hfirst as H0.
    rewrite Hk. rewrite filter_cons_True by lia. done. }
  destruct (nonempty_snoc k Hkne) as (before & base & ->).
  rewrite <- app_assoc in Htps. cbn [app] in Htps.
  exists before, base, later. split; [done|].
  rewrite Forall_app, Forall_singleton in Hfk. destruct Hfk as [_ Hb].
  split; [|split; [lia|]].
  - rewrite Htps in Hsorted. clear -Hsorted.
    induction before as [|d before IH]; [done|].
    change ((d :: before) ++ base :: later) with (d :: (before ++ base :: later)) in Hsorted.
    rewrite fmap_cons in Hsorted. apply StronglySorted_inv in Hsorted as [Hs Hall].
    constructor; [|by apply IH].
    rewrite Forall_fmap in Hall. rewrite Forall_app in Hall. destruct Hall as [_ Hall].
    apply Forall_cons in Hall as [Hd _]. exact Hd.
  - eapply Forall_impl; [exact Hfg|]. intros tp Ht. cbn in Ht. lia.
Qed.

(** X2: on a well-formed timeline [setPos(ix)] at a stored position shows
    the turning point in force there: the last one whose index is at most
    [ix].  The current slice takes that turning point's parameters, seed,
    percentages, labels and lock masks, the position [ix] as its index, and
    the hits, weights and evaluation stored at [ix]; the model records the
    place of that turning point in the list. *)
Theorem X2_setPos_shows_turning_point_in_force (m : XOR_model.t) (ix : Z) :
  timeline_wf m ->
  (0 <= ix < XOR_model.count m)%Z ->
  exists m' before base after,
    XOR_model.lstTurningPoints m = before ++ base :: after
    /\ Forall (fun tp => (XOR_Slice.index tp < XOR_Slice.index base)%Z) before
    /\ (XOR_Slice.index base <= ix)%Z
    /\ Forall (fun tp => (ix < XOR_Slice.index tp)%Z) after
    /\ setPos m ix = Some m'
    /\ XOR_model.indexOfCrtBaseTP_in_lstTurningPoints m' = Z.of_nat (length before)
    /\ XOR_Slice.index (XOR_model.crtSlice m') = ix
    /\ params_of (XOR_model.crtSlice m') = params_of base
    /\ XOR_Slice.seedTP (XOR_model.crtSlice m') = XOR_Slice.seedTP base
    /\ XOR_Slice.xPercents (XOR_model.crtSlice m') = XOR_Slice.xPercents base
    /\ XOR_Slice.yParam (XOR_model.crtSlice m') = XOR_Slice.yParam base
    /\ XOR_Slice.w1_lock (XOR_model.crtSlice m') = XOR_Slice.w1_lock base
    /\ XOR_Slice.w2_lock (XOR_model.crtSlice m') = XOR_Slice.w2_lock base
    /\ XOR_array_model.xHits (XOR_model.xor_array m) !! Z.to_nat ix
       = Some (XOR_Slice.xHits (XOR_model.crtSlice m'))
    /\ XOR_array_model.w1 (XOR_model.xor_array m) !! Z.to_nat ix
       = Some (XOR_Slice.w1 (XOR_model.crtSlice m'))
    /\ XOR_array_model.w2 (XOR_model.xor_array m) !! Z.to_nat ix
       = Some (XOR_Slice.w2 (XOR_model.crtSlice m'))
    /\ XOR_array_model.y_aka_a2 (XOR_model.xor_array m) !! Z.to_nat ix
       = Some (XOR_Slice.y_aka_a2 (XOR_model.crtSlice m'))
    /\ XOR_array_model.lossAvg (XOR_model.xor_array m) !! Z.to_nat ix
       = Some (XOR_Slice.lossAvg (XOR_model.crtSlice m')).
Proof.
  intros Hwf Hix.
  destruct (wf_in_force m ix Hwf (proj1 Hix)) as (before & base & after & Htps & Hb & Hle & Ha).
  destruct Hwf as [Harr _ _ _ _ _ _].
  unfold setPos. rewrite bool_decide_eq_false_2 by lia.
  rewrite Htps, (find_base_split before after base ix 0 Hle Ha).
  rewrite (list_index_split before after base 0)
    by (eapply Forall_impl; [exact Hb|]; intros ? ?; cbn in *; lia).
  unfold XOR_model.count, XOR_array_model.count in Hix.
  destruct Harr as (L1 & L2 & L3 & L4 & L5 & L6 & L7 & L8).
  rewrite !py_index_nonneg by lia.
  destruct (lookup_lt_is_Some_2 (XOR_array_model.xHits (XOR_model.xor_array m)) (Z.to_nat ix))
    as [vh Eh]; [lia|]. rewrite Eh.
  destruct (lookup_lt_is_Some_2 (XOR_array_model.w1 (XOR_model.xor_array m)) (Z.to_nat ix))
    as [vw1 Ew1]; [lia|]. rewrite Ew1.
  destruct (lookup_lt_is_Some_2 (XOR_array_model.z1 (XOR_model.xor_array m)) (Z.to_nat ix))
    as [vz1 ->]; [lia|].
  destruct (lookup_lt_is_Some_2 (XOR_array_model.a1 (XOR_model.xor_array m)) (Z.to_nat ix))
    as [va1 ->]; [lia|].
  destruct (lookup_lt_is_Some_2 (XOR_array_model.w2 (XOR_model.xor_array m)) (Z.to_nat ix))
    as [vw2 Ew2]; [lia|]. rewrite Ew2.
  destruct (lookup_lt_is_Some_2 (XOR_array_model.z2 (XOR_model.xor_array m)) (Z.to_nat ix))
    as [vz2 ->]; [lia|].
  destruct (lookup_lt_is_Some_2 (XOR_array_model.y_aka_a2 (XOR_model.xor_array m))
              (Z.to_nat ix)) as [vy Ey]; [lia|]. rewrite Ey.
  destruct (lookup_lt_is_Some_2 (XOR_array_model.lossAvg (XOR_model.xor_array m))
              (Z.to_nat ix)) as [vla Ela]; [lia|]. rewrite Ela.
  destruct (lookup_lt_is_Some_2 (XOR_array_model.lossPerX (XOR_model.xor_array m))
              (Z.to_nat ix)) as [vlp ->]; [lia|].
  cbn [mbind option_bind].
  eexists _, before, base, after. do 4 (split; [done|]).
  split; [reflexivity|]. cbn. repeat split; f_equal; lia.
Qed.

Lemma X2_witness :
  timeline_wf DemoTimeline.model
  /\ (0 <= 7 < XOR_model.count DemoTimeline.model)%Z
  /\ exists m',
       setPos DemoTimeline.model 7 = Some m'
       /\ XOR_model.indexOfCrtBaseTP_in_lstTurningPoints m' = 1%Z
       /\ XOR_Slice.index (XOR_model.crtSlice m') = 7%Z
       /\ params_of (XOR_model.crtSlice m') = params_of (DemoTimeline.tp_at 5 7).
Proof.
  assert (Hwf : timeline_wf DemoTimeline.model).
  { split.
    - repeat split.
    - repeat constructor; eexists; reflexivity.
    - reflexivity.
    - cbn. repeat constructor; lia.
    - repeat constructor; vm_compute; reflexivity.
    - reflexivity.
    - reflexivity. }
  assert (Hix : (0 <= 7 < XOR_model.count DemoTimeline.model)%Z) by (vm_compute; done).
  split; [exact Hwf|]. split; [exact Hix|].
  destruct (X2_setPos_shows_turning_point_in_force DemoTimeline.model 7 Hwf Hix)
    as (m' & before & base & after & Htps & Hb & Hle & Ha & Hs & Hpos & Hidx & Hpar & _).
  exists m'. split; [exact Hs|].
  destruct before as [|b0 [|b1 before]].
  - exfalso. injection Htps as <- <-. apply Forall_cons in Ha as [Ha _].
    vm_compute in Ha. discriminate Ha.
  - injection Htps as <- <- <-. split; [exact Hpos|]. split; [exact Hidx|exact Hpar].
  - exfalso. injection Htps as <- <- Hrest.
    destruct before as [|b2 before].
    + injection Hrest as <- <-. vm_compute in Hle. apply Hle. reflexivity.
    + injection Hrest as <- Hrest. by destruct before.
Defined.

(** ** More on the timeline: deleting after a position *)

Lemma pop_after_all_beyond (ix : Z) (rtps : list XOR_Slice.t) (rd rl : list string) :
  Forall (fun tp => (ix < XOR_Slice.index tp)%Z) rtps -> pop_after ix rtps rd rl = None.
Proof.
  intros H. revert rd rl. induction H as [|tp rtps Htp _ IH]; intros rd rl; [done|].
  cbn [pop_after]. rewrite bool_decide_eq_true_2 by done.
  destruct rd, rl; done.
Qed.

Lemma wf_indices_nonneg (m : XOR_model.t) :
  timeline_wf m -> Forall (fun tp => (0 <= XOR_Slice.index tp)%Z) (XOR_model.lstTurningPoints m).
Proof.
  intros [_ _ Hfirst Hsorted _ _ _].
  destruct (XOR_model.lstTurningPoints m) as [|tp rest]; [done|].
  cbn in Hfirst. injection Hfirst as H0.
  rewrite fmap_cons in Hsorted. apply StronglySorted_inv in Hsorted as [_ Hall].
  constructor; [lia|]. rewrite Forall_fmap in Hall.
  eapply Forall_impl; [exact Hall|]. intros t Ht. cbn in Ht. lia.
Qed.

(** [deleteAfterPos] where it succeeds: [j] is the last position kept. *)
Lemma deleteAfterPos_at (format_0_3f : float -> string) (m : XOR_model.t) (ix : Z) :
  timeline_wf m ->
  (0 <= ix <= XOR_model.count m)%Z ->
  let j := Z.max 0 (ix - 1) in
  exists m' keep x gone l' y v,
    XOR_model.lstTurningPoints m = (keep ++ [x]) ++ gone
    /\ Forall (fun tp => (XOR_Slice.index tp <= j)%Z) (keep ++ [x])
    /\ Forall (fun tp => (j < XOR_Slice.index tp)%Z) gone
    /\ take (length (keep ++ [x])) (XOR_model.lst_TP_Final_Loss m) = l' ++ [y]
    /\ last (XOR_array_model.lossAvg (store_take (Z.to_nat (j + 1)) (XOR_model.xor_array m)))
       = Some [[v]]
    /\ deleteAfterPos format_0_3f m ix
       = Some (m', [sigModelChanged j], (XOR_model.count m - j - 1)%Z)
    /\ setPos (with_history m
                 (keep ++ [if bool_decide (0 < j)%Z
                           then XOR_Slice.set_epoch_size (j + 1 - XOR_Slice.index x)%Z x
                           else x])
                 (take (length (keep ++ [x])) (XOR_model.lstTurningPointsDiff m))
                 (l' ++ [format_0_3f v])
                 (store_take (Z.to_nat (j + 1)) (XOR_model.xor_array m))) j
       = Some m'.
Proof.
  intros Hwf Hix j.
  pose proof (wf_count_pos m Hwf) as Hcpos.
  destruct Hwf as [Harr Hshape Hfirst Hsorted Hbound Hdiffs Hlosses].
  assert (Hj : (0 <= j <= XOR_model.count m - 1)%Z) by (unfold j; lia).
  assert (Hjif : (if bool_decide (0 < ix)%Z then (ix - 1)%Z else ix) = j).
  { unfold j. case_bool_decide; lia. }
  destruct (sorted_split _ (j + 1) Hsorted) as (k & gone & Htps & Hk & Hfk & Hfg).
  assert (Hkne : k ≠ []).
  { destruct (XOR_model.lstTurningPoints m) as [|tp0 rest] eqn:E; [done|].
    cbn in Hfirst. injection Hfirst as H0.
    rewrite Hk. rewrite filter_cons_True by lia. done. }
  destruct (nonempty_snoc k Hkne) as (keep & x & ->).
  assert (Hfk' : Forall (fun tp => (XOR_Slice.index tp <= j)%Z) (keep ++ [x])).
  { eapply Forall_impl; [exact Hfk|]. intros tp Ht. cbn in Ht. lia. }
  assert (Hx : (XOR_Slice.index x <= j)%Z).
  { rewrite Forall_app, Forall_singleton in Hfk'. tauto. }
  assert (Hg' : Forall (fun tp => (j < XOR_Slice.index tp)%Z) gone).
  { eapply Forall_impl; [exact Hfg|]. intros tp Ht. cbn in Ht. lia. }
  unfold XOR_model.count in Hj, Hcpos.
  set (arr' := store_take (Z.to_nat (j + 1)) (XOR_model.xor_array m)).
  set (x' := if bool_decide (0 < j)%Z
             then XOR_Slice.set_epoch_size (j + 1 - XOR_Slice.index x)%Z x else x).
  assert (Hix' : XOR_Slice.index x' = XOR_Slice.index x).
  { unfold x'. by destruct (bool_decide (0 < j)%Z). }
  assert (Hcount' : XOR_array_model.count arr' = (j + 1)%Z).
  { unfold arr'. rewrite store_take_count by lia. lia. }
  assert (Hla : exists v, last (XOR_array_model.lossAvg arr') = Some [[v]]).
  { unfold arr', store_take. cbn [XOR_array_model.lossAvg].
    destruct Harr as (_ & _ & _ & _ & _ & _ & _ & HL).
    unfold XOR_array_model.count in Hj.
    rewrite last_lookup, length_take, lookup_take_lt by lia.
    destruct (lookup_lt_is_Some_2 (XOR_array_model.lossAvg (XOR_model.xor_array m))
                (Init.Nat.pred (Z.to_nat (j + 1) `min`
                   length (XOR_array_model.lossAvg (XOR_model.xor_array m)))))
      as [a Ha]; [lia|].
    rewrite Ha. destruct (Forall_lookup_1 _ _ _ _ Hshape Ha) as [v ->]. eauto. }
  destruct Hla as [v Hla].
  assert (Hlo : exists l' y,
             take (length (keep ++ [x])) (XOR_model.lst_TP_Final_Loss m) = l' ++ [y]).
  { apply nonempty_snoc. intros Hnil. apply (f_equal length) in Hnil.
    rewrite length_take, Hlosses, Htps, !length_app in Hnil. cbn in Hnil. lia. }
  destruct Hlo as (l' & y & Hlo).
  destruct (setPos_spec
              (with_history m (keep ++ [x'])
                 (take (length (keep ++ [x])) (XOR_model.lstTurningPointsDiff m))
                 (l' ++ [format_0_3f v]) arr') j)
    as (m' & W1 & W2 & pos & item & Hset & _).
  { cbn [with_history XOR_model.xor_array]. by apply store_take_aligned. }
  { unfold XOR_model.count. cbn [with_history XOR_model.xor_array]. lia. }
  { cbn [with_history XOR_model.lstTurningPoints]. apply Exists_app. right.
    apply Exists_cons_hd. lia. }
  exists m', keep, x, gone, l', y, v.
  do 5 (split; [done|]). split; [|exact Hset].
  unfold deleteAfterPos. rewrite Hjif.
  rewrite deleteAfter_spec by (unfold XOR_array_model.count in *; lia).
  cbn [mbind option_bind]. fold arr'.
  rewrite Htps.
  rewrite (pop_after_split j keep gone x) by (try done; rewrite <- Htps; done).
  cbn [mbind option_bind]. rewrite !reverse_involutive.
  rewrite Hcount'.
  assert (Hup : (if bool_decide (0 < j)%Z
                 then update_last
                        (fun tp => XOR_Slice.set_epoch_size (j + 1 - XOR_Slice.index tp)%Z tp)
                        (keep ++ [x])
                 else Some (keep ++ [x])) = Some (keep ++ [x'])).
  { unfold x'. destruct (bool_decide (0 < j)%Z); [by rewrite update_last_snoc | done]. }
  rewrite Hup. cbn [mbind option_bind].
  rewrite py_index_last, Hla. cbn [mbind option_bind float_of_array].
  rewrite Hlo, update_last_snoc. cbn [mbind option_bind].
  rewrite Hset. cbn [mbind option_bind]. done.
Qed.

(** X3: on a well-formed timeline of [n] steps [deleteAfterPos(ix)]
    succeeds exactly for [0 <= ix <= n].  Beyond the end the store's
    assertion fails; for a negative [ix] either that assertion fails or, at
    [-1], every turning point is popped and the list is read empty. *)
Theorem X3_deleteAfterPos_succeeds_within_bounds
    (format_0_3f : float -> string) (m : XOR_model.t) (ix : Z) :
  timeline_wf m ->
  (is_Some (deleteAfterPos format_0_3f m ix) <-> (0 <= ix <= XOR_model.count m)%Z).
Proof.
  intros Hwf. split.
  - intros [r Hr]. unfold deleteAfterPos in Hr.
    destruct (decide (0 <= ix <= XOR_model.count m)%Z) as [|Hout]; [done|]. exfalso.
    pose proof (wf_count_pos m Hwf) as Hcpos.
    unfold XOR_array_model.deleteAfter in Hr. unfold XOR_model.count in Hout, Hcpos.
    destruct (decide (0 < ix)%Z) as [Hpos|Hneg].
    + rewrite (bool_decide_eq_true_2 (0 < ix)%Z) in Hr by done.
      rewrite (bool_decide_eq_false_2
                 (-1 <= ix - 1 <= XOR_array_model.count (XOR_model.xor_array m) - 1)%Z)
        in Hr by lia.
      done.
    + rewrite (bool_decide_eq_false_2 (0 < ix)%Z) in Hr by done.
      destruct (decide (ix = -1)%Z) as [->|Hne].
      * rewrite (bool_decide_eq_true_2
                   (-1 <= -1 <= XOR_array_model.count (XOR_model.xor_array m) - 1)%Z)
          in Hr by lia.
        cbn [mbind option_bind] in Hr.
        rewrite pop_after_all_beyond in Hr; [done|].
        apply Forall_reverse. eapply Forall_impl; [exact (wf_indices_nonneg m Hwf)|].
        intros tp Ht. cbn in Ht. lia.
      * rewrite (bool_decide_eq_false_2
                   (-1 <= ix <= XOR_array_model.count (XOR_model.xor_array m) - 1)%Z)
          in Hr by lia.
        done.
  - intros Hix.
    destruct (deleteAfterPos_at format_0_3f m ix Hwf Hix)
      as (m' & keep & x & gone & l' & y & v & _ & _ & _ & _ & _ & Hdel & _).
    rewrite Hdel. eauto.
Qed.

Lemma X3_witness :
  timeline_wf DemoTimeline.model
  /\ is_Some (deleteAfterPos Demo.format_0_3f DemoTimeline.model 20)
  /\ deleteAfterPos Demo.format_0_3f DemoTimeline.model 21 = None
  /\ deleteAfterPos Demo.format_0_3f DemoTimeline.model (-1) = None.
Proof.
  assert (Hwf : timeline_wf DemoTimeline.model).
  { split.
    - repeat split.
    - repeat constructor; eexists; reflexivity.
    - reflexivity.
    - cbn. repeat constructor; lia.
    - repeat constructor; vm_compute; reflexivity.
    - reflexivity.
    - reflexivity. }
  split; [exact Hwf|].
  pose proof (X3_deleteAfterPos_succeeds_within_bounds Demo.format_0_3f DemoTimeline.model)
    as H.
  split; [|split].
  - apply (H 20 Hwf). vm_compute. split; discriminate.
  - destruct (deleteAfterPos Demo.format_0_3f DemoTimeline.model 21) eqn:E; [|done].
    exfalso. assert (Hs : is_Some (deleteAfterPos Demo.format_0_3f DemoTimeline.model 21))
      by (rewrite E; eauto).
    apply (H 21 Hwf) in Hs. vm_compute in Hs. destruct Hs as [_ Hs]. by apply Hs.
  - destruct (deleteAfterPos Demo.format_0_3f DemoTimeline.model (-1)) eqn:E; [|done].
    exfalso. assert (Hs : is_Some (deleteAfterPos Demo.format_0_3f DemoTimeline.model (-1)))
      by (rewrite E; eauto).
    apply (H (-1)%Z Hwf) in Hs. vm_compute in Hs. destruct Hs as [Hs _]. by apply Hs.
Defined.

Lemma with_history_wf (m : XOR_model.t) (tps : list XOR_Slice.t) (diffs losses : list string)
    (arr : XOR_array_model.t) :
  arrays_aligned arr ->
  Forall (fun a => exists v, a = [[v]]) (XOR_array_model.lossAvg arr) ->
  head (XOR_Slice.index <$> tps) = Some 0%Z ->
  StronglySorted Z.lt (XOR_Slice.index <$> tps) ->
  Forall (fun tp => (XOR_Slice.index tp < XOR_array_model.count arr)%Z) tps ->
  length diffs = length tps ->
  length losses = length tps ->
  timeline_wf (with_history m tps diffs losses arr).
Proof. intros. by split. Qed.

Lemma sorted_prefix (l1 l2 : list Z) :
  StronglySorted Z.lt (l1 ++ l2) -> StronglySorted Z.lt l1.
Proof.
  induction l1 as [|a l1 IH]; [constructor|].
  cbn [app]. intros H. apply StronglySorted_inv in H as [Hs Hall].
  constructor; [by apply IH|]. rewrite Forall_app in Hall. tauto.
Qed.

(** X4: [deleteAfterPos(ix)] keeps a well-formed timeline well-formed.
    With [j] the last position kept ([ix - 1], or 0 for [ix = 0]) the result
    has [j + 1] steps, those of the first [j + 1] positions, and shows
    position [j]; it returns the number of steps deleted.  For [ix <= 1]
    only position 0 and the first turning point remain and that turning
    point keeps its epoch size. *)
Theorem X4_deleteAfterPos_keeps_timeline_well_formed
    (format_0_3f : float -> string) (m : XOR_model.t) (ix : Z) :
  timeline_wf m ->
  (0 <= ix <= XOR_model.count m)%Z ->
  let j := Z.max 0 (ix - 1) in
  exists m',
    deleteAfterPos format_0_3f m ix
    = Some (m', [sigModelChanged j], (XOR_model.count m - (j + 1))%Z)
    /\ timeline_wf m'
    /\ XOR_model.count m' = (j + 1)%Z
    /\ XOR_model.xor_array m' = store_take (Z.to_nat (j + 1)) (XOR_model.xor_array m)
    /\ XOR_model.getPos m' = j
    /\ ((ix <= 1)%Z -> XOR_model.lstTurningPoints m' = take 1 (XOR_model.lstTurningPoints m)).
Proof.
  intros Hwf Hix j.
  destruct (deleteAfterPos_at format_0_3f m ix Hwf Hix)
    as (m' & keep & x & gone & l' & y & v & Htps & Hk & Hg & Hlo & Hla & Hdel & Hset).
  fold j in Htps, Hk, Hg, Hlo, Hla, Hdel, Hset.
  pose proof (wf_count_pos m Hwf) as Hcpos.
  assert (Hj : (0 <= j <= XOR_model.count m - 1)%Z) by (unfold j; lia).
  pose proof Hwf as [Harr Hshape Hfirst Hsorted Hbound Hdiffs Hlosses].
  set (x' := if bool_decide (0 < j)%Z
             then XOR_Slice.set_epoch_size (j + 1 - XOR_Slice.index x)%Z x else x) in *.
  assert (Hix' : XOR_Slice.index x' = XOR_Slice.index x).
  { unfold x'. by destruct (bool_decide (0 < j)%Z). }
  assert (Hidx : XOR_Slice.index <$> (keep ++ [x']) = XOR_Slice.index <$> (keep ++ [x])).
  { rewrite !fmap_app. cbn. by rewrite Hix'. }
  assert (Hcount' : XOR_array_model.count
                      (store_take (Z.to_nat (j + 1)) (XOR_model.xor_array m)) = (j + 1)%Z).
  { rewrite store_take_count by (unfold XOR_model.count in Hj; lia). lia. }
  assert (Hwf0 : timeline_wf
                   (with_history m (keep ++ [x'])
                      (take (length (keep ++ [x])) (XOR_model.lstTurningPointsDiff m))
                      (l' ++ [format_0_3f v])
                      (store_take (Z.to_nat (j + 1)) (XOR_model.xor_array m)))).
  { apply with_history_wf.
    - by apply store_take_aligned.
    - unfold store_take. cbn [XOR_array_model.lossAvg]. by apply Forall_take.
    - rewrite Hidx. rewrite Htps, fmap_app in Hfirst.
      destruct (XOR_Slice.index <$> keep ++ [x]) as [|i0 rest] eqn:E; [|exact Hfirst].
      apply fmap_nil_inv in E. by destruct keep.
    - rewrite Hidx. rewrite Htps, fmap_app in Hsorted. by apply sorted_prefix in Hsorted.
    - rewrite Hcount'. apply Forall_app. split.
      + rewrite Forall_app in Hk. destruct Hk as [Hk _].
        eapply Forall_impl; [exact Hk|]. intros tp Ht. cbn in Ht. lia.
      + apply Forall_singleton. rewrite Hix'.
        rewrite Forall_app, Forall_singleton in Hk. lia.
    - rewrite length_take, Hdiffs, Htps, !length_app. cbn. lia.
    - apply (f_equal length) in Hlo.
      rewrite length_take, Hlosses, Htps, !length_app in Hlo.
      rewrite !length_app in *. cbn in *. lia. }
  pose proof (setPos_wf _ _ _ Hset Hwf0) as Hwf'.
  pose proof (setPos_frame _ _ _ Hset) as (_ & Et & _ & _ & _ & _ & Ea).
  cbn [with_history XOR_model.lstTurningPoints XOR_model.xor_array] in Et, Ea.
  destruct (setPos_spec _ j (wf_arrays _ Hwf0)) as (m2 & _ & _ & _ & _ & Hs2 & _ & _ & _ & _ & _
                                                     & Hp2 & _).
  { unfold XOR_model.count. cbn [with_history XOR_model.xor_array]. lia. }
  { apply wf_base_exists; [exact Hwf0 | lia]. }
  rewrite Hset in Hs2. injection Hs2 as <-.
  exists m'. split; [rewrite Hdel; do 2 f_equal; lia|].
  split; [exact Hwf'|]. split; [unfold XOR_model.count; by rewrite Ea|].
  split; [exact Ea|]. split; [exact Hp2|].
  intros Hle. assert (Hj0 : j = 0%Z) by (unfold j; lia).
  rewrite Et, Htps. unfold x'. rewrite Hj0. rewrite bool_decide_eq_false_2 by lia.
  rewrite Hj0 in Hk.
  destruct keep as [|k0 keep].
  - cbn. done.
  - exfalso. rewrite Htps in Hsorted, Hfirst. cbn in Hsorted, Hfirst.
    injection Hfirst as H0.
    apply StronglySorted_inv in Hsorted as [_ Hall].
    rewrite Forall_fmap, !Forall_app, Forall_singleton in Hall.
    destruct Hall as [[_ Hx] _]. cbn in Hx.
    change ((k0 :: keep) ++ [x]) with (k0 :: (keep ++ [x])) in Hk.
    rewrite Forall_cons, Forall_app, Forall_singleton in Hk. lia.
Qed.

Lemma X4_witness :
  timeline_wf DemoTimeline.model
  /\ (0 <= 0 <= XOR_model.count DemoTimeline.model)%Z
  /\ exists m',
       deleteAfterPos Demo.format_0_3f DemoTimeline.model 0
       = Some (m', [sigModelChanged 0], 19%Z)
       /\ timeline_wf m'
       /\ XOR_model.count m' = 1%Z
       /\ XOR_Slice.epoch_size <$> XOR_model.lstTurningPoints m' = [5%Z].
Proof.
  assert (Hwf : timeline_wf DemoTimeline.model).
  { split.
    - repeat split.
    - repeat constructor; eexists; reflexivity.
    - reflexivity.
    - cbn. repeat constructor; lia.
    - repeat constructor; vm_compute; reflexivity.
    - reflexivity.
    - reflexivity. }
  assert (Hix : (0 <= 0 <= XOR_model.count DemoTimeline.model)%Z) by (vm_compute; done).
  split; [exact Hwf|]. split; [exact Hix|].
  destruct (X4_deleteAfterPos_keeps_timeline_well_formed Demo.format_0_3f
              DemoTimeline.model 0 Hwf Hix)
    as (m' & Hdel & Hwf' & Hc & _ & _ & Htp).
  exists m'. split; [exact Hdel|]. split; [exact Hwf'|]. split; [exact Hc|].
  rewrite Htp by lia. reflexivity.
Defined.

(** ** More on the timeline: deleting before a position *)

Lemma update_head_length {A} (f : A -> A) (l l' : list A) :
  update_head f l = Some l' -> length l' = length l.
Proof. destruct l; [done|]. by intros [= <-]. Qed.

(** [deleteBefore] cuts the three lists of turning points at the same
    place. *)
Lemma deleteBefore_lengths (getHTML_loss : float -> string) (m m' : XOR_model.t) (ix : Z)
    (sigs : list Signal) :
  deleteBefore getHTML_loss m ix = Some (m', sigs) ->
  length (XOR_model.lstTurningPointsDiff m) = length (XOR_model.lstTurningPoints m) ->
  length (XOR_model.lst_TP_Final_Loss m) = length (XOR_model.lstTurningPoints m) ->
  length (XOR_model.lstTurningPointsDiff m') = length (XOR_model.lstTurningPoints m')
  /\ length (XOR_model.lst_TP_Final_Loss m') = length (XOR_model.lstTurningPoints m').
Proof.
  unfold deleteBefore. intros H Hd Hl.
  destruct (XOR_array_model.deleteBefore _ _) as [arr|]; [|done].
  cbn [mbind option_bind] in H.
  set (k := scan_tp_ix _ _ 0 0) in H.
  case_guard; [|done]. cbn [mbind option_bind] in H.
  destruct (update_head (XOR_Slice.set_index 0) _) as [tps1|] eqn:E1; [|done].
  cbn [mbind option_bind] in H.
  destruct (update_head (XOR_Slice.set_epoch_size _) tps1) as [tps2|] eqn:E2; [|done].
  cbn [mbind option_bind] in H.
  destruct (head tps2) as [tp0|]; [|done]. cbn [mbind option_bind] in H.
  destruct (py_index _ _) as [la|]; [|done]. cbn [mbind option_bind] in H.
  destruct (float_of_array la) as [v|]; [|done]. cbn [mbind option_bind] in H.
  destruct (update_head _ (_ ++ _)) as [nd|] eqn:E3; [|done]. cbn [mbind option_bind] in H.
  destruct (setPos _ 0) as [m2|] eqn:E4; [|done]. cbn [mbind option_bind] in H.
  injection H as <- _.
  apply setPos_frame in E4 as (_ & -> & -> & -> & _).
  cbn [with_history XOR_model.lstTurningPoints XOR_model.lstTurningPointsDiff
         XOR_model.lst_TP_Final_Loss].
  apply update_head_length in E1, E2, E3.
  rewrite length_map in E1.
  rewrite length_app, length_zip_with, !length_drop in E3.
  rewrite !length_drop in *. lia.
Qed.

Lemma sorted_suffix (l1 l2 : list Z) :
  StronglySorted Z.lt (l1 ++ l2) -> StronglySorted Z.lt l2.
Proof.
  induction l1 as [|a l1 IH]; [done|].
  cbn [app]. intros H. apply StronglySorted_inv in H as [Hs _]. by apply IH.
Qed.

Lemma sorted_shift (d : Z) (l : list Z) :
  StronglySorted Z.lt l -> StronglySorted Z.lt ((fun i => i - d)%Z <$> l).
Proof.
  induction 1 as [|a l Hs IH Hall]; [constructor|].
  rewrite fmap_cons. constructor; [exact IH|].
  rewrite Forall_fmap. eapply Forall_impl; [exact Hall|]. intros i Hi. cbn. lia.
Qed.

Lemma renumber_indices (ix steps : Z) (base : XOR_Slice.t) (later : list XOR_Slice.t) :
  XOR_Slice.index <$> renumber ix steps base later
  = 0%Z :: ((fun i => i - ix)%Z <$> (XOR_Slice.index <$> later)).
Proof.
  unfold renumber. cbn [fmap list_fmap XOR_Slice.index XOR_Slice.set_epoch_size
                          XOR_Slice.set_index].
  f_equal. induction later as [|t later IH]; [done|].
  cbn [map fmap list_fmap XOR_Slice.index XOR_Slice.set_index]. f_equal. exact IH.
Qed.

(** X5: [deleteBefore(ix)] accepts any [ix] on a well-formed timeline: a
    negative one counts as 0, one beyond the end as the last position.  With
    [c] that position, the result is again well-formed, has the steps from
    [c] on, shows position 0, and the hit counters stored at its position 0
    are all zero. *)
Theorem X5_deleteBefore_clamps_and_keeps_timeline_well_formed
    (getHTML_loss : float -> string) (m : XOR_model.t) (ix : Z) :
  timeline_wf m ->
  let c := Z.min (Z.max 0 ix) (XOR_model.count m - 1) in
  exists m' h0,
    deleteBefore getHTML_loss m ix = Some (m', [sigModelChanged 0])
    /\ deleteBefore getHTML_loss m c = Some (m', [sigModelChanged 0])
    /\ timeline_wf m'
    /\ XOR_model.count m' = (XOR_model.count m - c)%Z
    /\ XOR_model.getPos m' = 0%Z
    /\ XOR_array_model.xHits (XOR_model.xor_array m) !! Z.to_nat c = Some h0
    /\ XOR_array_model.xHits (XOR_model.xor_array m') !! 0%nat = Some ((fun _ => 0%Z) <$> h0).
Proof.
  intros Hwf c.
  pose proof (wf_count_pos m Hwf) as Hcpos.
  assert (Hc : (0 <= c < XOR_model.count m)%Z) by (unfold c; lia).
  assert (Hsame : deleteBefore getHTML_loss m ix = deleteBefore getHTML_loss m c).
  { unfold deleteBefore. fold c.
    replace (Z.min (Z.max 0 c) (XOR_model.count m - 1)) with c by lia. done. }
  destruct (deleteBefore_spec getHTML_loss m c Hwf Hc)
    as (m' & dropped & base & later & h0 & W1 & W2 & Htps & Hd & Hb & Hl & Hh0 & HW1 & HW2
        & Hdel & Harr & Htps' & Hpos & _).
  exists m', h0. rewrite Hsame. split; [exact Hdel|]. split; [exact Hdel|].
  destruct (deleteBefore_lengths _ _ _ _ _ Hdel (wf_diffs m Hwf) (wf_losses m Hwf))
    as [Hld Hll].
  pose proof Hwf as [Harrs Hshape Hfirst Hsorted Hbound Hdiffs Hlosses].
  assert (Hcount : XOR_model.count m' = (XOR_model.count m - c)%Z).
  { unfold XOR_model.count in *. rewrite Harr, store_drop_count.
    unfold XOR_array_model.count in *. lia. }
  split; [|split; [exact Hcount|split; [exact Hpos|split; [exact Hh0|]]]].
  - split.
    + rewrite Harr. by apply store_drop_aligned.
    + rewrite Harr. unfold store_drop. cbn [XOR_array_model.lossAvg]. by apply Forall_drop.
    + rewrite Htps', renumber_indices. done.
    + rewrite Htps', renumber_indices.
      rewrite Htps, fmap_app, fmap_cons in Hsorted.
      apply sorted_suffix in Hsorted. apply StronglySorted_inv in Hsorted as [Hs _].
      constructor; [by apply sorted_shift|].
      rewrite !Forall_fmap. eapply Forall_impl; [exact Hl|]. intros tp Ht. cbn in *. lia.
    + rewrite Hcount, Htps'. unfold renumber. constructor.
      * cbn. lia.
      * rewrite Htps, Forall_app, Forall_cons in Hbound. destruct Hbound as (_ & _ & Hbl).
        apply Forall_fmap. eapply Forall_impl; [exact Hbl|]. intros tp Ht. cbn in *. lia.
    + exact Hld.
    + exact Hll.
  - rewrite Harr. unfold store_drop. cbn [XOR_array_model.xHits].
    rewrite list_lookup_fmap, lookup_drop, Nat.add_0_r, Hh0. cbn. f_equal.
    clear. induction h0 as [|h h0 IH]; [done|]. cbn. f_equal; [|exact IH].
    unfold wrap32. rewrite Z.sub_diag. reflexivity.
Qed.

Lemma X5_witness :
  timeline_wf DemoTimeline.model
  /\ exists m',
       deleteBefore Demo.getHTML_loss DemoTimeline.model 99 = Some (m', [sigModelChanged 0])
       /\ timeline_wf m'
       /\ XOR_model.count m' = 1%Z
       /\ XOR_array_model.xHits (XOR_model.xor_array m') !! 0%nat = Some [0; 0; 0; 0]%Z.
Proof.
  assert (Hwf : timeline_wf DemoTimeline.model).
  { split.
    - repeat split.
    - repeat constructor; eexists; reflexivity.
    - reflexivity.
    - cbn. repeat constructor; lia.
    - repeat constructor; vm_compute; reflexivity.
    - reflexivity.
    - reflexivity. }
  split; [exact Hwf|].
  destruct (X5_deleteBefore_clamps_and_keeps_timeline_well_formed Demo.getHTML_loss
              DemoTimeline.model 99 Hwf)
    as (m' & h0 & Hdel & _ & Hwf' & Hc & _ & Hh0 & Hz).
  exists m'. split; [exact Hdel|]. split; [exact Hwf'|]. split; [exact Hc|].
  rewrite Hz. vm_compute in Hh0. injection Hh0 as <-. reflexivity.
Defined.

(** ** The dense arrays: appending and cutting *)

Lemma append_count (a b : XOR_array_model.t) :
  XOR_array_model.count (XOR_array_model.append a b)
  = (XOR_array_model.count a + XOR_array_model.count b)%Z.
Proof. unfold XOR_array_model.count, XOR_array_model.append. cbn. rewrite length_app. lia. Qed.

Lemma take_app_aligned {A} (l1 l2 : list A) (n : nat) :
  length l1 = n -> take n (l1 ++ l2) = l1.
Proof. intros <-. apply take_app_length. Qed.

Lemma drop_app_aligned {A} (l1 l2 : list A) (n : nat) :
  length l1 = n -> drop n (l1 ++ l2) = l2.
Proof. intros <-. apply drop_app_length. Qed.

(** X6: appending a segment to an aligned store and then cutting after
    the store's last position gives the store back, and reports as deleted
    exactly the steps of the segment. *)
Theorem X6_append_then_deleteAfter_restores (a b : XOR_array_model.t) :
  arrays_aligned a ->
  XOR_array_model.deleteAfter (XOR_array_model.append a b) (XOR_array_model.count a - 1)
  = Some (a, XOR_array_model.count b).
Proof.
  intros (L1 & L2 & L3 & L4 & L5 & L6 & L7 & L8).
  rewrite deleteAfter_spec by (rewrite append_count; unfold XOR_array_model.count; lia).
  rewrite append_count. f_equal. f_equal; [|lia].
  replace (Z.to_nat (XOR_array_model.count a - 1 + 1)) with (length (XOR_array_model.w1 a))
    by (unfold XOR_array_model.count; lia).
  unfold store_take, XOR_array_model.append. cbn.
  rewrite !take_app_aligned by done.
  assert (Hh : take (length (XOR_array_model.w1 a))
                 match last (XOR_array_model.xHits a) with
                 | Some h => XOR_array_model.xHits a ++
                             map (fun row => zip_with (fun x y => wrap32 (x + y)) row h)
                                 (XOR_array_model.xHits b)
                 | None => XOR_array_model.xHits b
                 end = XOR_array_model.xHits a).
  { destruct (last (XOR_array_model.xHits a)) as [h|] eqn:E.
    - by apply take_app_aligned.
    - apply last_None in E. rewrite E in *. cbn in L1. rewrite <- L1. done. }
  rewrite Hh. by destruct a.
Qed.

Lemma X6_witness :
  arrays_aligned DemoTimeline.arrays
  /\ XOR_array_model.deleteAfter
       (XOR_array_model.append DemoTimeline.arrays DemoTimeline.arrays) 19
     = Some (DemoTimeline.arrays, 20%Z).
Proof.
  assert (Ha : arrays_aligned DemoTimeline.arrays) by (repeat split).
  split; [exact Ha|].
  exact (X6_append_then_deleteAfter_restores DemoTimeline.arrays DemoTimeline.arrays Ha).
Defined.

Lemma wrap32_sub (x y : Z) : wrap32 (wrap32 x - wrap32 y) = wrap32 (x - y).
Proof.
  unfold wrap32.
  replace (((x + 2 ^ 31) mod 2 ^ 32 - 2 ^ 31 - ((y + 2 ^ 31) mod 2 ^ 32 - 2 ^ 31) + 2 ^ 31))%Z
    with (((x + 2 ^ 31) mod 2 ^ 32 - (y + 2 ^ 31) mod 2 ^ 32 + 2 ^ 31))%Z by lia.
  f_equal.
  rewrite <- Z.add_mod_idemp_l by lia.
  rewrite <- Zminus_mod.
  rewrite Z.add_mod_idemp_l by lia. f_equal. lia.
Qed.

Lemma rebase_row (row z h : list Z) :
  Forall (fun v => v = 0%Z) z ->
  length z = length row ->
  Forall in_int32 row ->
  zip_with (fun u v => wrap32 (u - v))
           (zip_with (fun x y => wrap32 (x + y)) row h)
           (zip_with (fun x y => wrap32 (x + y)) z h)
  = take (length h) row.
Proof.
  revert z h. induction row as [|x row IH]; intros [|z0 z] [|y h] Hz Hlen Hr;
    try done; cbn in Hlen; try lia.
  apply Forall_cons in Hz as [-> Hz]. apply Forall_cons in Hr as [Hx Hr].
  cbn [zip_with length take]. f_equal.
  - rewrite wrap32_sub. replace (x + y - (0 + y))%Z with x by lia. by apply wrap32_id.
  - apply IH; [done | lia | done].
Qed.

(** X7: appending a filled segment to a store and then deleting
    everything before the segment's first step gives the segment back: each
    hit counter loses exactly what [append] had added to it. *)
Theorem X7_append_then_deleteBefore_returns_segment (a b : XOR_array_model.t) (h : list Z) :
  arrays_aligned a ->
  arrays_aligned b ->
  last (XOR_array_model.xHits a) = Some h ->
  length h = 4%nat ->
  segment_hits b ->
  XOR_array_model.deleteBefore (XOR_array_model.append a b) (XOR_array_model.count a)
  = Some b.
Proof.
  intros (A1 & A2 & A3 & A4 & A5 & A6 & A7 & A8) (B1 & B2 & B3 & B4 & B5 & B6 & B7 & B8)
         Hlast Hh [Hhead Hrows].
  assert (Hb : (0 < length (XOR_array_model.w1 b))%nat).
  { rewrite <- B1. destruct (XOR_array_model.xHits b); [done | cbn; lia]. }
  unfold XOR_array_model.deleteBefore. rewrite append_count.
  unfold XOR_array_model.count.
  replace (Z.min (Z.max 0 (Z.of_nat (length (XOR_array_model.w1 a))))
                 (Z.of_nat (length (XOR_array_model.w1 a))
                  + Z.of_nat (length (XOR_array_model.w1 b)) - 1))
    with (Z.of_nat (length (XOR_array_model.w1 a))) by lia.
  rewrite py_index_nonneg, !py_slice_from_nonneg by lia. rewrite Nat2Z.id.
  unfold XOR_array_model.append. cbn. rewrite Hlast.
  rewrite lookup_app_r by lia. rewrite A1, Nat.sub_diag.
  destruct (XOR_array_model.xHits b) as [|z rows] eqn:Eb; [done|].
  cbn in Hhead. injection Hhead as ->.
  cbn [map lookup list_lookup mbind option_bind].
  rewrite !drop_app_aligned by done.
  assert (Hx : map (fun row => zip_with (fun u v => wrap32 (u - v)) row
                                 (zip_with (fun x y => wrap32 (x + y)) [0; 0; 0; 0]%Z h))
                   (map (fun row => zip_with (fun x y => wrap32 (x + y)) row h)
                        ([0; 0; 0; 0]%Z :: rows))
               = [0; 0; 0; 0]%Z :: rows).
  { rewrite map_map. clear -Hrows Hh.
    induction Hrows as [|row rest [Hlen Hr] _ IH]; [done|].
    cbn [map]. f_equal; [|exact IH].
    rewrite (rebase_row row [0; 0; 0; 0]%Z h) by (try done; repeat constructor).
    rewrite Hh, <- Hlen. apply firstn_all. }
  change (zip_with (fun x y => wrap32 (x + y)) [0; 0; 0; 0]%Z h
          :: map (fun row => zip_with (fun x y => wrap32 (x + y)) row h) rows)
    with (map (fun row => zip_with (fun x y => wrap32 (x + y)) row h)
              ([0; 0; 0; 0]%Z :: rows)).
  rewrite Hx. destruct b. cbn in *. by subst.
Qed.

Lemma X7_witness :
  exists b,
    fillModel Demo.exp Demo.log Demo.tanh Demo.G Demo.tp0 = Some b
    /\ XOR_array_model.deleteBefore (XOR_array_model.append DemoTimeline.arrays b) 20
       = Some b.
Proof.
  destruct (fillModel Demo.exp Demo.log Demo.tanh Demo.G Demo.tp0) as [b|] eqn:E;
    [|vm_compute in E; discriminate E].
  exists b. split; [reflexivity|].
  vm_compute in E. injection E as <-.
  apply (X7_append_then_deleteBefore_returns_segment DemoTimeline.arrays _
           [19; 38; 0; 57]%Z).
  - repeat split.
  - repeat split.
  - reflexivity.
  - reflexivity.
  - split; [reflexivity|]. repeat constructor; vm_compute; congruence.
Defined.

(** ** The function library, continued *)

Lemma this_opp (x : Qc) : (this (- x) == - this x)%Q.
Proof. cbn. apply Qred_correct. Qed.

Lemma this_minus (x y : Qc) : (this (x - y) == this x - this y)%Q.
Proof. unfold Qcminus. rewrite this_plus, this_opp. reflexivity. Qed.

Lemma this_0 : this 0 = 0%Q.
Proof. reflexivity. Qed.

Lemma this_1 : this 1 = 1%Q.
Proof. reflexivity. Qed.

Lemma Qc_eq_this (x y : Qc) : (this x == this y)%Q <-> x = y.
Proof. split; [apply Qc_is_canon | by intros ->]. Qed.

Lemma Qsquare_nonneg (x : Q) : (0 <= x * x)%Q.
Proof.
  destruct (Qlt_le_dec x 0).
  - setoid_replace (x * x)%Q with ((- x) * (- x))%Q using relation Qeq by ring.
    apply Qmult_le_0_compat; lra.
  - apply Qmult_le_0_compat; lra.
Qed.

(** Goals and hypotheses on [Qc] read as goals on [Q]. *)
Ltac qc_to_q :=
  unfold Qcle, Qclt in *;
  repeat match goal with
         | H : @eq Qc _ _ |- _ => apply Qc_eq_this in H
         | |- @eq Qc _ _ => apply Qc_eq_this
         end;
  repeat progress
    (rewrite ?this_minus, ?this_plus, ?this_mult, ?this_opp, ?this_of_int, ?this_0, ?this_1
       in *).

Lemma this_EPSILON : this EPSILON = (1 # 10000000)%Q.
Proof. reflexivity. Qed.

Lemma this_LEAKY_eps : this LEAKY_eps = (1 # 10)%Q.
Proof. reflexivity. Qed.

Lemma of_bool_true : of_bool true = 1.
Proof. reflexivity. Qed.

Lemma of_bool_false : of_bool false = 0.
Proof. reflexivity. Qed.

(** X8: the sigmoid derivative of an array is bounded away from zero:
    every entry lies between half of [EPSILON] and one quarter, whatever the
    entry of the array it is computed from.  (The least value is
    [EPSILON * (1 - EPSILON)] up to the rounding of the clip edges.) *)
Theorem X8_sigmoid_derivative_of_arrays_is_bounded (m : matrix) :
  sigmoid_derivative (NdArray m) = NdArray (mat_map (derivative sigmoid 0) m)
  /\ Forall (Forall (fun d => EPSILON / of_int 2 <= d
                              /\ d <= of_int 1 / of_int 4 /\ 0 < d))
            (mat_map (derivative sigmoid 0) m).
Proof.
  split.
  { unfold sigmoid_derivative, eps_clip, pyarg_map, mat_map. f_equal.
    rewrite map_map. apply map_ext. intros row. rewrite map_map. reflexivity. }
  unfold mat_map. apply Forall_fmap, Forall_true. intros row.
  apply Forall_fmap, Forall_true. intros a. unfold compose. cbn [derivative].
  destruct (np_clip_bounds a (0 + EPSILON) (1 - EPSILON)) as [Hlo Hhi].
  { apply Qclt_le_weak, EPSILON_lt_half. }
  set (c := np_clip a (0 + EPSILON) (1 - EPSILON)) in *. clearbody c.
  assert (Hq : this (of_int 1 / of_int 4) = (1 # 4)%Q) by reflexivity.
  assert (Hq2 : this (EPSILON / of_int 2) = (1 # 20000000)%Q) by reflexivity.
  qc_to_q. rewrite Hq, Hq2. rewrite this_EPSILON in *.
  set (q := this c) in *. clearbody q.
  assert (Hp : (0 <= (q - (1 # 10000000)) * (1 - (1 # 10000000) - q))%Q)
    by (apply Qmult_le_0_compat; lra).
  pose proof (Qsquare_nonneg (q - (1 # 2))) as Hsq.
  assert (Hpos : (0 < q * (1 - q))%Q) by (apply Qmult_lt_0_compat; lra).
  repeat split; [lra | lra | exact Hpos].
Qed.

(** X9: for ReLU and Leaky ReLU the derivative computed from the
    activation value (as back-propagation does) is the slope at the input:
    1 for a positive input, and for a non-positive one 0 (ReLU), or
    [LEAKY_eps] below zero and 0 at zero (Leaky ReLU). *)
Theorem X9_relu_derivative_from_value_is_the_slope
    (np_exp np_tanh : float -> float) (x : float) :
  derivative ReLU x (value np_exp np_tanh ReLU x) = (if bool_decide (0 < x) then 1 else 0)
  /\ derivative LeakyReLU x (value np_exp np_tanh LeakyReLU x)
     = (if bool_decide (0 < x) then 1
        else if bool_decide (x < 0) then LEAKY_eps else 0).
Proof.
  cbn [derivative value]. split.
  - destruct (bool_decide (0 < x)) eqn:E.
    + rewrite of_bool_true, Qcmult_1_r, E, of_bool_true. ring.
    + rewrite of_bool_false, Qcmult_0_r.
      rewrite (Qclt_bool_decide_false 0 0) by apply Qcle_refl. rewrite of_bool_false. ring.
  - destruct (bool_decide (0 < x)) eqn:E.
    + apply bool_decide_eq_true in E.
      rewrite (Qclt_bool_decide_false x 0) by (by apply Qclt_le_weak).
      rewrite of_bool_true, of_bool_false.
      replace (x * 1 + LEAKY_eps * x * 0) with x by ring.
      rewrite (Qclt_bool_decide_true 0 x) by done.
      rewrite (Qclt_bool_decide_false x 0) by (by apply Qclt_le_weak).
      rewrite of_bool_true, of_bool_false. ring.
    + apply bool_decide_eq_false in E. apply Qcnot_lt_le in E.
      rewrite of_bool_false.
      destruct (bool_decide (x < 0)) eqn:E2.
      * apply bool_decide_eq_true in E2. rewrite of_bool_true.
        replace (x * 0 + LEAKY_eps * x * 1) with (LEAKY_eps * x) by ring.
        assert (Hneg : LEAKY_eps * x < 0).
        { qc_to_q. rewrite this_LEAKY_eps. lra. }
        rewrite (Qclt_bool_decide_true _ _ Hneg).
        rewrite (Qclt_bool_decide_false 0 (LEAKY_eps * x)) by (by apply Qclt_le_weak).
        rewrite of_bool_true, of_bool_false. ring.
      * rewrite of_bool_false.
        replace (x * 0 + LEAKY_eps * x * 0) with (0 : Qc) by ring.
        rewrite (Qclt_bool_decide_false 0 0) by apply Qcle_refl.
        rewrite of_bool_false. ring.
Qed.

Lemma np_maximum_0 (t : Qc) :
  (0 < t /\ np_maximum 0 t = t) \/ (t <= 0 /\ np_maximum 0 t = 0).
Proof.
  unfold np_maximum. destruct (bool_decide (0 < t)) eqn:E.
  - apply bool_decide_eq_true in E. by left.
  - apply bool_decide_eq_false in E. apply Qcnot_lt_le in E. by right.
Qed.

Lemma Qc_pos_neq (t : Qc) : 0 < t -> t <> 0.
Proof. intros H ->. by apply (Qclt_not_eq 0 0). Qed.

Lemma hinge_margin (y a : Qc) : (y * a < 1) <-> 0 < 1 - y * a.
Proof. apply Qclt_minus_iff. Qed.

Lemma hinge_pair (k h t : Qc) (b : bool) (v d : Qc) :
  k <> 0 ->
  ((0 < t /\ h = t /\ b = true) \/ (t <= 0 /\ h = 0 /\ b = false)) ->
  (v = h \/ v = h * h) ->
  (d = k * of_bool b \/ d = k * h) ->
  0 <= v /\ (v = 0 <-> d = 0).
Proof.
  intros Hk [(Ht & -> & ->) | (Ht & -> & ->)] Hv Hd.
  - assert (Htt : 0 < t * t).
    { qc_to_q. apply Qmult_lt_0_compat; done. }
    assert (Hv0 : 0 < v) by (destruct Hv as [-> | ->]; done).
    assert (Hd0 : d <> 0).
    { destruct Hd as [-> | ->].
      - rewrite of_bool_true, Qcmult_1_r. done.
      - intros H0. apply Qcmult_integral in H0 as [H0 | H0]; [done|].
        by apply (Qc_pos_neq t). }
    split; [by apply Qclt_le_weak|].
    split; [intros H0; by apply Qc_pos_neq in Hv0 | done].
  - assert (Hv0 : v = 0) by (destruct Hv as [-> | ->]; [done | ring]).
    assert (Hd0 : d = 0) by (destruct Hd as [-> | ->]; [rewrite of_bool_false|]; ring).
    rewrite Hv0, Hd0. split; [apply Qcle_refl | done].
Qed.

(** X10: every hinge loss (plain or squared, on [[-1, 1]] or on
    [[0, 1]] predictions) is non-negative, and for a label of the truth
    table its derivative vanishes exactly where the loss itself is zero. *)
Theorem X10_hinge_losses_vanish_with_their_derivative
    (np_log : float -> float) (f : LossFunction) (a : float) (y : Z) :
  f <> LCE_Loss ->
  label01 y ->
  0 <= loss_value np_log f a y
  /\ (loss_value np_log f a y = 0 <-> loss_derivative f a y = 0).
Proof.
  intros Hf Hy.
  assert (Hk1 : of_int (- hinge_label y) <> 0).
  { destruct Hy as [-> | ->]; vm_compute; discriminate. }
  assert (Hk2 : of_int (-2 * hinge_label y) <> 0).
  { destruct Hy as [-> | ->]; vm_compute; discriminate. }
  assert (Hcase : forall a' : Qc,
             (0 < 1 - of_int (hinge_label y) * a'
              /\ np_maximum 0 (1 - of_int (hinge_label y) * a')
                 = 1 - of_int (hinge_label y) * a'
              /\ bool_decide (of_int (hinge_label y) * a' < 1) = true)
             \/ (1 - of_int (hinge_label y) * a' <= 0
                 /\ np_maximum 0 (1 - of_int (hinge_label y) * a') = 0
                 /\ bool_decide (of_int (hinge_label y) * a' < 1) = false)).
  { intros a'. destruct (np_maximum_0 (1 - of_int (hinge_label y) * a')) as [[H1 H2]|[H1 H2]].
    - left. split; [done|]. split; [done|].
      apply bool_decide_eq_true. by apply hinge_margin.
    - right. split; [done|]. split; [done|].
      apply bool_decide_eq_false. intros H. apply hinge_margin in H.
      by apply (Qcle_not_lt _ _ H1). }
  destruct f; [done| | | |]; unfold loss_value, loss_derivative; cbn [loss_init].
  - eapply hinge_pair; [exact Hk1 | apply (Hcase a) | by left | by left].
  - eapply hinge_pair; [exact Hk2 | apply (Hcase a) | by right | by right].
  - eapply hinge_pair; [exact Hk1 | apply (Hcase (a * of_int 2 - 1)) | by left | by left].
  - eapply hinge_pair; [exact Hk2 | apply (Hcase (a * of_int 2 - 1)) | by right | by right].
Qed.

Lemma X10_witness :
  Squared_Hinge_Loss <> LCE_Loss
  /\ label01 1
  /\ loss_value Demo.log Squared_Hinge_Loss (of_int 2) 1 = 0
  /\ loss_derivative Squared_Hinge_Loss (of_int 2) 1 = 0.
Proof.
  assert (Hf : Squared_Hinge_Loss <> LCE_Loss) by discriminate.
  assert (Hy : label01 1) by (by right).
  split; [exact Hf|]. split; [exact Hy|].
  destruct (X10_hinge_losses_vanish_with_their_derivative Demo.log Squared_Hinge_Loss
              (of_int 2) 1 Hf Hy) as [_ Hiff].
  assert (Hv : loss_value Demo.log Squared_Hinge_Loss (of_int 2) 1 = 0)
    by (vm_compute; reflexivity).
  split; [exact Hv | by apply Hiff].
Defined.

Lemma this_div (x y : Qc) : (this (x / y) == this x / this y)%Q.
Proof.
  unfold Qcdiv. rewrite this_mult. unfold Qdiv. apply Qmult_comp; [reflexivity|].
  cbn. apply Qred_correct.
Qed.

Lemma inv_bounds (q : Q) :
  ((1 # 10000000) <= q)%Q -> (0 < 1 / q)%Q /\ (1 / q <= 10000000)%Q.
Proof.
  intros H. assert (Hq : (0 < q)%Q) by lra. split.
  - apply Qlt_shift_div_l; [done | lra].
  - apply Qle_shift_div_r; [done | lra].
Qed.

(** X11: on arrays the derivative of the log cross-entropy loss is
    finite and has the sign that moves the prediction toward its label: for
    the label 1 it is [-1 / c], negative, and for the label 0 it is
    [1 / (1 - c)], positive, where [c] is the prediction clipped into
    [[EPSILON, 1 - EPSILON]]; its size stays below [2 * 10^7] (it reaches
    [1 / EPSILON = 10^7] up to the rounding of the clip edges). *)
Theorem X11_LCE_derivative_is_finite_and_signed (a : float) :
  let c := np_clip a (0 + EPSILON) (1 - EPSILON) in
  loss_derivative LCE_Loss a 1 = - (1 / c)
  /\ loss_derivative LCE_Loss a 0 = 1 / (1 - c)
  /\ - of_int 20000000 < loss_derivative LCE_Loss a 1
  /\ loss_derivative LCE_Loss a 1 < 0
  /\ 0 < loss_derivative LCE_Loss a 0
  /\ loss_derivative LCE_Loss a 0 < of_int 20000000.
Proof.
  intros c.
  destruct (np_clip_bounds a (0 + EPSILON) (1 - EPSILON)) as [Hlo Hhi].
  { apply Qclt_le_weak, EPSILON_lt_half. }
  fold c in Hlo, Hhi.
  assert (E1 : loss_derivative LCE_Loss a 1 = - (1 / c)).
  { unfold loss_derivative. cbn [loss_init]. fold c.
    change (of_int (1 - 1)) with (0 : Qc). change (of_int 1) with (1 : Qc).
    unfold Qcdiv. ring. }
  assert (E0 : loss_derivative LCE_Loss a 0 = 1 / (1 - c)).
  { unfold loss_derivative. cbn [loss_init]. fold c.
    change (of_int (0 - 1)) with (- (1 : Qc)). change (of_int 0) with (0 : Qc).
    unfold Qcdiv. ring. }
  clearbody c.
  rewrite E1, E0. split; [done|]. split; [done|].
  qc_to_q. rewrite ?this_div, ?this_minus, ?this_1. rewrite this_EPSILON in *.
  change (inject_Z 20000000) with 20000000%Q.
  destruct (inv_bounds (this c)) as [P1 P2]; [lra|].
  destruct (inv_bounds (1 - this c)) as [P3 P4]; [lra|].
  repeat split; lra.
Qed.

(** ** Persistence: writing and reading a turning point *)

Lemma chunks_concat {A} (cols : nat) (m : list (list A)) :
  Forall (fun row => length row = cols) m ->
  chunks (length m) cols (concat m) = m.
Proof.
  induction 1 as [|row m Hrow _ IH]; [done|].
  cbn [length chunks concat].
  rewrite take_app_aligned, drop_app_aligned by done. by rewrite IH.
Qed.

Lemma concat_length_shape {A} (rows cols : nat) (m : list (list A)) :
  has_shape rows cols m -> length (concat m) = (rows * cols)%nat.
Proof.
  intros [<- H]. induction H as [|row m Hrow _ IH]; [done|].
  cbn [concat length]. rewrite length_app, IH, Hrow. lia.
Qed.

Lemma reshape_concat {A} (rows cols : nat) (m : list (list A)) :
  has_shape rows cols m -> reshape rows cols (concat m) = Some m.
Proof.
  intros Hs. unfold reshape.
  rewrite bool_decide_eq_true_2 by (by apply concat_length_shape).
  destruct Hs as [<- H]. by rewrite chunks_concat.
Qed.

Lemma resolve_name_registered {V W} (role : FunctionType.t) (table : list (string * V))
    (fallback : list (string * W)) (s : string) :
  dict_in table s = true ->
  resolve_name role table fallback (Some (JStr s)) = Some (s, []).
Proof. intros H. unfold resolve_name. cbn. by rewrite H. Qed.

Ltac toJson_lookup :=
  unfold toJson; repeat (rewrite lookup_insert_ne by done); apply lookup_insert_eq.

(** X12: reading back what [toJson] wrote restores the turning point.
    For a turning point with the shapes of the class and registered function
    names, [fromJson] on the dict of [toJson] succeeds without a warning and
    yields every saved attribute as it was; the attributes that are not
    saved (hits and evaluation) stay those of the slice that reads. *)
Theorem X12_fromJson_restores_what_toJson_wrote
    (int_of_str : string -> option Z) (float_of_str : string -> option float)
    (np_asarray_int : json -> option (list Z))
    (np_asarray_float : json -> option (list float))
    (self tp : XOR_Slice.t) :
  class_shapes tp ->
  names_registered tp ->
  asarray_reads np_asarray_int np_asarray_float tp ->
  fromJson int_of_str float_of_str np_asarray_int np_asarray_float self (toJson tp)
  = Some (restored self tp, []).
Proof.
  intros (Sy & Sx & Sw1 & Sl1 & Sw2 & Sl2) (N1 & N2 & N3) (Ry & Rx & Rw1 & Rl1 & Rw2 & Rl2).
  unfold fromJson, get_int, get_float, get_int_array, get_int_vector, get_float_array.
  assert (K1 : toJson tp !! "index"%string = Some (JInt (XOR_Slice.index tp)))
    by toJson_lookup.
  assert (K2 : toJson tp !! "seedTP"%string = Some (JInt (XOR_Slice.seedTP tp)))
    by toJson_lookup.
  assert (K3 : toJson tp !! "batch_size"%string = Some (JInt (XOR_Slice.batch_size tp)))
    by toJson_lookup.
  assert (K4 : toJson tp !! "epoch_size"%string = Some (JInt (XOR_Slice.epoch_size tp)))
    by toJson_lookup.
  assert (K5 : toJson tp !! "cyclesPerOneStepFwdOfEpoch"%string
               = Some (JInt (XOR_Slice.cyclesPerOneStepFwdOfEpoch tp))) by toJson_lookup.
  assert (K6 : toJson tp !! "learning_rate"%string
               = Some (JFloat (XOR_Slice.learning_rate tp))) by toJson_lookup.
  assert (K7 : toJson tp !! "minRange"%string = Some (JInt (XOR_Slice.minRange tp)))
    by toJson_lookup.
  assert (K8 : toJson tp !! "maxRange"%string = Some (JInt (XOR_Slice.maxRange tp)))
    by toJson_lookup.
  assert (K9 : toJson tp !! "yParam"%string
               = Some (tolist_int_matrix (XOR_Slice.yParam tp))) by toJson_lookup.
  assert (K10 : toJson tp !! "xPercents"%string
                = Some (tolist_int (XOR_Slice.xPercents tp))) by toJson_lookup.
  assert (K11 : toJson tp !! "w1"%string = Some (tolist_float_matrix (XOR_Slice.w1 tp)))
    by toJson_lookup.
  assert (K12 : toJson tp !! "w1_lock"%string
                = Some (tolist_int_matrix (XOR_Slice.w1_lock tp))) by toJson_lookup.
  assert (K13 : toJson tp !! "activation1"%string = Some (JStr (XOR_Slice.activation1 tp)))
    by toJson_lookup.
  assert (K14 : toJson tp !! "w2"%string = Some (tolist_float_matrix (XOR_Slice.w2 tp)))
    by toJson_lookup.
  assert (K15 : toJson tp !! "w2_lock"%string
                = Some (tolist_int_matrix (XOR_Slice.w2_lock tp))) by toJson_lookup.
  assert (K16 : toJson tp !! "activation2"%string = Some (JStr (XOR_Slice.activation2 tp)))
    by toJson_lookup.
  assert (K17 : toJson tp !! "loss"%string = Some (JStr (XOR_Slice.loss tp)))
    by toJson_lookup.
  rewrite K1, K2, K3, K4, K5, K6, K7, K8, K9, K10, K11, K12, K13, K14, K15, K16, K17.
  cbn [mbind option_bind py_int py_float].
  rewrite Ry, Rx, Rw1, Rl1, Rw2, Rl2. cbn [mbind option_bind].
  rewrite !reshape_concat by done.
  rewrite bool_decide_eq_true_2 by done.
  rewrite !resolve_name_registered by done.
  reflexivity.
Qed.

Lemma X12_witness :
  class_shapes Demo.tp0
  /\ names_registered Demo.tp0
  /\ asarray_reads DemoFiles.np_asarray_int DemoFiles.np_asarray_float Demo.tp0
  /\ fromJson DemoFiles.int_of_str DemoFiles.float_of_str DemoFiles.np_asarray_int
              DemoFiles.np_asarray_float XOR_Slice_invalid (toJson Demo.tp0)
     = Some (restored XOR_Slice_invalid Demo.tp0, []).
Proof.
  assert (Hs : class_shapes Demo.tp0).
  { repeat split; repeat constructor. }
  assert (Hn : names_registered Demo.tp0) by (repeat split).
  assert (Hr : asarray_reads DemoFiles.np_asarray_int DemoFiles.np_asarray_float Demo.tp0).
  { repeat split; vm_compute; reflexivity. }
  split; [exact Hs|]. split; [exact Hn|]. split; [exact Hr|].
  exact (X12_fromJson_restores_what_toJson_wrote DemoFiles.int_of_str
           DemoFiles.float_of_str DemoFiles.np_asarray_int DemoFiles.np_asarray_float
           XOR_Slice_invalid Demo.tp0 Hs Hn Hr).
Defined.

(** X13: the fourteen numeric and array attributes are read with
    [json_object[key]]: when any of these keys is missing, [fromJson]
    raises, whatever else the object holds. *)
Theorem X13_fromJson_raises_on_a_missing_key
    (int_of_str : string -> option Z) (float_of_str : string -> option float)
    (np_asarray_int : json -> option (list Z))
    (np_asarray_float : json -> option (list float))
    (self : XOR_Slice.t) (json_object : gmap string json) (k : string) :
  k ∈ required_keys ->
  json_object !! k = None ->
  fromJson int_of_str float_of_str np_asarray_int np_asarray_float self json_object = None.
Proof.
  intros Hk Hnone.
  unfold fromJson, get_int, get_float, get_int_array, get_int_vector, get_float_array.
  unfold required_keys in Hk.
  repeat (apply elem_of_cons in Hk as [-> | Hk]);
    [.. | by apply elem_of_nil in Hk];
    rewrite Hnone; cbn [mbind option_bind];
    repeat match goal with
           | |- None = None => reflexivity
           | |- ?m ≫= _ = None =>
               destruct m as [?|]; cbn [mbind option_bind]; [|reflexivity]
           | |- (let '(_, _) := ?p in _) = None => destruct p
           end.
Qed.

Lemma X13_witness :
  "w2"%string ∈ required_keys
  /\ delete "w2"%string (toJson Demo.tp0) !! "w2"%string = None
  /\ fromJson DemoFiles.int_of_str DemoFiles.float_of_str DemoFiles.np_asarray_int
              DemoFiles.np_asarray_float XOR_Slice_invalid
              (delete "w2"%string (toJson Demo.tp0)) = None.
Proof.
  assert (Hk : "w2"%string ∈ required_keys).
  { apply (bool_decide_unpack _). vm_compute. exact I. }
  assert (Hn : delete "w2"%string (toJson Demo.tp0) !! "w2"%string = None)
    by apply lookup_delete_eq.
  split; [exact Hk|]. split; [exact Hn|].
  exact (X13_fromJson_raises_on_a_missing_key DemoFiles.int_of_str DemoFiles.float_of_str
           DemoFiles.np_asarray_int DemoFiles.np_asarray_float XOR_Slice_invalid
           (delete "w2"%string (toJson Demo.tp0)) "w2" Hk Hn).
Defined.

(** ** Saving *)

(** X14: [saveModel] reports success exactly when the file was written
    without an error.  On success the effects are the write, the name signal
    and the "Saved" box, and the model takes the base name of the file and
    remembers the file; on failure the remembered file is unchanged and no
    name signal follows a write.  Either way the turning points, their texts,
    the arrays, the current slice, the lock mask and the last used directory
    are untouched. *)
Theorem X14_saveModel_succeeds_exactly_when_written
    (completeBaseName absolutePath absoluteFilePath : string -> string)
    (getSaveFileName : string -> string)
    (write_json : string -> list XOR_Slice.t -> string)
    (self self' : MainWindow) (bSaveAs ok : bool) (effects : list Effect) :
  saveModel completeBaseName absolutePath absoluteFilePath getSaveFileName write_json
            self bSaveAs = (ok, self', effects) ->
  let tps := XOR_model.lstTurningPoints (mXORmodel self) in
  (ok = true <->
   exists target,
     write_json (absoluteFilePath target) tps = ""%string
     /\ effects = [WriteFile (absoluteFilePath target) tps;
                   Emit (sigModelNameChanged (completeBaseName target));
                   FadingMessageBox "Saved"]
     /\ XOR_model.modelName (mXORmodel self') = completeBaseName target
     /\ XOR_model.lastSavedFileInfo (mXORmodel self') = Some target)
  /\ (ok = false ->
      XOR_model.lastSavedFileInfo (mXORmodel self')
      = XOR_model.lastSavedFileInfo (mXORmodel self)
      /\ (effects = []
          \/ (exists name, effects = [MessageBox "File name length exceeded";
                                      Emit (sigModelNameChanged name)])
          \/ (exists path, effects = [WriteFile path tps; FadingMessageBox "Saving Error"]
                           /\ write_json path tps <> ""%string /\ self' = self)))
  /\ XOR_model.lstTurningPoints (mXORmodel self') = tps
  /\ XOR_model.lstTurningPointsDiff (mXORmodel self')
     = XOR_model.lstTurningPointsDiff (mXORmodel self)
  /\ XOR_model.lst_TP_Final_Loss (mXORmodel self')
     = XOR_model.lst_TP_Final_Loss (mXORmodel self)
  /\ XOR_model.xor_array (mXORmodel self') = XOR_model.xor_array (mXORmodel self)
  /\ XOR_model.crtSlice (mXORmodel self') = XOR_model.crtSlice (mXORmodel self)
  /\ XOR_model.maskParamLocks (mXORmodel self') = XOR_model.maskParamLocks (mXORmodel self)
  /\ _lastUsedDirectory self' = _lastUsedDirectory self.
Proof.
  intros H tps.
  assert (Hsave : forall target,
             (let '(sRet, m, eff) :=
                SaveToJson completeBaseName absoluteFilePath write_json
                           (mXORmodel self) target in
              let s' := {| mXORmodel := m; _lastUsedDirectory := _lastUsedDirectory self |} in
              if bool_decide (sRet = ""%string)
              then (true, s', eff ++ [FadingMessageBox "Saved"])
              else (false, s', eff ++ [FadingMessageBox "Saving Error"]))
             = (ok, self', effects) ->
             (write_json (absoluteFilePath target) tps = ""%string
              /\ ok = true
              /\ effects = [WriteFile (absoluteFilePath target) tps;
                            Emit (sigModelNameChanged (completeBaseName target));
                            FadingMessageBox "Saved"]
              /\ self' = {| mXORmodel := with_name (mXORmodel self) (completeBaseName target)
                                                   (Some target);
                            _lastUsedDirectory := _lastUsedDirectory self |})
             \/ (write_json (absoluteFilePath target) tps <> ""%string
                 /\ ok = false
                 /\ effects = [WriteFile (absoluteFilePath target) tps;
                               FadingMessageBox "Saving Error"]
                 /\ self' = self)).
  { intros target. unfold SaveToJson. fold tps.
    destruct (bool_decide (write_json (absoluteFilePath target) tps = ""%string)) eqn:E.
    - apply bool_decide_eq_true in E. rewrite E.
      rewrite bool_decide_eq_true_2 by done. intros [= <- <- <-]. left. done.
    - apply bool_decide_eq_false in E.
      rewrite bool_decide_eq_false_2 by done. intros [= <- <- <-]. right.
      split; [done|]. split; [done|]. split; [done|]. by destruct self. }
  assert (Hcases :
            (ok = false /\ effects = [] /\ self' = self)
            \/ (exists name,
                  ok = false
                  /\ effects = [MessageBox "File name length exceeded";
                                Emit (sigModelNameChanged name)]
                  /\ self' = {| mXORmodel :=
                                  with_name (mXORmodel self) name
                                    (XOR_model.lastSavedFileInfo (mXORmodel self));
                                _lastUsedDirectory := _lastUsedDirectory self |})
            \/ (exists target,
                  write_json (absoluteFilePath target) tps = ""%string
                  /\ ok = true
                  /\ effects = [WriteFile (absoluteFilePath target) tps;
                                Emit (sigModelNameChanged (completeBaseName target));
                                FadingMessageBox "Saved"]
                  /\ self' = {| mXORmodel := with_name (mXORmodel self)
                                                       (completeBaseName target)
                                                       (Some target);
                                _lastUsedDirectory := _lastUsedDirectory self |})
            \/ (exists target,
                  write_json (absoluteFilePath target) tps <> ""%string
                  /\ ok = false
                  /\ effects = [WriteFile (absoluteFilePath target) tps;
                                FadingMessageBox "Saving Error"]
                  /\ self' = self)).
  { unfold saveModel in H.
    destruct (asks_for_name absolutePath absoluteFilePath self bSaveAs).
    - destruct (bool_decide (getSaveFileName (proposed_name absolutePath self) = ""%string)).
      + injection H as <- <- <-. by left.
      + destruct (bool_decide (MAX_LEN_FILENAME_JSON < _)%nat).
        * injection H as <- <- <-. right. left. eauto.
        * destruct (Hsave _ H) as [Hl | Hr]; right; right; [left | right]; eauto.
    - destruct (Hsave _ H) as [Hl | Hr]; right; right; [left | right]; eauto. }
  clear H Hsave.
  destruct Hcases as [(-> & -> & ->) | [(name & -> & -> & ->) | [(target & Hw & -> & -> & ->)
                     | (target & Hw & -> & -> & ->)]]].
  - split; [split; [done|]; intros (t & _ & Heff & _); discriminate Heff|].
    split; [|done]. intros _. split; [done|]. by left.
  - split; [split; [done|]; intros (t & _ & Heff & _); discriminate Heff|].
    split; [|done]. intros _. split; [done|]. right. left. eauto.
  - split; [split; [intros _; exists target; done | done]|].
    split; [done|]. done.
  - split; [split; [done|]; intros (t & _ & Heff & _); discriminate Heff|].
    split; [|done]. intros _. split; [done|]. right. right. eauto.
Qed.

Lemma X14_witness :
  exists self' effects,
    saveModel DemoFiles.completeBaseName DemoFiles.absolutePath DemoFiles.absoluteFilePath
              (fun _ => "/models/xor.json"%string) DemoFiles.write_json
              DemoFiles.window false
    = (true, self', effects)
    /\ XOR_model.modelName (mXORmodel self') = "/models/xor.json"%string
    /\ XOR_model.lastSavedFileInfo (mXORmodel self') = Some "/models/xor.json"%string.
Proof.
  destruct (saveModel DemoFiles.completeBaseName DemoFiles.absolutePath
              DemoFiles.absoluteFilePath (fun _ => "/models/xor.json"%string)
              DemoFiles.write_json DemoFiles.window false) as [[ok self'] effects] eqn:E.
  exists self', effects.
  destruct (X14_saveModel_succeeds_exactly_when_written _ _ _ _ _ _ _ _ _ _ E)
    as (Hiff & _).
  assert (Hok : ok = true) by (cbv in E; by injection E as <- _ _).
  destruct (proj1 Hiff Hok) as (target & _ & Heff & Hname & Hlast).
  assert (Ht : target = "/models/xor.json"%string).
  { cbv in E. injection E as _ _ <-. injection Heff. intros.
    unfold DemoFiles.absoluteFilePath in *. congruence. }
  subst. done.
Defined.

(** ** The filled segment *)

Lemma training_length (np_exp np_tanh : float -> float) (G : Generator) (n : nat)
    (tp : XOR_Slice.t) (act1 act2 : Activation) (fl : LossFunction) (p : list float)
    (prev : list Z * matrix * matrix) (r : rng G) :
  length (training np_exp np_tanh G n tp act1 act2 fl p prev r) = n.
Proof.
  revert prev r. induction n as [|n IH]; intros prev r; [done|].
  cbn [training]. destruct (train_step _ _ _ _ _ _ _ _ _ _) as [cur r1].
  cbn [length]. by rewrite IH.
Qed.

(** What a successful [fillModel] has computed. *)
Lemma fillModel_inv (np_exp np_log np_tanh : float -> float) (G : Generator)
    (tp : XOR_Slice.t) (arr : XOR_array_model.t) :
  fillModel np_exp np_log np_tanh G tp = Some arr ->
  exists p act1 act2 fl steps,
    (0 < XOR_Slice.epoch_size tp)%Z
    /\ p_distribution_of (XOR_Slice.xPercents tp) = Some p
    /\ dict_get FunctionsListsByType.HiddenLayer (XOR_Slice.activation1 tp) = Some act1
    /\ dict_get FunctionsListsByType.OutputLayer (XOR_Slice.activation2 tp) = Some act2
    /\ dict_get FunctionsListsByType.LossFunction (XOR_Slice.loss tp) = Some fl
    /\ steps = ([0; 0; 0; 0]%Z,
                clip_matrix (XOR_Slice.w1 tp) (XOR_Slice.minRange tp) (XOR_Slice.maxRange tp),
                clip_matrix (XOR_Slice.w2 tp) (XOR_Slice.minRange tp) (XOR_Slice.maxRange tp))
               :: training np_exp np_tanh G (Z.to_nat (XOR_Slice.epoch_size tp - 1)) tp
                    act1 act2 fl p
                    ([0; 0; 0; 0]%Z,
                     clip_matrix (XOR_Slice.w1 tp) (XOR_Slice.minRange tp)
                                 (XOR_Slice.maxRange tp),
                     clip_matrix (XOR_Slice.w2 tp) (XOR_Slice.minRange tp)
                                 (XOR_Slice.maxRange tp))
                    (default_rng G (fill_seed tp))
    /\ length steps = Z.to_nat (XOR_Slice.epoch_size tp)
    /\ XOR_array_model.xHits arr = map (fun s => s.1.1) steps
    /\ XOR_array_model.w1 arr = map (fun s => s.1.2) steps
    /\ XOR_array_model.w2 arr = map (fun s => s.2) steps
    /\ XOR_array_model.z1 arr
       = map (fun w => matmul 2 (hstack_ones (mat_of_int X_BATCH_4)) w) (XOR_array_model.w1 arr)
    /\ XOR_array_model.a1 arr
       = map (mat_map (value np_exp np_tanh act1)) (XOR_array_model.z1 arr)
    /\ XOR_array_model.z2 arr
       = zip_with (fun a w => matmul 1 (hstack_ones a) w)
                  (XOR_array_model.a1 arr) (XOR_array_model.w2 arr)
    /\ XOR_array_model.y_aka_a2 arr
       = map (mat_map (value np_exp np_tanh act2)) (XOR_array_model.z2 arr)
    /\ XOR_array_model.lossPerX arr
       = map (fun a2 => mat_zip (loss_value np_log fl) a2 (XOR_Slice.yParam tp))
             (XOR_array_model.y_aka_a2 arr)
    /\ XOR_array_model.lossAvg arr
       = map (fun a2 => [[loss_cost np_log fl (concat a2) (concat (XOR_Slice.yParam tp))]])
             (XOR_array_model.y_aka_a2 arr).
Proof.
  unfold fillModel. intros H.
  case_bool_decide as He; [done|].
  destruct (p_distribution_of _) as [p|]; [|done]. cbn [mbind option_bind] in H.
  destruct (dict_get FunctionsListsByType.HiddenLayer _) as [act1|]; [|done].
  cbn [mbind option_bind] in H.
  destruct (dict_get FunctionsListsByType.OutputLayer _) as [act2|]; [|done].
  cbn [mbind option_bind] in H.
  destruct (dict_get FunctionsListsByType.LossFunction _) as [fl|]; [|done].
  cbn [mbind option_bind] in H.
  injection H as <-.
  exists p, act1, act2, fl. eexists. split; [lia|].
  do 4 (split; [reflexivity|]). split; [reflexivity|].
  split; [cbn [length]; rewrite training_length; lia|].
  cbn [XOR_array_model.xHits XOR_array_model.w1 XOR_array_model.w2 XOR_array_model.z1
         XOR_array_model.a1 XOR_array_model.z2 XOR_array_model.y_aka_a2
         XOR_array_model.lossPerX XOR_array_model.lossAvg].
  repeat split.
Qed.

Lemma dict_in_Some {V} (d : list (string * V)) (k : string) :
  dict_in d k = true <-> is_Some (dict_get d k).
Proof. unfold dict_in. apply bool_decide_eq_true. Qed.

Lemma fillModel_is_Some (np_exp np_log np_tanh : float -> float) (G : Generator)
    (tp : XOR_Slice.t) :
  is_Some (fillModel np_exp np_log np_tanh G tp)
  <-> (0 < XOR_Slice.epoch_size tp)%Z /\ XOR_Slice.xPercents tp <> []
      /\ names_registered tp.
Proof.
  split.
  + intros [arr H].
    destruct (fillModel_inv _ _ _ _ _ _ H)
      as (p & act1 & act2 & fl & steps & He & Hp & H1 & H2 & H3 & _).
    split; [done|]. split.
    * intros Hnil. unfold p_distribution_of in Hp. rewrite Hnil in Hp. done.
    * unfold names_registered. rewrite !dict_in_Some, H1, H2, H3. eauto.
  + intros (He & Hp & N1 & N2 & N3).
    apply dict_in_Some in N1 as [act1 N1]. apply dict_in_Some in N2 as [act2 N2].
    apply dict_in_Some in N3 as [fl N3].
    unfold fillModel. rewrite bool_decide_eq_false_2 by lia.
    rewrite p_distribution_spec by done. cbn [mbind option_bind].
    rewrite N1, N2, N3. cbn [mbind option_bind]. eauto.
Qed.

Lemma fillModel_layout (np_exp np_log np_tanh : float -> float) (G : Generator)
    (tp : XOR_Slice.t) (arr : XOR_array_model.t) :
  fillModel np_exp np_log np_tanh G tp = Some arr ->
  XOR_array_model.count arr = XOR_Slice.epoch_size tp
  /\ arrays_aligned arr
  /\ Forall (fun a => exists v, a = [[v]]) (XOR_array_model.lossAvg arr)
  /\ XOR_array_model.xHits arr !! 0%nat = Some [0; 0; 0; 0]%Z
  /\ XOR_array_model.w1 arr !! 0%nat
     = Some (clip_matrix (XOR_Slice.w1 tp) (XOR_Slice.minRange tp)
                         (XOR_Slice.maxRange tp))
  /\ XOR_array_model.w2 arr !! 0%nat
     = Some (clip_matrix (XOR_Slice.w2 tp) (XOR_Slice.minRange tp)
                         (XOR_Slice.maxRange tp)).
Proof.
  intros H.
  destruct (fillModel_inv _ _ _ _ _ _ H)
    as (p & act1 & act2 & fl & steps & He & Hp & H1 & H2 & H3 & Hsteps & Hlen
        & Eh & Ew1 & Ew2 & Ez1 & Ea1 & Ez2 & Ey & Elp & Ela).
  assert (L1 : length (XOR_array_model.w1 arr) = length steps)
    by (by rewrite Ew1, length_map).
  assert (L2 : length (XOR_array_model.w2 arr) = length steps)
    by (by rewrite Ew2, length_map).
  assert (L3 : length (XOR_array_model.z1 arr) = length steps)
    by (by rewrite Ez1, length_map).
  assert (L4 : length (XOR_array_model.a1 arr) = length steps)
    by (by rewrite Ea1, length_map).
  assert (L5 : length (XOR_array_model.z2 arr) = length steps)
    by (rewrite Ez2, length_zip_with; lia).
  assert (L6 : length (XOR_array_model.y_aka_a2 arr) = length steps)
    by (by rewrite Ey, length_map).
  split; [unfold XOR_array_model.count; lia|].
  split.
  { unfold arrays_aligned. rewrite Eh, Elp, Ela, !length_map. repeat split; lia. }
  split.
  { rewrite Ela. apply Forall_fmap, Forall_true. intros a. cbn. eauto. }
  rewrite Eh, Ew1, Ew2, Hsteps. done.
Qed.

(** X15: [fillModel] raises unless the epoch size is positive, there is
    at least one percentage and the three function names are registered.
    Whenever it returns, every array holds one entry per step, [epoch_size]
    of them, with a single average loss per step, zero hits at step 0 and the
    turning point's clipped weights there. *)
Theorem X15_fillModel_needs_valid_parameters_and_fills_every_step
    (np_exp np_log np_tanh : float -> float) (G : Generator) (tp : XOR_Slice.t) :
  (~ ((0 < XOR_Slice.epoch_size tp)%Z /\ XOR_Slice.xPercents tp <> []
      /\ names_registered tp)
   -> fillModel np_exp np_log np_tanh G tp = None)
  /\ forall arr,
       fillModel np_exp np_log np_tanh G tp = Some arr ->
       XOR_array_model.count arr = XOR_Slice.epoch_size tp
       /\ arrays_aligned arr
       /\ Forall (fun a => exists v, a = [[v]]) (XOR_array_model.lossAvg arr)
       /\ XOR_array_model.xHits arr !! 0%nat = Some [0; 0; 0; 0]%Z
       /\ XOR_array_model.w1 arr !! 0%nat
          = Some (clip_matrix (XOR_Slice.w1 tp) (XOR_Slice.minRange tp)
                              (XOR_Slice.maxRange tp))
       /\ XOR_array_model.w2 arr !! 0%nat
          = Some (clip_matrix (XOR_Slice.w2 tp) (XOR_Slice.minRange tp)
                              (XOR_Slice.maxRange tp)).
Proof.
  split.
  - intros Hn. destruct (fillModel np_exp np_log np_tanh G tp) as [arr|] eqn:E; [|done].
    exfalso. apply Hn. apply (fillModel_is_Some np_exp np_log np_tanh G tp).
    rewrite E. eauto.
  - intros arr H. exact (fillModel_layout _ _ _ _ _ _ H).
Qed.

Lemma X15_witness :
  exists arr,
    fillModel Demo.exp Demo.log Demo.tanh Demo.G Demo.tp0 = Some arr
    /\ XOR_array_model.count arr = 3%Z
    /\ arrays_aligned arr
    /\ fillModel Demo.exp Demo.log Demo.tanh Demo.G
                 (XOR_Slice.set_activation1 "softmax" Demo.tp0) = None.
Proof.
  destruct (fillModel Demo.exp Demo.log Demo.tanh Demo.G Demo.tp0) as [arr|] eqn:Harr;
    [|vm_compute in Harr; discriminate Harr].
  exists arr. split; [reflexivity|].
  destruct (X15_fillModel_needs_valid_parameters_and_fills_every_step
              Demo.exp Demo.log Demo.tanh Demo.G Demo.tp0) as [_ Hshape].
  destruct (Hshape arr Harr) as (Hc & Ha & _).
  split; [exact Hc|]. split; [exact Ha|].
  destruct (X15_fillModel_needs_valid_parameters_and_fills_every_step
              Demo.exp Demo.log Demo.tanh Demo.G
              (XOR_Slice.set_activation1 "softmax" Demo.tp0)) as [Hnone _].
  apply Hnone. intros (_ & _ & N & _). vm_compute in N. discriminate N.
Defined.

(** ** Weights of a filled segment *)

Lemma entry_mat_zip {A B C} (f : A -> B -> C) (a : list (list A)) (b : list (list B))
    (r c : nat) :
  entry (mat_zip f a b) r c
  = match entry a r c, entry b r c with
    | Some x, Some y => Some (f x y)
    | _, _ => None
    end.
Proof.
  unfold entry, mat_zip. rewrite lookup_zip_with.
  destruct (a !! r) as [ra|]; cbn; [|done].
  destruct (b !! r) as [rb|]; cbn; [|by destruct (ra !! c)].
  rewrite lookup_zip_with. destruct (ra !! c); cbn; [|done]. by destruct (rb !! c).
Qed.

Lemma entry_mat_map {A B} (f : A -> B) (a : list (list A)) (r c : nat) :
  entry (mat_map f a) r c = f <$> entry a r c.
Proof.
  unfold entry, mat_map. rewrite list_lookup_fmap.
  destruct (a !! r) as [ra|]; cbn; [|done]. by rewrite list_lookup_fmap.
Qed.

Lemma has_shape_entry {A} (rows cols : nat) (m : list (list A)) (r c : nat) :
  has_shape rows cols m -> (is_Some (entry m r c) <-> (r < rows)%nat /\ (c < cols)%nat).
Proof.
  intros [<- Hrows]. unfold entry. split.
  - intros [v Hv]. destruct (m !! r) as [row|] eqn:Er; [|done]. cbn in Hv.
    split; [by eapply lookup_lt_Some|].
    rewrite <- (Forall_lookup_1 _ _ _ _ Hrows Er). by eapply lookup_lt_Some.
  - intros [Hr Hc]. destruct (lookup_lt_is_Some_2 m r Hr) as [row Er]. rewrite Er. cbn.
    apply lookup_lt_is_Some_2. by rewrite (Forall_lookup_1 _ _ _ _ Hrows Er).
Qed.

Lemma has_shape_mat_map {A B} (f : A -> B) (rows cols : nat) (m : list (list A)) :
  has_shape rows cols m -> has_shape rows cols (mat_map f m).
Proof.
  intros [Hl Hr]. split; [unfold mat_map; by rewrite length_map|].
  unfold mat_map. apply Forall_fmap. eapply Forall_impl; [exact Hr|].
  intros row Hrow. cbn. by rewrite length_map.
Qed.

Lemma has_shape_mat_zip {A B C} (f : A -> B -> C) (rows cols : nat)
    (a : list (list A)) (b : list (list B)) :
  has_shape rows cols a -> has_shape rows cols b -> has_shape rows cols (mat_zip f a b).
Proof.
  intros [La Ha] [Lb Hb]. unfold mat_zip. split; [rewrite length_zip_with; lia|].
  apply Forall_lookup_2. intros i row Hi. rewrite lookup_zip_with in Hi.
  destruct (a !! i) as [ra|] eqn:Ea; [|done]. destruct (b !! i) as [rb|] eqn:Eb; [|done].
  cbn in Hi. injection Hi as <-. rewrite length_zip_with.
  rewrite (Forall_lookup_1 _ _ _ _ Ha Ea), (Forall_lookup_1 _ _ _ _ Hb Eb). lia.
Qed.

Lemma has_shape_matmul (ncols : nat) (a b : matrix) :
  has_shape (length a) ncols (matmul ncols a b).
Proof.
  unfold matmul. split; [by rewrite length_map|].
  apply Forall_fmap, Forall_true. intros row. cbn. by rewrite length_map, length_seq.
Qed.

Lemma transpose_length (ncols : nat) (m : matrix) : length (transpose ncols m) = ncols.
Proof. unfold transpose. by rewrite length_map, length_seq. Qed.

(** The gradients have the shapes of the two layers, whatever the batch. *)
Lemma XOR_back_prop_shapes (x : int_matrix) (act1 : Activation) (a1 w2 : matrix)
    (act2 : Activation) (a2 : matrix) (y_true : int_matrix) (fl : LossFunction) :
  has_shape 3 2 (XOR_back_prop x act1 a1 w2 act2 a2 y_true fl).1
  /\ has_shape 3 1 (XOR_back_prop x act1 a1 w2 act2 a2 y_true fl).2.
Proof.
  unfold XOR_back_prop. cbn [fst snd]. split; apply has_shape_mat_map.
  - pose proof (has_shape_matmul 2 (transpose 3 (hstack_ones (mat_of_int x)))
                  (mat_zip Qcmult
                     (matmul 2 (mat_zip Qcmult (mat_zip (loss_derivative fl) a2 y_true)
                                  (mat_map (fun a => derivative act2 a a) a2))
                             (transpose 1 (take (length w2 - 1) w2)))
                     (mat_map (fun a => derivative act1 a a) a1))) as H.
    by rewrite transpose_length in H.
  - pose proof (has_shape_matmul 1 (transpose 3 (hstack_ones a1))
                  (mat_zip Qcmult (mat_zip (loss_derivative fl) a2 y_true)
                     (mat_map (fun a => derivative act2 a a) a2))) as H.
    by rewrite transpose_length in H.
Qed.

Lemma of_int_le (a b : Z) : (a <= b)%Z -> of_int a <= of_int b.
Proof.
  intros H. unfold Qcle. rewrite !this_of_int. by rewrite <- Zle_Qle.
Qed.

Lemma clip_matrix_kept (rows cols : nat) (lo hi : Z) (lock : int_matrix) (w : matrix) :
  (lo <= hi)%Z -> has_shape rows cols w ->
  weights_kept rows cols lo hi lock (clip_matrix w lo hi) (clip_matrix w lo hi).
Proof.
  intros Hlh Hs. split; [by apply has_shape_mat_map|]. split; [|done].
  intros r c v. unfold clip_matrix. rewrite entry_mat_map.
  destruct (entry w r c) as [x|]; [|done]. cbn. intros [= <-].
  apply np_clip_bounds. by apply of_int_le.
Qed.

Lemma update_weights_kept (rows cols : nat) (lo hi : Z) (lock : int_matrix)
    (W0 W dw : matrix) (lr : float) :
  (lo <= hi)%Z -> binary_mask lock ->
  has_shape rows cols lock -> has_shape rows cols dw ->
  weights_kept rows cols lo hi lock W0 W ->
  weights_kept rows cols lo hi lock W0 (update_weights W dw lr lo hi lock).
Proof.
  intros Hlh Hb Hsl Hsd (Hs & Hr & Hk).
  rewrite update_weights_spec by done. unfold spec_update.
  split; [by repeat apply has_shape_mat_zip|]. split.
  - intros r c v. rewrite !entry_mat_zip.
    destruct (entry W r c) as [w|] eqn:Ew; [|done].
    destruct (entry dw r c) as [d|]; [|done].
    destruct (entry lock r c) as [l|]; [|done].
    intros [= <-]. cbn [fst snd]. case_bool_decide.
    + by apply (Hr r c).
    + apply np_clip_bounds. by apply of_int_le.
  - intros r c Hl. rewrite !entry_mat_zip, Hl.
    rewrite <- (Hk r c Hl).
    destruct (entry W r c) as [w|] eqn:Ew; [|done].
    assert (Hd : is_Some (entry dw r c)).
    { apply (has_shape_entry rows cols dw r c Hsd).
      apply (has_shape_entry rows cols W r c Hs). by rewrite Ew. }
    destruct Hd as [d ->]. cbn [fst snd]. by rewrite bool_decide_eq_true_2.
Qed.

Section WeightsKept.
Context (np_exp np_tanh : float -> float) (G : Generator).
Context (tp : XOR_Slice.t) (act1 act2 : Activation) (fl : LossFunction) (p : list float).
Context (W01 W02 : matrix).
Hypothesis Hrange : (XOR_Slice.minRange tp <= XOR_Slice.maxRange tp)%Z.
Hypothesis Hb1 : binary_mask (XOR_Slice.w1_lock tp).
Hypothesis Hb2 : binary_mask (XOR_Slice.w2_lock tp).
Hypothesis Hs1 : has_shape 3 2 (XOR_Slice.w1_lock tp).
Hypothesis Hs2 : has_shape 3 1 (XOR_Slice.w2_lock tp).

Local Abbreviation kept1 :=
  (weights_kept 3 2 (XOR_Slice.minRange tp) (XOR_Slice.maxRange tp)
                (XOR_Slice.w1_lock tp) W01).
Local Abbreviation kept2 :=
  (weights_kept 3 1 (XOR_Slice.minRange tp) (XOR_Slice.maxRange tp)
                (XOR_Slice.w2_lock tp) W02).

Lemma cycle_kept (st : list Z * matrix * matrix * rng G) :
  kept1 st.1.1.2 -> kept2 st.1.2 ->
  kept1 (cycle np_exp np_tanh G tp act1 act2 fl p st).1.1.2
  /\ kept2 (cycle np_exp np_tanh G tp act1 act2 fl p st).1.2.
Proof.
  destruct st as [[[h W1] W2] r]. cbn [fst snd]. intros K1 K2. unfold cycle.
  destruct (rng_choice_p G _ _ _ r) as [hits r'].
  destruct (XOR_forward_prop _ _ _ _ _ _ _) as [A1 A2].
  pose proof (XOR_back_prop_shapes (take_rows X_BATCH_4 hits) act1 A1 W2 act2 A2
                (take_rows (XOR_Slice.yParam tp) hits) fl) as [Sd1 Sd2].
  destruct (XOR_back_prop _ _ _ _ _ _ _ _) as [dW1 dW2]. cbn [fst snd] in *.
  split; by apply update_weights_kept.
Qed.

Lemma iter_cycle_kept (n : nat) (st : list Z * matrix * matrix * rng G) :
  kept1 st.1.1.2 -> kept2 st.1.2 ->
  kept1 (Nat.iter n (cycle np_exp np_tanh G tp act1 act2 fl p) st).1.1.2
  /\ kept2 (Nat.iter n (cycle np_exp np_tanh G tp act1 act2 fl p) st).1.2.
Proof.
  intros K1 K2. induction n as [|n [IH1 IH2]]; [done|].
  cbn [Nat.iter nat_rect]. fold (Nat.iter n (cycle np_exp np_tanh G tp act1 act2 fl p) st).
  by apply cycle_kept.
Qed.

Lemma training_kept (n : nat) (prev : list Z * matrix * matrix) (r : rng G) :
  kept1 prev.1.2 -> kept2 prev.2 ->
  Forall (fun s => kept1 s.1.2 /\ kept2 s.2)
         (training np_exp np_tanh G n tp act1 act2 fl p prev r).
Proof.
  revert prev r. induction n as [|n IH]; intros [[h W1] W2] r K1 K2; [constructor|].
  cbn [training]. unfold train_step.
  pose proof (iter_cycle_kept (Z.to_nat (XOR_Slice.cyclesPerOneStepFwdOfEpoch tp))
                (h, W1, W2, r) K1 K2) as [I1 I2].
  destruct (Nat.iter _ _ (h, W1, W2, r)) as [[[h' W1'] W2'] r'].
  cbn [fst snd] in *. constructor; [done|]. by apply IH.
Qed.

End WeightsKept.

(** X16: in a filled segment every stored weight matrix has the shape
    of its layer, every entry lies inside the clip range of the turning
    point, and every locked entry holds at every step the value it has at
    step 0 (the turning point's, clipped).  It holds for a batch of at
    least one sample, lock masks of zeros and ones with the layers' shapes
    and a clip range that is not empty. *)
Theorem X16_stored_weights_stay_in_range_and_locked_entries_never_move
    (np_exp np_log np_tanh : float -> float) (G : Generator)
    (tp : XOR_Slice.t) (arr : XOR_array_model.t) :
  fillModel np_exp np_log np_tanh G tp = Some arr ->
  (1 <= XOR_Slice.batch_size tp)%Z ->
  (XOR_Slice.minRange tp <= XOR_Slice.maxRange tp)%Z ->
  binary_mask (XOR_Slice.w1_lock tp) -> binary_mask (XOR_Slice.w2_lock tp) ->
  has_shape 3 2 (XOR_Slice.w1 tp) -> has_shape 3 2 (XOR_Slice.w1_lock tp) ->
  has_shape 3 1 (XOR_Slice.w2 tp) -> has_shape 3 1 (XOR_Slice.w2_lock tp) ->
  Forall (weights_kept 3 2 (XOR_Slice.minRange tp) (XOR_Slice.maxRange tp)
            (XOR_Slice.w1_lock tp)
            (clip_matrix (XOR_Slice.w1 tp) (XOR_Slice.minRange tp) (XOR_Slice.maxRange tp)))
         (XOR_array_model.w1 arr)
  /\ Forall (weights_kept 3 1 (XOR_Slice.minRange tp) (XOR_Slice.maxRange tp)
               (XOR_Slice.w2_lock tp)
               (clip_matrix (XOR_Slice.w2 tp) (XOR_Slice.minRange tp)
                            (XOR_Slice.maxRange tp)))
            (XOR_array_model.w2 arr).
Proof.
  intros H _ Hr Hb1 Hb2 Sw1 Sl1 Sw2 Sl2.
  destruct (fillModel_inv _ _ _ _ _ _ H)
    as (p & act1 & act2 & fl & steps & _ & _ & _ & _ & _ & Hsteps & _ & _ & Ew1 & Ew2 & _).
  pose proof (clip_matrix_kept 3 2 _ _ (XOR_Slice.w1_lock tp) _ Hr Sw1) as K1.
  pose proof (clip_matrix_kept 3 1 _ _ (XOR_Slice.w2_lock tp) _ Hr Sw2) as K2.
  assert (Hall : Forall (fun s =>
                   weights_kept 3 2 (XOR_Slice.minRange tp) (XOR_Slice.maxRange tp)
                     (XOR_Slice.w1_lock tp)
                     (clip_matrix (XOR_Slice.w1 tp) (XOR_Slice.minRange tp)
                                  (XOR_Slice.maxRange tp)) s.1.2
                   /\ weights_kept 3 1 (XOR_Slice.minRange tp) (XOR_Slice.maxRange tp)
                        (XOR_Slice.w2_lock tp)
                        (clip_matrix (XOR_Slice.w2 tp) (XOR_Slice.minRange tp)
                                     (XOR_Slice.maxRange tp)) s.2) steps).
  { rewrite Hsteps. constructor; [done|].
    by apply training_kept. }
  rewrite Ew1, Ew2. split; apply Forall_fmap; (eapply Forall_impl; [exact Hall|]);
    intros s [Hs1 Hs2]; done.
Qed.

Lemma X16_witness :
  exists arr W,
    fillModel Demo.exp Demo.log Demo.tanh Demo.G Demo.tp0 = Some arr
    /\ XOR_array_model.w1 arr !! 2%nat = Some W
    /\ entry W 0 0 = Some (of_int 1)
    /\ entry W 2 1 = Some (of_int 1).
Proof.
  destruct (fillModel Demo.exp Demo.log Demo.tanh Demo.G Demo.tp0) as [arr|] eqn:E;
    [|vm_compute in E; discriminate E].
  assert (Hlen : is_Some (XOR_array_model.w1 arr !! 2%nat)).
  { vm_compute in E. injection E as <-. eauto. }
  destruct Hlen as [W HW]. exists arr, W. split; [reflexivity|]. split; [exact HW|].
  destruct (X16_stored_weights_stay_in_range_and_locked_entries_never_move
              Demo.exp Demo.log Demo.tanh Demo.G Demo.tp0 arr E) as [H1 _].
  - vm_compute. discriminate.
  - vm_compute. discriminate.
  - unfold binary_mask. apply (bool_decide_unpack _). vm_compute. exact I.
  - unfold binary_mask. apply (bool_decide_unpack _). vm_compute. exact I.
  - split; [reflexivity | repeat constructor].
  - split; [reflexivity | repeat constructor].
  - split; [reflexivity | repeat constructor].
  - split; [reflexivity | repeat constructor].
  - destruct (Forall_lookup_1 _ _ _ _ H1 HW) as (_ & _ & Hk).
    rewrite (Hk 0%nat 0%nat eq_refl), (Hk 2%nat 1%nat eq_refl). split; reflexivity.
Defined.

(** ** Hit counters of a filled segment *)

Lemma count_hits_nonneg (hits : list nat) (k : nat) : (0 <= count_hits hits k)%Z.
Proof. unfold count_hits. lia. Qed.

Lemma count_hits_cons (h : nat) (hits : list nat) (k : nat) :
  count_hits (h :: hits) k = ((if bool_decide (h = k) then 1 else 0) + count_hits hits k)%Z.
Proof.
  unfold count_hits. case_bool_decide.
  - rewrite filter_cons_True by done. cbn [length]. lia.
  - rewrite filter_cons_False by done. lia.
Qed.

Lemma count_hits_four (hits : list nat) :
  Forall (fun h => (h < 4)%nat) hits ->
  (count_hits hits 0 + count_hits hits 1 + count_hits hits 2 + count_hits hits 3)%Z
  = Z.of_nat (length hits).
Proof.
  induction 1 as [|h hits Hh _ IH]; [done|].
  rewrite !count_hits_cons. cbn [length].
  destruct h as [|[|[|[|h]]]]; try lia; repeat case_bool_decide; lia.
Qed.

Lemma add_hit_entry (hits : list nat) (k : nat) (x : Z) :
  (0 <= x)%Z -> (x + count_hits hits k < 2 ^ 31)%Z ->
  (if bool_decide (k ∈ hits) then wrap32 (x + count_hits hits k) else x)
  = (x + count_hits hits k)%Z.
Proof.
  intros Hx Hb. pose proof (count_hits_nonneg hits k). case_bool_decide.
  - apply wrap32_id. unfold in_int32. lia.
  - rewrite count_hits_absent by done. lia.
Qed.

Lemma add_hits_total (h : list Z) (hits : list nat) (n : Z) :
  hits_total h n ->
  Forall (fun x => (x < 4)%nat) hits ->
  (n + Z.of_nat (length hits) < 2 ^ 31)%Z ->
  hits_total (add_hits h hits) (n + Z.of_nat (length hits)).
Proof.
  intros (Hlen & Hpos & Hsum) Hhits Hb.
  destruct h as [|a [|b [|c [|d [|]]]]]; try discriminate.
  apply Forall_cons in Hpos as [Ha Hpos]. apply Forall_cons in Hpos as [Hb' Hpos].
  apply Forall_cons in Hpos as [Hc Hpos]. apply Forall_cons in Hpos as [Hd _].
  unfold py_sum in Hsum. cbn [foldl] in Hsum.
  pose proof (count_hits_four hits Hhits) as H4.
  pose proof (count_hits_nonneg hits 0). pose proof (count_hits_nonneg hits 1).
  pose proof (count_hits_nonneg hits 2). pose proof (count_hits_nonneg hits 3).
  unfold add_hits. cbn [imap]. unfold compose.
  rewrite !add_hit_entry by lia.
  split; [done|]. split; [repeat constructor; lia|].
  unfold py_sum. cbn [foldl]. lia.
Qed.

Section HitsTotal.
Context (np_exp np_tanh : float -> float) (G : Generator).
Context (tp : XOR_Slice.t) (act1 act2 : Activation) (fl : LossFunction) (p : list float).
Hypothesis HG : choice_p_ok G.

Local Abbreviation B := (Z.of_nat (Z.to_nat (XOR_Slice.batch_size tp))).
Local Abbreviation C := (Z.of_nat (Z.to_nat (XOR_Slice.cyclesPerOneStepFwdOfEpoch tp))).

Lemma cycle_hits (st : list Z * matrix * matrix * rng G) (n : Z) :
  hits_total st.1.1.1 n -> (n + B < 2 ^ 31)%Z ->
  hits_total (cycle np_exp np_tanh G tp act1 act2 fl p st).1.1.1 (n + B).
Proof.
  destruct st as [[[h W1] W2] r]. cbn [fst snd]. intros Hh Hb. unfold cycle.
  destruct (HG (XOR_Slice.batch_size tp) p r) as [Hlen Hlt].
  destruct (rng_choice_p G _ _ _ r) as [hits r']. cbn [fst snd] in *.
  destruct (XOR_forward_prop _ _ _ _ _ _ _) as [A1 A2].
  destruct (XOR_back_prop _ _ _ _ _ _ _ _) as [dW1 dW2]. cbn [fst snd].
  rewrite <- Hlen. apply add_hits_total; [done | done | lia].
Qed.

Lemma iter_cycle_hits (k : nat) (st : list Z * matrix * matrix * rng G) (n : Z) :
  hits_total st.1.1.1 n -> (n + Z.of_nat k * B < 2 ^ 31)%Z ->
  hits_total (Nat.iter k (cycle np_exp np_tanh G tp act1 act2 fl p) st).1.1.1
             (n + Z.of_nat k * B).
Proof.
  intros Hh. induction k as [|k IH]; intros Hb.
  - cbn [Nat.iter nat_rect]. by rewrite Z.add_0_r.
  - cbn [Nat.iter nat_rect]. fold (Nat.iter k (cycle np_exp np_tanh G tp act1 act2 fl p) st).
    replace (n + Z.of_nat (S k) * B)%Z with (n + Z.of_nat k * B + B)%Z by lia.
    apply cycle_hits; [apply IH|]; lia.
Qed.

Lemma training_hits (m : nat) (prev : list Z * matrix * matrix) (r : rng G) (n : Z) :
  hits_total prev.1.1 n ->
  (C = 0%Z -> n = 0%Z) ->
  (n + Z.of_nat m * (C * B) < 2 ^ 31)%Z ->
  forall i s,
    training np_exp np_tanh G m tp act1 act2 fl p prev r !! i = Some s ->
    hits_total s.1.1 (n + Z.of_nat (S i) * (C * B)).
Proof.
  revert prev r n. induction m as [|m IH]; intros [[h W1] W2] r n Hh H0 Hb i s Hi; [done|].
  cbn [training] in Hi. unfold train_step in Hi.
  assert (Hcyc : hits_total
                   (Nat.iter (Z.to_nat (XOR_Slice.cyclesPerOneStepFwdOfEpoch tp))
                             (cycle np_exp np_tanh G tp act1 act2 fl p) (h, W1, W2, r)).1.1.1
                   (n + C * B)).
  { apply iter_cycle_hits; [done|]. nia. }
  destruct (Nat.iter _ _ (h, W1, W2, r)) as [[[h' W1'] W2'] r'].
  cbn [fst snd] in Hcyc.
  assert (Hstep : hits_total
                    (if bool_decide (Z.to_nat (XOR_Slice.cyclesPerOneStepFwdOfEpoch tp) = 0%nat)
                     then [0; 0; 0; 0]%Z else h') (n + C * B)).
  { case_bool_decide as Hz; [|done].
    assert (HC : C = 0%Z) by lia. rewrite HC, (H0 HC). cbn.
    split; [done|]. split; [repeat constructor; lia | done]. }
  destruct i as [|i].
  - cbn in Hi. injection Hi as <-. cbn [fst snd].
    replace (n + Z.of_nat 1 * (C * B))%Z with (n + C * B)%Z by lia. exact Hstep.
  - cbn [lookup list_lookup] in Hi.
    replace (n + Z.of_nat (S (S i)) * (C * B))%Z
      with ((n + C * B) + Z.of_nat (S i) * (C * B))%Z by lia.
    refine (IH (_, W1', W2') r' _ Hstep _ _ i s Hi).
    + intros HC. rewrite HC, (H0 HC). lia.
    + nia.
Qed.

End HitsTotal.

(** X17: the hit counters of a filled segment count every sample drawn:
    at step [i] the four counters are not negative and add up to [i] times
    the number of cycles per step times the batch size.  It holds when the
    generator returns the number of samples asked for, each one of the four
    classes, and the total stays below [2^31]. *)
Theorem X17_hit_counters_count_every_sample
    (np_exp np_log np_tanh : float -> float) (G : Generator)
    (tp : XOR_Slice.t) (arr : XOR_array_model.t) :
  fillModel np_exp np_log np_tanh G tp = Some arr ->
  choice_p_ok G ->
  (0 <= XOR_Slice.batch_size tp)%Z ->
  (0 <= XOR_Slice.cyclesPerOneStepFwdOfEpoch tp)%Z ->
  (XOR_Slice.epoch_size tp * (XOR_Slice.cyclesPerOneStepFwdOfEpoch tp
                              * XOR_Slice.batch_size tp) < 2 ^ 31)%Z ->
  forall (i : nat) (h : list Z),
    XOR_array_model.xHits arr !! i = Some h ->
    hits_total h (Z.of_nat i * (XOR_Slice.cyclesPerOneStepFwdOfEpoch tp
                                * XOR_Slice.batch_size tp)).
Proof.
  intros H HG Hb Hc Hbound i h Hi.
  destruct (fillModel_inv _ _ _ _ _ _ H)
    as (p & act1 & act2 & fl & steps & He & _ & _ & _ & _ & Hsteps & _ & Eh & _).
  rewrite Eh, list_lookup_fmap, Hsteps in Hi.
  destruct i as [|i].
  - cbn in Hi. injection Hi as <-. cbn.
    split; [done|]. split; [repeat constructor; lia | done].
  - cbn [lookup list_lookup] in Hi.
    destruct (training _ _ _ _ _ _ _ _ _ _ _ !! i) as [s|] eqn:Es; [|done].
    cbn in Hi. injection Hi as <-.
    assert (H0 : hits_total ([0; 0; 0; 0]%Z,
                             clip_matrix (XOR_Slice.w1 tp) (XOR_Slice.minRange tp)
                                         (XOR_Slice.maxRange tp),
                             clip_matrix (XOR_Slice.w2 tp) (XOR_Slice.minRange tp)
                                         (XOR_Slice.maxRange tp)).1.1 0).
    { cbn. split; [done|]. split; [repeat constructor; lia | done]. }
    pose proof (training_hits np_exp np_tanh G tp act1 act2 fl p HG
                  (Z.to_nat (XOR_Slice.epoch_size tp - 1)) _
                  (default_rng G (fill_seed tp)) 0 H0 (fun _ => eq_refl)) as Ht.
    rewrite !Z2Nat.id in Ht by lia.
    rewrite Z.add_0_l in Ht. apply (Ht ltac:(nia) i s Es).
Qed.

Lemma pick_lt (a : list nat) (p : list float) (u : float) (d : nat) :
  Forall (fun k => (k < 4)%nat) a -> (d < 4)%nat -> (Demo.pick a p u d < 4)%nat.
Proof.
  intros Ha. revert p u d. induction Ha as [|k a Hk _ IH]; intros [|pk p] u d Hd; try done.
  cbn [Demo.pick]. case_bool_decide; [done|]. by apply IH.
Qed.

Lemma units_length (n : nat) (s : Z) : length (Demo.units n s).1 = n.
Proof.
  revert s. induction n as [|n IH]; intros s; [done|].
  cbn [Demo.units]. specialize (IH (Demo.next s)).
  destruct (Demo.units n (Demo.next s)) as [l s']. cbn in *. by rewrite IH.
Qed.

Lemma Demo_choice_p_ok : choice_p_ok Demo.G.
Proof.
  intros size p r. cbn [rng_choice_p Demo.G]. unfold Demo.choice_p.
  pose proof (units_length (Z.to_nat size) r) as Hl.
  destruct (Demo.units (Z.to_nat size) r) as [l s']. cbn [fst snd] in *.
  split; [by rewrite length_map|].
  apply Forall_fmap, Forall_true. intros u. unfold compose.
  apply (pick_lt [0; 1; 2; 3]%nat p u 0%nat); [repeat constructor|]; lia.
Qed.

Lemma X17_witness :
  exists arr,
    fillModel Demo.exp Demo.log Demo.tanh Demo.G Demo.tp0 = Some arr
    /\ forall h, XOR_array_model.xHits arr !! 2%nat = Some h -> py_sum h = 8%Z.
Proof.
  destruct (fillModel Demo.exp Demo.log Demo.tanh Demo.G Demo.tp0) as [arr|] eqn:E;
    [|vm_compute in E; discriminate E].
  exists arr. split; [reflexivity|]. intros h Hh.
  destruct (X17_hit_counters_count_every_sample Demo.exp Demo.log Demo.tanh Demo.G
              Demo.tp0 arr E Demo_choice_p_ok) with (i := 2%nat) (h := h) as (_ & _ & Hs).
  - vm_compute. discriminate.
  - vm_compute. discriminate.
  - vm_compute. reflexivity.
  - exact Hh.
  - exact Hs.
Defined.

(** ** The evaluation stored with every step *)

Lemma mat_zip_columns {A B C} (f : A -> B -> C) (a : list (list A)) (y : list (list B)) :
  Forall (fun row => length row = 1%nat) a ->
  Forall (fun row => length row = 1%nat) y ->
  mat_zip f a y = map (fun v => [v]) (zip_with f (concat a) (concat y)).
Proof.
  intros Ha. revert y. induction Ha as [|ra a Hra _ IH]; intros y Hy.
  - by destruct y.
  - destruct Hy as [|ry y Hry Hy]; [cbn; by rewrite zip_with_nil_r|].
    destruct ra as [|x [|]]; try discriminate. destruct ry as [|y0 [|]]; try discriminate.
    unfold mat_zip in *. cbn [zip_with concat app map]. f_equal. by apply IH.
Qed.

Lemma matmul_columns (a b : matrix) :
  Forall (fun row => length row = 1%nat) (matmul 1 a b).
Proof. by destruct (has_shape_matmul 1 a b) as [_ H]. Qed.

(** X18: the evaluation [fillModel] stores with a step is the one
    [compute_z_a_loss] computes for a slice that carries the weights of that
    step: the vectorised computation over the whole segment and the
    computation for one slice agree on [z1], [a1], [z2], the prediction and
    both losses.  The labels are a column, as the class has them. *)
Theorem X18_stored_evaluation_is_the_slice_evaluation
    (np_exp np_log np_tanh : float -> float) (G : Generator)
    (tp : XOR_Slice.t) (arr : XOR_array_model.t) (i : nat) (W1 W2 : matrix) :
  fillModel np_exp np_log np_tanh G tp = Some arr ->
  Forall (fun row => length row = 1%nat) (XOR_Slice.yParam tp) ->
  XOR_array_model.w1 arr !! i = Some W1 ->
  XOR_array_model.w2 arr !! i = Some W2 ->
  exists s,
    compute_z_a_loss np_exp np_log np_tanh (XOR_Slice.set_w2 W2 (XOR_Slice.set_w1 W1 tp))
    = Some s
    /\ XOR_array_model.z1 arr !! i = Some (XOR_Slice.z1 s)
    /\ XOR_array_model.a1 arr !! i = Some (XOR_Slice.a1 s)
    /\ XOR_array_model.z2 arr !! i = Some (XOR_Slice.z2 s)
    /\ XOR_array_model.y_aka_a2 arr !! i = Some (XOR_Slice.y_aka_a2 s)
    /\ XOR_array_model.lossPerX arr !! i = Some (XOR_Slice.lossPerX s)
    /\ XOR_array_model.lossAvg arr !! i = Some (XOR_Slice.lossAvg s).
Proof.
  intros H Hy HW1 HW2.
  destruct (fillModel_inv _ _ _ _ _ _ H)
    as (p & act1 & act2 & fl & steps & _ & _ & H1 & H2 & H3 & _ & _ & _ & _ & _
        & Ez1 & Ea1 & Ez2 & Ey & Elp & Ela).
  unfold compute_z_a_loss. slice_proj. rewrite H1, H2, H3. cbn [mbind option_bind].
  eexists. split; [reflexivity|]. slice_proj.
  assert (Lz1 : XOR_array_model.z1 arr !! i
                = Some (matmul 2 (hstack_ones (mat_of_int X_BATCH_4)) W1)).
  { by rewrite Ez1, list_lookup_fmap, HW1. }
  assert (La1 : XOR_array_model.a1 arr !! i
                = Some (mat_map (value np_exp np_tanh act1)
                          (matmul 2 (hstack_ones (mat_of_int X_BATCH_4)) W1))).
  { by rewrite Ea1, list_lookup_fmap, Lz1. }
  assert (Lz2 : XOR_array_model.z2 arr !! i
                = Some (matmul 1 (hstack_ones
                                    (mat_map (value np_exp np_tanh act1)
                                       (matmul 2 (hstack_ones (mat_of_int X_BATCH_4)) W1)))
                               W2)).
  { by rewrite Ez2, lookup_zip_with, La1, HW2. }
  assert (Ly : XOR_array_model.y_aka_a2 arr !! i
               = Some (mat_map (value np_exp np_tanh act2)
                         (matmul 1 (hstack_ones
                                      (mat_map (value np_exp np_tanh act1)
                                         (matmul 2 (hstack_ones (mat_of_int X_BATCH_4)) W1)))
                                 W2))).
  { by rewrite Ey, list_lookup_fmap, Lz2. }
  split; [exact Lz1|]. split; [exact La1|]. split; [exact Lz2|]. split; [exact Ly|].
  split.
  - rewrite Elp, list_lookup_fmap, Ly. cbn [fmap option_fmap option_map]. f_equal.
    apply mat_zip_columns; [|done].
    unfold mat_map. apply Forall_fmap.
    eapply Forall_impl; [apply matmul_columns|]. intros row Hr. cbn. by rewrite length_map.
  - by rewrite Ela, list_lookup_fmap, Ly.
Qed.

Lemma X18_witness :
  exists arr W1 W2 s,
    fillModel Demo.exp Demo.log Demo.tanh Demo.G Demo.tp0 = Some arr
    /\ XOR_array_model.w1 arr !! 1%nat = Some W1
    /\ XOR_array_model.w2 arr !! 1%nat = Some W2
    /\ compute_z_a_loss Demo.exp Demo.log Demo.tanh
         (XOR_Slice.set_w2 W2 (XOR_Slice.set_w1 W1 Demo.tp0)) = Some s
    /\ XOR_array_model.lossAvg arr !! 1%nat = Some (XOR_Slice.lossAvg s).
Proof.
  destruct (fillModel Demo.exp Demo.log Demo.tanh Demo.G Demo.tp0) as [arr|] eqn:E;
    [|vm_compute in E; discriminate E].
  assert (H1 : is_Some (XOR_array_model.w1 arr !! 1%nat)).
  { vm_compute in E. injection E as <-. eauto. }
  assert (H2 : is_Some (XOR_array_model.w2 arr !! 1%nat)).
  { vm_compute in E. injection E as <-. eauto. }
  destruct H1 as [W1 H1]. destruct H2 as [W2 H2].
  destruct (X18_stored_evaluation_is_the_slice_evaluation Demo.exp Demo.log Demo.tanh
              Demo.G Demo.tp0 arr 1 W1 W2 E) as (s & Hs & _ & _ & _ & _ & _ & Hl).
  - repeat constructor.
  - exact H1.
  - exact H2.
  - exists arr, W1, W2, s. done.
Defined.

(** ** Filling the timeline *)

Lemma has_shape_update_weights (rows cols : nat) (w dw : matrix) (lr : float) (lo hi : Z)
    (lock : int_matrix) :
  has_shape rows cols w -> has_shape rows cols dw -> has_shape rows cols lock ->
  has_shape rows cols (update_weights w dw lr lo hi lock).
Proof.
  intros Hw Hd Hl. unfold update_weights, clip_matrix.
  repeat (apply has_shape_mat_zip || apply has_shape_mat_map); done.
Qed.

Section Shapes.
Context (np_exp np_tanh : float -> float) (G : Generator).
Context (tp : XOR_Slice.t) (act1 act2 : Activation) (fl : LossFunction) (p : list float).
Hypothesis Hs1 : has_shape 3 2 (XOR_Slice.w1_lock tp).
Hypothesis Hs2 : has_shape 3 1 (XOR_Slice.w2_lock tp).

Lemma cycle_shapes (st : list Z * matrix * matrix * rng G) :
  has_shape 3 2 st.1.1.2 -> has_shape 3 1 st.1.2 ->
  has_shape 3 2 (cycle np_exp np_tanh G tp act1 act2 fl p st).1.1.2
  /\ has_shape 3 1 (cycle np_exp np_tanh G tp act1 act2 fl p st).1.2.
Proof.
  destruct st as [[[h W1] W2] r]. cbn [fst snd]. intros K1 K2. unfold cycle.
  destruct (rng_choice_p G _ _ _ r) as [hits r'].
  destruct (XOR_forward_prop _ _ _ _ _ _ _) as [A1 A2].
  pose proof (XOR_back_prop_shapes (take_rows X_BATCH_4 hits) act1 A1 W2 act2 A2
                (take_rows (XOR_Slice.yParam tp) hits) fl) as [Sd1 Sd2].
  destruct (XOR_back_prop _ _ _ _ _ _ _ _) as [dW1 dW2]. cbn [fst snd] in *.
  split; by apply has_shape_update_weights.
Qed.

Lemma iter_cycle_shapes (n : nat) (st : list Z * matrix * matrix * rng G) :
  has_shape 3 2 st.1.1.2 -> has_shape 3 1 st.1.2 ->
  has_shape 3 2 (Nat.iter n (cycle np_exp np_tanh G tp act1 act2 fl p) st).1.1.2
  /\ has_shape 3 1 (Nat.iter n (cycle np_exp np_tanh G tp act1 act2 fl p) st).1.2.
Proof.
  intros K1 K2. induction n as [|n [IH1 IH2]]; [done|].
  cbn [Nat.iter nat_rect]. fold (Nat.iter n (cycle np_exp np_tanh G tp act1 act2 fl p) st).
  by apply cycle_shapes.
Qed.

Lemma training_shapes (n : nat) (prev : list Z * matrix * matrix) (r : rng G) :
  has_shape 3 2 prev.1.2 -> has_shape 3 1 prev.2 ->
  Forall (fun s => has_shape 3 2 s.1.2 /\ has_shape 3 1 s.2)
         (training np_exp np_tanh G n tp act1 act2 fl p prev r).
Proof.
  revert prev r. induction n as [|n IH]; intros [[h W1] W2] r K1 K2; [constructor|].
  cbn [training]. unfold train_step.
  pose proof (iter_cycle_shapes (Z.to_nat (XOR_Slice.cyclesPerOneStepFwdOfEpoch tp))
                (h, W1, W2, r) K1 K2) as [I1 I2].
  destruct (Nat.iter _ _ (h, W1, W2, r)) as [[[h' W1'] W2'] r'].
  cbn [fst snd] in *. constructor; [done|]. by apply IH.
Qed.

End Shapes.

Lemma fillModel_shapes (np_exp np_log np_tanh : float -> float) (G : Generator)
    (tp : XOR_Slice.t) (arr : XOR_array_model.t) :
  fillModel np_exp np_log np_tanh G tp = Some arr ->
  class_shapes tp ->
  Forall (has_shape 3 2) (XOR_array_model.w1 arr)
  /\ Forall (has_shape 3 1) (XOR_array_model.w2 arr).
Proof.
  intros H (_ & _ & Sw1 & Sl1 & Sw2 & Sl2).
  destruct (fillModel_inv _ _ _ _ _ _ H)
    as (p & act1 & act2 & fl & steps & _ & _ & _ & _ & _ & Hsteps & _ & _ & Ew1 & Ew2 & _).
  assert (Hall : Forall (fun s => has_shape 3 2 s.1.2 /\ has_shape 3 1 s.2) steps).
  { rewrite Hsteps. constructor.
    - split; by apply has_shape_mat_map.
    - apply training_shapes; try done; by apply has_shape_mat_map. }
  rewrite Ew1, Ew2. split; apply Forall_fmap; (eapply Forall_impl; [exact Hall|]);
    intros s [Hx1 Hx2]; done.
Qed.

Lemma fillable_fillModel (np_exp np_log np_tanh : float -> float) (G : Generator)
    (tp : XOR_Slice.t) :
  fillable tp ->
  exists arr v,
    fillModel np_exp np_log np_tanh G tp = Some arr
    /\ XOR_array_model.count arr = XOR_Slice.epoch_size tp
    /\ arrays_aligned arr
    /\ Forall (fun a => exists v, a = [[v]]) (XOR_array_model.lossAvg arr)
    /\ last (XOR_array_model.lossAvg arr) = Some [[v]]
    /\ Forall (has_shape 3 2) (XOR_array_model.w1 arr)
    /\ Forall (has_shape 3 1) (XOR_array_model.w2 arr).
Proof.
  intros (He & Hn & Hs).
  destruct (proj2 (fillModel_is_Some np_exp np_log np_tanh G tp)) as [arr Harr].
  { split; [done|]. split; [|done].
    destruct Hs as (_ & Hx & _). by destruct (XOR_Slice.xPercents tp). }
  destruct (fillModel_layout _ _ _ _ _ _ Harr) as (Hc & Ha & Hl & _).
  destruct (fillModel_shapes _ _ _ _ _ _ Harr Hs) as [S1 S2].
  assert (Hlast : exists a, last (XOR_array_model.lossAvg arr) = Some a).
  { destruct Ha as (_ & _ & _ & _ & _ & _ & _ & L8).
    unfold XOR_array_model.count in Hc.
    destruct (XOR_array_model.lossAvg arr) as [|a0 l] eqn:E; [cbn in L8; lia|].
    destruct (last (a0 :: l)) as [a|] eqn:El; [eauto|]. by apply last_None in El. }
  destruct Hlast as [a Hlast].
  assert (Hin : a ∈ XOR_array_model.lossAvg arr).
  { apply last_Some in Hlast as [l' ->]. apply elem_of_app. right. by apply list_elem_of_singleton. }
  rewrite Forall_forall in Hl. destruct (Hl a Hin) as [v ->].
  exists arr, v. rewrite Forall_forall. done.
Qed.

Lemma has_shape_row {A} (rows cols : nat) (m : list (list A)) (r : nat) :
  has_shape rows cols m -> (r < rows)%nat -> is_Some (m !! r).
Proof. intros [Hl _] Hr. apply lookup_lt_is_Some. lia. Qed.

Lemma diff_is_Some (a : XOR_Slice.t) (b : option XOR_Slice.t) :
  class_shapes a ->
  (forall s, b = Some s ->
     has_shape 3 2 (XOR_Slice.w1 s) /\ has_shape 3 2 (XOR_Slice.w1_lock s)
     /\ has_shape 3 1 (XOR_Slice.w2 s) /\ has_shape 3 1 (XOR_Slice.w2_lock s)) ->
  is_Some (diff a b).
Proof.
  intros (_ & _ & A1 & A2 & A3 & A4) Hb. unfold diff.
  destruct b as [s|]; [|cbn [mbind option_bind]; eauto].
  destruct (Hb s eq_refl) as (B1 & B2 & B3 & B4).
  destruct (has_shape_row 3 2 _ 2 A1) as [? ->]; [lia|].
  destruct (has_shape_row 3 2 _ 2 B1) as [? ->]; [lia|].
  destruct (has_shape_row 3 2 _ 2 A2) as [? ->]; [lia|].
  destruct (has_shape_row 3 2 _ 2 B2) as [? ->]; [lia|].
  destruct (has_shape_row 3 1 _ 2 A3) as [? ->]; [lia|].
  destruct (has_shape_row 3 1 _ 2 B3) as [? ->]; [lia|].
  destruct (has_shape_row 3 1 _ 2 A4) as [? ->]; [lia|].
  destruct (has_shape_row 3 1 _ 2 B4) as [? ->]; [lia|].
  cbn [mbind option_bind]. eauto.
Qed.

Lemma append_aligned (a b : XOR_array_model.t) :
  arrays_aligned a -> arrays_aligned b -> arrays_aligned (XOR_array_model.append a b).
Proof.
  intros (A1 & A2 & A3 & A4 & A5 & A6 & A7 & A8) (B1 & B2 & B3 & B4 & B5 & B6 & B7 & B8).
  unfold arrays_aligned, XOR_array_model.append.
  cbn [XOR_array_model.xHits XOR_array_model.w1 XOR_array_model.z1 XOR_array_model.a1
       XOR_array_model.w2 XOR_array_model.z2 XOR_array_model.y_aka_a2
       XOR_array_model.lossPerX XOR_array_model.lossAvg].
  assert (Hh : length (match last (XOR_array_model.xHits a) with
                       | Some h => XOR_array_model.xHits a ++
                           map (fun row => zip_with (fun x y => wrap32 (x + y)) row h)
                               (XOR_array_model.xHits b)
                       | None => XOR_array_model.xHits b
                       end)
               = (length (XOR_array_model.xHits a) + length (XOR_array_model.xHits b))%nat).
  { destruct (last (XOR_array_model.xHits a)) eqn:E.
    - by rewrite length_app, length_map.
    - apply last_None in E. by rewrite E. }
  rewrite Hh, !length_app. repeat split; lia.
Qed.

Lemma fillable_set_index (c : Z) (tp : XOR_Slice.t) :
  fillable tp -> fillable (XOR_Slice.set_index c tp).
Proof. by destruct tp. Qed.

Lemma class_shapes_set_epoch_size (e : Z) (tp : XOR_Slice.t) :
  class_shapes tp -> class_shapes (XOR_Slice.set_epoch_size e tp).
Proof. by destruct tp. Qed.

Lemma set_index_same (tp : XOR_Slice.t) : XOR_Slice.set_index (XOR_Slice.index tp) tp = tp.
Proof. by destruct tp. Qed.

Lemma last_take_Some {A} (l : list A) (n : nat) :
  (0 < n <= length l)%nat -> is_Some (last (take n l)).
Proof.
  intros Hn. destruct (last (take n l)) eqn:E; [eauto|].
  apply last_None in E. apply (f_equal length) in E. rewrite length_take in E. cbn in E. lia.
Qed.

Section FillingFacts.
Context (np_exp np_log np_tanh : float -> float) (G : Generator)
        (getHTML_loss : float -> string) (format_0_3f : float -> string) (stay : bool).

(** The run of [fillModelFromTP] on a well-formed timeline, step by step:
    [base] is the turning point in force at [newTP.index]; [c] is the
    position the new segment starts at. *)
Lemma fillModelFromTP_at (m : XOR_model.t) (newTP : XOR_Slice.t) :
  timeline_wf m -> timeline_shapes m -> fillable newTP ->
  (0 <= XOR_Slice.index newTP < XOR_model.count m)%Z ->
  exists before base after seg v str m',
    XOR_model.lstTurningPoints m = before ++ base :: after
    /\ Forall (fun tp => (XOR_Slice.index tp < XOR_Slice.index base)%Z) before
    /\ (XOR_Slice.index base <= XOR_Slice.index newTP)%Z
    /\ Forall (fun tp => (XOR_Slice.index newTP < XOR_Slice.index tp)%Z) after
    /\ let b := bool_decide (XOR_Slice.index newTP = XOR_Slice.index base) in
       let c := if b then XOR_Slice.index newTP else (XOR_Slice.index newTP + 1)%Z in
       let tps2 := if b then before
                   else before ++ [XOR_Slice.set_epoch_size (c - XOR_Slice.index base)%Z base] in
       let ix := if stay then c else (c + XOR_Slice.epoch_size newTP - 1)%Z in
       fillModel np_exp np_log np_tanh G (XOR_Slice.set_index c newTP) = Some seg
       /\ last (XOR_array_model.lossAvg seg) = Some [[v]]
       /\ setPos (with_history m (tps2 ++ [XOR_Slice.set_index c newTP])
                    (take (length tps2) (XOR_model.lstTurningPointsDiff m)
                     ++ [str +:+ getHTML_loss v])
                    (take (length tps2) (XOR_model.lst_TP_Final_Loss m) ++ [format_0_3f v])
                    (XOR_array_model.append
                       (store_take (Z.to_nat c) (XOR_model.xor_array m)) seg)) ix
          = Some m'
       /\ fillModelFromTP np_exp np_log np_tanh G getHTML_loss format_0_3f stay m newTP
          = Some (m', [sigModelChanged ix]).
Proof.
  intros Hwf (St & Sw1 & Sw2) Hfill Hk.
  set (k := XOR_Slice.index newTP) in *.
  destruct (wf_in_force m k Hwf) as (before & base & after & Htps & Hb & Hle & Ha); [lia|].
  pose proof (wf_arrays _ Hwf) as Hal.
  pose proof (wf_diffs _ Hwf) as Hd. pose proof (wf_losses _ Hwf) as Hl.
  unfold XOR_model.count in Hk.
  exists before, base, after.
  set (b := bool_decide (k = XOR_Slice.index base)).
  set (c := if b then k else (k + 1)%Z).
  assert (Hc : (k <= c <= k + 1)%Z) by (unfold c; destruct b; lia).
  destruct (fillable_fillModel np_exp np_log np_tanh G (XOR_Slice.set_index c newTP)
              (fillable_set_index c newTP Hfill))
    as (seg & v & Hseg & Hsc & Hsa & Hsl & Hlast & Ss1 & Ss2).
  assert (Hse : XOR_Slice.epoch_size (XOR_Slice.set_index c newTP) = XOR_Slice.epoch_size newTP)
    by done.
  rewrite Hse in Hsc.
  assert (Hepos : (0 < XOR_Slice.epoch_size newTP)%Z) by (by destruct Hfill).
  set (tps2 := if b then before
               else before ++ [XOR_Slice.set_epoch_size (c - XOR_Slice.index base)%Z base]).
  set (cut := store_take (Z.to_nat c) (XOR_model.xor_array m)).
  assert (Hcut : XOR_array_model.count cut = c).
  { unfold cut. rewrite store_take_count; lia. }
  assert (Hidx0 : Forall (fun tp => (0 <= XOR_Slice.index tp)%Z) (XOR_model.lstTurningPoints m))
    by (by apply wf_indices_nonneg).
  (* the change list *)
  assert (Hstr : exists str,
            match last tps2 with
            | Some lastTP =>
                vw1 ← py_index (XOR_array_model.w1 cut) (-1);
                vw2 ← py_index (XOR_array_model.w2 cut) (-1);
                diff (XOR_Slice.set_index c newTP)
                     (Some (XOR_Slice.set_w2 vw2 (XOR_Slice.set_w1 vw1 lastTP)))
            | None => diff (XOR_Slice.set_index c newTP) None
            end = Some str).
  { assert (Hcs : class_shapes (XOR_Slice.set_index c newTP)).
    { destruct Hfill as (_ & _ & Hcs). by destruct newTP. }
    destruct (last tps2) as [lastTP|] eqn:El.
    - assert (Hin : class_shapes lastTP /\ (0 < c)%Z).
      { rewrite Htps in St, Hidx0. apply Forall_app in St as [St1 St2].
        apply Forall_app in Hidx0 as [I1 I2].
        apply Forall_cons in St2 as [St2 _]. apply Forall_cons in I2 as [I2 _].
        unfold tps2, c in *. destruct b eqn:Eb.
        - apply last_Some in El as [l' ->].
          apply Forall_app in St1 as [_ St1]. apply Forall_cons in St1 as [St1 _].
          apply Forall_app in Hb as [_ Hb]. apply Forall_cons in Hb as [Hb _].
          apply Forall_app in I1 as [_ I1]. apply Forall_cons in I1 as [I1 _].
          split; [done|]. apply bool_decide_eq_true in Eb. lia.
        - rewrite last_snoc in El. injection El as <-.
          split; [by apply class_shapes_set_epoch_size|lia]. }
      destruct Hin as [Hcl Hcpos].
      rewrite !py_index_last.
      destruct Hal as (_ & _ & _ & Hw2 & _).
      unfold XOR_array_model.count in Hk.
      destruct (last_take_Some (XOR_array_model.w1 (XOR_model.xor_array m)) (Z.to_nat c))
        as [vw1 E1]; [lia|].
      destruct (last_take_Some (XOR_array_model.w2 (XOR_model.xor_array m)) (Z.to_nat c))
        as [vw2 E2]; [lia|].
      unfold cut. cbn [store_take XOR_array_model.w1 XOR_array_model.w2].
      rewrite E1, E2. cbn [mbind option_bind].
      apply diff_is_Some; [done|]. intros s [= <-].
      destruct Hcl as (_ & _ & _ & L1 & _ & L2).
      cbn [XOR_Slice.set_w1 XOR_Slice.set_w2 XOR_Slice.w1 XOR_Slice.w2 XOR_Slice.w1_lock
             XOR_Slice.w2_lock].
      rewrite Forall_forall in Sw1. rewrite Forall_forall in Sw2.
      split; [|split; [done|split; [|done]]].
      + apply Sw1. apply last_Some_elem_of, elem_of_take in E1 as (i & Hi & _).
        by eapply list_elem_of_lookup_2.
      + apply Sw2. apply last_Some_elem_of, elem_of_take in E2 as (i & Hi & _).
        by eapply list_elem_of_lookup_2.
    - by apply diff_is_Some. }
  destruct Hstr as [str Hstr].
  exists seg, v, str.
  (* the position shown at the end *)
  set (ix := if stay then c else (c + XOR_Slice.epoch_size newTP - 1)%Z).
  set (hist := with_history m (tps2 ++ [XOR_Slice.set_index c newTP])
                 (take (length tps2) (XOR_model.lstTurningPointsDiff m)
                  ++ [str +:+ getHTML_loss v])
                 (take (length tps2) (XOR_model.lst_TP_Final_Loss m) ++ [format_0_3f v])
                 (XOR_array_model.append cut seg)).
  assert (Hhc : XOR_model.count hist = (c + XOR_Slice.epoch_size newTP)%Z).
  { unfold hist, XOR_model.count. cbn [with_history XOR_model.xor_array].
    rewrite append_count. lia. }
  assert (Hix : (0 <= ix < XOR_model.count hist)%Z).
  { rewrite Hhc. unfold ix. destruct stay; lia. }
  destruct (setPos_spec hist ix) as (m' & _ & _ & _ & _ & Hset & _).
  { unfold hist. cbn [with_history XOR_model.xor_array].
    apply append_aligned; [by apply store_take_aligned|done]. }
  { done. }
  { unfold hist. cbn [with_history XOR_model.lstTurningPoints].
    apply Exists_app. right. apply Exists_cons_hd.
    cbn [XOR_Slice.set_index XOR_Slice.index]. unfold ix. destruct stay; lia. }
  exists m'. do 4 (split; [done|]).
  split; [done|]. split; [done|]. split; [exact Hset|].
  unfold fillModelFromTP. fold k.
  case_guard as Hg; [|lia]. cbn [mbind option_bind].
  assert (Htps' : XOR_model.lstTurningPoints m = (before ++ [base]) ++ after)
    by (by rewrite <- app_assoc).
  rewrite Htps' in Hd, Hl. rewrite Htps'.
  rewrite (pop_after_split k before after base _ _ Ha Hle Hd Hl).
  cbn [mbind option_bind]. rewrite !reverse_involutive, last_snoc. cbn [mbind option_bind].
  fold b.
  match goal with
  | |- context [if negb b then ?X else ?Y] =>
      assert (Hbranch : (if negb b then X else Y)
                        = Some (cut, XOR_Slice.set_index c newTP, tps2))
  end.
  { unfold cut, c, tps2. destruct b; cbn [negb].
    - rewrite deleteAfter_spec by lia. cbn [mbind option_bind].
      replace (k - 1 + 1)%Z with k by lia. unfold k at 3. rewrite set_index_same.
      by rewrite removelast_last.
    - rewrite deleteAfter_spec by lia. cbn [mbind option_bind].
      rewrite store_take_count by lia. rewrite update_last_snoc. cbn [mbind option_bind].
      by rewrite Z2Nat.id by lia. }
  rewrite Hbranch. cbn [mbind option_bind]. rewrite Hseg. cbn [mbind option_bind].
  rewrite Hstr. cbn [mbind option_bind].
  rewrite py_index_last, Hlast. cbn [mbind option_bind float_of_array].
  unfold mret, option_ret. cbn [mbind option_bind].
  rewrite !take_take.
  assert (Hmin : (length tps2 `min` length (before ++ [base]))%nat = length tps2).
  { unfold tps2. destruct b; rewrite !length_app; cbn [length]; lia. }
  rewrite Hmin, append_count, Hcut, Hsc.
  cbn [XOR_Slice.set_index XOR_Slice.index].
  fold hist. fold ix. rewrite Hset. done.
Qed.
End FillingFacts.

Lemma filter_lt_split (l1 l2 : list Z) (c : Z) :
  Forall (fun i => (i < c)%Z) l1 -> Forall (fun i => (c <= i)%Z) l2 ->
  filter (fun i => (i < c)%Z) (l1 ++ l2) = l1.
Proof.
  intros H1 H2. induction H1 as [|x l1 Hx _ IH].
  - induction H2 as [|y l2 Hy _ IH]; [done|].
    cbn [app] in *. rewrite filter_cons_False by lia. done.
  - cbn [app]. rewrite filter_cons_True by done. by rewrite IH.
Qed.

Lemma sorted_snoc (l : list Z) (c : Z) :
  StronglySorted Z.lt l -> Forall (fun i => (i < c)%Z) l -> StronglySorted Z.lt (l ++ [c]).
Proof.
  intros Hs Hl. apply StronglySorted_app_2; [|done|repeat constructor].
  intros x1 x2 H1 ->%list_elem_of_singleton. rewrite Forall_forall in Hl. by apply Hl.
Qed.

Lemma fillModelFromTP_spec
    (np_exp np_log np_tanh : float -> float) (G : Generator)
    (getHTML_loss : float -> string) (format_0_3f : float -> string) (stay : bool)
    (m : XOR_model.t) (newTP : XOR_Slice.t) :
  timeline_wf m -> timeline_shapes m -> fillable newTP ->
  (0 <= XOR_Slice.index newTP < XOR_model.count m)%Z ->
  let k := XOR_Slice.index newTP in
  let c := if bool_decide (k ∈ XOR_Slice.index <$> XOR_model.lstTurningPoints m)
           then k else (k + 1)%Z in
  exists m' seg,
    fillModelFromTP np_exp np_log np_tanh G getHTML_loss format_0_3f stay m newTP
    = Some (m', [sigModelChanged (XOR_model.getPos m')])
    /\ XOR_model.getPos m' = (if stay then c else (c + XOR_Slice.epoch_size newTP - 1)%Z)
    /\ fillModel np_exp np_log np_tanh G (XOR_Slice.set_index c newTP) = Some seg
    /\ XOR_model.xor_array m'
       = XOR_array_model.append (store_take (Z.to_nat c) (XOR_model.xor_array m)) seg
    /\ XOR_model.count m' = (c + XOR_Slice.epoch_size newTP)%Z
    /\ XOR_Slice.index <$> XOR_model.lstTurningPoints m'
       = filter (fun i => (i < c)%Z) (XOR_Slice.index <$> XOR_model.lstTurningPoints m) ++ [c]
    /\ last (XOR_model.lstTurningPoints m') = Some (XOR_Slice.set_index c newTP)
    /\ timeline_wf m' /\ timeline_shapes m'.
Proof.
  intros Hwf Hsh Hfill Hk k c.
  destruct (fillModelFromTP_at np_exp np_log np_tanh G getHTML_loss format_0_3f stay
              m newTP Hwf Hsh Hfill Hk)
    as (before & base & after & seg & v & str & m' & Htps & Hb & Hle & Ha & Hrun).
  fold k in Hle, Ha, Hrun.
  pose proof (wf_sorted _ Hwf) as Hsorted. pose proof (wf_first _ Hwf) as Hfirst.
  pose proof (wf_arrays _ Hwf) as Hal. pose proof (wf_lossAvg_shape _ Hwf) as Hls.
  pose proof (wf_diffs _ Hwf) as Hd. pose proof (wf_losses _ Hwf) as Hl.
  destruct Hsh as (St & Sw1 & Sw2).
  rewrite Htps in Hsorted, Hfirst, St, Hd, Hl.
  rewrite fmap_app, fmap_cons in Hsorted, Hfirst.
  (* the two descriptions of [c] agree *)
  assert (Hbb : bool_decide (k ∈ XOR_Slice.index <$> XOR_model.lstTurningPoints m)
                = bool_decide (k = XOR_Slice.index base)).
  { apply bool_decide_ext. rewrite Htps, fmap_app, fmap_cons.
    rewrite elem_of_app, elem_of_cons. split; [|by auto].
    intros [Hin|[Hin|Hin]]; [|done|].
    - apply list_elem_of_fmap in Hin as (tp & -> & Hin).
      rewrite Forall_forall in Hb. specialize (Hb tp Hin). lia.
    - apply list_elem_of_fmap in Hin as (tp & -> & Hin).
      rewrite Forall_forall in Ha. specialize (Ha tp Hin). lia. }
  unfold c. rewrite Hbb. clear c Hbb.
  set (b := bool_decide (k = XOR_Slice.index base)) in *.
  assert (Eb : b = bool_decide (k = XOR_Slice.index base)) by done.
  set (c := if b then k else (k + 1)%Z) in *.
  set (tps2 := if b then before
               else before ++ [XOR_Slice.set_epoch_size (c - XOR_Slice.index base)%Z base]) in *.
  cbv zeta in Hrun.
  set (ix := if stay then c else (c + XOR_Slice.epoch_size newTP - 1)%Z) in *.
  destruct Hrun as (Hseg & Hlast & Hset & Hrun).
  assert (Hc : (k <= c <= k + 1)%Z) by (unfold c; destruct b; lia).
  assert (Hepos : (0 < XOR_Slice.epoch_size newTP)%Z) by (by destruct Hfill).
  destruct (fillModel_layout _ _ _ _ _ _ Hseg) as (Hsc & Hsa & Hsl & _).
  cbn [XOR_Slice.epoch_size XOR_Slice.set_index] in Hsc.
  destruct (fillModel_shapes _ _ _ _ _ _ Hseg) as [Ss1 Ss2].
  { destruct Hfill as (_ & _ & Hcs). by destruct newTP. }
  unfold XOR_model.count in Hk. fold k in Hk.
  (* the turning points that stay *)
  assert (F1 : XOR_Slice.index <$> tps2
               = filter (fun i => (i < c)%Z)
                        (XOR_Slice.index <$> XOR_model.lstTurningPoints m)).
  { rewrite Htps, fmap_app, fmap_cons. unfold tps2, c. clearbody b. destruct b.
    - symmetry in Eb. apply bool_decide_eq_true in Eb. symmetry.
      apply filter_lt_split.
      + apply Forall_fmap. eapply Forall_impl; [exact Hb|]. intros tp; cbn; lia.
      + constructor; [lia|]. apply Forall_fmap. eapply Forall_impl; [exact Ha|].
        intros tp; cbn; lia.
    - symmetry in Eb. apply bool_decide_eq_false in Eb. symmetry.
      rewrite fmap_app. cbn [fmap list_fmap].
      change (XOR_Slice.index (XOR_Slice.set_epoch_size _ base)) with (XOR_Slice.index base).
      rewrite (cons_middle (XOR_Slice.index base)), app_assoc.
      apply filter_lt_split.
      + apply Forall_app. split.
        * apply Forall_fmap. eapply Forall_impl; [exact Hb|]. intros tp; cbn; lia.
        * constructor; [lia|constructor].
      + apply Forall_fmap. eapply Forall_impl; [exact Ha|]. intros tp; cbn; lia. }
  assert (F2 : Forall (fun i => (i < c)%Z) (XOR_Slice.index <$> tps2)).
  { rewrite F1. apply Forall_forall. intros i Hi.
    by apply list_elem_of_filter in Hi as [? _]. }
  assert (F3 : StronglySorted Z.lt (XOR_Slice.index <$> tps2)).
  { unfold tps2. clearbody b. destruct b.
    - by apply sorted_prefix in Hsorted.
    - rewrite fmap_app. cbn [fmap list_fmap].
      change (XOR_Slice.index (XOR_Slice.set_epoch_size _ base)) with (XOR_Slice.index base).
      rewrite (cons_middle (XOR_Slice.index base)), app_assoc in Hsorted.
      by apply sorted_prefix in Hsorted. }
  assert (F4 : (length tps2 <= length (before ++ base :: after))%nat).
  { unfold tps2. destruct b; rewrite !length_app; cbn [length]; lia. }
  assert (F5 : Forall class_shapes tps2).
  { apply Forall_app in St as [St1 St2]. apply Forall_cons in St2 as [St2 _].
    unfold tps2. destruct b; [done|]. apply Forall_app. split; [done|].
    constructor; [|constructor]. by apply class_shapes_set_epoch_size. }
  assert (F6 : head (XOR_Slice.index <$> (tps2 ++ [XOR_Slice.set_index c newTP])) = Some 0%Z).
  { unfold tps2, c. clearbody b. destruct before as [|x before].
    - cbn in Hfirst. injection Hfirst as H0. destruct b; cbn.
      + symmetry in Eb. apply bool_decide_eq_true in Eb. f_equal. lia.
      + by f_equal.
    - cbn in Hfirst. by destruct b. }
  set (hist := with_history m (tps2 ++ [XOR_Slice.set_index c newTP])
                 (take (length tps2) (XOR_model.lstTurningPointsDiff m)
                  ++ [str +:+ getHTML_loss v])
                 (take (length tps2) (XOR_model.lst_TP_Final_Loss m) ++ [format_0_3f v])
                 (XOR_array_model.append
                    (store_take (Z.to_nat c) (XOR_model.xor_array m)) seg)) in *.
  change (setPos hist ix = Some m') in Hset.
  assert (Hcount : XOR_array_model.count
                     (XOR_array_model.append
                        (store_take (Z.to_nat c) (XOR_model.xor_array m)) seg)
                   = (c + XOR_Slice.epoch_size newTP)%Z).
  { rewrite append_count, store_take_count by lia. lia. }
  assert (Hwfh : timeline_wf hist).
  { apply with_history_wf.
    - apply append_aligned; [by apply store_take_aligned|done].
    - cbn [XOR_array_model.append XOR_array_model.lossAvg store_take].
      apply Forall_app. split; [by apply Forall_take|done].
    - exact F6.
    - rewrite fmap_app. cbn [fmap list_fmap]. by apply sorted_snoc.
    - rewrite Hcount. apply Forall_app. split.
      + apply Forall_fmap in F2. eapply Forall_impl; [exact F2|]. intros tp; cbn; lia.
      + constructor; [cbn; lia|constructor].
    - rewrite !length_app, length_take. cbn [length]. lia.
    - rewrite !length_app, length_take. cbn [length]. lia. }
  destruct (setPos_frame _ _ _ Hset) as (_ & Etps & _ & _ & _ & _ & Earr).
  destruct (setPos_spec hist ix) as (m'' & _ & _ & _ & _ & Hset' & _ & _ & _ & _ & _ & Hpos & _).
  { exact (wf_arrays _ Hwfh). }
  { unfold XOR_model.count, hist. cbn [with_history XOR_model.xor_array].
    rewrite Hcount. unfold ix. destruct stay; lia. }
  { apply wf_base_exists; [done|]. unfold ix. destruct stay; lia. }
  assert (Hmm : Some m'' = Some m') by (rewrite <- Hset'; exact Hset).
  injection Hmm as ->.
  exists m', seg.
  split; [by rewrite Hpos|]. split; [done|]. split; [done|].
  split; [by rewrite Earr|].
  split; [unfold XOR_model.count; by rewrite Earr|].
  split; [rewrite Etps; unfold hist; cbn [with_history XOR_model.lstTurningPoints];
          rewrite fmap_app, F1; done|].
  split; [rewrite Etps; unfold hist; cbn [with_history XOR_model.lstTurningPoints];
          by rewrite last_snoc|].
  split; [by eapply setPos_wf|].
  unfold timeline_shapes. rewrite Etps, Earr. unfold hist.
  cbn [with_history XOR_model.lstTurningPoints XOR_model.xor_array XOR_array_model.append
       XOR_array_model.w1 XOR_array_model.w2 store_take].
  split; [|split].
  - apply Forall_app. split; [done|]. constructor; [|constructor].
    destruct Hfill as (_ & _ & Hcs). by destruct newTP.
  - apply Forall_app. split; [by apply Forall_take|done].
  - apply Forall_app. split; [by apply Forall_take|done].
Qed.

(** A run of [fillModelFromTP] that returns has generated its segment. *)
Lemma fillModelFromTP_fills
    (np_exp np_log np_tanh : float -> float) (G : Generator)
    (getHTML_loss : float -> string) (format_0_3f : float -> string) (stay : bool)
    (m : XOR_model.t) (newTP : XOR_Slice.t) (r : XOR_model.t * list Signal) :
  fillModelFromTP np_exp np_log np_tanh G getHTML_loss format_0_3f stay m newTP = Some r ->
  exists c, is_Some (fillModel np_exp np_log np_tanh G (XOR_Slice.set_index c newTP)).
Proof.
  unfold fillModelFromTP. intros H.
  case_guard as Hg; [|done]. unfold mret, option_ret in H. cbn [mbind option_bind] in H.
  destruct (pop_after _ _ _ _) as [[[rtps rdiffs] rlosses]|]; [|done].
  cbn [mbind option_bind] in H.
  destruct (last (reverse rtps)) as [last_tp|]; [|done]. cbn [mbind option_bind] in H.
  destruct (negb (bool_decide (XOR_Slice.index newTP = XOR_Slice.index last_tp))).
  - destruct (XOR_array_model.deleteAfter _ _) as [[arr n]|]; [|done].
    cbn [mbind option_bind] in H.
    destruct (update_last _ _) as [tps|]; [|done]. cbn [mbind option_bind] in H.
    destruct (fillModel np_exp np_log np_tanh G
                (XOR_Slice.set_index (XOR_Slice.index newTP + 1) newTP)) eqn:E; [|done].
    exists (XOR_Slice.index newTP + 1)%Z. rewrite E. eauto.
  - destruct (XOR_array_model.deleteAfter _ _) as [[arr n]|]; [|done].
    cbn [mbind option_bind] in H.
    destruct (fillModel np_exp np_log np_tanh G newTP) eqn:E; [|done].
    exists (XOR_Slice.index newTP). rewrite set_index_same, E. eauto.
Qed.

Lemma fillable_of_filled (np_exp np_log np_tanh : float -> float) (G : Generator)
    (tp : XOR_Slice.t) (c : Z) :
  is_Some (fillModel np_exp np_log np_tanh G (XOR_Slice.set_index c tp)) ->
  class_shapes tp -> fillable tp.
Proof.
  intros H%fillModel_is_Some Hs. destruct H as (He & _ & Hn).
  split; [exact He|]. split; [|exact Hs]. by destruct tp.
Qed.

(** A run of [fillModelFromTP] on a well-formed timeline returns only for
    the index of a stored position. *)
Lemma fillModelFromTP_in_range
    (np_exp np_log np_tanh : float -> float) (G : Generator)
    (getHTML_loss : float -> string) (format_0_3f : float -> string) (stay : bool)
    (m : XOR_model.t) (newTP : XOR_Slice.t) (r : XOR_model.t * list Signal) :
  timeline_wf m ->
  fillModelFromTP np_exp np_log np_tanh G getHTML_loss format_0_3f stay m newTP = Some r ->
  (0 <= XOR_Slice.index newTP < XOR_model.count m)%Z.
Proof.
  intros Hwf Hrun.
  destruct (decide (0 <= XOR_Slice.index newTP < XOR_model.count m)%Z) as [|Hk]; [done|].
  exfalso. revert Hrun. unfold XOR_model.count in Hk.
  set (k := XOR_Slice.index newTP) in *.
  pose proof (wf_diffs _ Hwf) as Hd. pose proof (wf_losses _ Hwf) as Hl.
  pose proof (wf_bound _ Hwf) as Hbound. unfold XOR_model.count in Hbound.
  unfold fillModelFromTP. fold k.
  case_guard as Hg; [|done]. unfold mret, option_ret. cbn [mbind option_bind].
  destruct (decide (k < 0)%Z) as [Hneg|Hnn].
  - rewrite pop_after_all_beyond; [done|]. apply Forall_reverse.
    eapply Forall_impl; [exact (wf_indices_nonneg _ Hwf)|]. intros tp; cbn; lia.
  - destruct (last (XOR_model.lstTurningPoints m)) as [x|] eqn:Elast.
    + apply last_Some in Elast as [keep Htps].
      assert (Htps' : XOR_model.lstTurningPoints m = (keep ++ [x]) ++ [])
        by (by rewrite app_nil_r).
      rewrite Htps' in Hd, Hl. rewrite Htps'.
      rewrite Htps in Hbound. apply Forall_app in Hbound as [_ Hx].
      apply Forall_cons in Hx as [Hx _].
      rewrite (pop_after_split k keep [] x _ _); [|constructor|lia|done|done].
      cbn [mbind option_bind]. rewrite !reverse_involutive, last_snoc.
      cbn [mbind option_bind]. rewrite bool_decide_eq_false_2 by lia. cbn [negb].
      unfold XOR_array_model.deleteAfter.
      rewrite bool_decide_eq_false_2 by lia. done.
    + apply last_None in Elast. pose proof (wf_first _ Hwf) as Hf.
      rewrite Elast in Hf. done.
Qed.

(** X19: whenever [fillModelFromTP] returns on a well-formed timeline
    with arrays and turning points of the class's shapes, the index [k] of
    the new turning point was a stored position and the timeline is
    regenerated from there.  The new segment starts at [c]: at [k] when a
    turning point has that index, one step later otherwise.  The steps
    before [c] are kept, the segment generated from [newTP] follows them, the
    turning points from [c] on are replaced by [newTP], and the timeline is
    again well formed, with the current position at [c] or at the last step,
    as the setting says; that position is the one signalled. *)
Theorem X19_fillModelFromTP_regenerates_the_timeline
    (np_exp np_log np_tanh : float -> float) (G : Generator)
    (getHTML_loss : float -> string) (format_0_3f : float -> string) (stay : bool)
    (m : XOR_model.t) (newTP : XOR_Slice.t) (m' : XOR_model.t) (signals : list Signal) :
  timeline_wf m -> timeline_shapes m -> class_shapes newTP ->
  fillModelFromTP np_exp np_log np_tanh G getHTML_loss format_0_3f stay m newTP
  = Some (m', signals) ->
  let k := XOR_Slice.index newTP in
  let c := if bool_decide (k ∈ XOR_Slice.index <$> XOR_model.lstTurningPoints m)
           then k else (k + 1)%Z in
  (0 <= k < XOR_model.count m)%Z
  /\ signals = [sigModelChanged (XOR_model.getPos m')]
  /\ XOR_model.getPos m' = (if stay then c else (c + XOR_Slice.epoch_size newTP - 1)%Z)
  /\ (exists seg,
        fillModel np_exp np_log np_tanh G (XOR_Slice.set_index c newTP) = Some seg
        /\ XOR_model.xor_array m'
           = XOR_array_model.append (store_take (Z.to_nat c) (XOR_model.xor_array m)) seg)
  /\ XOR_model.count m' = (c + XOR_Slice.epoch_size newTP)%Z
  /\ XOR_Slice.index <$> XOR_model.lstTurningPoints m'
     = filter (fun i => (i < c)%Z) (XOR_Slice.index <$> XOR_model.lstTurningPoints m) ++ [c]
  /\ last (XOR_model.lstTurningPoints m') = Some (XOR_Slice.set_index c newTP)
  /\ timeline_wf m' /\ timeline_shapes m'.
Proof.
  intros Hwf Hsh Hcs Hrun k c.
  pose proof (fillModelFromTP_in_range _ _ _ _ _ _ _ _ _ _ Hwf Hrun) as Hk.
  destruct (fillModelFromTP_fills _ _ _ _ _ _ _ _ _ _ Hrun) as [c0 Hfilled].
  pose proof (fillable_of_filled _ _ _ _ _ _ Hfilled Hcs) as Hfill.
  destruct (fillModelFromTP_spec np_exp np_log np_tanh G getHTML_loss format_0_3f stay
              m newTP Hwf Hsh Hfill Hk)
    as (m1 & seg & Hrun1 & Hpos & Hseg & Harr & Hcount & Hidx & Hlast & Hwf1 & Hsh1).
  rewrite Hrun in Hrun1. injection Hrun1 as -> ->.
  split; [exact Hk|]. split; [reflexivity|]. split; [exact Hpos|].
  split; [exists seg; split; [exact Hseg | exact Harr]|].
  split; [exact Hcount|]. split; [exact Hidx|]. split; [exact Hlast|].
  split; [exact Hwf1 | exact Hsh1].
Qed.

Lemma X19_witness :
  timeline_wf DemoTimeline.model
  /\ timeline_shapes DemoTimeline.model
  /\ class_shapes (DemoTimeline.tp_at 7 3)
  /\ exists m',
       fillModelFromTP Demo.exp Demo.log Demo.tanh Demo.G Demo.getHTML_loss
         Demo.format_0_3f false DemoTimeline.model (DemoTimeline.tp_at 7 3)
       = Some (m', [sigModelChanged 10])
       /\ XOR_model.count m' = 11%Z
       /\ XOR_Slice.index <$> XOR_model.lstTurningPoints m' = [0; 5; 8]%Z
       /\ timeline_wf m'.
Proof.
  assert (Hwf : timeline_wf DemoTimeline.model).
  { split.
    - repeat split.
    - repeat constructor; eexists; reflexivity.
    - reflexivity.
    - cbn. repeat constructor; lia.
    - repeat constructor; vm_compute; reflexivity.
    - reflexivity.
    - reflexivity. }
  assert (Hsh : timeline_shapes DemoTimeline.model).
  { split; [|split]; repeat constructor. }
  assert (Hcs : class_shapes (DemoTimeline.tp_at 7 3)) by repeat constructor.
  assert (Hfill : fillable (DemoTimeline.tp_at 7 3)).
  { split; [reflexivity|]. split; [repeat constructor | exact Hcs]. }
  assert (Hk : (0 <= XOR_Slice.index (DemoTimeline.tp_at 7 3)
                < XOR_model.count DemoTimeline.model)%Z) by (vm_compute; done).
  split; [exact Hwf|]. split; [exact Hsh|]. split; [exact Hcs|].
  destruct (fillModelFromTP_spec Demo.exp Demo.log Demo.tanh Demo.G Demo.getHTML_loss
              Demo.format_0_3f false DemoTimeline.model (DemoTimeline.tp_at 7 3)
              Hwf Hsh Hfill Hk) as (m' & _ & Hrun & _).
  destruct (X19_fillModelFromTP_regenerates_the_timeline Demo.exp Demo.log Demo.tanh Demo.G
              Demo.getHTML_loss Demo.format_0_3f false DemoTimeline.model
              (DemoTimeline.tp_at 7 3) m' _ Hwf Hsh Hcs Hrun)
    as (_ & _ & Hpos & _ & Hc & Hidx & _ & Hwf' & _).
  exists m'. rewrite Hpos in Hrun.
  split; [exact Hrun|]. split; [exact Hc|]. split; [exact Hidx|]. exact Hwf'.
Defined.

(** X20: on a well-formed timeline, [fillModelFromTP] raises when the
    index of the new turning point is not a stored position: beyond the
    number of steps its own assertion fails; at the number of steps, which
    that assertion lets through, the assertion of [deleteAfter] fails; below 0 the
    list of turning points is emptied and read. *)
Theorem X20_fillModelFromTP_raises_outside_the_stored_positions
    (np_exp np_log np_tanh : float -> float) (G : Generator)
    (getHTML_loss : float -> string) (format_0_3f : float -> string) (stay : bool)
    (m : XOR_model.t) (newTP : XOR_Slice.t) :
  timeline_wf m ->
  ~ (0 <= XOR_Slice.index newTP < XOR_model.count m)%Z ->
  fillModelFromTP np_exp np_log np_tanh G getHTML_loss format_0_3f stay m newTP = None.
Proof.
  intros Hwf Hk. unfold XOR_model.count in Hk.
  set (k := XOR_Slice.index newTP) in *.
  pose proof (wf_diffs _ Hwf) as Hd. pose proof (wf_losses _ Hwf) as Hl.
  pose proof (wf_bound _ Hwf) as Hbound. unfold XOR_model.count in Hbound.
  unfold fillModelFromTP. fold k.
  case_guard as Hg; [|done]. unfold mret, option_ret. cbn [mbind option_bind].
  destruct (decide (k < 0)%Z) as [Hneg|Hnn].
  - rewrite pop_after_all_beyond; [done|]. apply Forall_reverse.
    eapply Forall_impl; [exact (wf_indices_nonneg _ Hwf)|]. intros tp; cbn; lia.
  - assert (Hkc : k = XOR_array_model.count (XOR_model.xor_array m)) by lia.
    destruct (last (XOR_model.lstTurningPoints m)) as [x|] eqn:Elast.
    + apply last_Some in Elast as [keep Htps].
      assert (Htps' : XOR_model.lstTurningPoints m = (keep ++ [x]) ++ [])
        by (by rewrite app_nil_r).
      rewrite Htps' in Hd, Hl. rewrite Htps'.
      rewrite Htps in Hbound. apply Forall_app in Hbound as [_ Hx].
      apply Forall_cons in Hx as [Hx _].
      rewrite (pop_after_split k keep [] x _ _); [|constructor|lia|done|done].
      cbn [mbind option_bind]. rewrite !reverse_involutive, last_snoc.
      cbn [mbind option_bind]. rewrite bool_decide_eq_false_2 by lia. cbn [negb].
      unfold XOR_array_model.deleteAfter.
      rewrite bool_decide_eq_false_2 by lia. done.
    + apply last_None in Elast. pose proof (wf_first _ Hwf) as Hf.
      rewrite Elast in Hf. done.
Qed.

Lemma X20_witness :
  timeline_wf DemoTimeline.model
  /\ ~ (0 <= XOR_Slice.index (DemoTimeline.tp_at 20 3) < XOR_model.count DemoTimeline.model)%Z
  /\ fillModelFromTP Demo.exp Demo.log Demo.tanh Demo.G Demo.getHTML_loss
       Demo.format_0_3f true DemoTimeline.model (DemoTimeline.tp_at 20 3) = None.
Proof.
  assert (Hwf : timeline_wf DemoTimeline.model).
  { split.
    - repeat split.
    - repeat constructor; eexists; reflexivity.
    - reflexivity.
    - cbn. repeat constructor; lia.
    - repeat constructor; vm_compute; reflexivity.
    - reflexivity.
    - reflexivity. }
  assert (Hk : ~ (0 <= XOR_Slice.index (DemoTimeline.tp_at 20 3)
                  < XOR_model.count DemoTimeline.model)%Z) by (vm_compute; intros [_ H]; done).
  split; [exact Hwf|]. split; [exact Hk|].
  exact (X20_fillModelFromTP_raises_outside_the_stored_positions Demo.exp Demo.log Demo.tanh
           Demo.G Demo.getHTML_loss Demo.format_0_3f true DemoTimeline.model
           (DemoTimeline.tp_at 20 3) Hwf Hk).
Defined.

(** ** The change list of [diff] *)

Lemma string_app_inj_l (s x y : string) : s +:+ x = s +:+ y -> x = y.
Proof. induction s as [|c s IH]; cbn; [done|]. intros [= H]. by apply IH. Qed.

Lemma flag_nil (d : bool) (s : string) (l : list string) :
  (if d then [s] else []) ++ l = [] <-> d = false /\ l = [].
Proof. destruct d; cbn; split; try done; by intros [? ?]. Qed.

Lemma flag_nil_last (d : bool) (s : string) :
  (if d then [s] else []) = [] <-> d = false.
Proof. by destruct d. Qed.

Lemma differ_int_false {A} `{EqDecision A} (a b : A) : differ_int a b = false <-> a = b.
Proof.
  unfold differ_int. rewrite bool_decide_eq_false. split; [|by intros ->; auto].
  intros Hn. by destruct (decide (a = b)).
Qed.

Lemma rows_split {A} (x y : list A) (r r' : A) :
  length x = 3%nat -> length y = 3%nat -> x !! 2%nat = Some r -> y !! 2%nat = Some r' ->
  take 2 x = take 2 y /\ r = r' <-> x = y.
Proof.
  intros Hx Hy Ex Ey.
  destruct x as [|x0 [|x1 [|x2 [|]]]]; try done.
  destruct y as [|y0 [|y1 [|y2 [|]]]]; try done.
  cbn in *. injection Ex as ->. injection Ey as ->.
  split; [intros [[= -> ->] ->]; done|intros [= -> -> ->]; done].
Qed.

Lemma not_ne {A} `{EqDecision A} (x y : A) : ~ x <> y <-> x = y.
Proof. split; [|by intros -> ?]. intros Hn. by destruct (decide (x = y)). Qed.

Lemma orb_differ_false {A} `{EqDecision A} (a b c d : A) :
  differ_int a b || differ_int c d = false <-> a = b /\ c = d.
Proof. rewrite orb_false_iff, !differ_int_false. done. Qed.

(** X21: [diff] never reports a change between two slices of the class's
    shapes whose compared parameters are equal, and it never reports "No
    changes" when they differ in a percentage, a label, a lock, a function
    name, the batch size, the epoch size, the cycles or the clip range.  The
    seed, the index and the hits are not compared. *)
Theorem X21_diff_reports_no_change_for_equal_parameters (a b : XOR_Slice.t) :
  class_shapes a -> class_shapes b ->
  (compared_equal a b -> diff a (Some b) = Some (diff_None a +:+ "· No changes <br>"))
  /\ (diff a (Some b) = Some (diff_None a +:+ "· No changes <br>") -> discrete_equal a b).
Proof.
  intros (_ & _ & A1 & A2 & A3 & A4) (_ & _ & B1 & B2 & B3 & B4).
  unfold diff.
  destruct (has_shape_row 3 2 _ 2 A1) as [a1 Ea1]; [lia|].
  destruct (has_shape_row 3 2 _ 2 B1) as [b1 Eb1]; [lia|].
  destruct (has_shape_row 3 2 _ 2 A2) as [la1 Ela1]; [lia|].
  destruct (has_shape_row 3 2 _ 2 B2) as [lb1 Elb1]; [lia|].
  destruct (has_shape_row 3 1 _ 2 A3) as [a2 Ea2]; [lia|].
  destruct (has_shape_row 3 1 _ 2 B3) as [b2 Eb2]; [lia|].
  destruct (has_shape_row 3 1 _ 2 A4) as [la2 Ela2]; [lia|].
  destruct (has_shape_row 3 1 _ 2 B4) as [lb2 Elb2]; [lia|].
  rewrite Ea1, Eb1, Ela1, Elb1, Ea2, Eb2, Ela2, Elb2. cbn [mbind option_bind].
  match goal with
  | |- context [bool_decide (0 < length ?l)%nat] => set (lst := l)
  end.
  fold (diff_None a).
  (* the list of changes is empty exactly when no comparison finds one *)
  assert (Hnil : lst = [] <->
            XOR_Slice.xPercents a = XOR_Slice.xPercents b
            /\ XOR_Slice.yParam a = XOR_Slice.yParam b
            /\ mat_map round3 (take 2 (XOR_Slice.w1 a)) = mat_map round3 (take 2 (XOR_Slice.w1 b))
            /\ take 2 (XOR_Slice.w1_lock a) = take 2 (XOR_Slice.w1_lock b)
            /\ map round3 a1 = map round3 b1
            /\ la1 = lb1
            /\ XOR_Slice.activation1 a = XOR_Slice.activation1 b
            /\ mat_map round3 (take 2 (XOR_Slice.w2 a)) = mat_map round3 (take 2 (XOR_Slice.w2 b))
            /\ take 2 (XOR_Slice.w2_lock a) = take 2 (XOR_Slice.w2_lock b)
            /\ map round3 a2 = map round3 b2
            /\ la2 = lb2
            /\ XOR_Slice.activation2 a = XOR_Slice.activation2 b
            /\ XOR_Slice.loss a = XOR_Slice.loss b
            /\ XOR_Slice.batch_size a = XOR_Slice.batch_size b
            /\ XOR_Slice.epoch_size a = XOR_Slice.epoch_size b
            /\ XOR_Slice.cyclesPerOneStepFwdOfEpoch a = XOR_Slice.cyclesPerOneStepFwdOfEpoch b
            /\ round3 (XOR_Slice.learning_rate a) = round3 (XOR_Slice.learning_rate b)
            /\ XOR_Slice.minRange a = XOR_Slice.minRange b
            /\ XOR_Slice.maxRange a = XOR_Slice.maxRange b).
  { unfold lst. rewrite !flag_nil, flag_nil_last.
    rewrite !differ_int_false, orb_differ_false. unfold differ_rows, differ_row.
    rewrite !bool_decide_eq_false, !not_ne. tauto. }
  match goal with
  | |- (_ -> ?X) /\ (?X -> _) => assert (Hres : X <-> lst = [])
  end.
  { destruct lst as [|s0 lst'].
    - rewrite bool_decide_eq_false_2 by (cbn; lia). done.
    - rewrite bool_decide_eq_true_2 by (cbn; lia). split; [|done].
      intros [= H%string_app_inj_l]. done. }
  rewrite Hres, Hnil. clear Hres Hnil lst.
  destruct A2 as [A2 _], B2 as [B2 _], A4 as [A4 _], B4 as [B4 _].
  pose proof (rows_split (XOR_Slice.w1_lock a) (XOR_Slice.w1_lock b) la1 lb1
                A2 B2 Ela1 Elb1) as R3.
  pose proof (rows_split (XOR_Slice.w2_lock a) (XOR_Slice.w2_lock b) la2 lb2
                A4 B4 Ela2 Elb2) as R4.
  split.
  - intros (E1 & E2 & E3 & E4 & E5 & E6 & E7 & E8 & E9 & E10 & E11 & E12 & E13 & E14 & E15).
    rewrite E3 in Ea1. rewrite E4 in Ela1. rewrite E5 in Ea2. rewrite E6 in Ela2.
    assert (a1 = b1) as -> by congruence. assert (la1 = lb1) as -> by congruence.
    assert (a2 = b2) as -> by congruence. assert (la2 = lb2) as -> by congruence.
    rewrite E1, E2, E3, E4, E5, E6, E7, E8, E9, E10, E11, E12, E13, E14, E15.
    repeat split.
  - intros (E1 & E2 & _ & L1 & _ & L1' & E7 & _ & L2 & _ & L2' & E8 & E9 & E10 & E11 & E12
            & _ & E14 & E15).
    unfold discrete_equal. repeat split; try done.
    + by apply R3.
    + by apply R4.
Qed.

Lemma X21_witness :
  class_shapes (DemoTimeline.tp_at 5 7)
  /\ class_shapes (DemoTimeline.tp_at 12 7)
  /\ diff (DemoTimeline.tp_at 5 7) (Some (DemoTimeline.tp_at 12 7))
     = Some (diff_None (DemoTimeline.tp_at 5 7) +:+ "· No changes <br>").
Proof.
  assert (Ha : class_shapes (DemoTimeline.tp_at 5 7)) by repeat constructor.
  assert (Hb : class_shapes (DemoTimeline.tp_at 12 7)) by repeat constructor.
  split; [exact Ha|]. split; [exact Hb|].
  apply (X21_diff_reports_no_change_for_equal_parameters _ _ Ha Hb).
  repeat split.
Defined.

(** ** A new model *)

Lemma append_empty (b : XOR_array_model.t) :
  XOR_array_model.append (store_take 0 XOR_array_model_init) b = b.
Proof. by destruct b. Qed.

Lemma XOR_model_init_spec
    (np_exp np_log np_tanh : float -> float) (G : Generator)
    (getHTML_loss : float -> string) (format_0_3f : float -> string) (stay : bool)
    (arg : XOR_Slice.t) :
  fillable arg ->
  exists m seg,
    XOR_model_init np_exp np_log np_tanh G getHTML_loss format_0_3f stay arg
    = Some (m, [sigModelChanged (XOR_model.getPos m)])
    /\ fillModel np_exp np_log np_tanh G (XOR_Slice.set_index 0 arg) = Some seg
    /\ XOR_model.xor_array m = seg
    /\ XOR_model.count m = XOR_Slice.epoch_size arg
    /\ XOR_model.lstTurningPoints m = [XOR_Slice.set_index 0 arg]
    /\ XOR_model.getPos m = (if stay then 0%Z else (XOR_Slice.epoch_size arg - 1)%Z)
    /\ XOR_model.modelName m = "Model 1"%string
    /\ XOR_model.lastSavedFileInfo m = None
    /\ XOR_model.maskParamLocks m = 0%Z
    /\ timeline_wf m /\ timeline_shapes m.
Proof.
  intros Hfill.
  pose proof (fillable_set_index 0 arg Hfill) as Hfill0.
  set (tp := XOR_Slice.set_index 0 arg) in *.
  destruct (fillable_fillModel np_exp np_log np_tanh G tp Hfill0)
    as (seg & v & Hseg & Hsc & Hsa & Hsl & Hlast & Ss1 & Ss2).
  assert (Hepos : (0 < XOR_Slice.epoch_size arg)%Z) by (by destruct Hfill).
  change (XOR_Slice.epoch_size tp) with (XOR_Slice.epoch_size arg) in Hsc.
  assert (Hcs : class_shapes tp) by (by destruct Hfill0 as (_ & _ & ?)).
  destruct (diff_is_Some tp None Hcs) as [str Hstr]; [done|].
  set (ix := if stay then 0%Z else (XOR_Slice.epoch_size arg - 1)%Z).
  set (hist := {| XOR_model.modelName := "Model 1";
                  XOR_model.lstTurningPoints := [tp];
                  XOR_model.lstTurningPointsDiff := [str +:+ getHTML_loss v];
                  XOR_model.lst_TP_Final_Loss := [format_0_3f v];
                  XOR_model.crtSlice := XOR_Slice_invalid;
                  XOR_model.indexOfCrtBaseTP_in_lstTurningPoints := 0;
                  XOR_model.maskParamLocks := 0;
                  XOR_model.lastSavedFileInfo := None;
                  XOR_model.xor_array := seg |}).
  assert (Hwfh : timeline_wf hist).
  { split; try done.
    - repeat constructor.
    - repeat constructor. unfold XOR_model.count. cbn. lia. }
  destruct (setPos_spec hist ix) as (m & _ & _ & _ & _ & Hset & _ & _ & _ & _ & _ & Hpos & _).
  { exact Hsa. }
  { unfold XOR_model.count, hist. cbn [XOR_model.xor_array]. unfold ix. destruct stay; lia. }
  { apply wf_base_exists; [done|]. unfold ix. destruct stay; lia. }
  destruct (setPos_frame _ _ _ Hset) as (En & Etps & _ & _ & Em & Ef & Earr).
  exists m, seg.
  split.
  { unfold XOR_model_init, fillModelFromTP. fold tp.
    cbn [XOR_model.xor_array XOR_model.lstTurningPoints XOR_model.lstTurningPointsDiff
         XOR_model.lst_TP_Final_Loss].
    case_guard as Hg; [|exfalso; apply Hg; vm_compute; discriminate]. unfold mret, option_ret. cbn [mbind option_bind].
    change (XOR_Slice.index tp) with 0%Z.
    change (reverse [tp]) with [tp]. cbn [pop_after].
    change (XOR_Slice.index tp) with 0%Z.
    rewrite bool_decide_eq_false_2 by lia. cbn [mbind option_bind].
    change (reverse [tp]) with [tp]. cbn [last mbind option_bind].
    change (XOR_Slice.index tp) with 0%Z.
    rewrite bool_decide_eq_true_2 by done. cbn [negb].
    rewrite deleteAfter_spec by (vm_compute; split; discriminate).
    change (Z.to_nat (0 - 1 + 1)) with 0%nat.
    cbn [mbind option_bind removelast last]. rewrite Hseg. cbn [mbind option_bind].
    rewrite Hstr. cbn [mbind option_bind].
    rewrite py_index_last, Hlast. cbn [mbind option_bind float_of_array].
    rewrite append_empty, Hsc.
    change (XOR_Slice.index tp) with 0%Z.
    cbn [take length app with_history XOR_model.modelName XOR_model.crtSlice
         XOR_model.indexOfCrtBaseTP_in_lstTurningPoints XOR_model.maskParamLocks
         XOR_model.lastSavedFileInfo].
    change (setPos hist ix ≫= (fun self' => Some (self', [sigModelChanged ix]))
            = Some (m, [sigModelChanged (XOR_model.getPos m)])).
    rewrite Hset. cbn [mbind option_bind]. by rewrite Hpos. }
  split; [done|]. split; [done|].
  split; [unfold XOR_model.count; by rewrite Earr|].
  split; [done|]. split; [done|]. split; [done|]. split; [done|]. split; [done|].
  split; [by eapply setPos_wf|].
  unfold timeline_shapes. rewrite Etps, Earr. cbn [hist XOR_model.lstTurningPoints
    XOR_model.xor_array]. split; [|done]. by constructor.
Qed.

(** X22: whenever [XOR_model(arg)] returns for a slice of the class's
    shapes, the new model is a well-formed timeline: the slice, with index
    0, is its only turning point, the steps are the segment generated from
    it (the step of zeros the store starts with is gone), the model is named
    "Model 1", has no file and no lock, and shows position 0 or the last
    step, as the setting says. *)
Theorem X22_new_model_is_a_well_formed_timeline
    (np_exp np_log np_tanh : float -> float) (G : Generator)
    (getHTML_loss : float -> string) (format_0_3f : float -> string) (stay : bool)
    (arg : XOR_Slice.t) (m : XOR_model.t) (signals : list Signal) :
  class_shapes arg ->
  XOR_model_init np_exp np_log np_tanh G getHTML_loss format_0_3f stay arg
  = Some (m, signals) ->
  signals = [sigModelChanged (XOR_model.getPos m)]
  /\ fillModel np_exp np_log np_tanh G (XOR_Slice.set_index 0 arg)
     = Some (XOR_model.xor_array m)
  /\ XOR_model.count m = XOR_Slice.epoch_size arg
  /\ XOR_model.lstTurningPoints m = [XOR_Slice.set_index 0 arg]
  /\ XOR_model.getPos m = (if stay then 0%Z else (XOR_Slice.epoch_size arg - 1)%Z)
  /\ XOR_model.modelName m = "Model 1"%string
  /\ XOR_model.lastSavedFileInfo m = None
  /\ XOR_model.maskParamLocks m = 0%Z
  /\ timeline_wf m /\ timeline_shapes m.
Proof.
  intros Hcs Hrun.
  assert (Hfill : fillable arg).
  { unfold XOR_model_init in Hrun.
    destruct (fillModelFromTP_fills _ _ _ _ _ _ _ _ _ _ Hrun) as [c Hfilled].
    assert (Hcs0 : class_shapes (XOR_Slice.set_index 0 arg)) by (by destruct arg).
    pose proof (fillable_of_filled _ _ _ _ _ _ Hfilled Hcs0) as (He & Hn & _).
    split; [exact He|]. split; [exact Hn | exact Hcs]. }
  destruct (XOR_model_init_spec np_exp np_log np_tanh G getHTML_loss format_0_3f stay
              arg Hfill)
    as (m1 & seg & Hrun1 & Hseg & Harr & Hcount & Htps & Hpos & Hname & Hfile & Hmask
        & Hwf & Hsh).
  rewrite Hrun in Hrun1. injection Hrun1 as -> ->.
  split; [reflexivity|]. split; [by rewrite Harr|]. split; [exact Hcount|].
  split; [exact Htps|]. split; [exact Hpos|]. split; [exact Hname|].
  split; [exact Hfile|]. split; [exact Hmask|]. split; [exact Hwf | exact Hsh].
Qed.

Lemma X22_witness :
  class_shapes Demo.tp0
  /\ exists m,
       XOR_model_init Demo.exp Demo.log Demo.tanh Demo.G Demo.getHTML_loss
         Demo.format_0_3f true Demo.tp0 = Some (m, [sigModelChanged 0])
       /\ XOR_model.count m = 3%Z
       /\ timeline_wf m.
Proof.
  assert (Hcs : class_shapes Demo.tp0) by repeat constructor.
  assert (Hfill : fillable Demo.tp0).
  { split; [reflexivity|]. split; [repeat constructor | exact Hcs]. }
  split; [exact Hcs|].
  destruct (XOR_model_init_spec Demo.exp Demo.log Demo.tanh Demo.G Demo.getHTML_loss
              Demo.format_0_3f true Demo.tp0 Hfill) as (m & _ & Hrun & _).
  destruct (X22_new_model_is_a_well_formed_timeline Demo.exp Demo.log Demo.tanh Demo.G
              Demo.getHTML_loss Demo.format_0_3f true Demo.tp0 m _ Hcs Hrun)
    as (_ & _ & Hc & _ & Hpos & _ & _ & _ & Hwf & _).
  exists m. rewrite Hpos in Hrun. split; [exact Hrun|]. split; [exact Hc|]. exact Hwf.
Defined.

(** ** Loading *)

Lemma sorted_last_max (l : list Z) (i : Z) :
  StronglySorted Z.lt l -> last l = Some i -> Forall (fun x => (x <= i)%Z) l.
Proof.
  intros Hs [l' ->]%last_Some. apply Forall_app. split; [|repeat constructor; lia].
  apply Forall_forall. intros x Hx.
  assert (x < i)%Z; [|lia].
  eapply (StronglySorted_app_1_elem_of Z.lt l' [i]); [done|done|]. by apply list_elem_of_singleton.
Qed.

Lemma filter_lt_all (l : list Z) (c : Z) :
  Forall (fun x => (x < c)%Z) l -> filter (fun i => (i < c)%Z) l = l.
Proof.
  intros H. rewrite <- (app_nil_r l) at 1. by apply filter_lt_split.
Qed.

Lemma last_cons_default {A} (x d d' : A) (l : list A) :
  List.last (x :: l) d = List.last (x :: l) d'.
Proof.
  revert x. induction l as [|y l IH]; intros x; [done|].
  change (List.last (y :: l) d = List.last (y :: l) d'). apply IH.
Qed.

Section LoadingFacts.
Context (np_exp np_log np_tanh : float -> float) (G : Generator)
        (getHTML_loss : float -> string) (format_0_3f : float -> string) (stay : bool).

(** The loop of [LoadFromJson] from a well-formed timeline whose last
    turning point is [prev]. *)
Lemma load_TPs_spec (lstTP : list XOR_Slice.t) (m : XOR_model.t) (prev : XOR_Slice.t) :
  timeline_wf m -> timeline_shapes m ->
  last (XOR_Slice.index <$> XOR_model.lstTurningPoints m) = Some (XOR_Slice.index prev) ->
  XOR_model.count m = (XOR_Slice.index prev + XOR_Slice.epoch_size prev)%Z ->
  Forall fillable lstTP ->
  follow_on prev lstTP ->
  exists m',
    load_TPs np_exp np_log np_tanh G getHTML_loss format_0_3f stay m lstTP = Some m'
    /\ timeline_wf m' /\ timeline_shapes m'
    /\ XOR_Slice.index <$> XOR_model.lstTurningPoints m'
       = (XOR_Slice.index <$> XOR_model.lstTurningPoints m) ++ (XOR_Slice.index <$> lstTP)
    /\ XOR_model.count m'
       = (XOR_Slice.index (List.last lstTP prev) + XOR_Slice.epoch_size (List.last lstTP prev))%Z.
Proof.
  revert m prev. induction lstTP as [|tp lstTP IH]; intros m prev Hwf Hsh Hlast Hcount Hfill Hfo.
  - exists m. cbn [load_TPs fmap list_fmap List.last]. rewrite app_nil_r. done.
  - apply Forall_cons in Hfill as [Hf Hfill]. destruct Hfo as [Hstep Hfo].
    pose proof (sorted_last_max _ _ (wf_sorted _ Hwf) Hlast) as Hmax.
    assert (Hprev0 : (0 <= XOR_Slice.index prev)%Z).
    { pose proof (wf_indices_nonneg _ Hwf) as H0.
      apply last_Some_elem_of, list_elem_of_fmap in Hlast as (x & -> & Hx).
      rewrite Forall_forall in H0. by apply H0. }
    cbn [load_TPs]. rewrite bool_decide_eq_true_2 by lia.
    set (tp' := XOR_Slice.set_index (XOR_Slice.index tp - 1) tp).
    destruct (fillModelFromTP_spec np_exp np_log np_tanh G getHTML_loss format_0_3f stay
                m tp' Hwf Hsh) as (m1 & seg & Hrun & _ & _ & _ & Hc1 & Hidx1 & Hl1 & Hwf1 & Hsh1).
    { by apply fillable_set_index. }
    { cbn [tp' XOR_Slice.set_index XOR_Slice.index]. lia. }
    cbn [tp' XOR_Slice.set_index XOR_Slice.index XOR_Slice.epoch_size] in Hc1, Hidx1, Hl1.
    rewrite bool_decide_eq_false_2 in Hc1, Hidx1, Hl1.
    2,3,4: intros Hin; rewrite Forall_forall in Hmax; specialize (Hmax _ Hin); lia.
    replace (XOR_Slice.index tp - 1 + 1)%Z with (XOR_Slice.index tp) in Hc1, Hidx1, Hl1 by lia.
    rewrite filter_lt_all in Hidx1.
    2: { eapply Forall_impl; [exact Hmax|]. intros x; cbn; lia. }
    rewrite Hrun. cbn [mbind option_bind].
    destruct (IH m1 tp Hwf1 Hsh1) as (m' & Hload & Hwf' & Hsh' & Hidx' & Hc'); try done.
    { rewrite Hidx1. by rewrite last_snoc. }
    exists m'. split; [done|]. split; [done|]. split; [done|]. split.
    + rewrite Hidx', Hidx1, <- app_assoc. done.
    + rewrite Hc'. destruct lstTP as [|t l]; [done|].
      change (List.last (tp :: t :: l) prev) with (List.last (t :: l) prev).
      by rewrite (last_cons_default t tp prev).
Qed.

End LoadingFacts.

Lemma fillable_invalid : fillable XOR_Slice_invalid.
Proof. split; [reflexivity|]. split; repeat constructor. Qed.

Section LoadingStart.
Context (int_of_str : string -> option Z) (float_of_str : string -> option float)
        (np_asarray_int : json -> option (list Z))
        (np_asarray_float : json -> option (list float)).
Context (np_exp np_log np_tanh : float -> float) (G : Generator)
        (getHTML_loss : float -> string) (format_0_3f : float -> string) (stay : bool).

(** [LoadFromJson] up to its loop. *)
Lemma LoadFromJson_start (d : list (string * json)) (items : list json)
    (lstTP : list XOR_Slice.t) :
  dict_get d "version" = Some (JStr "1.0") ->
  dict_get d "TP list" = Some (JList items) ->
  mapM (read_TP int_of_str float_of_str np_asarray_int np_asarray_float) items = Some lstTP ->
  exists m0,
    LoadFromJson int_of_str float_of_str np_asarray_int np_asarray_float
                 np_exp np_log np_tanh G getHTML_loss format_0_3f stay (JDict d)
    = load_TPs np_exp np_log np_tanh G getHTML_loss format_0_3f stay m0 lstTP
    /\ timeline_wf m0 /\ timeline_shapes m0
    /\ XOR_model.count m0 = 1%Z
    /\ XOR_model.lstTurningPoints m0 = [XOR_Slice.set_index 0 XOR_Slice_invalid].
Proof.
  intros Hv Hl Hread.
  destruct (XOR_model_init_spec np_exp np_log np_tanh G getHTML_loss format_0_3f stay
              XOR_Slice_invalid fillable_invalid)
    as (m0 & seg & Hinit & _ & _ & Hc & Htps & _ & _ & _ & _ & Hwf & Hsh).
  exists m0. split; [|done].
  unfold LoadFromJson. rewrite Hv, Hl.
  cbn [version_supported negb py_iter mbind option_bind].
  rewrite bool_decide_eq_true_2 by (apply list_elem_of_singleton; done).
  cbn [negb mbind option_bind]. rewrite Hread. cbn [mbind option_bind].
  rewrite Hinit. done.
Qed.

End LoadingStart.

(** [LoadFromJson] on turning points whose segments can be generated. *)
Lemma LoadFromJson_spec
    (int_of_str : string -> option Z) (float_of_str : string -> option float)
    (np_asarray_int : json -> option (list Z))
    (np_asarray_float : json -> option (list float))
    (np_exp np_log np_tanh : float -> float) (G : Generator)
    (getHTML_loss : float -> string) (format_0_3f : float -> string) (stay : bool)
    (d : list (string * json)) (items : list json)
    (tp0 : XOR_Slice.t) (lstTP : list XOR_Slice.t) :
  dict_get d "version" = Some (JStr "1.0") ->
  dict_get d "TP list" = Some (JList items) ->
  mapM (read_TP int_of_str float_of_str np_asarray_int np_asarray_float) items
  = Some (tp0 :: lstTP) ->
  Forall fillable (tp0 :: lstTP) ->
  XOR_Slice.index tp0 = 0%Z ->
  follow_on tp0 lstTP ->
  exists m,
    LoadFromJson int_of_str float_of_str np_asarray_int np_asarray_float
                 np_exp np_log np_tanh G getHTML_loss format_0_3f stay (JDict d)
    = Some m
    /\ timeline_wf m /\ timeline_shapes m
    /\ XOR_Slice.index <$> XOR_model.lstTurningPoints m = XOR_Slice.index <$> (tp0 :: lstTP)
    /\ XOR_model.count m
       = (XOR_Slice.index (List.last lstTP tp0) + XOR_Slice.epoch_size (List.last lstTP tp0))%Z.
Proof.
  intros Hv Hl Hread Hfill H0 Hfo.
  destruct (LoadFromJson_start int_of_str float_of_str np_asarray_int np_asarray_float
              np_exp np_log np_tanh G getHTML_loss format_0_3f stay d items (tp0 :: lstTP)
              Hv Hl Hread) as (m0 & -> & Hwf0 & Hsh0 & Hc0 & Htps0).
  apply Forall_cons in Hfill as [Hf0 Hfill].
  cbn [load_TPs]. rewrite bool_decide_eq_false_2 by lia.
  destruct (fillModelFromTP_spec np_exp np_log np_tanh G getHTML_loss format_0_3f stay
              m0 tp0 Hwf0 Hsh0 Hf0) as (m1 & seg & Hrun & _ & _ & _ & Hc1 & Hidx1 & _ & Hwf1 & Hsh1).
  { lia. }
  rewrite Htps0, H0 in Hc1, Hidx1. cbn in Hc1, Hidx1.
  rewrite bool_decide_eq_true_2 in Hc1, Hidx1 by (by apply list_elem_of_singleton).
  rewrite decide_False in Hidx1 by lia. cbn [app] in Hidx1.
  rewrite Hrun. cbn [mbind option_bind].
  destruct (load_TPs_spec np_exp np_log np_tanh G getHTML_loss format_0_3f stay
              lstTP m1 tp0 Hwf1 Hsh1) as (m & Hload & Hwf & Hsh & Hidx & Hc); try done.
  { by rewrite Hidx1, H0. }
  { rewrite Hc1, H0. lia. }
  exists m. split; [done|]. split; [done|]. split; [done|]. split; [|done].
  rewrite Hidx, Hidx1. cbn. by rewrite H0.
Qed.

(** What [fromJson] reads has the shapes of the class. *)
Lemma chunks_shape {A} (rows cols : nat) (l : list A) :
  length l = (rows * cols)%nat -> has_shape rows cols (chunks rows cols l).
Proof.
  revert l. induction rows as [|r IH]; intros l Hl; cbn [chunks].
  - split; [done|constructor].
  - cbn in Hl. destruct (IH (drop cols l)) as [I1 I2]; [rewrite length_drop; lia|].
    split; [cbn [length]; by rewrite I1|].
    constructor; [rewrite length_take; lia|done].
Qed.

Lemma reshape_shape {A} (rows cols : nat) (l : list A) (m : list (list A)) :
  reshape rows cols l = Some m -> has_shape rows cols m.
Proof.
  unfold reshape. case_bool_decide as Hl; [|done]. intros [= <-]. by apply chunks_shape.
Qed.

Lemma get_int_array_shape (np_asarray_int : json -> option (list Z))
    (o : gmap string json) (k : string) (rows cols : nat) (m : int_matrix) :
  get_int_array np_asarray_int o k rows cols = Some m -> has_shape rows cols m.
Proof.
  unfold get_int_array. intros H. destruct (o !! k) as [v|]; [|done].
  cbn [mbind option_bind] in H. destruct (np_asarray_int v) as [l|]; [|done].
  by eapply reshape_shape.
Qed.

Lemma get_float_array_shape (np_asarray_float : json -> option (list float))
    (o : gmap string json) (k : string) (rows cols : nat) (m : matrix) :
  get_float_array np_asarray_float o k rows cols = Some m -> has_shape rows cols m.
Proof.
  unfold get_float_array. intros H. destruct (o !! k) as [v|]; [|done].
  cbn [mbind option_bind] in H. destruct (np_asarray_float v) as [l|]; [|done].
  by eapply reshape_shape.
Qed.

Lemma get_int_vector_length (np_asarray_int : json -> option (list Z))
    (o : gmap string json) (k : string) (n : nat) (l : list Z) :
  get_int_vector np_asarray_int o k n = Some l -> length l = n.
Proof.
  unfold get_int_vector. intros H. destruct (o !! k) as [v|]; [|done].
  cbn [mbind option_bind] in H. destruct (np_asarray_int v) as [l'|]; [|done].
  cbn [mbind option_bind] in H. case_bool_decide; [|done]. by injection H as <-.
Qed.

Lemma fromJson_shapes
    (int_of_str : string -> option Z) (float_of_str : string -> option float)
    (np_asarray_int : json -> option (list Z))
    (np_asarray_float : json -> option (list float))
    (self : XOR_Slice.t) (json_object : gmap string json)
    (tp : XOR_Slice.t) (w : list Warning) :
  fromJson int_of_str float_of_str np_asarray_int np_asarray_float self json_object
  = Some (tp, w) ->
  class_shapes tp.
Proof.
  unfold fromJson. intros H.
  repeat match type of H with
         | context [get_int ?f ?o ?k] =>
             destruct (get_int f o k); cbn [mbind option_bind] in H; [|done]
         | context [get_float ?f ?o ?k] =>
             destruct (get_float f o k); cbn [mbind option_bind] in H; [|done]
         | context [get_int_array ?f ?o ?k ?r ?c] =>
             destruct (get_int_array f o k r c) eqn:?; cbn [mbind option_bind] in H; [|done]
         | context [get_int_vector ?f ?o ?k ?n] =>
             destruct (get_int_vector f o k n) eqn:?; cbn [mbind option_bind] in H; [|done]
         | context [get_float_array ?f ?o ?k ?r ?c] =>
             destruct (get_float_array f o k r c) eqn:?; cbn [mbind option_bind] in H; [|done]
         | context [resolve_name ?a ?b ?c ?d] =>
             destruct (resolve_name a b c d) as [[? ?]|]; cbn [mbind option_bind] in H; [|done]
         end.
  injection H as <- _.
  unfold class_shapes.
  cbn [XOR_Slice.yParam XOR_Slice.xPercents XOR_Slice.w1 XOR_Slice.w1_lock XOR_Slice.w2
       XOR_Slice.w2_lock].
  repeat match goal with |- _ /\ _ => split end;
    eauto using get_int_array_shape, get_float_array_shape, get_int_vector_length.
Qed.

Lemma read_TPs_shapes
    (int_of_str : string -> option Z) (float_of_str : string -> option float)
    (np_asarray_int : json -> option (list Z))
    (np_asarray_float : json -> option (list float))
    (items : list json) (lstTP : list XOR_Slice.t) :
  mapM (read_TP int_of_str float_of_str np_asarray_int np_asarray_float) items = Some lstTP ->
  Forall class_shapes lstTP.
Proof.
  intros H%mapM_Some_1. eapply Forall2_Forall_r; [exact H|].
  apply Forall_forall. intros item _ tp Hread. unfold read_TP in Hread.
  destruct (dict_of item) as [o|]; [|done]. cbn [mbind option_bind] in Hread.
  destruct (fromJson _ _ _ _ _ o) as [[tp' w]|] eqn:E; [|done].
  cbn [mbind option_bind] in Hread. injection Hread as <-.
  by eapply fromJson_shapes.
Qed.

(** A loop of [LoadFromJson] that returns has generated every segment. *)
Lemma load_TPs_fills
    (np_exp np_log np_tanh : float -> float) (G : Generator)
    (getHTML_loss : float -> string) (format_0_3f : float -> string) (stay : bool)
    (lstTP : list XOR_Slice.t) (m m' : XOR_model.t) :
  load_TPs np_exp np_log np_tanh G getHTML_loss format_0_3f stay m lstTP = Some m' ->
  Forall class_shapes lstTP ->
  Forall fillable lstTP.
Proof.
  revert m. induction lstTP as [|tp lstTP IH]; intros m Hload Hs; [constructor|].
  apply Forall_cons in Hs as [Hs0 Hs]. cbn [load_TPs] in Hload.
  destruct (fillModelFromTP _ _ _ _ _ _ _ m _) as [[m1 s]|] eqn:Hrun; [|done].
  cbn [mbind option_bind] in Hload.
  constructor; [|by eapply IH].
  destruct (fillModelFromTP_fills _ _ _ _ _ _ _ _ _ _ Hrun) as [c Hfilled].
  destruct (bool_decide (0 < XOR_Slice.index tp)%Z).
  - assert (Hcs : class_shapes (XOR_Slice.set_index (XOR_Slice.index tp - 1) tp))
      by (by destruct tp).
    pose proof (fillable_of_filled _ _ _ _ _ _ Hfilled Hcs) as (He & Hn & _).
    split; [exact He|]. split; [exact Hn | exact Hs0].
  - by eapply fillable_of_filled.
Qed.

(** X23: whenever [LoadFromJson] returns for a dict of version "1.0"
    whose "TP list" reads as turning points, the first at index 0 and each
    next one at least two steps after the one before and no later than the
    step after its last one, it has regenerated their timeline: the model is
    a well-formed timeline, its turning points have the indices read, and it
    ends with the steps of the last one. *)
Theorem X23_LoadFromJson_regenerates_the_turning_points_read
    (int_of_str : string -> option Z) (float_of_str : string -> option float)
    (np_asarray_int : json -> option (list Z))
    (np_asarray_float : json -> option (list float))
    (np_exp np_log np_tanh : float -> float) (G : Generator)
    (getHTML_loss : float -> string) (format_0_3f : float -> string) (stay : bool)
    (d : list (string * json)) (items : list json)
    (tp0 : XOR_Slice.t) (lstTP : list XOR_Slice.t) (m : XOR_model.t) :
  LoadFromJson int_of_str float_of_str np_asarray_int np_asarray_float
               np_exp np_log np_tanh G getHTML_loss format_0_3f stay (JDict d)
  = Some m ->
  dict_get d "version" = Some (JStr "1.0") ->
  dict_get d "TP list" = Some (JList items) ->
  mapM (read_TP int_of_str float_of_str np_asarray_int np_asarray_float) items
  = Some (tp0 :: lstTP) ->
  XOR_Slice.index tp0 = 0%Z ->
  follow_on tp0 lstTP ->
  timeline_wf m /\ timeline_shapes m
  /\ XOR_Slice.index <$> XOR_model.lstTurningPoints m = XOR_Slice.index <$> (tp0 :: lstTP)
  /\ XOR_model.count m
     = (XOR_Slice.index (List.last lstTP tp0) + XOR_Slice.epoch_size (List.last lstTP tp0))%Z.
Proof.
  intros Hload Hv Hl Hread H0 Hfo.
  destruct (LoadFromJson_start int_of_str float_of_str np_asarray_int np_asarray_float
              np_exp np_log np_tanh G getHTML_loss format_0_3f stay d items (tp0 :: lstTP)
              Hv Hl Hread) as (m0 & Heq & _).
  pose proof Hload as Hloop. rewrite Heq in Hloop.
  pose proof (read_TPs_shapes _ _ _ _ _ _ Hread) as Hshapes.
  pose proof (load_TPs_fills _ _ _ _ _ _ _ _ _ _ Hloop Hshapes) as Hfill.
  destruct (LoadFromJson_spec int_of_str float_of_str np_asarray_int np_asarray_float
              np_exp np_log np_tanh G getHTML_loss format_0_3f stay d items tp0 lstTP
              Hv Hl Hread Hfill H0 Hfo) as (m1 & Hload1 & Hwf & Hsh & Hidx & Hc).
  rewrite Hload in Hload1. injection Hload1 as ->. done.
Qed.

(** X24: [LoadFromJson] raises unless the object read is a dict whose
    "version" is "1.0" and which has a "TP list".  With an empty list it does
    not raise: it returns the model made from [XOR_Slice(-1)], one turning
    point of seed -1 at index 0 and one step. *)
Theorem X24_LoadFromJson_needs_a_versioned_dict
    (int_of_str : string -> option Z) (float_of_str : string -> option float)
    (np_asarray_int : json -> option (list Z))
    (np_asarray_float : json -> option (list float))
    (np_exp np_log np_tanh : float -> float) (G : Generator)
    (getHTML_loss : float -> string) (format_0_3f : float -> string) (stay : bool)
    (jsonObject : json) :
  (is_Some (LoadFromJson int_of_str float_of_str np_asarray_int np_asarray_float
                         np_exp np_log np_tanh G getHTML_loss format_0_3f stay jsonObject)
   -> exists d v, jsonObject = JDict d
                  /\ dict_get d "version" = Some (JStr "1.0")
                  /\ dict_get d "TP list" = Some v)
  /\ (forall d, jsonObject = JDict d ->
        dict_get d "version" = Some (JStr "1.0") ->
        dict_get d "TP list" = Some (JList []) ->
        exists m,
          LoadFromJson int_of_str float_of_str np_asarray_int np_asarray_float
                       np_exp np_log np_tanh G getHTML_loss format_0_3f stay jsonObject
          = Some m
          /\ timeline_wf m
          /\ XOR_model.count m = 1%Z
          /\ XOR_model.lstTurningPoints m = [XOR_Slice.set_index 0 XOR_Slice_invalid]).
Proof.
  split.
  - intros [m H]. unfold LoadFromJson in H.
    destruct jsonObject as [| | | | | |d]; try done.
    destruct (dict_get d "version") as [[| | | |s| |]|] eqn:Ev; try done.
    cbn [version_supported] in H. case_bool_decide as Hs; [|done].
    apply list_elem_of_singleton in Hs as ->.
    cbn [negb] in H.
    destruct (dict_get d "TP list") as [v|] eqn:El; [|done].
    by exists d, v.
  - intros d -> Hv Hl.
    destruct (LoadFromJson_start int_of_str float_of_str np_asarray_int np_asarray_float
                np_exp np_log np_tanh G getHTML_loss format_0_3f stay d [] [] Hv Hl eq_refl)
      as (m0 & Hload & Hwf0 & _ & Hc0 & Htps0).
    exists m0. by rewrite Hload.
Qed.

Lemma X23_witness :
  mapM (read_TP DemoFiles.int_of_str DemoFiles.float_of_str DemoFiles.np_asarray_int
                DemoFiles.np_asarray_float)
       [DemoLoad.TP_Json_item 0 3; DemoLoad.TP_Json_item 3 2]
  = Some [DemoLoad.tp 0 3; DemoLoad.tp 3 2]
  /\ follow_on (DemoLoad.tp 0 3) [DemoLoad.tp 3 2]
  /\ exists m,
       LoadFromJson DemoFiles.int_of_str DemoFiles.float_of_str DemoFiles.np_asarray_int
                    DemoFiles.np_asarray_float Demo.exp Demo.log Demo.tanh Demo.G
                    Demo.getHTML_loss Demo.format_0_3f false DemoLoad.jsonObject
       = Some m
       /\ timeline_wf m
       /\ XOR_Slice.index <$> XOR_model.lstTurningPoints m = [0; 3]%Z
       /\ XOR_model.count m = 5%Z.
Proof.
  assert (Hv : dict_get [ ("version", JStr "1.0");
                          ("TP list", JList [DemoLoad.TP_Json_item 0 3;
                                             DemoLoad.TP_Json_item 3 2]) ]%string
                        "version" = Some (JStr "1.0")) by reflexivity.
  assert (Hl : dict_get [ ("version", JStr "1.0");
                          ("TP list", JList [DemoLoad.TP_Json_item 0 3;
                                             DemoLoad.TP_Json_item 3 2]) ]%string
                        "TP list"
               = Some (JList [DemoLoad.TP_Json_item 0 3; DemoLoad.TP_Json_item 3 2]))
    by reflexivity.
  assert (Hread : mapM (read_TP DemoFiles.int_of_str DemoFiles.float_of_str
                                DemoFiles.np_asarray_int DemoFiles.np_asarray_float)
                       [DemoLoad.TP_Json_item 0 3; DemoLoad.TP_Json_item 3 2]
                  = Some [DemoLoad.tp 0 3; DemoLoad.tp 3 2]) by (vm_compute; reflexivity).
  assert (Hfill : Forall fillable [DemoLoad.tp 0 3; DemoLoad.tp 3 2]).
  { repeat constructor. }
  assert (Hfo : follow_on (DemoLoad.tp 0 3) [DemoLoad.tp 3 2]).
  { split; [|exact I]. vm_compute. split; discriminate. }
  split; [exact Hread|]. split; [exact Hfo|].
  destruct (LoadFromJson_spec DemoFiles.int_of_str DemoFiles.float_of_str
              DemoFiles.np_asarray_int DemoFiles.np_asarray_float
              Demo.exp Demo.log Demo.tanh Demo.G Demo.getHTML_loss Demo.format_0_3f false
              _ _ _ _ Hv Hl Hread Hfill eq_refl Hfo) as (m & Hload & _).
  destruct (X23_LoadFromJson_regenerates_the_turning_points_read DemoFiles.int_of_str
              DemoFiles.float_of_str DemoFiles.np_asarray_int DemoFiles.np_asarray_float
              Demo.exp Demo.log Demo.tanh Demo.G Demo.getHTML_loss Demo.format_0_3f false
              _ _ _ _ m Hload Hv Hl Hread eq_refl Hfo)
    as (Hwf & _ & Hidx & Hc).
  exists m. split; [exact Hload|]. split; [exact Hwf|]. split; [exact Hidx|]. exact Hc.
Defined.

Lemma X24_witness :
  exists m,
    LoadFromJson DemoFiles.int_of_str DemoFiles.float_of_str DemoFiles.np_asarray_int
                 DemoFiles.np_asarray_float Demo.exp Demo.log Demo.tanh Demo.G
                 Demo.getHTML_loss Demo.format_0_3f true
                 (JDict [("version", JStr "1.0"); ("TP list", JList [])]%string)
    = Some m
    /\ XOR_model.count m = 1%Z
    /\ XOR_Slice.seedTP <$> XOR_model.lstTurningPoints m = [(-1)%Z].
Proof.
  destruct (X24_LoadFromJson_needs_a_versioned_dict DemoFiles.int_of_str
              DemoFiles.float_of_str DemoFiles.np_asarray_int DemoFiles.np_asarray_float
              Demo.exp Demo.log Demo.tanh Demo.G Demo.getHTML_loss Demo.format_0_3f true
              (JDict [("version", JStr "1.0"); ("TP list", JList [])]%string))
    as [_ Hempty].
  destruct (Hempty _ eq_refl eq_refl eq_refl) as (m & Hload & _ & Hc & Htps).
  exists m. split; [exact Hload|]. split; [exact Hc|]. rewrite Htps. reflexivity.
Defined.

(** ** A copy of a model *)

(** X25: the clone of a well-formed timeline whose first turning point
    has registered function names and the shapes of the class is the model
    itself shown at position 0, under the name "Model 1": the turning points,
    their texts, the arrays, the lock mask and the file are those of the
    original, its name is not. *)
Theorem X25_clone_is_the_model_at_position_0_named_Model_1
    (np_exp np_log np_tanh : float -> float) (G : Generator)
    (getHTML_loss : float -> string) (format_0_3f : float -> string) (stay : bool)
    (m : XOR_model.t) :
  timeline_wf m ->
  (forall tp0, head (XOR_model.lstTurningPoints m) = Some tp0 ->
               names_registered tp0 /\ class_shapes tp0) ->
  exists m0,
    setPos m 0 = Some m0
    /\ XOR_model_clone np_exp np_log np_tanh G getHTML_loss format_0_3f stay m
       = Some (with_name m0 "Model 1" (XOR_model.lastSavedFileInfo m))
    /\ XOR_model.getPos m0 = 0%Z.
Proof.
  intros Hwf Hfirst.
  pose proof (wf_first _ Hwf) as Hhead.
  destruct (XOR_model.lstTurningPoints m) as [|tp0 tps] eqn:Etps; [done|].
  destruct (Hfirst tp0 eq_refl) as [Hn Hs].
  assert (Hfill : fillable (XOR_Slice.set_epoch_size 1 tp0)).
  { split; [done|]. split; by destruct tp0. }
  destruct (XOR_model_init_spec np_exp np_log np_tanh G getHTML_loss format_0_3f stay
              _ Hfill)
    as (nm & seg & Hinit & _ & _ & _ & _ & _ & Hname & Hfile & _).
  destruct (setPos_spec m 0) as (m0 & _ & _ & pos & item & Hset & Hfb & _ & _ & _ & _ & Hpos & _).
  { exact (wf_arrays _ Hwf). }
  { pose proof (wf_count_pos _ Hwf). lia. }
  { apply wf_base_exists; [done|lia]. }
  exists m0. split; [done|]. split; [|done].
  unfold XOR_model_clone. rewrite Etps. cbn [head mbind option_bind].
  rewrite Hinit. cbn [mbind option_bind]. rewrite Hname, Hfile.
  pose proof (wf_count_pos _ Hwf) as Hc.
  unfold setPos in Hset |- *. unfold XOR_model.count in *.
  cbn [XOR_model.xor_array XOR_model.lstTurningPoints].
  rewrite bool_decide_eq_false_2 in Hset |- * by lia.
  rewrite Hfb in Hset. rewrite <- Etps, Hfb.
  repeat match goal with
         | |- context [py_index ?l ?i] => destruct (py_index l i); [|done]
         end.
  cbn [mbind option_bind] in *. injection Hset as <-.
  unfold with_name, with_crtSlice. cbn.
  by destruct (XOR_model.lastSavedFileInfo m).
Qed.

Lemma X25_witness :
  timeline_wf DemoTimeline.model
  /\ exists m0,
       setPos DemoTimeline.model 0 = Some m0
       /\ XOR_model_clone Demo.exp Demo.log Demo.tanh Demo.G Demo.getHTML_loss
            Demo.format_0_3f false DemoTimeline.model
          = Some (with_name m0 "Model 1" None).
Proof.
  assert (Hwf : timeline_wf DemoTimeline.model).
  { split.
    - repeat split.
    - repeat constructor; eexists; reflexivity.
    - reflexivity.
    - cbn. repeat constructor; lia.
    - repeat constructor; vm_compute; reflexivity.
    - reflexivity.
    - reflexivity. }
  assert (Hfirst : forall tp0, head (XOR_model.lstTurningPoints DemoTimeline.model) = Some tp0 ->
                               names_registered tp0 /\ class_shapes tp0).
  { intros tp0 [= <-]. split; repeat constructor. }
  split; [exact Hwf|].
  destruct (X25_clone_is_the_model_at_position_0_named_Model_1 Demo.exp Demo.log Demo.tanh
              Demo.G Demo.getHTML_loss Demo.format_0_3f false DemoTimeline.model Hwf Hfirst)
    as (m0 & Hset & Hclone & _).
  exists m0. split; [exact Hset|exact Hclone].
Defined.
